(** * ChampSim-DPC4: the transformer-aware stream prefetcher and its
      bandwidth-aware selector

    A shallow embedding of
    - [prefetcher/transformer_stream/transformer_stream.{h,cc}] and
    - [prefetcher/transformer_pythia_selector_bw/transformer_pythia_selector_bw.{h,cc}]
    together with the properties of the specification that concern them.

    Fixed-width integers are [Z] with the wrap-around written out
    ([u32], [u64], [i32], [i64]); [double] is IEEE binary64 ([PrimFloat]);
    [std::array] and [std::vector] are lists indexed by [array_get] and
    [array_set]; member functions take the object as an explicit state and
    return the new one.  The host cache (MSHR occupancy, [prefetch_line],
    DRAM bandwidth), the Pythia prefetcher and [std::log] are outside the
    repository: they are section variables. *)

From Stdlib Require Import ZArith Lia Bool List Floats.
From stdpp Require Import base tactics option list.

#[local] Set Warnings "-inexact-float".
#[local] Open Scope Z_scope.

(** ** Machine integers *)

Definition u32 (z : Z) : Z := z mod 2 ^ 32.
Definition u64 (z : Z) : Z := z mod 2 ^ 64.
Definition i32 (z : Z) : Z := (z + 2 ^ 31) mod 2 ^ 32 - 2 ^ 31.
Definition i64 (z : Z) : Z := (z + 2 ^ 63) mod 2 ^ 64 - 2 ^ 63.

Definition INT_MAX : Z := 2 ^ 31 - 1.
Definition UINT64_MAX : Z := 2 ^ 64 - 1.

(** [std::abs] on [int64_t]; at [INT64_MIN] the two's-complement result. *)
Definition abs64 (g : Z) : Z := i64 (Z.abs g).

(** [static_cast<double>] of an integer: rounding to nearest, ties to even. *)
Definition double_of_Z (n : Z) : float :=
  SF2Prim (binary_normalize prec emax n 0 false).

(** ** Arrays *)

(** [a[i]]; an index outside the array is undefined behaviour in the
    source, here it reads the default [d]. *)
Definition array_get {A : Type} (d : A) (l : list A) (i : Z) : A :=
  if i <? 0 then d else default d (l !! Z.to_nat i).

(** [a[i] = x]; outside the array nothing is written. *)
Definition array_set {A : Type} (l : list A) (i : Z) (x : A) : list A :=
  if i <? 0 then l else <[Z.to_nat i := x]> l.

(** The first index at or after [i] whose element satisfies [p], or [-1]:
    the shape of every linear search of the source,
    [for (i = 0; i < a.size(); ++i) if (p(a[i])) return i;  return -1;]. *)
Fixpoint find_index_from {A : Type} (p : A -> bool) (l : list A) (i : Z) : Z :=
  match l with
  | [] => -1
  | x :: r => if p x then i else find_index_from p r (i + 1)
  end.

Definition find_index {A : Type} (p : A -> bool) (l : list A) : Z :=
  find_index_from p l 0.

(** The indices [0 .. size-1] of an array, as the [for] loops visit them. *)
Definition indices {A : Type} (l : list A) : list Z :=
  map Z.of_nat (seq 0 (length l)).

(** ** Block numbers *)

(** Modelled from the spec: [champsim::block_number] and [champsim::offset]
    ([address.h] is not among the sources).  A block number is the address
    shifted right by the block-size log; [offset a b] is the signed distance
    from [a] to [b] in blocks, and adding a signed offset moves a block
    number by that many blocks. *)
Definition offset (a b : Z) : Z := b - a.
Definition block_add (b d : Z) : Z := b + d.

(** ** Configuration: [namespace transformer_config] *)

Definition TRAINING_TABLE_SIZE : Z := 32.
Definition STREAM_TABLE_SIZE : Z := 32.
Definition REGION_SIZE_BLOCKS : Z := 4.
Definition CONFIRMATION_THRESHOLD : Z := 3.
Definition DEAD_STREAM_THRESHOLD : Z := 1000.
Definition SHORT_STREAM_THRESHOLD : Z := 4.
Definition BASE_PREFETCH_DEGREE : Z := 2.
Definition CLEANUP_INTERVAL : Z := 256.
Definition MAX_STREAM_GROUPS : Z := 8.
Definition MAX_STREAMS_PER_GROUP : Z := 8.
Definition DENSE_STRIDE_MAX : Z := 2.
Definition MEDIUM_STRIDE_MAX : Z := 16.
Definition DENSE_LENGTH_MIN : Z := 8.
Definition MEDIUM_LENGTH_MIN : Z := 4.
Definition DENSE_PREFETCH_DEGREE : Z := 4.
Definition MEDIUM_PREFETCH_DEGREE : Z := 2.
Definition SPARSE_PREFETCH_DEGREE : Z := 1.
Definition REUSE_WINDOW_SIZE : Z := 2000.
Definition MAX_CONFIDENCE : Z := 8.
Definition CONFIDENCE_BOOST_ON_REUSE : Z := 2.
Definition FAST_TRACK_CONFIDENCE : Z := 4.
Definition PATTERN_HISTORY_SIZE : Z := 16.
Definition PHASE_WINDOW_SIZE : Z := 64.
Definition PHASE_TRANSITION_THRESHOLD : Z := 4.
Definition MIN_PREFETCH_DEGREE : Z := 1.
Definition PHASE_RECOVERY_WINDOW : Z := 32.
Definition CONSERVATIVE_LOOKAHEAD : Z := 1.
Definition AGGRESSIVE_LOOKAHEAD : Z := 4.
Definition STRIDE_STABILITY_THRESHOLD : Z := 3.

(** ** Enumerations *)

Module StreamDirection.
Inductive t : Type := UNKNOWN | POSITIVE | NEGATIVE.

Definition eqb (a b : t) : bool :=
  match a, b with
  | UNKNOWN, UNKNOWN | POSITIVE, POSITIVE | NEGATIVE, NEGATIVE => true
  | _, _ => false
  end.

(** [static_cast<int64_t>(dir)]: the enumerators are 0, 1 and -1. *)
Definition to_int (d : t) : Z :=
  match d with UNKNOWN => 0 | POSITIVE => 1 | NEGATIVE => -1 end.
End StreamDirection.

Module StreamClass.
Inductive t : Type := UNKNOWN | DENSE | MEDIUM | SPARSE.
End StreamClass.

(** ** Table entries *)

(** struct TrainingEntry: one entry of the training table. *)
Module TrainingEntry.
Record t : Type := mk {
  valid : bool;
  region_base : Z;
  last_miss_block : Z;
  second_last_miss_block : Z;
  third_last_miss_block : Z;
  miss_count : Z;
  direction : StreamDirection.t;
  stride : Z;
  last_access_timestamp : Z;
  pattern_confidence : Z
}.

(** The default member initialisers of the struct. *)
Definition default : t :=
  {| valid := false;
     region_base := 0;
     last_miss_block := 0;
     second_last_miss_block := 0;
     third_last_miss_block := 0;
     miss_count := 0;
     direction := StreamDirection.UNKNOWN;
     stride := 1;
     last_access_timestamp := 0;
     pattern_confidence := 0 |}.

Definition set_valid (v : bool) (e : t) : t :=
  {| valid := v; region_base := region_base e; last_miss_block := last_miss_block e;
     second_last_miss_block := second_last_miss_block e; third_last_miss_block :=
     third_last_miss_block e; miss_count := miss_count e; direction := direction e; stride :=
     stride e; last_access_timestamp := last_access_timestamp e; pattern_confidence :=
     pattern_confidence e |}.

Definition set_region_base (v : Z) (e : t) : t :=
  {| valid := valid e; region_base := v; last_miss_block := last_miss_block e;
     second_last_miss_block := second_last_miss_block e; third_last_miss_block :=
     third_last_miss_block e; miss_count := miss_count e; direction := direction e; stride :=
     stride e; last_access_timestamp := last_access_timestamp e; pattern_confidence :=
     pattern_confidence e |}.

Definition set_last_miss_block (v : Z) (e : t) : t :=
  {| valid := valid e; region_base := region_base e; last_miss_block := v;
     second_last_miss_block := second_last_miss_block e; third_last_miss_block :=
     third_last_miss_block e; miss_count := miss_count e; direction := direction e; stride :=
     stride e; last_access_timestamp := last_access_timestamp e; pattern_confidence :=
     pattern_confidence e |}.

Definition set_second_last_miss_block (v : Z) (e : t) : t :=
  {| valid := valid e; region_base := region_base e; last_miss_block := last_miss_block e;
     second_last_miss_block := v; third_last_miss_block := third_last_miss_block e; miss_count
     := miss_count e; direction := direction e; stride := stride e; last_access_timestamp :=
     last_access_timestamp e; pattern_confidence := pattern_confidence e |}.

Definition set_third_last_miss_block (v : Z) (e : t) : t :=
  {| valid := valid e; region_base := region_base e; last_miss_block := last_miss_block e;
     second_last_miss_block := second_last_miss_block e; third_last_miss_block := v; miss_count
     := miss_count e; direction := direction e; stride := stride e; last_access_timestamp :=
     last_access_timestamp e; pattern_confidence := pattern_confidence e |}.

Definition set_miss_count (v : Z) (e : t) : t :=
  {| valid := valid e; region_base := region_base e; last_miss_block := last_miss_block e;
     second_last_miss_block := second_last_miss_block e; third_last_miss_block :=
     third_last_miss_block e; miss_count := v; direction := direction e; stride := stride e;
     last_access_timestamp := last_access_timestamp e; pattern_confidence := pattern_confidence
     e |}.

Definition set_direction (v : StreamDirection.t) (e : t) : t :=
  {| valid := valid e; region_base := region_base e; last_miss_block := last_miss_block e;
     second_last_miss_block := second_last_miss_block e; third_last_miss_block :=
     third_last_miss_block e; miss_count := miss_count e; direction := v; stride := stride e;
     last_access_timestamp := last_access_timestamp e; pattern_confidence := pattern_confidence
     e |}.

Definition set_stride (v : Z) (e : t) : t :=
  {| valid := valid e; region_base := region_base e; last_miss_block := last_miss_block e;
     second_last_miss_block := second_last_miss_block e; third_last_miss_block :=
     third_last_miss_block e; miss_count := miss_count e; direction := direction e; stride := v;
     last_access_timestamp := last_access_timestamp e; pattern_confidence := pattern_confidence
     e |}.

Definition set_last_access_timestamp (v : Z) (e : t) : t :=
  {| valid := valid e; region_base := region_base e; last_miss_block := last_miss_block e;
     second_last_miss_block := second_last_miss_block e; third_last_miss_block :=
     third_last_miss_block e; miss_count := miss_count e; direction := direction e; stride :=
     stride e; last_access_timestamp := v; pattern_confidence := pattern_confidence e |}.

Definition set_pattern_confidence (v : Z) (e : t) : t :=
  {| valid := valid e; region_base := region_base e; last_miss_block := last_miss_block e;
     second_last_miss_block := second_last_miss_block e; third_last_miss_block :=
     third_last_miss_block e; miss_count := miss_count e; direction := direction e; stride :=
     stride e; last_access_timestamp := last_access_timestamp e; pattern_confidence := v |}.

End TrainingEntry.

(** struct TransformerStreamEntry: one entry of the stream table. *)
Module TransformerStreamEntry.
Record t : Type := mk {
  valid : bool;
  active : bool;
  stream_start_block : Z;
  stream_end_block : Z;
  current_prefetch_block : Z;
  direction : StreamDirection.t;
  stride : Z;
  last_trigger_timestamp : Z;
  stream_length : Z;
  stream_class : StreamClass.t;
  reactivation_count : Z;
  confidence_score : Z;
  accesses_in_window : Z;
  window_start_timestamp : Z;
  group_id : Z;
  consistent_stride_count : Z
}.

(** The default member initialisers of the struct. *)
Definition default : t :=
  {| valid := false;
     active := true;
     stream_start_block := 0;
     stream_end_block := 0;
     current_prefetch_block := 0;
     direction := StreamDirection.POSITIVE;
     stride := 1;
     last_trigger_timestamp := 0;
     stream_length := 0;
     stream_class := StreamClass.UNKNOWN;
     reactivation_count := 0;
     confidence_score := 1;
     accesses_in_window := 0;
     window_start_timestamp := 0;
     group_id := (-1);
     consistent_stride_count := 0 |}.

Definition set_valid (v : bool) (e : t) : t :=
  {| valid := v; active := active e; stream_start_block := stream_start_block e;
     stream_end_block := stream_end_block e; current_prefetch_block := current_prefetch_block e;
     direction := direction e; stride := stride e; last_trigger_timestamp :=
     last_trigger_timestamp e; stream_length := stream_length e; stream_class := stream_class e;
     reactivation_count := reactivation_count e; confidence_score := confidence_score e;
     accesses_in_window := accesses_in_window e; window_start_timestamp :=
     window_start_timestamp e; group_id := group_id e; consistent_stride_count :=
     consistent_stride_count e |}.

Definition set_active (v : bool) (e : t) : t :=
  {| valid := valid e; active := v; stream_start_block := stream_start_block e; stream_end_block
     := stream_end_block e; current_prefetch_block := current_prefetch_block e; direction :=
     direction e; stride := stride e; last_trigger_timestamp := last_trigger_timestamp e;
     stream_length := stream_length e; stream_class := stream_class e; reactivation_count :=
     reactivation_count e; confidence_score := confidence_score e; accesses_in_window :=
     accesses_in_window e; window_start_timestamp := window_start_timestamp e; group_id :=
     group_id e; consistent_stride_count := consistent_stride_count e |}.

Definition set_stream_start_block (v : Z) (e : t) : t :=
  {| valid := valid e; active := active e; stream_start_block := v; stream_end_block :=
     stream_end_block e; current_prefetch_block := current_prefetch_block e; direction :=
     direction e; stride := stride e; last_trigger_timestamp := last_trigger_timestamp e;
     stream_length := stream_length e; stream_class := stream_class e; reactivation_count :=
     reactivation_count e; confidence_score := confidence_score e; accesses_in_window :=
     accesses_in_window e; window_start_timestamp := window_start_timestamp e; group_id :=
     group_id e; consistent_stride_count := consistent_stride_count e |}.

Definition set_stream_end_block (v : Z) (e : t) : t :=
  {| valid := valid e; active := active e; stream_start_block := stream_start_block e;
     stream_end_block := v; current_prefetch_block := current_prefetch_block e; direction :=
     direction e; stride := stride e; last_trigger_timestamp := last_trigger_timestamp e;
     stream_length := stream_length e; stream_class := stream_class e; reactivation_count :=
     reactivation_count e; confidence_score := confidence_score e; accesses_in_window :=
     accesses_in_window e; window_start_timestamp := window_start_timestamp e; group_id :=
     group_id e; consistent_stride_count := consistent_stride_count e |}.

Definition set_current_prefetch_block (v : Z) (e : t) : t :=
  {| valid := valid e; active := active e; stream_start_block := stream_start_block e;
     stream_end_block := stream_end_block e; current_prefetch_block := v; direction := direction
     e; stride := stride e; last_trigger_timestamp := last_trigger_timestamp e; stream_length :=
     stream_length e; stream_class := stream_class e; reactivation_count := reactivation_count
     e; confidence_score := confidence_score e; accesses_in_window := accesses_in_window e;
     window_start_timestamp := window_start_timestamp e; group_id := group_id e;
     consistent_stride_count := consistent_stride_count e |}.

Definition set_direction (v : StreamDirection.t) (e : t) : t :=
  {| valid := valid e; active := active e; stream_start_block := stream_start_block e;
     stream_end_block := stream_end_block e; current_prefetch_block := current_prefetch_block e;
     direction := v; stride := stride e; last_trigger_timestamp := last_trigger_timestamp e;
     stream_length := stream_length e; stream_class := stream_class e; reactivation_count :=
     reactivation_count e; confidence_score := confidence_score e; accesses_in_window :=
     accesses_in_window e; window_start_timestamp := window_start_timestamp e; group_id :=
     group_id e; consistent_stride_count := consistent_stride_count e |}.

Definition set_stride (v : Z) (e : t) : t :=
  {| valid := valid e; active := active e; stream_start_block := stream_start_block e;
     stream_end_block := stream_end_block e; current_prefetch_block := current_prefetch_block e;
     direction := direction e; stride := v; last_trigger_timestamp := last_trigger_timestamp e;
     stream_length := stream_length e; stream_class := stream_class e; reactivation_count :=
     reactivation_count e; confidence_score := confidence_score e; accesses_in_window :=
     accesses_in_window e; window_start_timestamp := window_start_timestamp e; group_id :=
     group_id e; consistent_stride_count := consistent_stride_count e |}.

Definition set_last_trigger_timestamp (v : Z) (e : t) : t :=
  {| valid := valid e; active := active e; stream_start_block := stream_start_block e;
     stream_end_block := stream_end_block e; current_prefetch_block := current_prefetch_block e;
     direction := direction e; stride := stride e; last_trigger_timestamp := v; stream_length :=
     stream_length e; stream_class := stream_class e; reactivation_count := reactivation_count
     e; confidence_score := confidence_score e; accesses_in_window := accesses_in_window e;
     window_start_timestamp := window_start_timestamp e; group_id := group_id e;
     consistent_stride_count := consistent_stride_count e |}.

Definition set_stream_length (v : Z) (e : t) : t :=
  {| valid := valid e; active := active e; stream_start_block := stream_start_block e;
     stream_end_block := stream_end_block e; current_prefetch_block := current_prefetch_block e;
     direction := direction e; stride := stride e; last_trigger_timestamp :=
     last_trigger_timestamp e; stream_length := v; stream_class := stream_class e;
     reactivation_count := reactivation_count e; confidence_score := confidence_score e;
     accesses_in_window := accesses_in_window e; window_start_timestamp :=
     window_start_timestamp e; group_id := group_id e; consistent_stride_count :=
     consistent_stride_count e |}.

Definition set_stream_class (v : StreamClass.t) (e : t) : t :=
  {| valid := valid e; active := active e; stream_start_block := stream_start_block e;
     stream_end_block := stream_end_block e; current_prefetch_block := current_prefetch_block e;
     direction := direction e; stride := stride e; last_trigger_timestamp :=
     last_trigger_timestamp e; stream_length := stream_length e; stream_class := v;
     reactivation_count := reactivation_count e; confidence_score := confidence_score e;
     accesses_in_window := accesses_in_window e; window_start_timestamp :=
     window_start_timestamp e; group_id := group_id e; consistent_stride_count :=
     consistent_stride_count e |}.

Definition set_reactivation_count (v : Z) (e : t) : t :=
  {| valid := valid e; active := active e; stream_start_block := stream_start_block e;
     stream_end_block := stream_end_block e; current_prefetch_block := current_prefetch_block e;
     direction := direction e; stride := stride e; last_trigger_timestamp :=
     last_trigger_timestamp e; stream_length := stream_length e; stream_class := stream_class e;
     reactivation_count := v; confidence_score := confidence_score e; accesses_in_window :=
     accesses_in_window e; window_start_timestamp := window_start_timestamp e; group_id :=
     group_id e; consistent_stride_count := consistent_stride_count e |}.

Definition set_confidence_score (v : Z) (e : t) : t :=
  {| valid := valid e; active := active e; stream_start_block := stream_start_block e;
     stream_end_block := stream_end_block e; current_prefetch_block := current_prefetch_block e;
     direction := direction e; stride := stride e; last_trigger_timestamp :=
     last_trigger_timestamp e; stream_length := stream_length e; stream_class := stream_class e;
     reactivation_count := reactivation_count e; confidence_score := v; accesses_in_window :=
     accesses_in_window e; window_start_timestamp := window_start_timestamp e; group_id :=
     group_id e; consistent_stride_count := consistent_stride_count e |}.

Definition set_accesses_in_window (v : Z) (e : t) : t :=
  {| valid := valid e; active := active e; stream_start_block := stream_start_block e;
     stream_end_block := stream_end_block e; current_prefetch_block := current_prefetch_block e;
     direction := direction e; stride := stride e; last_trigger_timestamp :=
     last_trigger_timestamp e; stream_length := stream_length e; stream_class := stream_class e;
     reactivation_count := reactivation_count e; confidence_score := confidence_score e;
     accesses_in_window := v; window_start_timestamp := window_start_timestamp e; group_id :=
     group_id e; consistent_stride_count := consistent_stride_count e |}.

Definition set_window_start_timestamp (v : Z) (e : t) : t :=
  {| valid := valid e; active := active e; stream_start_block := stream_start_block e;
     stream_end_block := stream_end_block e; current_prefetch_block := current_prefetch_block e;
     direction := direction e; stride := stride e; last_trigger_timestamp :=
     last_trigger_timestamp e; stream_length := stream_length e; stream_class := stream_class e;
     reactivation_count := reactivation_count e; confidence_score := confidence_score e;
     accesses_in_window := accesses_in_window e; window_start_timestamp := v; group_id :=
     group_id e; consistent_stride_count := consistent_stride_count e |}.

Definition set_group_id (v : Z) (e : t) : t :=
  {| valid := valid e; active := active e; stream_start_block := stream_start_block e;
     stream_end_block := stream_end_block e; current_prefetch_block := current_prefetch_block e;
     direction := direction e; stride := stride e; last_trigger_timestamp :=
     last_trigger_timestamp e; stream_length := stream_length e; stream_class := stream_class e;
     reactivation_count := reactivation_count e; confidence_score := confidence_score e;
     accesses_in_window := accesses_in_window e; window_start_timestamp :=
     window_start_timestamp e; group_id := v; consistent_stride_count := consistent_stride_count
     e |}.

Definition set_consistent_stride_count (v : Z) (e : t) : t :=
  {| valid := valid e; active := active e; stream_start_block := stream_start_block e;
     stream_end_block := stream_end_block e; current_prefetch_block := current_prefetch_block e;
     direction := direction e; stride := stride e; last_trigger_timestamp :=
     last_trigger_timestamp e; stream_length := stream_length e; stream_class := stream_class e;
     reactivation_count := reactivation_count e; confidence_score := confidence_score e;
     accesses_in_window := accesses_in_window e; window_start_timestamp :=
     window_start_timestamp e; group_id := group_id e; consistent_stride_count := v |}.

End TransformerStreamEntry.

(** struct StreamGroup: streams sharing one (direction, stride); [members] holds stream indices, -1 marks an empty slot. *)
Module StreamGroup.
Record t : Type := mk {
  valid : bool;
  stride : Z;
  direction : StreamDirection.t;
  member_count : Z;
  group_confidence : Z;
  last_seen_timestamp : Z;
  typical_class : StreamClass.t;
  members : list Z
}.

(** The default member initialisers of the struct. *)
Definition default : t :=
  {| valid := false;
     stride := 0;
     direction := StreamDirection.UNKNOWN;
     member_count := 0;
     group_confidence := 0;
     last_seen_timestamp := 0;
     typical_class := StreamClass.UNKNOWN;
     members := (replicate (Z.to_nat MAX_STREAMS_PER_GROUP) (-1)) |}.

Definition set_valid (v : bool) (e : t) : t :=
  {| valid := v; stride := stride e; direction := direction e; member_count := member_count e;
     group_confidence := group_confidence e; last_seen_timestamp := last_seen_timestamp e;
     typical_class := typical_class e; members := members e |}.

Definition set_stride (v : Z) (e : t) : t :=
  {| valid := valid e; stride := v; direction := direction e; member_count := member_count e;
     group_confidence := group_confidence e; last_seen_timestamp := last_seen_timestamp e;
     typical_class := typical_class e; members := members e |}.

Definition set_direction (v : StreamDirection.t) (e : t) : t :=
  {| valid := valid e; stride := stride e; direction := v; member_count := member_count e;
     group_confidence := group_confidence e; last_seen_timestamp := last_seen_timestamp e;
     typical_class := typical_class e; members := members e |}.

Definition set_member_count (v : Z) (e : t) : t :=
  {| valid := valid e; stride := stride e; direction := direction e; member_count := v;
     group_confidence := group_confidence e; last_seen_timestamp := last_seen_timestamp e;
     typical_class := typical_class e; members := members e |}.

Definition set_group_confidence (v : Z) (e : t) : t :=
  {| valid := valid e; stride := stride e; direction := direction e; member_count :=
     member_count e; group_confidence := v; last_seen_timestamp := last_seen_timestamp e;
     typical_class := typical_class e; members := members e |}.

Definition set_last_seen_timestamp (v : Z) (e : t) : t :=
  {| valid := valid e; stride := stride e; direction := direction e; member_count :=
     member_count e; group_confidence := group_confidence e; last_seen_timestamp := v;
     typical_class := typical_class e; members := members e |}.

Definition set_typical_class (v : StreamClass.t) (e : t) : t :=
  {| valid := valid e; stride := stride e; direction := direction e; member_count :=
     member_count e; group_confidence := group_confidence e; last_seen_timestamp :=
     last_seen_timestamp e; typical_class := v; members := members e |}.

Definition set_members (v : list Z) (e : t) : t :=
  {| valid := valid e; stride := stride e; direction := direction e; member_count :=
     member_count e; group_confidence := group_confidence e; last_seen_timestamp :=
     last_seen_timestamp e; typical_class := typical_class e; members := v |}.

End StreamGroup.

(** struct PhaseState: the phase detector. *)
Module PhaseState.
Record t : Type := mk {
  window_start_timestamp : Z;
  streams_terminated_in_window : Z;
  misses_in_window : Z;
  successful_prefetches_in_window : Z;
  current_prefetch_degree : Z;
  in_phase_transition : bool;
  recovery_counter : Z
}.

(** The default member initialisers of the struct. *)
Definition default : t :=
  {| window_start_timestamp := 0;
     streams_terminated_in_window := 0;
     misses_in_window := 0;
     successful_prefetches_in_window := 0;
     current_prefetch_degree := BASE_PREFETCH_DEGREE;
     in_phase_transition := false;
     recovery_counter := 0 |}.

Definition set_window_start_timestamp (v : Z) (e : t) : t :=
  {| window_start_timestamp := v; streams_terminated_in_window := streams_terminated_in_window
     e; misses_in_window := misses_in_window e; successful_prefetches_in_window :=
     successful_prefetches_in_window e; current_prefetch_degree := current_prefetch_degree e;
     in_phase_transition := in_phase_transition e; recovery_counter := recovery_counter e |}.

Definition set_streams_terminated_in_window (v : Z) (e : t) : t :=
  {| window_start_timestamp := window_start_timestamp e; streams_terminated_in_window := v;
     misses_in_window := misses_in_window e; successful_prefetches_in_window :=
     successful_prefetches_in_window e; current_prefetch_degree := current_prefetch_degree e;
     in_phase_transition := in_phase_transition e; recovery_counter := recovery_counter e |}.

Definition set_misses_in_window (v : Z) (e : t) : t :=
  {| window_start_timestamp := window_start_timestamp e; streams_terminated_in_window :=
     streams_terminated_in_window e; misses_in_window := v; successful_prefetches_in_window :=
     successful_prefetches_in_window e; current_prefetch_degree := current_prefetch_degree e;
     in_phase_transition := in_phase_transition e; recovery_counter := recovery_counter e |}.

Definition set_successful_prefetches_in_window (v : Z) (e : t) : t :=
  {| window_start_timestamp := window_start_timestamp e; streams_terminated_in_window :=
     streams_terminated_in_window e; misses_in_window := misses_in_window e;
     successful_prefetches_in_window := v; current_prefetch_degree := current_prefetch_degree e;
     in_phase_transition := in_phase_transition e; recovery_counter := recovery_counter e |}.

Definition set_current_prefetch_degree (v : Z) (e : t) : t :=
  {| window_start_timestamp := window_start_timestamp e; streams_terminated_in_window :=
     streams_terminated_in_window e; misses_in_window := misses_in_window e;
     successful_prefetches_in_window := successful_prefetches_in_window e;
     current_prefetch_degree := v; in_phase_transition := in_phase_transition e;
     recovery_counter := recovery_counter e |}.

Definition set_in_phase_transition (v : bool) (e : t) : t :=
  {| window_start_timestamp := window_start_timestamp e; streams_terminated_in_window :=
     streams_terminated_in_window e; misses_in_window := misses_in_window e;
     successful_prefetches_in_window := successful_prefetches_in_window e;
     current_prefetch_degree := current_prefetch_degree e; in_phase_transition := v;
     recovery_counter := recovery_counter e |}.

Definition set_recovery_counter (v : Z) (e : t) : t :=
  {| window_start_timestamp := window_start_timestamp e; streams_terminated_in_window :=
     streams_terminated_in_window e; misses_in_window := misses_in_window e;
     successful_prefetches_in_window := successful_prefetches_in_window e;
     current_prefetch_degree := current_prefetch_degree e; in_phase_transition :=
     in_phase_transition e; recovery_counter := v |}.

End PhaseState.

(** struct PatternHistoryEntry: one remembered terminated stream. *)
Module PatternHistoryEntry.
Record t : Type := mk {
  valid : bool;
  direction : StreamDirection.t;
  stride : Z;
  region_base : Z;
  termination_timestamp : Z;
  stream_length : Z;
  stream_class : StreamClass.t
}.

(** The default member initialisers of the struct. *)
Definition default : t :=
  {| valid := false;
     direction := StreamDirection.UNKNOWN;
     stride := 0;
     region_base := 0;
     termination_timestamp := 0;
     stream_length := 0;
     stream_class := StreamClass.UNKNOWN |}.

Definition set_valid (v : bool) (e : t) : t :=
  {| valid := v; direction := direction e; stride := stride e; region_base := region_base e;
     termination_timestamp := termination_timestamp e; stream_length := stream_length e;
     stream_class := stream_class e |}.

End PatternHistoryEntry.

(** ** The prefetcher object: [struct transformer_stream] *)

Notation "x |> f" := (f x) (at level 68, left associativity, only parsing).

Module transformer_stream.

Record t : Type := mk {
  training_table : list TrainingEntry.t;
  stream_table : list TransformerStreamEntry.t;
  stream_groups : list StreamGroup.t;
  pattern_history : list PatternHistoryEntry.t;
  pattern_history_head : Z;
  phase_state : PhaseState.t;
  current_timestamp : Z;
  cleanup_counter : Z
}.

Definition set_training_table (v : list TrainingEntry.t) (s : t) : t :=
  mk v (stream_table s) (stream_groups s) (pattern_history s) (pattern_history_head s)
     (phase_state s) (current_timestamp s) (cleanup_counter s).
Definition set_stream_table (v : list TransformerStreamEntry.t) (s : t) : t :=
  mk (training_table s) v (stream_groups s) (pattern_history s) (pattern_history_head s)
     (phase_state s) (current_timestamp s) (cleanup_counter s).
Definition set_stream_groups (v : list StreamGroup.t) (s : t) : t :=
  mk (training_table s) (stream_table s) v (pattern_history s) (pattern_history_head s)
     (phase_state s) (current_timestamp s) (cleanup_counter s).
Definition set_pattern_history (v : list PatternHistoryEntry.t) (s : t) : t :=
  mk (training_table s) (stream_table s) (stream_groups s) v (pattern_history_head s)
     (phase_state s) (current_timestamp s) (cleanup_counter s).
Definition set_pattern_history_head (v : Z) (s : t) : t :=
  mk (training_table s) (stream_table s) (stream_groups s) (pattern_history s) v
     (phase_state s) (current_timestamp s) (cleanup_counter s).
Definition set_phase_state (v : PhaseState.t) (s : t) : t :=
  mk (training_table s) (stream_table s) (stream_groups s) (pattern_history s)
     (pattern_history_head s) v (current_timestamp s) (cleanup_counter s).
Definition set_current_timestamp (v : Z) (s : t) : t :=
  mk (training_table s) (stream_table s) (stream_groups s) (pattern_history s)
     (pattern_history_head s) (phase_state s) v (cleanup_counter s).
Definition set_cleanup_counter (v : Z) (s : t) : t :=
  mk (training_table s) (stream_table s) (stream_groups s) (pattern_history s)
     (pattern_history_head s) (phase_state s) (current_timestamp s) v.

(** [training_table[i]], [stream_table[i]], [stream_groups[i]],
    [pattern_history[i]] and the in-place update of one entry. *)
Definition training (s : t) (i : Z) : TrainingEntry.t :=
  array_get TrainingEntry.default (training_table s) i.
Definition stream (s : t) (i : Z) : TransformerStreamEntry.t :=
  array_get TransformerStreamEntry.default (stream_table s) i.
Definition group (s : t) (i : Z) : StreamGroup.t :=
  array_get StreamGroup.default (stream_groups s) i.
Definition pattern (s : t) (i : Z) : PatternHistoryEntry.t :=
  array_get PatternHistoryEntry.default (pattern_history s) i.

Definition update_training (i : Z) (f : TrainingEntry.t -> TrainingEntry.t) (s : t) : t :=
  set_training_table (array_set (training_table s) i (f (training s i))) s.
Definition update_stream (i : Z)
    (f : TransformerStreamEntry.t -> TransformerStreamEntry.t) (s : t) : t :=
  set_stream_table (array_set (stream_table s) i (f (stream s i))) s.
Definition update_group (i : Z) (f : StreamGroup.t -> StreamGroup.t) (s : t) : t :=
  set_stream_groups (array_set (stream_groups s) i (f (group s i))) s.
Definition update_phase (f : PhaseState.t -> PhaseState.t) (s : t) : t :=
  set_phase_state (f (phase_state s)) s.

Definition stream_table_size (s : t) : Z := Z.of_nat (length (stream_table s)).
Definition stream_groups_size (s : t) : Z := Z.of_nat (length (stream_groups s)).

(** The object as its constructor leaves it: every array value-initialised. *)
Definition construct : t :=
  {| training_table := replicate (Z.to_nat TRAINING_TABLE_SIZE) TrainingEntry.default;
     stream_table := replicate (Z.to_nat STREAM_TABLE_SIZE) TransformerStreamEntry.default;
     stream_groups := replicate (Z.to_nat MAX_STREAM_GROUPS) StreamGroup.default;
     pattern_history := replicate (Z.to_nat PATTERN_HISTORY_SIZE) PatternHistoryEntry.default;
     pattern_history_head := 0;
     phase_state := PhaseState.default;
     current_timestamp := 0;
     cleanup_counter := 0 |}.

(** *** Initialization *)

Definition prefetcher_initialize (s : t) : t :=
  {| training_table :=
       map (fun entry => entry
              |> TrainingEntry.set_valid false
              |> TrainingEntry.set_miss_count 0
              |> TrainingEntry.set_direction StreamDirection.UNKNOWN
              |> TrainingEntry.set_stride 1
              |> TrainingEntry.set_last_access_timestamp 0
              |> TrainingEntry.set_pattern_confidence 0) (training_table s);
     stream_table :=
       map (fun entry => entry
              |> TransformerStreamEntry.set_valid false
              |> TransformerStreamEntry.set_active false
              |> TransformerStreamEntry.set_stream_length 0
              |> TransformerStreamEntry.set_last_trigger_timestamp 0
              |> TransformerStreamEntry.set_stream_class StreamClass.UNKNOWN
              |> TransformerStreamEntry.set_reactivation_count 0
              |> TransformerStreamEntry.set_confidence_score 1
              |> TransformerStreamEntry.set_group_id (-1)
              |> TransformerStreamEntry.set_consistent_stride_count 0) (stream_table s);
     stream_groups :=
       map (fun g => g
              |> StreamGroup.set_valid false
              |> StreamGroup.set_member_count 0
              |> StreamGroup.set_members (replicate (length (StreamGroup.members g)) (-1)))
           (stream_groups s);
     pattern_history := map (PatternHistoryEntry.set_valid false) (pattern_history s);
     pattern_history_head := 0;
     phase_state := PhaseState.set_current_prefetch_degree BASE_PREFETCH_DEGREE PhaseState.default;
     current_timestamp := 0;
     cleanup_counter := 0 |}.

(** *** Region computation *)

Definition compute_region_base (block : Z) : Z :=
  let region_mask := u64 (Z.lnot (u64 REGION_SIZE_BLOCKS - 1)) in
  Z.land block region_mask.

(** *** Direction and stride detection *)

Definition is_noise (gap1 gap2 : Z) : bool :=
  if ((gap1 =? 1) && (gap2 <? 0)) || ((gap1 =? -1) && (gap2 >? 0)) ||
     ((gap2 =? 1) && (gap1 <? 0)) || ((gap2 =? -1) && (gap1 >? 0))
  then
    if (abs64 gap1 <=? 1) || (abs64 gap2 <=? 1) then true else false
  else false.

Definition detect_direction (gap1 gap2 : Z) : StreamDirection.t :=
  if (gap1 >? 0) && (gap2 >? 0) then StreamDirection.POSITIVE
  else if (gap1 <? 0) && (gap2 <? 0) then StreamDirection.NEGATIVE
  else StreamDirection.UNKNOWN.

Definition detect_stride (gap1 gap2 : Z) : Z :=
  let abs_gap1 := abs64 gap1 in
  let abs_gap2 := abs64 gap2 in
  if negb (abs_gap1 =? abs_gap2) then 0
  else if abs_gap1 <? 1 then 0
  else i32 abs_gap1.

(** *** Pattern history *)

Definition record_pattern (s : t) (entry : TransformerStreamEntry.t) : t :=
  let pattern :=
    {| PatternHistoryEntry.valid := true;
       PatternHistoryEntry.direction := TransformerStreamEntry.direction entry;
       PatternHistoryEntry.stride := TransformerStreamEntry.stride entry;
       PatternHistoryEntry.region_base := TransformerStreamEntry.stream_start_block entry;
       PatternHistoryEntry.termination_timestamp := current_timestamp s;
       PatternHistoryEntry.stream_length := TransformerStreamEntry.stream_length entry;
       PatternHistoryEntry.stream_class := TransformerStreamEntry.stream_class entry |} in
  s |> set_pattern_history (array_set (pattern_history s) (pattern_history_head s) pattern)
    |> set_pattern_history_head (u32 (pattern_history_head s + 1) mod PATTERN_HISTORY_SIZE).

Definition find_matching_pattern (s : t) (dir : StreamDirection.t) (stride region : Z) : Z :=
  let region_base := compute_region_base region in
  find_index
    (fun p =>
       PatternHistoryEntry.valid p &&
       negb (u64 (current_timestamp s - PatternHistoryEntry.termination_timestamp p)
               >? REUSE_WINDOW_SIZE) &&
       (StreamDirection.eqb (PatternHistoryEntry.direction p) dir &&
        (PatternHistoryEntry.stride p =? stride)) &&
       (let pattern_region := compute_region_base (PatternHistoryEntry.region_base p) in
        let region_diff := abs64 (offset region_base pattern_region) in
        region_diff <=? REGION_SIZE_BLOCKS * 4))
    (pattern_history s).

Definition get_pattern_confidence (s : t) (dir : StreamDirection.t) (stride region : Z) : Z :=
  let pattern_idx := find_matching_pattern s dir stride region in
  if pattern_idx <? 0 then 0
  else
    let p := pattern s pattern_idx in
    let base_confidence := 1 in
    let base_confidence :=
      if PatternHistoryEntry.stream_length p >=? DENSE_LENGTH_MIN
      then base_confidence + 2 else base_confidence in
    let age := u64 (current_timestamp s - PatternHistoryEntry.termination_timestamp p) in
    let base_confidence :=
      if age <? REUSE_WINDOW_SIZE ÷ 4 then base_confidence + 2
      else if age <? REUSE_WINDOW_SIZE ÷ 2 then base_confidence + 1
      else base_confidence in
    Z.min base_confidence (MAX_CONFIDENCE ÷ 2).

Definition can_fast_track_training (entry : TrainingEntry.t) : bool :=
  TrainingEntry.pattern_confidence entry >=? FAST_TRACK_CONFIDENCE.

(** *** Training table *)

Definition find_training_entry (s : t) (region_base : Z) : Z :=
  find_index
    (fun e => TrainingEntry.valid e && (TrainingEntry.region_base e =? region_base))
    (training_table s).

Definition allocate_training_entry (s : t) (region_base : Z) : t * Z :=
  let fresh (e : TrainingEntry.t) := e
    |> TrainingEntry.set_valid true
    |> TrainingEntry.set_region_base region_base
    |> TrainingEntry.set_miss_count 0
    |> TrainingEntry.set_direction StreamDirection.UNKNOWN
    |> TrainingEntry.set_stride 1
    |> TrainingEntry.set_last_access_timestamp (current_timestamp s)
    |> TrainingEntry.set_pattern_confidence 0 in
  let i := find_index (fun e => negb (TrainingEntry.valid e)) (training_table s) in
  if 0 <=? i then (update_training i fresh s, i)
  else
    let '(lru_idx, _) :=
      fold_left
        (fun '(lru_idx, oldest_time) i =>
           let ts := TrainingEntry.last_access_timestamp (training s i) in
           if ts <? oldest_time then (i, ts) else (lru_idx, oldest_time))
        (indices (training_table s)) (0, UINT64_MAX) in
    (update_training lru_idx fresh s, lru_idx).

Definition update_training_entry (s : t) (idx miss_block : Z) : t :=
  let s := update_training idx (TrainingEntry.set_last_access_timestamp (current_timestamp s)) s in
  let entry := training s idx in
  if TrainingEntry.miss_count entry =? 0 then
    update_training idx
      (fun e => e
         |> TrainingEntry.set_last_miss_block miss_block
         |> TrainingEntry.set_miss_count 1
         |> TrainingEntry.set_pattern_confidence
              (get_pattern_confidence s StreamDirection.UNKNOWN 0 (TrainingEntry.region_base entry)))
      s
  else if TrainingEntry.miss_count entry =? 1 then
    update_training idx
      (fun e => e
         |> TrainingEntry.set_second_last_miss_block (TrainingEntry.last_miss_block e)
         |> TrainingEntry.set_last_miss_block miss_block
         |> TrainingEntry.set_miss_count 2)
      s
  else
    let s :=
      update_training idx
        (fun e => e
           |> TrainingEntry.set_third_last_miss_block (TrainingEntry.second_last_miss_block e)
           |> TrainingEntry.set_second_last_miss_block (TrainingEntry.last_miss_block e)
           |> TrainingEntry.set_last_miss_block miss_block)
        s in
    let entry := training s idx in
    let gap1 := offset (TrainingEntry.third_last_miss_block entry)
                       (TrainingEntry.second_last_miss_block entry) in
    let gap2 := offset (TrainingEntry.second_last_miss_block entry)
                       (TrainingEntry.last_miss_block entry) in
    let reset (e : TrainingEntry.t) := e
      |> TrainingEntry.set_miss_count 1
      |> TrainingEntry.set_direction StreamDirection.UNKNOWN
      |> TrainingEntry.set_stride 1 in
    if is_noise gap1 gap2 then s
    else
      let detected_dir := detect_direction gap1 gap2 in
      if StreamDirection.eqb detected_dir StreamDirection.UNKNOWN then
        update_training idx reset s
      else
        let detected_stride := detect_stride gap1 gap2 in
        if detected_stride <=? 0 then update_training idx reset s
        else
          update_training idx
            (fun e => e
               |> TrainingEntry.set_direction detected_dir
               |> TrainingEntry.set_stride detected_stride
               |> TrainingEntry.set_miss_count 3
               |> TrainingEntry.set_pattern_confidence
                    (get_pattern_confidence s detected_dir detected_stride
                       (TrainingEntry.region_base entry)))
            s.

(** *** Stream groups *)

Definition find_stream_group (s : t) (dir : StreamDirection.t) (stride : Z) : Z :=
  find_index
    (fun g => StreamGroup.valid g &&
              StreamDirection.eqb (StreamGroup.direction g) dir &&
              (StreamGroup.stride g =? stride))
    (stream_groups s).

Definition class_of_stride (stride : Z) : StreamClass.t :=
  if stride <=? DENSE_STRIDE_MAX then StreamClass.DENSE
  else if stride <=? MEDIUM_STRIDE_MAX then StreamClass.MEDIUM
  else StreamClass.SPARSE.

Definition find_or_create_stream_group (s : t) (dir : StreamDirection.t) (stride : Z) : t * Z :=
  let existing := find_stream_group s dir stride in
  if existing >=? 0 then
    (update_group existing (StreamGroup.set_last_seen_timestamp (current_timestamp s)) s,
     existing)
  else
    let fresh (g : StreamGroup.t) := g
      |> StreamGroup.set_valid true
      |> StreamGroup.set_direction dir
      |> StreamGroup.set_stride stride
      |> StreamGroup.set_member_count 0
      |> StreamGroup.set_group_confidence 0
      |> StreamGroup.set_last_seen_timestamp (current_timestamp s)
      |> StreamGroup.set_members (replicate (length (StreamGroup.members g)) (-1))
      |> StreamGroup.set_typical_class (class_of_stride stride) in
    let i := find_index (fun g => negb (StreamGroup.valid g)) (stream_groups s) in
    if 0 <=? i then (update_group i fresh s, i)
    else
      let '(oldest_idx, _) :=
        fold_left
          (fun '(oldest_idx, oldest_time) i =>
             if (StreamGroup.member_count (group s i) =? 0) ||
                (StreamGroup.last_seen_timestamp (group s i) <? oldest_time)
             then (i, StreamGroup.last_seen_timestamp (group s i))
             else (oldest_idx, oldest_time))
          (indices (stream_groups s)) (0, UINT64_MAX) in
      let s :=
        fold_left
          (fun s member_idx =>
             if (member_idx >=? 0) && (member_idx <? stream_table_size s)
             then update_stream member_idx (TransformerStreamEntry.set_group_id (-1)) s
             else s)
          (StreamGroup.members (group s oldest_idx)) s in
      (update_group oldest_idx fresh s, oldest_idx).

Definition add_stream_to_group (s : t) (stream_idx group_idx : Z) : t :=
  if (group_idx <? 0) || (group_idx >=? stream_groups_size s) then s
  else if (stream_idx <? 0) || (stream_idx >=? stream_table_size s) then s
  else
    let g := group s group_idx in
    let i := find_index (fun m => m <? 0) (StreamGroup.members g) in
    if 0 <=? i then
      s |> update_group group_idx
             (fun g => g
                |> StreamGroup.set_members (array_set (StreamGroup.members g) i stream_idx)
                |> StreamGroup.set_member_count (u32 (StreamGroup.member_count g + 1)))
        |> update_stream stream_idx
             (fun e => e
                |> TransformerStreamEntry.set_group_id group_idx
                |> TransformerStreamEntry.set_stream_class (StreamGroup.typical_class g))
    else
      (* Group full - don't add but still track relationship *)
      update_stream stream_idx (TransformerStreamEntry.set_group_id group_idx) s.

Definition remove_stream_from_group (s : t) (stream_idx : Z) : t :=
  if (stream_idx <? 0) || (stream_idx >=? stream_table_size s) then s
  else
    let group_idx := TransformerStreamEntry.group_id (stream s stream_idx) in
    if (group_idx <? 0) || (group_idx >=? stream_groups_size s) then
      update_stream stream_idx (TransformerStreamEntry.set_group_id (-1)) s
    else
      let i := find_index (fun m => m =? stream_idx) (StreamGroup.members (group s group_idx)) in
      let s :=
        if 0 <=? i then
          update_group group_idx
            (fun g =>
               let g := StreamGroup.set_members (array_set (StreamGroup.members g) i (-1)) g in
               if StreamGroup.member_count g >? 0
               then StreamGroup.set_member_count (u32 (StreamGroup.member_count g - 1)) g
               else g)
            s
        else s in
      let s := update_stream stream_idx (TransformerStreamEntry.set_group_id (-1)) s in
      if StreamGroup.member_count (group s group_idx) =? 0
      then update_group group_idx (StreamGroup.set_valid false) s
      else s.

Definition is_group_protected (s : t) (stream_idx : Z) : bool :=
  if (stream_idx <? 0) || (stream_idx >=? stream_table_size s) then false
  else
    let group_idx := TransformerStreamEntry.group_id (stream s stream_idx) in
    if (group_idx <? 0) || (group_idx >=? stream_groups_size s) then false
    else StreamGroup.member_count (group s group_idx) >=? 2.

(** *** Stream classification *)

Definition classify_stream (entry : TransformerStreamEntry.t) : StreamClass.t :=
  if TransformerStreamEntry.stride entry <=? DENSE_STRIDE_MAX then
    if TransformerStreamEntry.stream_length entry >=? DENSE_LENGTH_MIN
    then StreamClass.DENSE else StreamClass.MEDIUM
  else if TransformerStreamEntry.stride entry <=? MEDIUM_STRIDE_MAX then
    if TransformerStreamEntry.stream_length entry >=? MEDIUM_LENGTH_MIN
    then StreamClass.MEDIUM else StreamClass.SPARSE
  else StreamClass.SPARSE.

Definition get_prefetch_degree_for_class (cls : StreamClass.t) : Z :=
  match cls with
  | StreamClass.DENSE => DENSE_PREFETCH_DEGREE
  | StreamClass.MEDIUM => MEDIUM_PREFETCH_DEGREE
  | StreamClass.SPARSE => SPARSE_PREFETCH_DEGREE
  | _ => BASE_PREFETCH_DEGREE
  end.

Definition update_stream_classification (s : t) (stream_idx : Z) : t :=
  if (stream_idx <? 0) || (stream_idx >=? stream_table_size s) then s
  else
    let entry := stream s stream_idx in
    if negb (TransformerStreamEntry.valid entry) then s
    else
      let cls := classify_stream entry in
      let s := update_stream stream_idx (TransformerStreamEntry.set_stream_class cls) s in
      let group_id := TransformerStreamEntry.group_id entry in
      if (group_id >=? 0) && (group_id <? stream_groups_size s)
      then update_group group_id (StreamGroup.set_typical_class cls) s
      else s.

Definition reinforce_stream_confidence (s : t) (stream_idx : Z) : t :=
  if (stream_idx <? 0) || (stream_idx >=? stream_table_size s) then s
  else
    let entry := stream s stream_idx in
    if negb (TransformerStreamEntry.valid entry) then s
    else
      let s :=
        update_stream stream_idx
          (fun e => TransformerStreamEntry.set_confidence_score
                      (Z.min (u32 (TransformerStreamEntry.confidence_score e + 1)) MAX_CONFIDENCE) e)
          s in
      let group_id := TransformerStreamEntry.group_id entry in
      if (group_id >=? 0) && (group_id <? stream_groups_size s)
      then update_group group_id
             (fun g => StreamGroup.set_group_confidence (u64 (StreamGroup.group_confidence g + 1)) g)
             s
      else s.

(** *** Phase detection *)

Definition try_phase_recovery (s : t) : t :=
  let s :=
    update_phase
      (fun p => PhaseState.set_recovery_counter (u32 (PhaseState.recovery_counter p + 1)) p) s in
  if PhaseState.recovery_counter (phase_state s) >=? PHASE_RECOVERY_WINDOW then
    update_phase
      (fun p => p
         |> PhaseState.set_in_phase_transition false
         |> PhaseState.set_current_prefetch_degree BASE_PREFETCH_DEGREE
         |> PhaseState.set_recovery_counter 0)
      s
  else s.

Definition update_phase_state (s : t) (stream_terminated : bool) : t :=
  let s :=
    update_phase
      (fun p => PhaseState.set_misses_in_window (u32 (PhaseState.misses_in_window p + 1)) p) s in
  let s :=
    if stream_terminated then
      update_phase
        (fun p => PhaseState.set_streams_terminated_in_window
                    (u32 (PhaseState.streams_terminated_in_window p + 1)) p) s
    else s in
  let s :=
    if PhaseState.misses_in_window (phase_state s) >=? PHASE_WINDOW_SIZE then
      let s :=
        if PhaseState.streams_terminated_in_window (phase_state s) >=? PHASE_TRANSITION_THRESHOLD
        then
          update_phase
            (fun p => p
               |> PhaseState.set_in_phase_transition true
               |> PhaseState.set_current_prefetch_degree MIN_PREFETCH_DEGREE
               |> PhaseState.set_recovery_counter 0)
            s
        else s in
      update_phase
        (fun p => p
           |> PhaseState.set_window_start_timestamp (current_timestamp s)
           |> PhaseState.set_streams_terminated_in_window 0
           |> PhaseState.set_misses_in_window 0)
        s
    else s in
  if PhaseState.in_phase_transition (phase_state s) then try_phase_recovery s else s.

Definition is_in_phase_transition (s : t) : bool :=
  PhaseState.in_phase_transition (phase_state s).

Definition get_current_prefetch_degree (s : t) : Z :=
  PhaseState.current_prefetch_degree (phase_state s).

(** *** Cross-dimension control *)

Definition get_safe_lookahead (entry : TransformerStreamEntry.t) : Z :=
  if TransformerStreamEntry.consistent_stride_count entry >=? STRIDE_STABILITY_THRESHOLD then
    match TransformerStreamEntry.stream_class entry with
    | StreamClass.DENSE => AGGRESSIVE_LOOKAHEAD
    | _ => BASE_PREFETCH_DEGREE
    end
  else CONSERVATIVE_LOOKAHEAD.

Definition is_at_stride_boundary (entry : TransformerStreamEntry.t) : bool :=
  match TransformerStreamEntry.direction entry with
  | StreamDirection.POSITIVE =>
      let remaining := offset (TransformerStreamEntry.current_prefetch_block entry)
                              (TransformerStreamEntry.stream_end_block entry) in
      remaining <=? TransformerStreamEntry.stride entry
  | _ =>
      let remaining := offset (TransformerStreamEntry.stream_end_block entry)
                              (TransformerStreamEntry.current_prefetch_block entry) in
      remaining <=? TransformerStreamEntry.stride entry
  end.

(** *** Stream table *)

Definition find_stream_for_block (s : t) (block : Z) : Z :=
  find_index
    (fun entry =>
       TransformerStreamEntry.valid entry &&
       match TransformerStreamEntry.direction entry with
       | StreamDirection.POSITIVE =>
           (block >=? TransformerStreamEntry.stream_start_block entry) &&
           (block <=? TransformerStreamEntry.current_prefetch_block entry)
       | _ =>
           (block <=? TransformerStreamEntry.stream_start_block entry) &&
           (block >=? TransformerStreamEntry.current_prefetch_block entry)
       end)
    (stream_table s).

Definition find_matching_inactive_stream (s : t) (dir : StreamDirection.t)
    (stride region_base : Z) : Z :=
  find_index
    (fun entry =>
       TransformerStreamEntry.valid entry &&
       negb (TransformerStreamEntry.active entry) &&
       negb (negb (StreamDirection.eqb (TransformerStreamEntry.direction entry) dir) ||
             negb (TransformerStreamEntry.stride entry =? stride)) &&
       (let stream_region :=
          compute_region_base (TransformerStreamEntry.stream_start_block entry) in
        let region_diff := abs64 (offset region_base stream_region) in
        region_diff <=? REGION_SIZE_BLOCKS * 2))
    (stream_table s).

Definition compute_eviction_priority (s : t) (stream_idx : Z) : Z :=
  if (stream_idx <? 0) || (stream_idx >=? stream_table_size s) then 0
  else
    let entry := stream s stream_idx in
    if negb (TransformerStreamEntry.valid entry) then INT_MAX
    else
      let priority :=
        match TransformerStreamEntry.stream_class entry with
        | StreamClass.DENSE => 30
        | StreamClass.MEDIUM => 20
        | StreamClass.SPARSE => 10
        | _ => 15
        end in
      let priority :=
        priority + i32 (u32 (TransformerStreamEntry.confidence_score entry * 2)) in
      let group_id := TransformerStreamEntry.group_id entry in
      let priority :=
        if (group_id >=? 0) && (group_id <? stream_groups_size s)
        then priority + i32 (u32 (StreamGroup.member_count (group s group_id) * 3))
        else priority in
      let priority := if TransformerStreamEntry.active entry then priority + 10 else priority in
      let age := u64 (current_timestamp s - TransformerStreamEntry.last_trigger_timestamp entry) in
      let priority := if age >? DEAD_STREAM_THRESHOLD ÷ 2 then priority - 5 else priority in
      let priority := if age >? DEAD_STREAM_THRESHOLD then priority - 10 else priority in
      priority.

Fixpoint select_victim_loop (s : t) (idxs : list Z) (victim_idx lowest_priority : Z) : Z :=
  match idxs with
  | [] => victim_idx
  | i :: idxs =>
      if negb (TransformerStreamEntry.valid (stream s i)) then i
      else
        let priority := compute_eviction_priority s i in
        if priority <? lowest_priority
        then select_victim_loop s idxs i priority
        else select_victim_loop s idxs victim_idx lowest_priority
  end.

Definition select_victim_stream (s : t) : Z :=
  select_victim_loop s (indices (stream_table s)) (-1) INT_MAX.

(** *** Dead stream removal *)

Definition terminate_stream (s : t) (stream_idx : Z) : t :=
  if (stream_idx <? 0) || (stream_idx >=? stream_table_size s) then s
  else
    let entry := stream s stream_idx in
    if negb (TransformerStreamEntry.valid entry) then s
    else
      let s := record_pattern s entry in
      let s := remove_stream_from_group s stream_idx in
      let s := update_phase_state s true in
      update_stream stream_idx
        (fun e => e
           |> TransformerStreamEntry.set_valid false
           |> TransformerStreamEntry.set_active false)
        s.

Definition remove_dead_streams (s : t) : t :=
  fold_left
    (fun s i =>
       let entry := stream s i in
       if negb (TransformerStreamEntry.valid entry) then s
       else
         let age :=
           u64 (current_timestamp s - TransformerStreamEntry.last_trigger_timestamp entry) in
         let is_dead :=
           (age >? DEAD_STREAM_THRESHOLD) &&
           (TransformerStreamEntry.stream_length entry <? SHORT_STREAM_THRESHOLD) in
         let is_dead :=
           if is_dead && is_group_protected s i then
             if TransformerStreamEntry.confidence_score entry >=? FAST_TRACK_CONFIDENCE
             then false else is_dead
           else is_dead in
         if is_dead then terminate_stream s i else s)
    (indices (stream_table s)) s.

Definition allocate_stream_entry (s : t) : t * Z :=
  let i := find_index (fun e => negb (TransformerStreamEntry.valid e)) (stream_table s) in
  if 0 <=? i then (s, i)
  else
    let s := remove_dead_streams s in
    let i := find_index (fun e => negb (TransformerStreamEntry.valid e)) (stream_table s) in
    if 0 <=? i then (s, i)
    else
      let victim := select_victim_stream s in
      let s := if victim >=? 0 then terminate_stream s victim else s in
      (s, victim).

(** *** The host-facing part

    The host cache is not part of the repository.  [World] is its state as
    far as the prefetcher can observe or change it:
    [get_mshr_occupancy_ratio] is a read-only query and [prefetch_line]
    hands a prefetch to the host, which accepts it or not.
    [LOG2_BLOCK_SIZE] and [access_type] come from [champsim.h]. *)

Section Host.

Variable World : Type.
Variable get_mshr_occupancy_ratio : World -> float.
Variable prefetch_line : World -> Z -> bool -> Z -> World * bool.
Variable LOG2_BLOCK_SIZE : Z.
Variable access_type : Type.

(** The [for (uint32_t i = 0; i < actual_degree; ++i)] loop of
    [generate_prefetches], [n] iterations from [i] on.  The boolean tells
    whether control reaches the statement after the loop ([true]: the loop
    ran out or hit [break]) or the function returned from inside ([false]). *)
Fixpoint generate_prefetches_loop (n : nat) (i : Z) (dir_val : Z) (stream_idx : Z)
    (s : t) (w : World) : t * World * bool :=
  match n with
  | O => (s, w, true)
  | S n =>
      let entry := stream s stream_idx in
      let next_block :=
        block_add (TransformerStreamEntry.current_prefetch_block entry)
                  (dir_val * TransformerStreamEntry.stride entry) in
      if match TransformerStreamEntry.direction entry with
         | StreamDirection.POSITIVE =>
             next_block >? TransformerStreamEntry.stream_end_block entry
         | _ => next_block <? TransformerStreamEntry.stream_end_block entry
         end
      then (update_stream stream_idx (TransformerStreamEntry.set_active false) s, w, false)
      else if is_at_stride_boundary entry && (i >? 0) then (s, w, true)
      else
        let mshr_ratio := get_mshr_occupancy_ratio w in
        if PrimFloat.ltb 0.75 mshr_ratio then (s, w, false)
        else
          let pf_addr := Z.shiftl next_block LOG2_BLOCK_SIZE in
          let fill_this_level := PrimFloat.ltb mshr_ratio 0.5 in
          let '(w, success) := prefetch_line w pf_addr fill_this_level 0 in
          if success then
            let s :=
              update_stream stream_idx
                (fun e => e
                   |> TransformerStreamEntry.set_current_prefetch_block next_block
                   |> TransformerStreamEntry.set_stream_length
                        (u32 (TransformerStreamEntry.stream_length e + 1))
                   |> TransformerStreamEntry.set_consistent_stride_count
                        (u32 (TransformerStreamEntry.consistent_stride_count e + 1)))
                s in
            let s :=
              if TransformerStreamEntry.stream_length (stream s stream_idx) mod 8 =? 0
              then update_stream_classification s stream_idx
              else s in
            generate_prefetches_loop n (i + 1) dir_val stream_idx s w
          else (s, w, false)
  end.

Definition generate_prefetches (s : t) (w : World) (stream_idx : Z) : t * World :=
  let entry := stream s stream_idx in
  if negb (TransformerStreamEntry.valid entry) || negb (TransformerStreamEntry.active entry)
  then (s, w)
  else
    let phase_degree := get_current_prefetch_degree s in
    let class_degree := get_prefetch_degree_for_class (TransformerStreamEntry.stream_class entry) in
    let safe_lookahead := get_safe_lookahead entry in
    let actual_degree := Z.min phase_degree (Z.min class_degree safe_lookahead) in
    let actual_degree :=
      if is_in_phase_transition s then Z.min actual_degree MIN_PREFETCH_DEGREE
      else actual_degree in
    let dir_val := StreamDirection.to_int (TransformerStreamEntry.direction entry) in
    let '(s, w, after_loop) :=
      generate_prefetches_loop (Z.to_nat actual_degree) 0 dir_val stream_idx s w in
    if after_loop then
      (update_stream stream_idx
         (TransformerStreamEntry.set_last_trigger_timestamp (current_timestamp s)) s, w)
    else (s, w).

Definition create_stream (s : t) (w : World) (trained_entry : TrainingEntry.t) : t * World :=
  let '(s, idx) := allocate_stream_entry s in
  if idx <? 0 then (s, w)
  else
    let dir_val := StreamDirection.to_int (TrainingEntry.direction trained_entry) in
    let end_offset := dir_val * TrainingEntry.stride trained_entry * 64 in
    let s :=
      update_stream idx
        (fun e => e
           |> TransformerStreamEntry.set_valid true
           |> TransformerStreamEntry.set_active true
           |> TransformerStreamEntry.set_direction (TrainingEntry.direction trained_entry)
           |> TransformerStreamEntry.set_stride (TrainingEntry.stride trained_entry)
           |> TransformerStreamEntry.set_last_trigger_timestamp (current_timestamp s)
           |> TransformerStreamEntry.set_stream_length 0
           |> TransformerStreamEntry.set_reactivation_count 0
           |> TransformerStreamEntry.set_consistent_stride_count 0
           |> TransformerStreamEntry.set_confidence_score
                (Z.max 1 (TrainingEntry.pattern_confidence trained_entry))
           |> TransformerStreamEntry.set_stream_start_block
                (TrainingEntry.last_miss_block trained_entry)
           |> TransformerStreamEntry.set_current_prefetch_block
                (TrainingEntry.last_miss_block trained_entry)
           |> TransformerStreamEntry.set_stream_end_block
                (block_add (TrainingEntry.last_miss_block trained_entry) end_offset))
        s in
    let s :=
      update_stream idx
        (fun e => TransformerStreamEntry.set_stream_class (classify_stream e) e) s in
    let '(s, group_idx) :=
      find_or_create_stream_group s
        (TransformerStreamEntry.direction (stream s idx))
        (TransformerStreamEntry.stride (stream s idx)) in
    let s := add_stream_to_group s idx group_idx in
    generate_prefetches s w idx.

Definition reactivate_stream (s : t) (w : World) (idx trigger_block : Z) : t * World :=
  let s :=
    update_stream idx
      (fun e => e
         |> TransformerStreamEntry.set_active true
         |> TransformerStreamEntry.set_last_trigger_timestamp (current_timestamp s)
         |> TransformerStreamEntry.set_reactivation_count
              (u32 (TransformerStreamEntry.reactivation_count e + 1))
         |> TransformerStreamEntry.set_current_prefetch_block trigger_block
         |> TransformerStreamEntry.set_confidence_score
              (Z.min (u32 (TransformerStreamEntry.confidence_score e + CONFIDENCE_BOOST_ON_REUSE))
                     MAX_CONFIDENCE))
      s in
  let entry := stream s idx in
  let dir_val := StreamDirection.to_int (TransformerStreamEntry.direction entry) in
  let end_offset := dir_val * TransformerStreamEntry.stride entry * 64 in
  let new_end := block_add trigger_block end_offset in
  let s :=
    match TransformerStreamEntry.direction entry with
    | StreamDirection.POSITIVE =>
        if new_end >? TransformerStreamEntry.stream_end_block entry
        then update_stream idx (TransformerStreamEntry.set_stream_end_block new_end) s
        else s
    | _ =>
        if new_end <? TransformerStreamEntry.stream_end_block entry
        then update_stream idx (TransformerStreamEntry.set_stream_end_block new_end) s
        else s
    end in
  let s :=
    if TransformerStreamEntry.group_id (stream s idx) <? 0 then
      let '(s, group_idx) :=
        find_or_create_stream_group s
          (TransformerStreamEntry.direction (stream s idx))
          (TransformerStreamEntry.stride (stream s idx)) in
      add_stream_to_group s idx group_idx
    else s in
  generate_prefetches s w idx.

Definition try_relaunch_stream (s : t) (w : World) (miss_block : Z)
    (dir : StreamDirection.t) (stride : Z) : t * World * bool :=
  let region := compute_region_base miss_block in
  let match_idx := find_matching_inactive_stream s dir stride region in
  if match_idx >=? 0 then
    let '(s, w) := reactivate_stream s w match_idx miss_block in (s, w, true)
  else (s, w, false).

(** *** The prefetcher interface *)

Definition prefetcher_cache_operate (s : t) (w : World) (addr ip : Z) (cache_hit : Z)
    (useful_prefetch : bool) (type : access_type) (metadata_in : Z) : t * World * Z :=
  (* Training on CACHE MISSES ONLY *)
  if negb (cache_hit =? 0) then (s, w, metadata_in)
  else
    let s := set_current_timestamp (u64 (current_timestamp s + 1)) s in
    let s := update_phase_state s false in
    let s := set_cleanup_counter (u64 (cleanup_counter s + 1)) s in
    let s :=
      if cleanup_counter s >=? CLEANUP_INTERVAL
      then set_cleanup_counter 0 (remove_dead_streams s)
      else s in
    let miss_block := Z.shiftr addr LOG2_BLOCK_SIZE in
    let region_base := compute_region_base miss_block in
    let stream_idx := find_stream_for_block s miss_block in
    if stream_idx >=? 0 then
      let s :=
        update_stream stream_idx
          (fun e => e
             |> TransformerStreamEntry.set_last_trigger_timestamp (current_timestamp s)
             |> TransformerStreamEntry.set_accesses_in_window
                  (u32 (TransformerStreamEntry.accesses_in_window e + 1)))
          s in
      let s :=
        if negb (TransformerStreamEntry.active (stream s stream_idx)) then
          update_stream stream_idx
            (fun e => e
               |> TransformerStreamEntry.set_active true
               |> TransformerStreamEntry.set_reactivation_count
                    (u32 (TransformerStreamEntry.reactivation_count e + 1)))
            s
        else s in
      let s := reinforce_stream_confidence s stream_idx in
      let '(s, w) := generate_prefetches s w stream_idx in
      (s, w, metadata_in)
    else
      let train_idx := find_training_entry s region_base in
      let '(s, train_idx) :=
        if train_idx <? 0 then allocate_training_entry s region_base else (s, train_idx) in
      let s := update_training_entry s train_idx miss_block in
      let trained := training s train_idx in
      let ready :=
        (TrainingEntry.miss_count trained >=? CONFIRMATION_THRESHOLD) ||
        ((TrainingEntry.miss_count trained >=? 2) && can_fast_track_training trained) in
      if ready &&
         negb (StreamDirection.eqb (TrainingEntry.direction trained) StreamDirection.UNKNOWN) &&
         (TrainingEntry.stride trained >=? 1)
      then
        let '(s, w, relaunched) :=
          try_relaunch_stream s w miss_block
            (TrainingEntry.direction trained) (TrainingEntry.stride trained) in
        let '(s, w) := if negb relaunched then create_stream s w trained else (s, w) in
        (update_training train_idx (TrainingEntry.set_valid false) s, w, metadata_in)
      else (s, w, metadata_in).

Definition prefetcher_cache_fill (s : t) (w : World) (addr set way : Z) (prefetch : Z)
    (evicted_addr : Z) (metadata_in : Z) : t * World * Z :=
  (s, w, metadata_in).

Definition prefetcher_cycle_operate (s : t) (w : World) : t * World :=
  fold_left
    (fun '(s, w) i =>
       if TransformerStreamEntry.valid (stream s i) && TransformerStreamEntry.active (stream s i)
       then generate_prefetches s w i
       else (s, w))
    (indices (stream_table s)) (s, w).

Definition prefetcher_final_stats (s : t) (w : World) : t * World := (s, w).

(** The states the prefetcher can be in: the initialised object, and what
    any call of the host, in any state of the host, makes of such a state. *)
Inductive reachable : t -> Prop :=
| reachable_initialize :
    reachable (prefetcher_initialize construct)
| reachable_cache_operate s w addr ip cache_hit useful_prefetch type metadata_in :
    reachable s ->
    reachable (prefetcher_cache_operate s w addr ip cache_hit useful_prefetch type metadata_in).1.1
| reachable_cache_fill s w addr set way prefetch evicted_addr metadata_in :
    reachable s ->
    reachable (prefetcher_cache_fill s w addr set way prefetch evicted_addr metadata_in).1.1
| reachable_cycle_operate s w :
    reachable s -> reachable (prefetcher_cycle_operate s w).1
| reachable_final_stats s w :
    reachable s -> reachable (prefetcher_final_stats s w).1.

End Host.

(** *** Misses that terminate a stream

    The miss path of [prefetcher_cache_operate] can reach [terminate_stream]
    in two places: the periodic cleanup ([remove_dead_streams], lines
    988-991) and [create_stream], whose [allocate_stream_entry] makes room
    by terminating streams when the table has no free entry (lines
    737-752). *)

(** The state in which the miss path looks the block up: after the
    timestamp, the phase update and the periodic cleanup (lines 983-991). *)
Definition after_periodic_cleanup (s : t) : t :=
  let s := set_current_timestamp (u64 (current_timestamp s + 1)) s in
  let s := update_phase_state s false in
  let s := set_cleanup_counter (u64 (cleanup_counter s + 1)) s in
  if cleanup_counter s >=? CLEANUP_INTERVAL
  then set_cleanup_counter 0 (remove_dead_streams s)
  else s.

(** Whether a miss on [miss_block], in the state after the cleanup, reaches
    [create_stream]: no stream covers the block, the miss confirms the
    training entry of its region, and no inactive stream is relaunched
    (lines 997-1035). *)
Definition miss_creates_stream (s : t) (miss_block : Z) : bool :=
  let region_base := compute_region_base miss_block in
  let stream_idx := find_stream_for_block s miss_block in
  if stream_idx >=? 0 then false
  else
    let train_idx := find_training_entry s region_base in
    let '(s, train_idx) :=
      if train_idx <? 0 then allocate_training_entry s region_base else (s, train_idx) in
    let s := update_training_entry s train_idx miss_block in
    let trained := training s train_idx in
    let ready :=
      (TrainingEntry.miss_count trained >=? CONFIRMATION_THRESHOLD) ||
      ((TrainingEntry.miss_count trained >=? 2) && can_fast_track_training trained) in
    ready &&
    negb (StreamDirection.eqb (TrainingEntry.direction trained) StreamDirection.UNKNOWN) &&
    (TrainingEntry.stride trained >=? 1) &&
    negb (find_matching_inactive_stream s (TrainingEntry.direction trained)
            (TrainingEntry.stride trained) (compute_region_base miss_block) >=? 0).

(** Whether a miss on [miss_block] terminates no stream: every stream entry
    that is valid before the miss is still valid after the cleanup, and
    [create_stream], if the miss reaches it, finds a free entry. *)
Definition miss_terminates_no_stream (s : t) (miss_block : Z) : bool :=
  let s4 := after_periodic_cleanup s in
  forallb
    (fun i => implb (TransformerStreamEntry.valid (stream s i))
                    (TransformerStreamEntry.valid (stream s4 i)))
    (indices (stream_table s)) &&
  (negb (miss_creates_stream s4 miss_block) ||
   (0 <=? find_index (fun e => negb (TransformerStreamEntry.valid e)) (stream_table s4))).

(** *** Integrity of the stream/group relation *)

(** The number of non-negative slots of a member list, and the number of
    slots that hold the stream index [x]. *)
Fixpoint count_nonneg (l : list Z) : Z :=
  match l with
  | [] => 0
  | m :: l => (if m >=? 0 then 1 else 0) + count_nonneg l
  end.

Fixpoint occurrences (x : Z) (l : list Z) : Z :=
  match l with
  | [] => 0
  | m :: l => (if m =? x then 1 else 0) + occurrences x l
  end.

(** [member_count] equals the number of non-negative slots, in every group. *)
Definition member_counts_exact (s : t) : Prop :=
  forall j, 0 <= j < stream_groups_size s ->
    StreamGroup.member_count (group s j) = count_nonneg (StreamGroup.members (group s j)).

(** Every valid stream with [group_id >= 0] references a valid group that
    lists it exactly once. *)
Definition grouped_streams_listed_once (s : t) : Prop :=
  forall i, 0 <= i < stream_table_size s ->
    TransformerStreamEntry.valid (stream s i) = true ->
    0 <= TransformerStreamEntry.group_id (stream s i) ->
    TransformerStreamEntry.group_id (stream s i) < stream_groups_size s /\
    StreamGroup.valid (group s (TransformerStreamEntry.group_id (stream s i))) = true /\
    occurrences i (StreamGroup.members (group s (TransformerStreamEntry.group_id (stream s i)))) = 1.

(** What holds of a listed stream: a stream index found in the member
    list of a group occurs there once, the group is valid, and the index is
    that of a valid stream whose [group_id] is this group. *)
Definition listed_streams_consistent (s : t) : Prop :=
  forall j i, 0 <= j < stream_groups_size s -> 0 <= i ->
    0 < occurrences i (StreamGroup.members (group s j)) ->
    occurrences i (StreamGroup.members (group s j)) = 1 /\
    StreamGroup.valid (group s j) = true /\
    i < stream_table_size s /\
    TransformerStreamEntry.valid (stream s i) = true /\
    TransformerStreamEntry.group_id (stream s i) = j.

(** The invariant behind it, on the two tables. *)
Definition groups_ok (ss : list TransformerStreamEntry.t) (gs : list StreamGroup.t) : Prop :=
  length ss = Z.to_nat STREAM_TABLE_SIZE /\
  length gs = Z.to_nat MAX_STREAM_GROUPS /\
  (forall i, 0 <= i < STREAM_TABLE_SIZE ->
     TransformerStreamEntry.valid (array_get TransformerStreamEntry.default ss i) = false ->
     TransformerStreamEntry.group_id (array_get TransformerStreamEntry.default ss i) = -1) /\
  (forall j, 0 <= j < MAX_STREAM_GROUPS ->
     let g := array_get StreamGroup.default gs j in
     length (StreamGroup.members g) = Z.to_nat MAX_STREAMS_PER_GROUP /\
     StreamGroup.member_count g = count_nonneg (StreamGroup.members g) /\
     (StreamGroup.valid g = false -> StreamGroup.member_count g = 0) /\
     (forall m, 0 <= m -> occurrences m (StreamGroup.members g) <= 1) /\
     (forall m, 0 <= m -> 0 < occurrences m (StreamGroup.members g) ->
        m < STREAM_TABLE_SIZE /\
        TransformerStreamEntry.group_id (array_get TransformerStreamEntry.default ss m) = j)).

(** *** Consistency of the phase detector

    In a transition the recovery counter runs one ahead of the window's
    miss counter and below the recovery window; outside it is zero. *)
Definition phase_ok (p : PhaseState.t) : Prop :=
  if PhaseState.in_phase_transition p
  then PhaseState.recovery_counter p = PhaseState.misses_in_window p + 1 /\
       0 <= PhaseState.misses_in_window p < PHASE_RECOVERY_WINDOW - 1
  else PhaseState.recovery_counter p = 0 /\
       0 <= PhaseState.misses_in_window p < PHASE_WINDOW_SIZE.

Definition invariant (s : t) : Prop :=
  phase_ok (phase_state s) /\ groups_ok (stream_table s) (stream_groups s).

End transformer_stream.

(** ** The bandwidth-aware selector: [struct transformer_pythia_selector_bw] *)

(** Modelled from the spec: [champsim::lg2] ([util/bits.h] is not among the
    sources), the base-2 logarithm of the sample rate ([s = lg2(r)]). *)
Definition lg2 (n : Z) : Z := Z.log2 n.

Module transformer_pythia_selector_bw.

Definition BW_UTIL_THRESHOLD : float := 0.9.
Definition MIN_ACCURACY_THRESHOLD : float := 0.1.

Definition METADATA_TRANSFORMER_BIT : Z := Z.shiftl 1 30.
Definition METADATA_PYTHIA_BIT : Z := Z.shiftl 1 31.
Definition METADATA_SOURCE_MASK : Z := Z.lor METADATA_TRANSFORMER_BIT METADATA_PYTHIA_BIT.
Definition METADATA_PRESERVE_MASK : Z := u32 (Z.lnot METADATA_SOURCE_MASK).

Definition POLICY_MAX : Z := 1024.
Definition POLICY_MIN : Z := -1024.

(** struct sampler_entry: the counters of one sampler set. *)
Module sampler_entry.
Record t : Type := mk {
  transformer_useful : Z;
  transformer_issued : Z;
  pythia_useful : Z;
  pythia_issued : Z
}.

Definition default : t :=
  {| transformer_useful := 0; transformer_issued := 0; pythia_useful := 0; pythia_issued := 0
     |}.

Definition set_transformer_useful (v : Z) (e : t) : t :=
  {| transformer_useful := v; transformer_issued := transformer_issued e; pythia_useful :=
     pythia_useful e; pythia_issued := pythia_issued e |}.

Definition set_transformer_issued (v : Z) (e : t) : t :=
  {| transformer_useful := transformer_useful e; transformer_issued := v; pythia_useful :=
     pythia_useful e; pythia_issued := pythia_issued e |}.

Definition set_pythia_useful (v : Z) (e : t) : t :=
  {| transformer_useful := transformer_useful e; transformer_issued := transformer_issued e;
     pythia_useful := v; pythia_issued := pythia_issued e |}.

Definition set_pythia_issued (v : Z) (e : t) : t :=
  {| transformer_useful := transformer_useful e; transformer_issued := transformer_issued e;
     pythia_useful := pythia_useful e; pythia_issued := v |}.

End sampler_entry.
(** struct dedicated_set_stats: the counters shared by all dedicated and policy-controlled sets. *)
Module dedicated_set_stats.
Record t : Type := mk {
  transformer_useful : Z;
  transformer_issued : Z;
  pythia_useful : Z;
  pythia_issued : Z
}.

Definition default : t :=
  {| transformer_useful := 0; transformer_issued := 0; pythia_useful := 0; pythia_issued := 0
     |}.

Definition set_transformer_useful (v : Z) (e : t) : t :=
  {| transformer_useful := v; transformer_issued := transformer_issued e; pythia_useful :=
     pythia_useful e; pythia_issued := pythia_issued e |}.

Definition set_transformer_issued (v : Z) (e : t) : t :=
  {| transformer_useful := transformer_useful e; transformer_issued := v; pythia_useful :=
     pythia_useful e; pythia_issued := pythia_issued e |}.

Definition set_pythia_useful (v : Z) (e : t) : t :=
  {| transformer_useful := transformer_useful e; transformer_issued := transformer_issued e;
     pythia_useful := v; pythia_issued := pythia_issued e |}.

Definition set_pythia_issued (v : Z) (e : t) : t :=
  {| transformer_useful := transformer_useful e; transformer_issued := transformer_issued e;
     pythia_useful := pythia_useful e; pythia_issued := v |}.

End dedicated_set_stats.
(** *** Set dueling: the helpers that read only [NUM_SET] *)

Definition get_set_sample_rate (NUM_SET : Z) : Z :=
  if (NUM_SET <? 1024) && (NUM_SET >=? 256) then 16
  else if NUM_SET >=? 64 then 8
  else if NUM_SET >=? 8 then 4
  else 32.

Definition get_set_sample_category (NUM_SET set : Z) : Z :=
  let r := get_set_sample_rate NUM_SET in
  let m := r - 1 in
  Z.land (r + Z.land set m - Z.land (Z.shiftr set (lg2 r)) m) m.

Definition get_num_sampled_sets (NUM_SET : Z) : Z := NUM_SET ÷ get_set_sample_rate NUM_SET.

Definition is_sampler_set (NUM_SET s : Z) : bool := get_set_sample_category NUM_SET s =? 0.
Definition is_transformer_dedicated_set (NUM_SET s : Z) : bool :=
  get_set_sample_category NUM_SET s =? 1.
Definition is_pythia_dedicated_set (NUM_SET s : Z) : bool :=
  get_set_sample_category NUM_SET s =? 2.

(** *** Metadata tagging *)

Definition tag_metadata_transformer (m : Z) : Z :=
  Z.lor (Z.land m METADATA_PRESERVE_MASK) METADATA_TRANSFORMER_BIT.
Definition tag_metadata_pythia (m : Z) : Z :=
  Z.lor (Z.land m METADATA_PRESERVE_MASK) METADATA_PYTHIA_BIT.

(** *** The selector proper

    Besides the host of the transformer prefetcher, the selector talks to
    the DRAM bandwidth query of [dpc_api.h], to the cache geometry, to the
    Pythia prefetcher (an opaque object with the prefetcher interface) and
    to [std::log]. *)

Section Host.

Variable World : Type.
Variable get_mshr_occupancy_ratio : World -> float.
Variable prefetch_line : World -> Z -> bool -> Z -> World * bool.
Variable LOG2_BLOCK_SIZE : Z.
Variable access_type : Type.

Variable get_dram_bw : World -> Z.
Variable intern_NUM_SET : World -> Z.
Variable intern_NUM_WAY : World -> Z.
Variable std_log : float -> float.

Variable Pythia : Type.
Variable pythia_initialize : World -> Pythia * World.
Variable pythia_cache_operate :
  Pythia -> World -> Z -> Z -> Z -> bool -> access_type -> Z -> Pythia * World * Z.
Variable pythia_cache_fill :
  Pythia -> World -> Z -> Z -> Z -> Z -> Z -> Z -> Pythia * World * Z.
Variable pythia_cycle_operate : Pythia -> World -> Pythia * World.
Variable pythia_final_stats : Pythia -> World -> Pythia * World.

#[local] Set Implicit Arguments.

(** The selector object.  [cycles] is the function-local [static] counter of
    [prefetcher_cycle_operate]. *)
Record t : Type := mk {
  pref_transformer : transformer_stream.t;
  pref_pythia : Pythia;
  NUM_SET : Z;
  NUM_WAY : Z;
  prefetch_allowed_count : Z;
  prefetch_throttled_count : Z;
  high_bw_events : Z;
  low_accuracy_events : Z;
  samplers : list sampler_entry.t;
  dedicated_stats : dedicated_set_stats.t;
  policy_selector : Z;
  transformer_selected_count : Z;
  pythia_selected_count : Z;
  sampler_transformer_wins : Z;
  sampler_pythia_wins : Z;
  cycles : Z
}.

Definition set_pref_transformer (v : transformer_stream.t) (e : t) : t :=
  {| pref_transformer := v; pref_pythia := pref_pythia e; NUM_SET := NUM_SET e; NUM_WAY :=
     NUM_WAY e; prefetch_allowed_count := prefetch_allowed_count e; prefetch_throttled_count :=
     prefetch_throttled_count e; high_bw_events := high_bw_events e; low_accuracy_events :=
     low_accuracy_events e; samplers := samplers e; dedicated_stats := dedicated_stats e;
     policy_selector := policy_selector e; transformer_selected_count :=
     transformer_selected_count e; pythia_selected_count := pythia_selected_count e;
     sampler_transformer_wins := sampler_transformer_wins e; sampler_pythia_wins :=
     sampler_pythia_wins e; cycles := cycles e |}.

Definition set_pref_pythia (v : Pythia) (e : t) : t :=
  {| pref_transformer := pref_transformer e; pref_pythia := v; NUM_SET := NUM_SET e; NUM_WAY :=
     NUM_WAY e; prefetch_allowed_count := prefetch_allowed_count e; prefetch_throttled_count :=
     prefetch_throttled_count e; high_bw_events := high_bw_events e; low_accuracy_events :=
     low_accuracy_events e; samplers := samplers e; dedicated_stats := dedicated_stats e;
     policy_selector := policy_selector e; transformer_selected_count :=
     transformer_selected_count e; pythia_selected_count := pythia_selected_count e;
     sampler_transformer_wins := sampler_transformer_wins e; sampler_pythia_wins :=
     sampler_pythia_wins e; cycles := cycles e |}.

Definition set_NUM_SET (v : Z) (e : t) : t :=
  {| pref_transformer := pref_transformer e; pref_pythia := pref_pythia e; NUM_SET := v; NUM_WAY
     := NUM_WAY e; prefetch_allowed_count := prefetch_allowed_count e; prefetch_throttled_count
     := prefetch_throttled_count e; high_bw_events := high_bw_events e; low_accuracy_events :=
     low_accuracy_events e; samplers := samplers e; dedicated_stats := dedicated_stats e;
     policy_selector := policy_selector e; transformer_selected_count :=
     transformer_selected_count e; pythia_selected_count := pythia_selected_count e;
     sampler_transformer_wins := sampler_transformer_wins e; sampler_pythia_wins :=
     sampler_pythia_wins e; cycles := cycles e |}.

Definition set_NUM_WAY (v : Z) (e : t) : t :=
  {| pref_transformer := pref_transformer e; pref_pythia := pref_pythia e; NUM_SET := NUM_SET e;
     NUM_WAY := v; prefetch_allowed_count := prefetch_allowed_count e; prefetch_throttled_count
     := prefetch_throttled_count e; high_bw_events := high_bw_events e; low_accuracy_events :=
     low_accuracy_events e; samplers := samplers e; dedicated_stats := dedicated_stats e;
     policy_selector := policy_selector e; transformer_selected_count :=
     transformer_selected_count e; pythia_selected_count := pythia_selected_count e;
     sampler_transformer_wins := sampler_transformer_wins e; sampler_pythia_wins :=
     sampler_pythia_wins e; cycles := cycles e |}.

Definition set_prefetch_allowed_count (v : Z) (e : t) : t :=
  {| pref_transformer := pref_transformer e; pref_pythia := pref_pythia e; NUM_SET := NUM_SET e;
     NUM_WAY := NUM_WAY e; prefetch_allowed_count := v; prefetch_throttled_count :=
     prefetch_throttled_count e; high_bw_events := high_bw_events e; low_accuracy_events :=
     low_accuracy_events e; samplers := samplers e; dedicated_stats := dedicated_stats e;
     policy_selector := policy_selector e; transformer_selected_count :=
     transformer_selected_count e; pythia_selected_count := pythia_selected_count e;
     sampler_transformer_wins := sampler_transformer_wins e; sampler_pythia_wins :=
     sampler_pythia_wins e; cycles := cycles e |}.

Definition set_prefetch_throttled_count (v : Z) (e : t) : t :=
  {| pref_transformer := pref_transformer e; pref_pythia := pref_pythia e; NUM_SET := NUM_SET e;
     NUM_WAY := NUM_WAY e; prefetch_allowed_count := prefetch_allowed_count e;
     prefetch_throttled_count := v; high_bw_events := high_bw_events e; low_accuracy_events :=
     low_accuracy_events e; samplers := samplers e; dedicated_stats := dedicated_stats e;
     policy_selector := policy_selector e; transformer_selected_count :=
     transformer_selected_count e; pythia_selected_count := pythia_selected_count e;
     sampler_transformer_wins := sampler_transformer_wins e; sampler_pythia_wins :=
     sampler_pythia_wins e; cycles := cycles e |}.

Definition set_high_bw_events (v : Z) (e : t) : t :=
  {| pref_transformer := pref_transformer e; pref_pythia := pref_pythia e; NUM_SET := NUM_SET e;
     NUM_WAY := NUM_WAY e; prefetch_allowed_count := prefetch_allowed_count e;
     prefetch_throttled_count := prefetch_throttled_count e; high_bw_events := v;
     low_accuracy_events := low_accuracy_events e; samplers := samplers e; dedicated_stats :=
     dedicated_stats e; policy_selector := policy_selector e; transformer_selected_count :=
     transformer_selected_count e; pythia_selected_count := pythia_selected_count e;
     sampler_transformer_wins := sampler_transformer_wins e; sampler_pythia_wins :=
     sampler_pythia_wins e; cycles := cycles e |}.

Definition set_low_accuracy_events (v : Z) (e : t) : t :=
  {| pref_transformer := pref_transformer e; pref_pythia := pref_pythia e; NUM_SET := NUM_SET e;
     NUM_WAY := NUM_WAY e; prefetch_allowed_count := prefetch_allowed_count e;
     prefetch_throttled_count := prefetch_throttled_count e; high_bw_events := high_bw_events e;
     low_accuracy_events := v; samplers := samplers e; dedicated_stats := dedicated_stats e;
     policy_selector := policy_selector e; transformer_selected_count :=
     transformer_selected_count e; pythia_selected_count := pythia_selected_count e;
     sampler_transformer_wins := sampler_transformer_wins e; sampler_pythia_wins :=
     sampler_pythia_wins e; cycles := cycles e |}.

Definition set_samplers (v : list sampler_entry.t) (e : t) : t :=
  {| pref_transformer := pref_transformer e; pref_pythia := pref_pythia e; NUM_SET := NUM_SET e;
     NUM_WAY := NUM_WAY e; prefetch_allowed_count := prefetch_allowed_count e;
     prefetch_throttled_count := prefetch_throttled_count e; high_bw_events := high_bw_events e;
     low_accuracy_events := low_accuracy_events e; samplers := v; dedicated_stats :=
     dedicated_stats e; policy_selector := policy_selector e; transformer_selected_count :=
     transformer_selected_count e; pythia_selected_count := pythia_selected_count e;
     sampler_transformer_wins := sampler_transformer_wins e; sampler_pythia_wins :=
     sampler_pythia_wins e; cycles := cycles e |}.

Definition set_dedicated_stats (v : dedicated_set_stats.t) (e : t) : t :=
  {| pref_transformer := pref_transformer e; pref_pythia := pref_pythia e; NUM_SET := NUM_SET e;
     NUM_WAY := NUM_WAY e; prefetch_allowed_count := prefetch_allowed_count e;
     prefetch_throttled_count := prefetch_throttled_count e; high_bw_events := high_bw_events e;
     low_accuracy_events := low_accuracy_events e; samplers := samplers e; dedicated_stats := v;
     policy_selector := policy_selector e; transformer_selected_count :=
     transformer_selected_count e; pythia_selected_count := pythia_selected_count e;
     sampler_transformer_wins := sampler_transformer_wins e; sampler_pythia_wins :=
     sampler_pythia_wins e; cycles := cycles e |}.

Definition set_policy_selector (v : Z) (e : t) : t :=
  {| pref_transformer := pref_transformer e; pref_pythia := pref_pythia e; NUM_SET := NUM_SET e;
     NUM_WAY := NUM_WAY e; prefetch_allowed_count := prefetch_allowed_count e;
     prefetch_throttled_count := prefetch_throttled_count e; high_bw_events := high_bw_events e;
     low_accuracy_events := low_accuracy_events e; samplers := samplers e; dedicated_stats :=
     dedicated_stats e; policy_selector := v; transformer_selected_count :=
     transformer_selected_count e; pythia_selected_count := pythia_selected_count e;
     sampler_transformer_wins := sampler_transformer_wins e; sampler_pythia_wins :=
     sampler_pythia_wins e; cycles := cycles e |}.

Definition set_transformer_selected_count (v : Z) (e : t) : t :=
  {| pref_transformer := pref_transformer e; pref_pythia := pref_pythia e; NUM_SET := NUM_SET e;
     NUM_WAY := NUM_WAY e; prefetch_allowed_count := prefetch_allowed_count e;
     prefetch_throttled_count := prefetch_throttled_count e; high_bw_events := high_bw_events e;
     low_accuracy_events := low_accuracy_events e; samplers := samplers e; dedicated_stats :=
     dedicated_stats e; policy_selector := policy_selector e; transformer_selected_count := v;
     pythia_selected_count := pythia_selected_count e; sampler_transformer_wins :=
     sampler_transformer_wins e; sampler_pythia_wins := sampler_pythia_wins e; cycles := cycles
     e |}.

Definition set_pythia_selected_count (v : Z) (e : t) : t :=
  {| pref_transformer := pref_transformer e; pref_pythia := pref_pythia e; NUM_SET := NUM_SET e;
     NUM_WAY := NUM_WAY e; prefetch_allowed_count := prefetch_allowed_count e;
     prefetch_throttled_count := prefetch_throttled_count e; high_bw_events := high_bw_events e;
     low_accuracy_events := low_accuracy_events e; samplers := samplers e; dedicated_stats :=
     dedicated_stats e; policy_selector := policy_selector e; transformer_selected_count :=
     transformer_selected_count e; pythia_selected_count := v; sampler_transformer_wins :=
     sampler_transformer_wins e; sampler_pythia_wins := sampler_pythia_wins e; cycles := cycles
     e |}.

Definition set_sampler_transformer_wins (v : Z) (e : t) : t :=
  {| pref_transformer := pref_transformer e; pref_pythia := pref_pythia e; NUM_SET := NUM_SET e;
     NUM_WAY := NUM_WAY e; prefetch_allowed_count := prefetch_allowed_count e;
     prefetch_throttled_count := prefetch_throttled_count e; high_bw_events := high_bw_events e;
     low_accuracy_events := low_accuracy_events e; samplers := samplers e; dedicated_stats :=
     dedicated_stats e; policy_selector := policy_selector e; transformer_selected_count :=
     transformer_selected_count e; pythia_selected_count := pythia_selected_count e;
     sampler_transformer_wins := v; sampler_pythia_wins := sampler_pythia_wins e; cycles :=
     cycles e |}.

Definition set_sampler_pythia_wins (v : Z) (e : t) : t :=
  {| pref_transformer := pref_transformer e; pref_pythia := pref_pythia e; NUM_SET := NUM_SET e;
     NUM_WAY := NUM_WAY e; prefetch_allowed_count := prefetch_allowed_count e;
     prefetch_throttled_count := prefetch_throttled_count e; high_bw_events := high_bw_events e;
     low_accuracy_events := low_accuracy_events e; samplers := samplers e; dedicated_stats :=
     dedicated_stats e; policy_selector := policy_selector e; transformer_selected_count :=
     transformer_selected_count e; pythia_selected_count := pythia_selected_count e;
     sampler_transformer_wins := sampler_transformer_wins e; sampler_pythia_wins := v; cycles :=
     cycles e |}.

Definition set_cycles (v : Z) (e : t) : t :=
  {| pref_transformer := pref_transformer e; pref_pythia := pref_pythia e; NUM_SET := NUM_SET e;
     NUM_WAY := NUM_WAY e; prefetch_allowed_count := prefetch_allowed_count e;
     prefetch_throttled_count := prefetch_throttled_count e; high_bw_events := high_bw_events e;
     low_accuracy_events := low_accuracy_events e; samplers := samplers e; dedicated_stats :=
     dedicated_stats e; policy_selector := policy_selector e; transformer_selected_count :=
     transformer_selected_count e; pythia_selected_count := pythia_selected_count e;
     sampler_transformer_wins := sampler_transformer_wins e; sampler_pythia_wins :=
     sampler_pythia_wins e; cycles := v |}.

#[local] Unset Implicit Arguments.

Definition update_sampler (i : Z) (f : sampler_entry.t -> sampler_entry.t) (s : t) : t :=
  set_samplers (array_set (samplers s) i (f (array_get sampler_entry.default (samplers s) i))) s.
Definition update_dedicated (f : dedicated_set_stats.t -> dedicated_set_stats.t) (s : t) : t :=
  set_dedicated_stats (f (dedicated_stats s)) s.

Definition use_transformer_for_set (s : t) (set : Z) : bool :=
  if is_transformer_dedicated_set (NUM_SET s) set then true
  else if is_pythia_dedicated_set (NUM_SET s) set || is_sampler_set (NUM_SET s) set
  then negb (get_set_sample_category (NUM_SET s) set =? 2)
  else policy_selector s >=? 0.

Definition use_pythia_for_set (s : t) (set : Z) : bool := negb (use_transformer_for_set s set).

Definition prefetcher_initialize (w : World) : t * World :=
  let num_set := intern_NUM_SET w in
  let num_way := intern_NUM_WAY w in
  let transformer := transformer_stream.prefetcher_initialize transformer_stream.construct in
  let '(pythia, w) := pythia_initialize w in
  ({| pref_transformer := transformer;
      pref_pythia := pythia;
      NUM_SET := num_set;
      NUM_WAY := num_way;
      prefetch_allowed_count := 0;
      prefetch_throttled_count := 0;
      high_bw_events := 0;
      low_accuracy_events := 0;
      samplers := replicate (Z.to_nat (get_num_sampled_sets num_set)) sampler_entry.default;
      dedicated_stats := dedicated_set_stats.default;
      policy_selector := 0;
      transformer_selected_count := 0;
      pythia_selected_count := 0;
      sampler_transformer_wins := 0;
      sampler_pythia_wins := 0;
      cycles := 0 |}, w).

Definition get_bandwidth_utilization (w : World) : float :=
  (double_of_Z (get_dram_bw w) / 16)%float.

Definition get_prefetch_accuracy (s : t) : float :=
  let useful := u64 (dedicated_set_stats.transformer_useful (dedicated_stats s) +
                     dedicated_set_stats.pythia_useful (dedicated_stats s)) in
  let issued := u64 (dedicated_set_stats.transformer_issued (dedicated_stats s) +
                     dedicated_set_stats.pythia_issued (dedicated_stats s)) in
  let '(useful, issued) :=
    fold_left
      (fun '(useful, issued) e =>
         (u64 (useful + u64 (sampler_entry.transformer_useful e + sampler_entry.pythia_useful e)),
          u64 (issued + u64 (sampler_entry.transformer_issued e + sampler_entry.pythia_issued e))))
      (samplers s) (useful, issued) in
  if issued =? 0 then 1%float else (double_of_Z useful / double_of_Z issued)%float.

Definition should_allow_prefetch (s : t) (w : World) : t * bool :=
  let bw := get_bandwidth_utilization w in
  let acc := get_prefetch_accuracy s in
  let bw_ok := PrimFloat.ltb bw BW_UTIL_THRESHOLD in
  let acc_ok := PrimFloat.ltb bw acc || PrimFloat.ltb MIN_ACCURACY_THRESHOLD acc in
  let s := if negb bw_ok then set_high_bw_events (u64 (high_bw_events s + 1)) s else s in
  let s := if negb acc_ok then set_low_accuracy_events (u64 (low_accuracy_events s + 1)) s else s in
  let allow := bw_ok && acc_ok in
  let s :=
    if allow then set_prefetch_allowed_count (u64 (prefetch_allowed_count s + 1)) s
    else set_prefetch_throttled_count (u64 (prefetch_throttled_count s + 1)) s in
  (s, allow).

(** The [if (useful_prefetch && cache_hit) { ... }] block of
    [prefetcher_cache_operate] (lines 69-76), for the set [set]. *)
Definition credit_useful_prefetch (s : t) (set : Z) : t :=
  if is_sampler_set (NUM_SET s) set then
    let idx := set ÷ get_set_sample_rate (NUM_SET s) in
    if idx <? Z.of_nat (length (samplers s)) then
      update_sampler idx
        (fun e => sampler_entry.set_transformer_useful
                    (u64 (sampler_entry.transformer_useful e + 1)) e) s
    else s
  else if is_transformer_dedicated_set (NUM_SET s) set then
    update_dedicated
      (fun d => dedicated_set_stats.set_transformer_useful
                  (u64 (dedicated_set_stats.transformer_useful d + 1)) d) s
  else if is_pythia_dedicated_set (NUM_SET s) set then
    update_dedicated
      (fun d => dedicated_set_stats.set_pythia_useful
                  (u64 (dedicated_set_stats.pythia_useful d + 1)) d) s
  else if policy_selector s >=? 0 then
    update_dedicated
      (fun d => dedicated_set_stats.set_transformer_useful
                  (u64 (dedicated_set_stats.transformer_useful d + 1)) d) s
  else
    update_dedicated
      (fun d => dedicated_set_stats.set_pythia_useful
                  (u64 (dedicated_set_stats.pythia_useful d + 1)) d) s.

(** [set] as [prefetcher_cache_operate] derives it from the address. *)
Definition set_of_address (s : t) (addr : Z) : Z :=
  i64 (Z.land (Z.shiftr addr LOG2_BLOCK_SIZE) (u64 (NUM_SET s - 1))).

Definition prefetcher_cache_operate (s : t) (w : World) (addr ip : Z) (cache_hit : Z)
    (useful_prefetch : bool) (type : access_type) (metadata_in : Z) : t * World * Z :=
  let set := set_of_address s addr in
  let s :=
    if useful_prefetch && negb (cache_hit =? 0) then credit_useful_prefetch s set else s in
  let '(s, allow) := should_allow_prefetch s w in
  if negb allow then (s, w, metadata_in)
  else if is_sampler_set (NUM_SET s) set || use_transformer_for_set s set then
    let s := set_transformer_selected_count (u64 (transformer_selected_count s + 1)) s in
    let '(transformer, w, metadata_out) :=
      transformer_stream.prefetcher_cache_operate World get_mshr_occupancy_ratio prefetch_line
        LOG2_BLOCK_SIZE access_type (pref_transformer s) w
        addr ip cache_hit useful_prefetch type metadata_in in
    (set_pref_transformer transformer s, w, tag_metadata_transformer metadata_out)
  else
    let s := set_pythia_selected_count (u64 (pythia_selected_count s + 1)) s in
    let '(pythia, w, metadata_out) :=
      pythia_cache_operate (pref_pythia s) w addr ip cache_hit useful_prefetch type metadata_in in
    (set_pref_pythia pythia s, w, tag_metadata_pythia metadata_out).

(** The [if (prefetch) { ... }] block of [prefetcher_cache_fill]
    (lines 92-99). *)
Definition count_issued_prefetch (s : t) (set : Z) : t :=
  if is_sampler_set (NUM_SET s) set then
    let idx := set ÷ get_set_sample_rate (NUM_SET s) in
    if idx <? Z.of_nat (length (samplers s)) then
      update_sampler idx
        (fun e => sampler_entry.set_transformer_issued
                    (u64 (sampler_entry.transformer_issued e + 1)) e) s
    else s
  else if is_transformer_dedicated_set (NUM_SET s) set then
    update_dedicated
      (fun d => dedicated_set_stats.set_transformer_issued
                  (u64 (dedicated_set_stats.transformer_issued d + 1)) d) s
  else if is_pythia_dedicated_set (NUM_SET s) set then
    update_dedicated
      (fun d => dedicated_set_stats.set_pythia_issued
                  (u64 (dedicated_set_stats.pythia_issued d + 1)) d) s
  else if policy_selector s >=? 0 then
    update_dedicated
      (fun d => dedicated_set_stats.set_transformer_issued
                  (u64 (dedicated_set_stats.transformer_issued d + 1)) d) s
  else
    update_dedicated
      (fun d => dedicated_set_stats.set_pythia_issued
                  (u64 (dedicated_set_stats.pythia_issued d + 1)) d) s.

Definition prefetcher_cache_fill (s : t) (w : World) (addr set way : Z) (prefetch : Z)
    (evicted_addr : Z) (metadata_in : Z) : t * World * Z :=
  let s := if negb (prefetch =? 0) then count_issued_prefetch s set else s in
  let '(transformer, w, _) :=
    transformer_stream.prefetcher_cache_fill World (pref_transformer s) w
      addr set way prefetch evicted_addr metadata_in in
  let '(pythia, w, _) :=
    pythia_cache_fill (pref_pythia s) w addr set way prefetch evicted_addr metadata_in in
  (s |> set_pref_transformer transformer |> set_pref_pythia pythia, w, metadata_in).

Definition update_policy_selector (s : t) : t :=
  let t_u := dedicated_set_stats.transformer_useful (dedicated_stats s) in
  let t_i := dedicated_set_stats.transformer_issued (dedicated_stats s) in
  let p_u := dedicated_set_stats.pythia_useful (dedicated_stats s) in
  let p_i := dedicated_set_stats.pythia_issued (dedicated_stats s) in
  let '(t_u, t_i, p_u, p_i) :=
    fold_left
      (fun '(t_u, t_i, p_u, p_i) e =>
         (u64 (t_u + sampler_entry.transformer_useful e),
          u64 (t_i + sampler_entry.transformer_issued e),
          u64 (p_u + sampler_entry.pythia_useful e),
          u64 (p_i + sampler_entry.pythia_issued e)))
      (samplers s) (t_u, t_i, p_u, p_i) in
  if (t_i <? 100) || (p_i <? 100) then s
  else
    let t_s := ((double_of_Z t_u / double_of_Z t_i) * (1 + std_log (1 + double_of_Z t_u)))%float in
    let p_s := ((double_of_Z p_u / double_of_Z p_i) * (1 + std_log (1 + double_of_Z p_u)))%float in
    if PrimFloat.ltb (p_s * 1.05)%float t_s then
      s |> set_policy_selector (Z.min (policy_selector s + 1) POLICY_MAX)
        |> set_sampler_transformer_wins (u64 (sampler_transformer_wins s + 1))
    else if PrimFloat.ltb (t_s * 1.05)%float p_s then
      s |> set_policy_selector (Z.max (policy_selector s - 1) POLICY_MIN)
        |> set_sampler_pythia_wins (u64 (sampler_pythia_wins s + 1))
    else s.

Definition prefetcher_cycle_operate (s : t) (w : World) : t * World :=
  let s := set_cycles (u64 (cycles s + 1)) s in
  let s := if cycles s mod 5000 =? 0 then update_policy_selector s else s in
  let '(transformer, w) :=
    transformer_stream.prefetcher_cycle_operate World get_mshr_occupancy_ratio prefetch_line
      LOG2_BLOCK_SIZE (pref_transformer s) w in
  let '(pythia, w) := pythia_cycle_operate (pref_pythia s) w in
  (s |> set_pref_transformer transformer |> set_pref_pythia pythia, w).

Definition prefetcher_final_stats (s : t) (w : World) : t * World :=
  let '(transformer, w) := transformer_stream.prefetcher_final_stats World (pref_transformer s) w in
  let '(pythia, w) := pythia_final_stats (pref_pythia s) w in
  (s |> set_pref_transformer transformer |> set_pref_pythia pythia, w).

(** The counters behind the accuracy: useful and issued prefetches of both
    sources, over the dedicated statistics and all samplers, as 64-bit sums. *)
Definition total_useful (s : t) : Z :=
  u64 (dedicated_set_stats.transformer_useful (dedicated_stats s) +
       dedicated_set_stats.pythia_useful (dedicated_stats s) +
       foldr (fun e acc => sampler_entry.transformer_useful e +
                           sampler_entry.pythia_useful e + acc) 0 (samplers s)).

Definition total_issued (s : t) : Z :=
  u64 (dedicated_set_stats.transformer_issued (dedicated_stats s) +
       dedicated_set_stats.pythia_issued (dedicated_stats s) +
       foldr (fun e acc => sampler_entry.transformer_issued e +
                           sampler_entry.pythia_issued e + acc) 0 (samplers s)).

(** The states the selector can be in. *)
Inductive reachable : t -> Prop :=
| reachable_initialize w :
    reachable (prefetcher_initialize w).1
| reachable_cache_operate s w addr ip cache_hit useful_prefetch type metadata_in :
    reachable s ->
    reachable (prefetcher_cache_operate s w addr ip cache_hit useful_prefetch type metadata_in).1.1
| reachable_cache_fill s w addr set way prefetch evicted_addr metadata_in :
    reachable s ->
    reachable (prefetcher_cache_fill s w addr set way prefetch evicted_addr metadata_in).1.1
| reachable_cycle_operate s w :
    reachable s -> reachable (prefetcher_cycle_operate s w).1
| reachable_final_stats s w :
    reachable s -> reachable (prefetcher_final_stats s w).1.

End Host.

End transformer_pythia_selector_bw.

(** ** A concrete host for running the model

    A host whose MSHR is empty and which accepts every prefetch; its state
    is the list of prefetches issued so far, newest first. *)
Module TestHost.

Definition World : Type := list (Z * bool * Z).
Definition get_mshr_occupancy_ratio (w : World) : float := 0%float.
Definition prefetch_line (w : World) (pf_addr : Z) (fill_this_level : bool) (metadata : Z)
    : World * bool :=
  ((pf_addr, fill_this_level, metadata) :: w, true).
Definition LOG2_BLOCK_SIZE : Z := 6.

Definition cache_operate (s : transformer_stream.t) (w : World) (addr : Z) (cache_hit : Z)
    : transformer_stream.t * World * Z :=
  transformer_stream.prefetcher_cache_operate World get_mshr_occupancy_ratio prefetch_line
    LOG2_BLOCK_SIZE unit s w addr 0 cache_hit false tt 0.

(** Misses at the given block numbers, one after the other. *)
Definition misses (blocks : list Z) (s : transformer_stream.t) (w : World)
    : transformer_stream.t * World :=
  fold_left
    (fun '(s, w) b => let '(s, w, _) := cache_operate s w (Z.shiftl b LOG2_BLOCK_SIZE) 0 in (s, w))
    blocks (s, w).

Definition initial : transformer_stream.t :=
  transformer_stream.prefetcher_initialize transformer_stream.construct.

(** The same host for the selector: a cache of 2048 sets and 16 ways whose
    DRAM bandwidth reading is the constant [bw], and a Pythia that does
    nothing and hands the metadata back.  The runs below never reach a
    policy update, so any function serves as [std::log]. *)
Definition NUM_SET (w : World) : Z := 2048.
Definition NUM_WAY (w : World) : Z := 16.
Definition get_dram_bw (bw : Z) (w : World) : Z := bw.
Definition std_log (x : float) : float := x.

Definition Pythia : Type := unit.
Definition pythia_initialize (w : World) : Pythia * World := (tt, w).
Definition pythia_cache_operate (p : Pythia) (w : World) (addr ip cache_hit : Z)
    (useful_prefetch : bool) (type : unit) (metadata_in : Z) : Pythia * World * Z :=
  (p, w, metadata_in).
Definition pythia_cache_fill (p : Pythia) (w : World) (addr set way prefetch evicted_addr
    metadata_in : Z) : Pythia * World * Z :=
  (p, w, metadata_in).
Definition pythia_cycle_operate (p : Pythia) (w : World) : Pythia * World := (p, w).
Definition pythia_final_stats (p : Pythia) (w : World) : Pythia * World := (p, w).

Definition selector_initial : transformer_pythia_selector_bw.t Pythia :=
  (transformer_pythia_selector_bw.prefetcher_initialize World NUM_SET NUM_WAY
     Pythia pythia_initialize []).1.

Definition selector_cache_operate (bw : Z) (s : transformer_pythia_selector_bw.t Pythia)
    (w : World) (addr cache_hit : Z) (useful_prefetch : bool) (metadata_in : Z)
    : transformer_pythia_selector_bw.t Pythia * World * Z :=
  transformer_pythia_selector_bw.prefetcher_cache_operate World get_mshr_occupancy_ratio
    prefetch_line LOG2_BLOCK_SIZE unit (get_dram_bw bw) Pythia pythia_cache_operate
    s w addr 0 cache_hit useful_prefetch tt metadata_in.

Definition selector_cache_fill (s : transformer_pythia_selector_bw.t Pythia)
    (w : World) (set prefetch metadata_in : Z)
    : transformer_pythia_selector_bw.t Pythia * World * Z :=
  transformer_pythia_selector_bw.prefetcher_cache_fill World Pythia pythia_cache_fill
    s w (Z.shiftl set LOG2_BLOCK_SIZE) set 0 prefetch 0 metadata_in.

(** The miss blocks of [n] stride-1 streams, three misses each, in regions
    1000 blocks apart starting at block [1000 * k]. *)
Fixpoint stream_misses (n : nat) (k : Z) : list Z :=
  match n with
  | O => []
  | S n => [1000 * k; 1000 * k + 1; 1000 * k + 2] ++ stream_misses n (k + 1)
  end.

(** Nine stride-1 streams: one more than a group holds. *)
Definition nine_streams : transformer_stream.t :=
  (misses (stream_misses 9 1) initial []).1.

(** [n] single misses, each in a region of its own far from the streams
    above: they train nothing. *)
Fixpoint scattered_misses (n : nat) (k : Z) : list Z :=
  match n with
  | O => []
  | S n => (1000000 + 8 * k) :: scattered_misses n (k + 1)
  end.

(** Five streams that are never touched again, then 1068 scattered misses:
    the periodic cleanup at miss 1024 finds the five streams dead and
    terminates them in one sweep, and the window that ends at miss 1083
    detects the phase transition. *)
Definition cleanup_burst : transformer_stream.t :=
  (misses (stream_misses 5 1 ++ scattered_misses 1068 0) initial []).1.

End TestHost.


(** ** Consistency of the prefetcher's tables

    What the operations of [transformer_stream] maintain of each table
    entry, of the phase detector and of the two counters of the miss path. *)
Module Consistency.
Import transformer_stream.

(** A stream entry: its confidence stays in [1 .. MAX_CONFIDENCE], only a
    valid entry is active, and a valid entry is a unit-stride stream of
    class DENSE or MEDIUM whose prefetch frontier has not passed its end. *)
Definition stream_entry_ok (e : TransformerStreamEntry.t) : Prop :=
  1 <= TransformerStreamEntry.confidence_score e <= MAX_CONFIDENCE /\
  (TransformerStreamEntry.active e = true -> TransformerStreamEntry.valid e = true) /\
  (TransformerStreamEntry.valid e = true ->
     TransformerStreamEntry.stride e = 1 /\
     (TransformerStreamEntry.stream_class e = StreamClass.DENSE \/
      TransformerStreamEntry.stream_class e = StreamClass.MEDIUM) /\
     match TransformerStreamEntry.direction e with
     | StreamDirection.POSITIVE =>
         TransformerStreamEntry.current_prefetch_block e <= TransformerStreamEntry.stream_end_block e
     | StreamDirection.NEGATIVE =>
         TransformerStreamEntry.stream_end_block e <= TransformerStreamEntry.current_prefetch_block e
     | StreamDirection.UNKNOWN => False
     end).

(** The blocks a stream may still prefetch: those beyond its prefetch
    frontier, up to its end. *)
Definition ahead_of_frontier (e : TransformerStreamEntry.t) (block : Z) : Prop :=
  match TransformerStreamEntry.direction e with
  | StreamDirection.POSITIVE =>
      TransformerStreamEntry.current_prefetch_block e < block
        <= TransformerStreamEntry.stream_end_block e
  | _ =>
      TransformerStreamEntry.stream_end_block e <= block
        < TransformerStreamEntry.current_prefetch_block e
  end.

(** A training entry between two misses: one or two misses recorded, all
    of them in the entry's region, and no direction, stride or pattern
    confidence yet. *)
Definition training_entry_ok (e : TrainingEntry.t) : Prop :=
  TrainingEntry.valid e = true ->
  (TrainingEntry.miss_count e = 1 \/ TrainingEntry.miss_count e = 2) /\
  TrainingEntry.direction e = StreamDirection.UNKNOWN /\
  TrainingEntry.stride e = 1 /\
  TrainingEntry.pattern_confidence e = 0 /\
  compute_region_base (TrainingEntry.last_miss_block e) = TrainingEntry.region_base e /\
  (TrainingEntry.miss_count e = 2 ->
   compute_region_base (TrainingEntry.second_last_miss_block e) = TrainingEntry.region_base e).

(** A recorded pattern is that of a unit-stride stream. *)
Definition pattern_entry_ok (p : PatternHistoryEntry.t) : Prop :=
  PatternHistoryEntry.valid p = true ->
  PatternHistoryEntry.stride p = 1 /\
  PatternHistoryEntry.direction p <> StreamDirection.UNKNOWN.

(** A valid group is a group of unit-stride streams of one direction. *)
Definition group_entry_ok (g : StreamGroup.t) : Prop :=
  StreamGroup.valid g = true ->
  StreamGroup.stride g = 1 /\
  StreamGroup.direction g <> StreamDirection.UNKNOWN /\
  (StreamGroup.typical_class g = StreamClass.DENSE \/
   StreamGroup.typical_class g = StreamClass.MEDIUM).

(** No two valid groups have the same direction and stride. *)
Definition groups_distinct (gs : list StreamGroup.t) : Prop :=
  forall j1 j2,
    0 <= j1 < Z.of_nat (length gs) -> 0 <= j2 < Z.of_nat (length gs) ->
    StreamGroup.valid (array_get StreamGroup.default gs j1) = true ->
    StreamGroup.valid (array_get StreamGroup.default gs j2) = true ->
    StreamGroup.direction (array_get StreamGroup.default gs j1) =
    StreamGroup.direction (array_get StreamGroup.default gs j2) ->
    StreamGroup.stride (array_get StreamGroup.default gs j1) =
    StreamGroup.stride (array_get StreamGroup.default gs j2) ->
    j1 = j2.

(** The phase detector: the degree follows the transition flag, and a
    window never holds more terminations than updates. *)
Definition phase_degree_ok (p : PhaseState.t) : Prop :=
  PhaseState.current_prefetch_degree p =
    (if PhaseState.in_phase_transition p then MIN_PREFETCH_DEGREE else BASE_PREFETCH_DEGREE) /\
  0 <= PhaseState.streams_terminated_in_window p <= PhaseState.misses_in_window p.

(** The stream side of the object: everything but the training table and
    the two counters of the miss path. *)
Definition streams_ok (s : t) : Prop :=
  Forall stream_entry_ok (stream_table s) /\
  Forall group_entry_ok (stream_groups s) /\
  groups_distinct (stream_groups s) /\
  Forall pattern_entry_ok (pattern_history s) /\
  length (pattern_history s) = Z.to_nat PATTERN_HISTORY_SIZE /\
  0 <= pattern_history_head s < PATTERN_HISTORY_SIZE /\
  phase_ok (phase_state s) /\
  phase_degree_ok (phase_state s).

(** What the operations on streams, groups, patterns and the phase
    detector leave alone: the training table and the counters of the miss
    path. *)
Definition same_training_and_clock (s s' : t) : Prop :=
  training_table s' = training_table s /\
  current_timestamp s' = current_timestamp s /\
  cleanup_counter s' = cleanup_counter s.

(** The miss counter and the cleanup counter run in step. *)
Definition clock_ok (s : t) : Prop :=
  0 <= current_timestamp s < 2 ^ 64 /\
  cleanup_counter s = current_timestamp s mod CLEANUP_INTERVAL.

Definition consistent (s : t) : Prop :=
  streams_ok s /\
  Forall training_entry_ok (training_table s) /\
  length (training_table s) = Z.to_nat TRAINING_TABLE_SIZE /\
  clock_ok s.

End Consistency.

(** ** Consistency of the selector's counters

    The Pythia counters of the samplers are never written, the sampler
    vector keeps the size [prefetcher_initialize] gave it, and every
    allowed access is counted for exactly one of the two prefetchers. *)
Module SelectorConsistency.
Import transformer_pythia_selector_bw.

Definition selector_ok {Pythia : Type} (s : t Pythia) : Prop :=
  Forall (fun e => sampler_entry.pythia_useful e = 0 /\ sampler_entry.pythia_issued e = 0)
    (samplers s) /\
  length (samplers s) = Z.to_nat (get_num_sampled_sets (NUM_SET s)) /\
  0 <= dedicated_set_stats.pythia_issued (dedicated_stats s) < 2 ^ 64 /\
  u64 (transformer_selected_count s + pythia_selected_count s) = prefetch_allowed_count s.

End SelectorConsistency.

(** ** A host that records the prefetch requests it receives

    Any host can be wrapped so that the calls of [prefetch_line] become
    observable: the wrapped host behaves as the given one and keeps the
    requests, newest first, each with the answer it got. *)
Module RecordingHost.

Record request : Type := mk_request {
  pf_addr : Z;
  fill_this_level : bool;
  prefetch_metadata : Z;
  success : bool
}.

Section Wrap.

Variable World : Type.
Variable get_mshr_occupancy_ratio : World -> float.
Variable prefetch_line : World -> Z -> bool -> Z -> World * bool.

Definition RWorld : Type := World * list request.

Definition recording_mshr_occupancy_ratio (w : RWorld) : float :=
  get_mshr_occupancy_ratio w.1.

Definition recording_prefetch_line (w : RWorld) (addr : Z) (fill : bool) (metadata : Z)
    : RWorld * bool :=
  let '(w', ok) := prefetch_line w.1 addr fill metadata in
  ((w', mk_request addr fill metadata ok :: w.2), ok).

End Wrap.

(** [log'] is [log] with at most [k] newer requests in front, each of
    which satisfies [P]. *)
Definition appended (k : Z) (P : request -> Prop) (log log' : list request) : Prop :=
  exists new, log' = new ++ log /\ Z.of_nat (length new) <= k /\ Forall P new.

(** A request of the transformer prefetcher: the address of a whole block,
    with metadata 0. *)
Definition block_request (LOG2_BLOCK_SIZE : Z) (P : Z -> Prop) (q : request) : Prop :=
  prefetch_metadata q = 0 /\
  exists block, pf_addr q = Z.shiftl block LOG2_BLOCK_SIZE /\ P block.

End RecordingHost.

(** ** Further runs on the test host *)
Module TestScenarios.

(** The test host, recording: an empty MSHR, every prefetch accepted. *)
Definition RWorld : Type := RecordingHost.RWorld TestHost.World.

Definition recording_cache_operate (s : transformer_stream.t) (w : RWorld) (addr : Z)
    (cache_hit : Z) : transformer_stream.t * RWorld * Z :=
  transformer_stream.prefetcher_cache_operate RWorld
    (RecordingHost.recording_mshr_occupancy_ratio TestHost.World
       TestHost.get_mshr_occupancy_ratio)
    (RecordingHost.recording_prefetch_line TestHost.World TestHost.prefetch_line)
    TestHost.LOG2_BLOCK_SIZE unit s w addr 0 cache_hit false tt 0.

Definition recorded_misses (blocks : list Z) (s : transformer_stream.t) (w : RWorld)
    : transformer_stream.t * RWorld :=
  fold_left
    (fun '(s, w) b =>
       let '(s, w, _) :=
         recording_cache_operate s w (Z.shiftl b TestHost.LOG2_BLOCK_SIZE) 0 in (s, w))
    blocks (s, w).

(** Two misses of an ascending stream: the third one will launch it. *)
Definition two_misses : transformer_stream.t * RWorld :=
  recorded_misses [1000; 1001] TestHost.initial ([], []).

(** The third miss has launched the stream. *)
Definition three_misses : transformer_stream.t * RWorld :=
  recorded_misses [1000; 1001; 1002] TestHost.initial ([], []).

(** A host whose MSHR is full: the same host with occupancy 1. *)
Definition full_mshr_occupancy_ratio (w : TestHost.World) : float := 1%float.

(** Thirty-two streams: the stream table is full. *)
Definition full_table : transformer_stream.t :=
  (TestHost.misses (TestHost.stream_misses 32 1) TestHost.initial []).1.

(** Sixty streams, then 75 single misses: after these 255 misses the stream
    table is full, the prefetcher is in a phase transition with the
    recovery counter at 28, and the next miss is the one the periodic
    cleanup runs on. *)
Definition transition_at_cleanup : transformer_stream.t :=
  (TestHost.misses (TestHost.stream_misses 60 1 ++ TestHost.scattered_misses 75 0)
     TestHost.initial []).1.

(** Three single misses later the recovery counter is at 31. *)
Definition transition_ending : transformer_stream.t :=
  (TestHost.misses (TestHost.stream_misses 60 1 ++ TestHost.scattered_misses 78 0)
     TestHost.initial []).1.

(** Calls of the selector on the test host, at a bandwidth reading of 0:
    prefetch fills and useful prefetch hits in a set, and cycles. *)
Inductive selector_call : Type :=
| PrefetchFill (set : Z)
| UsefulHit (set : Z)
| Cycle.

Definition selector_cycle_operate (s : transformer_pythia_selector_bw.t TestHost.Pythia)
    (w : TestHost.World) : transformer_pythia_selector_bw.t TestHost.Pythia * TestHost.World :=
  transformer_pythia_selector_bw.prefetcher_cycle_operate TestHost.World
    TestHost.get_mshr_occupancy_ratio TestHost.prefetch_line TestHost.LOG2_BLOCK_SIZE
    TestHost.std_log TestHost.Pythia TestHost.pythia_cycle_operate s w.

Definition selector_run (calls : list selector_call)
    (s : transformer_pythia_selector_bw.t TestHost.Pythia) (w : TestHost.World)
    : transformer_pythia_selector_bw.t TestHost.Pythia * TestHost.World :=
  fold_left
    (fun '(s, w) c =>
       match c with
       | PrefetchFill set =>
           let '(s, w, _) := TestHost.selector_cache_fill s w set 1 0 in (s, w)
       | UsefulHit set =>
           let '(s, w, _) :=
             TestHost.selector_cache_operate 0 s w (Z.shiftl set TestHost.LOG2_BLOCK_SIZE)
               1 true 0 in (s, w)
       | Cycle => selector_cycle_operate s w
       end)
    calls (s, w).

(** Set 1 is dedicated to the transformer prefetcher and set 2 to Pythia.
    100 prefetch fills in each, 80 useful hits in set 1 and 10 in set 2,
    then 4999 cycles: the next cycle is the first policy update, and the
    transformer prefetcher wins it. *)
Definition transformer_ahead : transformer_pythia_selector_bw.t TestHost.Pythia :=
  (selector_run
     (repeat (PrefetchFill 1) 100 ++ repeat (PrefetchFill 2) 100 ++
      repeat (UsefulHit 1) 80 ++ repeat (UsefulHit 2) 10 ++ repeat Cycle 4999)
     TestHost.selector_initial []).1.

(** The same with the roles exchanged: Pythia wins the first update. *)
Definition pythia_ahead : transformer_pythia_selector_bw.t TestHost.Pythia :=
  (selector_run
     (repeat (PrefetchFill 1) 100 ++ repeat (PrefetchFill 2) 100 ++
      repeat (UsefulHit 1) 10 ++ repeat (UsefulHit 2) 80 ++ repeat Cycle 4999)
     TestHost.selector_initial []).1.

End TestScenarios.

(** * Properties *)

(** ** Arrays and linear search *)

Section Arrays.
Context {A : Type}.
Implicit Types (l : list A) (d x : A) (i j : Z).

Lemma length_array_set l i x : length (array_set l i x) = length l.
Proof. unfold array_set. destruct (i <? 0); [reflexivity | apply length_insert]. Qed.

Lemma array_get_set_eq d l i x :
  0 <= i < Z.of_nat (length l) -> array_get d (array_set l i x) i = x.
Proof.
  intros Hi. unfold array_get, array_set.
  destruct (Z.ltb_spec i 0); [lia|].
  rewrite list_lookup_insert_eq by lia. reflexivity.
Qed.

Lemma array_get_set_ne d l i j x :
  i <> j -> array_get d (array_set l i x) j = array_get d l j.
Proof.
  intros Hne. unfold array_get, array_set.
  destruct (Z.ltb_spec j 0); [reflexivity|].
  destruct (Z.ltb_spec i 0); [reflexivity|].
  rewrite list_lookup_insert_ne by lia. reflexivity.
Qed.

Lemma array_set_out_of_range l i x :
  ~ (0 <= i < Z.of_nat (length l)) -> array_set l i x = l.
Proof.
  intros Hi. unfold array_set.
  destruct (Z.ltb_spec i 0); [reflexivity|].
  apply list_insert_ge. lia.
Qed.

Lemma array_get_in d l i :
  0 <= i < Z.of_nat (length l) -> In (array_get d l i) l.
Proof.
  intros Hi. unfold array_get. destruct (Z.ltb_spec i 0); [lia|].
  destruct (l !! Z.to_nat i) eqn:E.
  - simpl. apply list_elem_of_In. eapply list_elem_of_lookup_2. exact E.
  - apply lookup_ge_None in E. lia.
Qed.

Lemma array_get_cons d x l i :
  0 <= i -> array_get d (x :: l) (i + 1) = array_get d l i.
Proof.
  intros Hi. unfold array_get.
  destruct (Z.ltb_spec (i + 1) 0); [lia|]. destruct (Z.ltb_spec i 0); [lia|].
  replace (Z.to_nat (i + 1)) with (S (Z.to_nat i)) by lia. reflexivity.
Qed.

Lemma array_get_0 d x l : array_get d (x :: l) 0 = x.
Proof. reflexivity. Qed.

Lemma array_set_cons x l i y :
  0 <= i -> array_set (x :: l) (i + 1) y = x :: array_set l i y.
Proof.
  intros Hi. unfold array_set.
  destruct (Z.ltb_spec (i + 1) 0); [lia|]. destruct (Z.ltb_spec i 0); [lia|].
  replace (Z.to_nat (i + 1)) with (S (Z.to_nat i)) by lia. reflexivity.
Qed.

(** ** Linear search *)

Lemma find_index_from_found (p : A -> bool) l d k r :
  find_index_from p l k = r -> r <> -1 -> 0 <= k ->
  k <= r < k + Z.of_nat (length l) /\ p (array_get d l (r - k)) = true.
Proof.
  revert k. induction l as [|x l IH]; intros k Hr Hne Hk; simpl in *.
  - congruence.
  - destruct (p x) eqn:Hp.
    + subst r. replace (k - k) with 0 by lia. rewrite array_get_0. split; [lia|assumption].
    + destruct (IH (k + 1) Hr Hne ltac:(lia)) as [Hrange Hpr].
      split; [lia|].
      replace (r - k) with ((r - (k + 1)) + 1) by lia.
      rewrite array_get_cons by lia. assumption.
Qed.

Lemma find_index_from_range (p : A -> bool) l k :
  0 <= k -> find_index_from p l k = -1 \/ k <= find_index_from p l k < k + Z.of_nat (length l).
Proof.
  revert k. induction l as [|x l IH]; intros k Hk; simpl.
  - left; reflexivity.
  - destruct (p x); [right; lia|].
    destruct (IH (k + 1) ltac:(lia)) as [->|H]; [left; reflexivity | right; lia].
Qed.

Lemma find_index_from_none (p : A -> bool) l k :
  find_index_from p l k = -1 -> 0 <= k -> Forall (fun x => p x = false) l.
Proof.
  revert k. induction l as [|x l IH]; intros k Hr Hk; simpl in *.
  - constructor.
  - destruct (p x) eqn:Hp; [lia|]. constructor; [assumption|]. eapply IH; [eassumption|lia].
Qed.

Lemma find_index_found (p : A -> bool) l d :
  0 <= find_index p l ->
  find_index p l < Z.of_nat (length l) /\ p (array_get d l (find_index p l)) = true.
Proof.
  intros H. unfold find_index in *.
  destruct (find_index_from_found p l d 0 _ eq_refl ltac:(lia) ltac:(lia)) as [Hr Hp].
  rewrite Z.sub_0_r in Hp. split; [lia|assumption].
Qed.

Lemma find_index_not_found (p : A -> bool) l :
  ~ (0 <= find_index p l) -> Forall (fun x => p x = false) l.
Proof.
  intros H. unfold find_index in *.
  destruct (find_index_from_range p l 0 ltac:(lia)) as [E|E]; [|lia].
  eapply find_index_from_none; [exact E|lia].
Qed.

Lemma indices_range l i : In i (indices l) -> 0 <= i < Z.of_nat (length l).
Proof.
  unfold indices. rewrite in_map_iff. intros (n & <- & Hn).
  apply in_seq in Hn. lia.
Qed.

End Arrays.

(** ** Member lists *)

Section MemberLists.
Import transformer_stream.
Implicit Types (l : list Z) (x m i : Z).

Lemma count_nonneg_range l : 0 <= count_nonneg l <= Z.of_nat (length l).
Proof. induction l as [|m l IH]; simpl; [lia|]. destruct (m >=? 0); lia. Qed.

Lemma occurrences_range x l : 0 <= occurrences x l <= Z.of_nat (length l).
Proof. induction l as [|m l IH]; simpl; [lia|]. destruct (m =? x); lia. Qed.

Lemma occurrences_le_count x l : 0 <= x -> occurrences x l <= count_nonneg l.
Proof.
  intros Hx. induction l as [|m l IH]; simpl; [lia|].
  destruct (Z.eqb_spec m x); destruct (Z.geb_spec m 0); lia.
Qed.

Lemma count_nonneg_replicate n : count_nonneg (replicate n (-1)) = 0.
Proof. induction n; simpl; lia. Qed.

Lemma count_nonneg_set l i y :
  0 <= i < Z.of_nat (length l) ->
  count_nonneg (array_set l i y) =
  count_nonneg l - (if array_get 0 l i >=? 0 then 1 else 0) + (if y >=? 0 then 1 else 0).
Proof.
  revert i. induction l as [|m l IH]; intros i Hi; simpl in *; [lia|].
  destruct (Z.eq_dec i 0) as [->|Hne].
  - unfold array_set, array_get; simpl. destruct (m >=? 0), (y >=? 0); lia.
  - replace i with ((i - 1) + 1) by lia.
    rewrite array_set_cons, array_get_cons by lia. simpl.
    rewrite IH by lia. lia.
Qed.

Lemma occurrences_set x l i y :
  0 <= i < Z.of_nat (length l) ->
  occurrences x (array_set l i y) =
  occurrences x l - (if array_get 0 l i =? x then 1 else 0) + (if y =? x then 1 else 0).
Proof.
  revert i. induction l as [|m l IH]; intros i Hi; simpl in *; [lia|].
  destruct (Z.eq_dec i 0) as [->|Hne].
  - unfold array_set, array_get; simpl. destruct (m =? x), (y =? x); lia.
  - replace i with ((i - 1) + 1) by lia.
    rewrite array_set_cons, array_get_cons by lia. simpl.
    rewrite IH by lia. lia.
Qed.

Lemma occurrences_none x l :
  Forall (fun m => (m =? x) = false) l -> occurrences x l = 0.
Proof. induction 1 as [|m l Hm _ IH]; simpl; [reflexivity|]. rewrite Hm, IH. reflexivity. Qed.

Lemma occurrences_in x l : 0 < occurrences x l <-> In x l.
Proof.
  induction l as [|m l IH]; simpl; [split; [lia|tauto]|].
  destruct (Z.eqb_spec m x).
  - pose proof (occurrences_range x l). split; [auto | lia].
  - rewrite Z.add_0_l, IH. split; [auto | intros [?|?]; [contradiction|assumption]].
Qed.

End MemberLists.

(** ** The stream and group tables *)

Section GroupTables.
Import transformer_stream.

#[local] Abbreviation sget := (array_get TransformerStreamEntry.default).
#[local] Abbreviation gget := (array_get StreamGroup.default).

Implicit Types (ss : list TransformerStreamEntry.t) (gs : list StreamGroup.t).

Ltac sizes :=
  unfold STREAM_TABLE_SIZE, MAX_STREAM_GROUPS, MAX_STREAMS_PER_GROUP in *.

Lemma u32_small z : 0 <= z < 2 ^ 32 -> u32 z = z.
Proof. intros H. unfold u32. apply Z.mod_small. lia. Qed.

(** Writing a stream entry: fine as long as an invalid entry is ungrouped
    and an entry that some group lists points back to that group. *)
Lemma groups_ok_set_stream ss gs i e' :
  groups_ok ss gs ->
  (TransformerStreamEntry.valid e' = false -> TransformerStreamEntry.group_id e' = -1) ->
  (forall j, 0 <= j < MAX_STREAM_GROUPS -> 0 <= i ->
     0 < occurrences i (StreamGroup.members (gget gs j)) ->
     TransformerStreamEntry.group_id e' = j) ->
  groups_ok (array_set ss i e') gs.
Proof.
  intros (Hls & Hlg & H4 & HG) Hv Hl.
  split; [rewrite length_array_set; exact Hls|].
  split; [exact Hlg|]. split.
  - intros k Hk. destruct (Z.eq_dec i k) as [->|Hne].
    + rewrite array_get_set_eq by (sizes; lia). exact Hv.
    + rewrite array_get_set_ne by exact Hne. apply H4. exact Hk.
  - intros j Hj. destruct (HG j Hj) as (G1 & G2 & G3 & G5 & G6).
    split; [exact G1|]. split; [exact G2|]. split; [exact G3|]. split; [exact G5|].
    intros m Hm Hocc. destruct (G6 m Hm Hocc) as [Hlt Hg]. split; [exact Hlt|].
    destruct (Z.eq_dec i m) as [->|Hne].
    + rewrite array_get_set_eq by (sizes; lia). apply Hl; assumption.
    + rewrite array_get_set_ne by exact Hne. exact Hg.
Qed.

(** The same, for a write that keeps [group_id]. *)
Lemma groups_ok_set_stream_keep ss gs i e' :
  groups_ok ss gs ->
  TransformerStreamEntry.group_id e' = TransformerStreamEntry.group_id (sget ss i) ->
  (TransformerStreamEntry.valid e' = false ->
   TransformerStreamEntry.group_id (sget ss i) = -1) ->
  groups_ok (array_set ss i e') gs.
Proof.
  intros Hok Hg Hv. apply groups_ok_set_stream; [exact Hok| |].
  - intros Hf. rewrite Hg. apply Hv, Hf.
  - intros j Hj Hi Hocc. rewrite Hg.
    destruct Hok as (_ & _ & _ & HG). destruct (HG j Hj) as (_ & _ & _ & _ & G6).
    apply G6; assumption.
Qed.

(** A write that keeps both [valid] and [group_id]. *)
Lemma groups_ok_set_stream_same ss gs i e' :
  groups_ok ss gs ->
  TransformerStreamEntry.group_id e' = TransformerStreamEntry.group_id (sget ss i) ->
  TransformerStreamEntry.valid e' = TransformerStreamEntry.valid (sget ss i) ->
  groups_ok (array_set ss i e') gs.
Proof.
  intros Hok Hg Hv.
  destruct (Z_lt_le_dec i 0) as [Hneg|Hpos];
    [rewrite array_set_out_of_range by lia; exact Hok|].
  destruct (Z_lt_le_dec i STREAM_TABLE_SIZE) as [Hlt|Hge].
  - apply groups_ok_set_stream_keep; [exact Hok|exact Hg|].
    intros Hf. destruct Hok as (_ & _ & H4 & _). apply H4; [lia|congruence].
  - destruct Hok as (Hls & Hrest).
    rewrite array_set_out_of_range by (sizes; lia). exact (conj Hls Hrest).
Qed.

(** Replacing group [j] by a group that is consistent in itself and with
    the stream table. *)
Lemma groups_ok_set_group ss gs j g' :
  groups_ok ss gs ->
  length (StreamGroup.members g') = Z.to_nat MAX_STREAMS_PER_GROUP ->
  StreamGroup.member_count g' = count_nonneg (StreamGroup.members g') ->
  (StreamGroup.valid g' = false -> StreamGroup.member_count g' = 0) ->
  (forall m, 0 <= m -> occurrences m (StreamGroup.members g') <= 1) ->
  (forall m, 0 <= m -> 0 < occurrences m (StreamGroup.members g') ->
     m < STREAM_TABLE_SIZE /\ TransformerStreamEntry.group_id (sget ss m) = j) ->
  groups_ok ss (array_set gs j g').
Proof.
  intros (Hls & Hlg & H4 & HG) N1 N2 N3 N5 N6.
  split; [exact Hls|]. split; [rewrite length_array_set; exact Hlg|].
  split; [exact H4|].
  intros k Hk. destruct (Z.eq_dec j k) as [->|Hne].
  - rewrite array_get_set_eq by (sizes; lia). cbv zeta. auto.
  - rewrite array_get_set_ne by exact Hne. apply HG, Hk.
Qed.

(** A write to a group that keeps its member list, its count and validity. *)
Lemma groups_ok_set_group_same ss gs j g' :
  groups_ok ss gs ->
  StreamGroup.members g' = StreamGroup.members (gget gs j) ->
  StreamGroup.member_count g' = StreamGroup.member_count (gget gs j) ->
  (StreamGroup.valid g' = false -> StreamGroup.member_count (gget gs j) = 0) ->
  groups_ok ss (array_set gs j g').
Proof.
  intros Hok Hm Hc Hv.
  destruct (Z_lt_le_dec j 0) as [Hneg|Hpos];
    [rewrite array_set_out_of_range by lia; exact Hok|].
  destruct (Z_lt_le_dec j MAX_STREAM_GROUPS) as [Hlt|Hge].
  - pose proof Hok as (_ & _ & _ & HG).
    destruct (HG j ltac:(lia)) as (G1 & G2 & G3 & G5 & G6).
    apply groups_ok_set_group; rewrite ?Hm, ?Hc; assumption.
  - destruct Hok as (Hls & Hlg & Hrest).
    rewrite array_set_out_of_range by (sizes; lia). exact (conj Hls (conj Hlg Hrest)).
Qed.

(** An empty group can replace any group. *)
Lemma groups_ok_fresh_group ss gs j g' n :
  groups_ok ss gs ->
  0 <= j < MAX_STREAM_GROUPS ->
  n = length (StreamGroup.members (gget gs j)) ->
  StreamGroup.members g' = replicate n (-1) ->
  StreamGroup.member_count g' = 0 ->
  groups_ok ss (array_set gs j g').
Proof.
  intros Hok Hj -> Hm Hc.
  pose proof Hok as (_ & _ & _ & HG). destruct (HG j Hj) as (G1 & _).
  assert (Hocc : forall m, 0 <= m -> occurrences m (StreamGroup.members g') = 0).
  { intros m Hm0. rewrite Hm.
    pose proof (occurrences_le_count m (replicate (length (StreamGroup.members (gget gs j))) (-1)) Hm0).
    pose proof (occurrences_range m (replicate (length (StreamGroup.members (gget gs j))) (-1))).
    rewrite count_nonneg_replicate in *. lia. }
  apply groups_ok_set_group; try assumption.
  - rewrite Hm, length_replicate. exact G1.
  - rewrite Hc, Hm, count_nonneg_replicate. reflexivity.
  - intros _. exact Hc.
  - intros m Hm0. rewrite Hocc by exact Hm0. lia.
  - intros m Hm0. rewrite Hocc by exact Hm0. lia.
Qed.

(** A stream that no valid [group_id] names is listed nowhere. *)
Lemma groups_ok_not_listed ss gs i j :
  groups_ok ss gs ->
  0 <= j < MAX_STREAM_GROUPS -> 0 <= i ->
  TransformerStreamEntry.group_id (sget ss i) <> j ->
  occurrences i (StreamGroup.members (gget gs j)) = 0.
Proof.
  intros (_ & _ & _ & HG) Hj Hi Hne.
  destruct (HG j Hj) as (_ & _ & _ & _ & G6).
  pose proof (occurrences_range i (StreamGroup.members (gget gs j))).
  destruct (Z.eq_dec (occurrences i (StreamGroup.members (gget gs j))) 0) as [E|E]; [exact E|].
  destruct (G6 i Hi ltac:(lia)) as [_ Hg]. contradiction.
Qed.

(** A group that lists a stream has a positive count. *)
Lemma groups_ok_listed_count ss gs i j k :
  groups_ok ss gs ->
  0 <= i -> 0 <= j < MAX_STREAM_GROUPS ->
  0 <= k < Z.of_nat (length (StreamGroup.members (gget gs j))) ->
  array_get 0 (StreamGroup.members (gget gs j)) k = i ->
  0 < StreamGroup.member_count (gget gs j).
Proof.
  intros (_ & _ & _ & HG) Hi Hj Hk Hslot.
  destruct (HG j Hj) as (_ & G2 & _).
  assert (Hin : 0 < occurrences i (StreamGroup.members (gget gs j))).
  { apply occurrences_in. rewrite <- Hslot. apply array_get_in. exact Hk. }
  pose proof (occurrences_le_count i (StreamGroup.members (gget gs j)) Hi). lia.
Qed.

(** Adding stream [i], so far in no group, to the free slot [k] of the
    valid group [j]. *)
Lemma groups_ok_add_member ss gs i j k e' g' :
  groups_ok ss gs ->
  0 <= i < STREAM_TABLE_SIZE -> 0 <= j < MAX_STREAM_GROUPS ->
  TransformerStreamEntry.group_id (sget ss i) < 0 ->
  0 <= k < Z.of_nat (length (StreamGroup.members (gget gs j))) ->
  array_get 0 (StreamGroup.members (gget gs j)) k < 0 ->
  TransformerStreamEntry.valid e' = true ->
  TransformerStreamEntry.group_id e' = j ->
  StreamGroup.valid g' = true ->
  StreamGroup.members g' = array_set (StreamGroup.members (gget gs j)) k i ->
  StreamGroup.member_count g' = u32 (StreamGroup.member_count (gget gs j) + 1) ->
  groups_ok (array_set ss i e') (array_set gs j g').
Proof.
  intros Hok Hi Hj Hgid Hk Hfree Hv Hg Hgv Hm Hc.
  assert (Hnl : forall j', 0 <= j' < MAX_STREAM_GROUPS ->
            occurrences i (StreamGroup.members (gget gs j')) = 0).
  { intros j' Hj'. apply (groups_ok_not_listed ss gs); [assumption|assumption|lia|lia]. }
  assert (Hok1 : groups_ok (array_set ss i e') gs).
  { apply groups_ok_set_stream; [exact Hok|congruence|].
    intros j' Hj' _ Hocc. rewrite Hnl in Hocc by exact Hj'. lia. }
  pose proof Hok as (_ & _ & _ & HG).
  destruct (HG j Hj) as (G1 & G2 & G3 & G5 & G6).
  pose proof (count_nonneg_range (StreamGroup.members (gget gs j))) as Hcr.
  assert (Hocc : forall m, 0 <= m ->
            occurrences m (StreamGroup.members g') =
            occurrences m (StreamGroup.members (gget gs j)) + (if i =? m then 1 else 0)).
  { intros m Hm0. rewrite Hm, occurrences_set by exact Hk.
    destruct (Z.eqb_spec (array_get 0 (StreamGroup.members (gget gs j)) k) m); lia. }
  apply groups_ok_set_group; try assumption.
  - rewrite Hm, length_array_set. exact G1.
  - rewrite Hc, Hm, count_nonneg_set by exact Hk. rewrite G2.
    destruct (Z.geb_spec (array_get 0 (StreamGroup.members (gget gs j)) k) 0); [lia|].
    destruct (Z.geb_spec i 0); [|lia].
    rewrite u32_small by (sizes; lia). lia.
  - congruence.
  - intros m Hm0. rewrite Hocc by exact Hm0.
    destruct (Z.eqb_spec i m) as [->|Hne].
    + rewrite Hnl by exact Hj. lia.
    + specialize (G5 m Hm0). lia.
  - intros m Hm0. rewrite Hocc by exact Hm0.
    destruct (Z.eqb_spec i m) as [->|Hne]; intros Hpos.
    + split; [lia|]. rewrite array_get_set_eq; [exact Hg|].
      destruct Hok as (Hls & _). sizes. lia.
    + destruct (G6 m Hm0 ltac:(lia)) as [Hlt Hgm]. split; [exact Hlt|].
      rewrite array_get_set_ne by exact Hne. exact Hgm.
Qed.

(** Removing stream [i] from slot [k] of its group [j]. *)
Lemma groups_ok_remove_member ss gs i j k e' g' :
  groups_ok ss gs ->
  0 <= i < STREAM_TABLE_SIZE -> 0 <= j < MAX_STREAM_GROUPS ->
  TransformerStreamEntry.group_id (sget ss i) = j ->
  0 <= k < Z.of_nat (length (StreamGroup.members (gget gs j))) ->
  array_get 0 (StreamGroup.members (gget gs j)) k = i ->
  TransformerStreamEntry.group_id e' = -1 ->
  StreamGroup.valid g' = StreamGroup.valid (gget gs j) ->
  StreamGroup.members g' = array_set (StreamGroup.members (gget gs j)) k (-1) ->
  StreamGroup.member_count g' = StreamGroup.member_count (gget gs j) - 1 ->
  groups_ok (array_set ss i e') (array_set gs j g') /\
  0 < StreamGroup.member_count (gget gs j).
Proof.
  intros Hok Hi Hj Hgid Hk Hslot Hg Hgv Hm Hc.
  pose proof Hok as (_ & _ & _ & HG).
  destruct (HG j Hj) as (G1 & G2 & G3 & G5 & G6).
  assert (Hocc : forall m, 0 <= m ->
            occurrences m (StreamGroup.members g') =
            occurrences m (StreamGroup.members (gget gs j)) - (if i =? m then 1 else 0)).
  { intros m Hm0. rewrite Hm, occurrences_set by exact Hk. rewrite Hslot.
    destruct (Z.eqb_spec (-1) m); lia. }
  assert (Hin : 0 < occurrences i (StreamGroup.members (gget gs j))).
  { apply occurrences_in. rewrite <- Hslot. apply array_get_in. exact Hk. }
  pose proof (occurrences_le_count i (StreamGroup.members (gget gs j)) ltac:(lia)) as Hle.
  split; [|lia].
  assert (Hok1 : groups_ok ss (array_set gs j g')).
  { apply groups_ok_set_group; try assumption.
    - rewrite Hm, length_array_set. exact G1.
    - rewrite Hc, Hm, count_nonneg_set by exact Hk. rewrite G2, Hslot.
      destruct (Z.geb_spec i 0); [|lia]. simpl. lia.
    - rewrite Hgv. intros Hf. specialize (G3 Hf). lia.
    - intros m Hm0. rewrite Hocc by exact Hm0. specialize (G5 m Hm0).
      destruct (i =? m); lia.
    - intros m Hm0. rewrite Hocc by exact Hm0. intros Hpos.
      apply G6; [exact Hm0|]. destruct (i =? m); lia. }
  apply groups_ok_set_stream; [exact Hok1|congruence|].
  intros j' Hj' _ Hpos. exfalso.
  destruct (Z.eq_dec j j') as [<-|Hne].
  - rewrite array_get_set_eq in Hpos by (destruct Hok as (_ & Hlg & _); sizes; lia).
    rewrite Hocc in Hpos by lia. rewrite Z.eqb_refl in Hpos.
    specialize (G5 i ltac:(lia)). lia.
  - rewrite array_get_set_ne in Hpos by exact Hne.
    rewrite (groups_ok_not_listed ss gs i j') in Hpos; [lia|assumption|assumption|lia|lia].
Qed.

End GroupTables.

(** ** The invariant, function by function *)

Section Invariant.
Import transformer_stream.

Ltac sizes :=
  unfold STREAM_TABLE_SIZE, MAX_STREAM_GROUPS, MAX_STREAMS_PER_GROUP in *.

Implicit Types (s : t).

Lemma invariant_update_stream_same s i f :
  invariant s ->
  (forall e, TransformerStreamEntry.group_id (f e) = TransformerStreamEntry.group_id e) ->
  (forall e, TransformerStreamEntry.valid (f e) = TransformerStreamEntry.valid e) ->
  invariant (update_stream i f s).
Proof.
  intros [Hp Hg] Hgid Hv. split; [exact Hp|].
  apply groups_ok_set_stream_same; [exact Hg|apply Hgid|apply Hv].
Qed.

Lemma invariant_update_stream_keep s i f :
  invariant s ->
  (forall e, TransformerStreamEntry.group_id (f e) = TransformerStreamEntry.group_id e) ->
  (TransformerStreamEntry.valid (f (stream s i)) = false ->
   TransformerStreamEntry.group_id (stream s i) = -1) ->
  invariant (update_stream i f s).
Proof.
  intros [Hp Hg] Hgid Hv. split; [exact Hp|].
  apply groups_ok_set_stream_keep; [exact Hg|apply Hgid|exact Hv].
Qed.

Lemma invariant_update_group_same s j f :
  invariant s ->
  (forall g, StreamGroup.members (f g) = StreamGroup.members g) ->
  (forall g, StreamGroup.member_count (f g) = StreamGroup.member_count g) ->
  (forall g, StreamGroup.valid (f g) = StreamGroup.valid g) ->
  invariant (update_group j f s).
Proof.
  intros [Hp Hg] Hm Hc Hv. split; [exact Hp|].
  apply groups_ok_set_group_same; [exact Hg|apply Hm|apply Hc|].
  rewrite Hv. intros Hf.
  destruct (Z_lt_le_dec j 0) as [Hneg|Hpos].
  { unfold array_get. destruct (Z.ltb_spec j 0); [reflexivity|lia]. }
  destruct (Z_lt_le_dec j MAX_STREAM_GROUPS) as [Hlt|Hge].
  - destruct Hg as (_ & _ & _ & HG). destruct (HG j ltac:(lia)) as (_ & _ & G3 & _).
    apply G3, Hf.
  - destruct Hg as (_ & Hlg & _). unfold array_get.
    destruct (Z.ltb_spec j 0); [reflexivity|].
    rewrite lookup_ge_None_2 by (sizes; lia). reflexivity.
Qed.

(** Leaves of the call tree that keep the group relation and the phase. *)
Ltac keep :=
  repeat first
    [ assumption
    | apply invariant_update_group_same; [|intros; reflexivity ..]
    | apply invariant_update_stream_same; [|intros; reflexivity ..] ].

Lemma invariant_update_stream_classification s i :
  invariant s -> invariant (update_stream_classification s i).
Proof.
  intros H. unfold update_stream_classification. repeat case_match; keep.
Qed.

Lemma invariant_reinforce_stream_confidence s i :
  invariant s -> invariant (reinforce_stream_confidence s i).
Proof.
  intros H. unfold reinforce_stream_confidence. repeat case_match; keep.
Qed.

Lemma phase_update_stream_classification s i :
  phase_state (update_stream_classification s i) = phase_state s.
Proof. unfold update_stream_classification. repeat case_match; reflexivity. Qed.

Lemma phase_reinforce_stream_confidence s i :
  phase_state (reinforce_stream_confidence s i) = phase_state s.
Proof. unfold reinforce_stream_confidence. repeat case_match; reflexivity. Qed.

(** ** The phase detector *)

Lemma phase_ok_update_phase_state s b :
  phase_ok (phase_state s) -> phase_ok (phase_state (update_phase_state s b)).
Proof.
  unfold update_phase_state, try_phase_recovery, update_phase, phase_ok.
  destruct s as [tt st sg ph hd [ws term mw sp deg tr rc] ts cc]. simpl.
  unfold PHASE_RECOVERY_WINDOW, PHASE_WINDOW_SIZE, PHASE_TRANSITION_THRESHOLD.
  intros H.
  assert (Hmw : 0 <= mw < 64) by (destruct tr; lia).
  rewrite (u32_small (mw + 1)) by lia.
  destruct tr, b; simpl;
    repeat (case_match; simpl in *; try rewrite (u32_small (rc + 1)) in * by lia;
            try rewrite (u32_small (0 + 1)) in * by lia; try lia).
Qed.

Lemma tables_update_phase_state s b :
  stream_table (update_phase_state s b) = stream_table s /\
  stream_groups (update_phase_state s b) = stream_groups s.
Proof.
  unfold update_phase_state, try_phase_recovery, update_phase.
  repeat case_match; simpl; auto.
Qed.

Lemma invariant_update_phase_state s b :
  invariant s -> invariant (update_phase_state s b).
Proof.
  intros [Hp Hg]. destruct (tables_update_phase_state s b) as [E1 E2].
  split; [apply phase_ok_update_phase_state, Hp|].
  rewrite E1, E2. exact Hg.
Qed.

(** ** Group membership *)

Lemma stream_update_stream_eq s i f :
  0 <= i < stream_table_size s -> stream (update_stream i f s) i = f (stream s i).
Proof. intros Hi. unfold stream, update_stream. simpl. apply array_get_set_eq. exact Hi. Qed.

Lemma stream_update_stream_ne s i k f :
  i <> k -> stream (update_stream i f s) k = stream s k.
Proof. intros Hi. unfold stream, update_stream. simpl. apply array_get_set_ne. exact Hi. Qed.

Lemma group_update_group_eq s j f :
  0 <= j < stream_groups_size s -> group (update_group j f s) j = f (group s j).
Proof. intros Hj. unfold group, update_group. simpl. apply array_get_set_eq. exact Hj. Qed.

Lemma invariant_sizes s :
  invariant s ->
  stream_table_size s = STREAM_TABLE_SIZE /\ stream_groups_size s = MAX_STREAM_GROUPS.
Proof.
  intros [_ (Hls & Hlg & _)]. unfold stream_table_size, stream_groups_size.
  rewrite Hls, Hlg. split; reflexivity.
Qed.

Lemma range_check_false i n :
  (i <? 0) || (i >=? n) = false -> 0 <= i < n.
Proof. intros H. apply orb_false_iff in H. lia. Qed.

(** Clearing the [group_id] of a stream that no group lists. *)
Lemma invariant_ungroup_unlisted s i :
  invariant s ->
  (forall j, 0 <= j < MAX_STREAM_GROUPS -> 0 <= i ->
     occurrences i (StreamGroup.members (group s j)) = 0) ->
  invariant (update_stream i (TransformerStreamEntry.set_group_id (-1)) s).
Proof.
  intros [Hp Hg] Hnl. split; [exact Hp|].
  change (groups_ok
            (array_set (stream_table s) i
               (TransformerStreamEntry.set_group_id (-1) (stream s i)))
            (stream_groups s)).
  apply groups_ok_set_stream; [exact Hg|reflexivity|].
  intros j Hj Hi Hocc. exfalso. specialize (Hnl j Hj Hi). unfold group in Hnl. lia.
Qed.

Lemma ungroup_stream_facts s i :
  0 <= i < stream_table_size s ->
  let s' := update_stream i (TransformerStreamEntry.set_group_id (-1)) s in
  TransformerStreamEntry.group_id (stream s' i) = -1 /\
  (forall k, TransformerStreamEntry.valid (stream s' k) =
             TransformerStreamEntry.valid (stream s k)).
Proof.
  intros Hi s'. subst s'. split.
  - rewrite stream_update_stream_eq by exact Hi. reflexivity.
  - intros k. destruct (Z.eq_dec i k) as [<-|Hne].
    + rewrite stream_update_stream_eq by exact Hi. reflexivity.
    + rewrite stream_update_stream_ne by exact Hne. reflexivity.
Qed.

Lemma remove_stream_from_group_ok s i :
  invariant s ->
  invariant (remove_stream_from_group s i) /\
  (0 <= i < STREAM_TABLE_SIZE ->
   TransformerStreamEntry.group_id (stream (remove_stream_from_group s i) i) = -1) /\
  (forall k, TransformerStreamEntry.valid (stream (remove_stream_from_group s i) k) =
             TransformerStreamEntry.valid (stream s k)).
Proof.
  intros Hinv. destruct (invariant_sizes s Hinv) as [Hss Hgs].
  pose proof Hinv as [Hp Hg].
  unfold remove_stream_from_group. rewrite Hss, Hgs.
  destruct ((i <? 0) || (i >=? STREAM_TABLE_SIZE)) eqn:Hri.
  { split; [exact Hinv|]. split; [|reflexivity].
    intros Hi. apply orb_true_iff in Hri. lia. }
  apply range_check_false in Hri.
  assert (Hi' : 0 <= i < stream_table_size s) by lia.
  destruct (ungroup_stream_facts s i Hi') as [Hgid' Hval'].
  set (gi := TransformerStreamEntry.group_id (stream s i)).
  destruct ((gi <? 0) || (gi >=? MAX_STREAM_GROUPS)) eqn:Hrg.
  { split; [|split; [intros _; exact Hgid'|exact Hval']].
    apply invariant_ungroup_unlisted; [exact Hinv|].
    intros j Hj Hi0. apply (groups_ok_not_listed _ _ i j Hg Hj Hi0).
    fold (stream s i). fold gi. apply orb_true_iff in Hrg. lia. }
  apply range_check_false in Hrg.
  set (k := find_index (fun m => m =? i) (StreamGroup.members (group s gi))).
  set (F := fun g : StreamGroup.t =>
              let g := StreamGroup.set_members
                         (array_set (StreamGroup.members g) k (-1)) g in
              if StreamGroup.member_count g >? 0
              then StreamGroup.set_member_count (u32 (StreamGroup.member_count g - 1)) g
              else g).
  set (s1 := if 0 <=? k then update_group gi F s else s).
  set (s2 := update_stream i (TransformerStreamEntry.set_group_id (-1)) s1).
  assert (Hs1 : stream_table s1 = stream_table s).
  { subst s1. destruct (0 <=? k); reflexivity. }
  assert (Hstream : forall k0, stream s2 k0 =
            stream (update_stream i (TransformerStreamEntry.set_group_id (-1)) s) k0).
  { intros k0. subst s2. unfold stream, update_stream. simpl. unfold stream. rewrite Hs1. reflexivity. }
  assert (Hinv2 : invariant s2).
  { subst s2 s1. destruct (Z.leb_spec 0 k) as [Hk|Hk].
    - destruct (find_index_found (fun m => m =? i) (StreamGroup.members (group s gi)) 0 Hk)
        as [Hklt Hkp]. fold k in Hklt, Hkp. apply Z.eqb_eq in Hkp.
      pose proof (groups_ok_listed_count _ _ i gi k Hg ltac:(lia) Hrg
                    (conj Hk Hklt) Hkp) as Hcnt.
      fold (group s gi) in Hcnt.
      assert (HF : F (group s gi) =
                   StreamGroup.set_member_count
                     (u32 (StreamGroup.member_count (group s gi) - 1))
                     (StreamGroup.set_members
                        (array_set (StreamGroup.members (group s gi)) k (-1))
                        (group s gi))).
      { unfold F. simpl. destruct (Z.gtb_spec (StreamGroup.member_count (group s gi)) 0);
          [reflexivity|lia]. }
      split; [exact Hp|].
      change (groups_ok
                (array_set (stream_table s) i
                   (TransformerStreamEntry.set_group_id (-1) (stream s i)))
                (array_set (stream_groups s) gi (F (group s gi)))).
      eapply groups_ok_remove_member; try eassumption; try reflexivity;
        [exact (conj Hk Hklt)|rewrite HF; reflexivity|rewrite HF; reflexivity|].
      rewrite HF. simpl. fold (group s gi). apply u32_small.
      destruct Hg as (_ & _ & _ & HG). destruct (HG gi Hrg) as (G1 & G2 & _).
      fold (group s gi) in G1, G2.
      pose proof (count_nonneg_range (StreamGroup.members (group s gi))).
      sizes. lia.
    - apply invariant_ungroup_unlisted; [exact Hinv|].
      intros j Hj Hi0. destruct (Z.eq_dec gi j) as [<-|Hne].
      + apply occurrences_none.
        apply (find_index_not_found (fun m => m =? i)). fold k. lia.
      + apply (groups_ok_not_listed _ _ i j Hg Hj Hi0). fold (stream s i). fold gi. lia. }
  assert (Hpost : (0 <= i < STREAM_TABLE_SIZE ->
                   TransformerStreamEntry.group_id (stream s2 i) = -1) /\
                  (forall k0, TransformerStreamEntry.valid (stream s2 k0) =
                              TransformerStreamEntry.valid (stream s k0))).
  { split; [intros _|intros k0]; rewrite Hstream; [exact Hgid'|apply Hval']. }
  destruct (StreamGroup.member_count (group s2 gi) =? 0) eqn:Hz.
  - split; [|exact Hpost].
    destruct Hinv2 as [Hp2 Hg2]. split; [exact Hp2|].
    apply groups_ok_set_group_same; [exact Hg2|reflexivity|reflexivity|].
    intros _. fold (group s2 gi). lia.
  - split; [exact Hinv2|exact Hpost].
Qed.

Lemma add_stream_to_group_ok s i j :
  invariant s ->
  TransformerStreamEntry.valid (stream s i) = true ->
  TransformerStreamEntry.group_id (stream s i) < 0 ->
  (0 <= j < MAX_STREAM_GROUPS -> StreamGroup.valid (group s j) = true) ->
  invariant (add_stream_to_group s i j).
Proof.
  intros Hinv Hv Hgid Hgv. destruct (invariant_sizes s Hinv) as [Hss Hgs].
  pose proof Hinv as [Hp Hg].
  unfold add_stream_to_group. rewrite Hss, Hgs.
  destruct ((j <? 0) || (j >=? MAX_STREAM_GROUPS)) eqn:Hrj; [exact Hinv|].
  destruct ((i <? 0) || (i >=? STREAM_TABLE_SIZE)) eqn:Hri; [exact Hinv|].
  apply range_check_false in Hrj, Hri. specialize (Hgv Hrj).
  set (k := find_index (fun m => m <? 0) (StreamGroup.members (group s j))).
  destruct (Z.leb_spec 0 k) as [Hk|Hk].
  - destruct (find_index_found (fun m => m <? 0) (StreamGroup.members (group s j)) 0 Hk)
      as [Hklt Hkp]. fold k in Hklt, Hkp.
    split; [exact Hp|].
    change (groups_ok
              (array_set (stream_table s) i
                 (TransformerStreamEntry.set_stream_class
                    (StreamGroup.typical_class (group s j))
                    (TransformerStreamEntry.set_group_id j (stream s i))))
              (array_set (stream_groups s) j
                 (StreamGroup.set_member_count
                    (u32 (StreamGroup.member_count (group s j) + 1))
                    (StreamGroup.set_members
                       (array_set (StreamGroup.members (group s j)) k i) (group s j))))).
    eapply groups_ok_add_member; try eassumption; try reflexivity.
    + exact (conj Hk Hklt).
    + apply Z.ltb_lt. exact Hkp.
  - split; [exact Hp|].
    change (groups_ok
              (array_set (stream_table s) i
                 (TransformerStreamEntry.set_group_id j (stream s i)))
              (stream_groups s)).
    apply groups_ok_set_stream; [exact Hg|simpl; congruence|].
    intros j' Hj' Hi0 Hocc. exfalso.
    rewrite (groups_ok_not_listed _ _ i j' Hg Hj' Hi0) in Hocc; [lia|].
    fold (stream s i). lia.
Qed.

Lemma phase_add_stream_to_group s i j :
  phase_state (add_stream_to_group s i j) = phase_state s.
Proof. unfold add_stream_to_group. repeat case_match; reflexivity. Qed.

(** The scan for the group to evict returns an index of the table. *)
Lemma oldest_group_scan_range s idxs acc :
  (forall i, In i idxs -> 0 <= i < MAX_STREAM_GROUPS) ->
  0 <= acc.1 < MAX_STREAM_GROUPS ->
  0 <= (fold_left
          (fun '(oldest_idx, oldest_time) i =>
             if (StreamGroup.member_count (group s i) =? 0) ||
                (StreamGroup.last_seen_timestamp (group s i) <? oldest_time)
             then (i, StreamGroup.last_seen_timestamp (group s i))
             else (oldest_idx, oldest_time))
          idxs acc).1 < MAX_STREAM_GROUPS.
Proof.
  revert acc. induction idxs as [|i idxs IH]; intros [oi ot] Hin Hacc; simpl; [exact Hacc|].
  apply IH.
  - intros i' Hi'. apply Hin. right. exact Hi'.
  - destruct ((StreamGroup.member_count (group s i) =? 0) ||
              (StreamGroup.last_seen_timestamp (group s i) <? ot)); simpl.
    + apply Hin. left. reflexivity.
    + exact Hacc.
Qed.

(** Clearing the [group_id] of the members of the evicted group, against
    the group table [GS] the eviction ends with. *)
Lemma clear_group_members_ok l :
  forall s GS,
    groups_ok (stream_table s) GS ->
    (forall m, In m l -> 0 <= m -> forall j, 0 <= j < MAX_STREAM_GROUPS ->
       occurrences m (StreamGroup.members (array_get StreamGroup.default GS j)) = 0) ->
    let s' :=
      fold_left
        (fun s member_idx =>
           if (member_idx >=? 0) && (member_idx <? stream_table_size s)
           then update_stream member_idx (TransformerStreamEntry.set_group_id (-1)) s
           else s)
        l s in
    phase_state s' = phase_state s /\
    stream_groups s' = stream_groups s /\
    groups_ok (stream_table s') GS /\
    (forall k,
       TransformerStreamEntry.valid (stream s' k) = TransformerStreamEntry.valid (stream s k) /\
       (TransformerStreamEntry.group_id (stream s' k) =
          TransformerStreamEntry.group_id (stream s k) \/
        TransformerStreamEntry.group_id (stream s' k) = -1)).
Proof.
  induction l as [|m l IH]; intros s GS Hg Hnl; simpl.
  - split; [reflexivity|]. split; [reflexivity|]. split; [exact Hg|].
    intros k. split; [reflexivity|left; reflexivity].
  - set (s1 := if (m >=? 0) && (m <? stream_table_size s)
               then update_stream m (TransformerStreamEntry.set_group_id (-1)) s else s).
    assert (H1 : phase_state s1 = phase_state s /\ stream_groups s1 = stream_groups s /\
                 groups_ok (stream_table s1) GS /\
                 (forall k,
                    TransformerStreamEntry.valid (stream s1 k) =
                      TransformerStreamEntry.valid (stream s k) /\
                    (TransformerStreamEntry.group_id (stream s1 k) =
                       TransformerStreamEntry.group_id (stream s k) \/
                     TransformerStreamEntry.group_id (stream s1 k) = -1))).
    { subst s1. destruct ((m >=? 0) && (m <? stream_table_size s)) eqn:Hm.
      - apply andb_true_iff in Hm. destruct Hm as [Hm0 Hm1].
        split; [reflexivity|]. split; [reflexivity|]. split.
        + change (groups_ok
                    (array_set (stream_table s) m
                       (TransformerStreamEntry.set_group_id (-1) (stream s m))) GS).
          apply groups_ok_set_stream; [exact Hg|reflexivity|].
          intros j Hj Hm' Hocc. exfalso.
          rewrite (Hnl m (or_introl eq_refl) Hm' j Hj) in Hocc. lia.
        + intros k. destruct (ungroup_stream_facts s m ltac:(lia)) as [E1 E2].
          split; [apply E2|]. destruct (Z.eq_dec m k) as [<-|Hne].
          * right. exact E1.
          * left. rewrite stream_update_stream_ne by exact Hne. reflexivity.
      - split; [reflexivity|]. split; [reflexivity|]. split; [exact Hg|].
        intros k. split; [reflexivity|left; reflexivity]. }
    destruct H1 as (P1 & P2 & P3 & P4).
    destruct (IH s1 GS P3) as (Q1 & Q2 & Q3 & Q4).
    { intros m' Hin. apply Hnl. right. exact Hin. }
    split; [congruence|]. split; [congruence|]. split; [exact Q3|].
    intros k. destruct (Q4 k) as [V G], (P4 k) as [V' G'].
    split; [congruence|]. destruct G as [G|G]; [|right; exact G].
    rewrite G. exact G'.
Qed.

Lemma phase_clear_group_members l :
  forall s,
    phase_state
      (fold_left
         (fun s member_idx =>
            if (member_idx >=? 0) && (member_idx <? stream_table_size s)
            then update_stream member_idx (TransformerStreamEntry.set_group_id (-1)) s
            else s)
         l s) = phase_state s.
Proof.
  induction l as [|m l IH]; intros s; simpl; [reflexivity|].
  rewrite IH. destruct (_ && _); reflexivity.
Qed.

Lemma phase_find_or_create_stream_group s dir stride :
  phase_state (find_or_create_stream_group s dir stride).1 = phase_state s.
Proof.
  unfold find_or_create_stream_group.
  destruct (_ >=? 0); [reflexivity|]. cbv zeta.
  destruct (0 <=? _); [reflexivity|].
  destruct (fold_left _ (indices (stream_groups s)) _) as [oldest_idx oldest_time].
  simpl. apply phase_clear_group_members.
Qed.

Lemma find_or_create_stream_group_ok s dir stride :
  invariant s ->
  let r := find_or_create_stream_group s dir stride in
  invariant r.1 /\
  0 <= r.2 < MAX_STREAM_GROUPS /\
  StreamGroup.valid (group r.1 r.2) = true /\
  (forall k,
     TransformerStreamEntry.valid (stream r.1 k) = TransformerStreamEntry.valid (stream s k) /\
     (TransformerStreamEntry.group_id (stream r.1 k) =
        TransformerStreamEntry.group_id (stream s k) \/
      TransformerStreamEntry.group_id (stream r.1 k) = -1)).
Proof.
  intros Hinv. destruct (invariant_sizes s Hinv) as [Hss Hgs].
  pose proof Hinv as [Hp Hg]. pose proof Hg as (_ & Hlg & _).
  unfold find_or_create_stream_group.
  set (existing := find_stream_group s dir stride).
  destruct (Z.geb_spec existing 0) as [He|He].
  { destruct (find_index_found _ (stream_groups s) StreamGroup.default ltac:(exact He))
      as [Helt Hep].
    fold (find_stream_group s dir stride) in Helt, Hep. fold existing in Helt, Hep.
    fold (group s existing) in Hep.
    cbv zeta. simpl. split; [keep|]. split; [sizes; lia|]. split.
    - rewrite group_update_group_eq by (unfold stream_groups_size; lia). simpl.
      apply andb_true_iff in Hep. destruct Hep as [Hep _].
      apply andb_true_iff in Hep. destruct Hep as [Hep _]. exact Hep.
    - intros k. split; [reflexivity|left; reflexivity]. }
  set (fresh := fun g : StreamGroup.t =>
                  StreamGroup.set_typical_class (class_of_stride stride)
                    (StreamGroup.set_members
                       (replicate (length (StreamGroup.members g)) (-1))
                       (StreamGroup.set_last_seen_timestamp (current_timestamp s)
                          (StreamGroup.set_group_confidence 0
                             (StreamGroup.set_member_count 0
                                (StreamGroup.set_stride stride
                                   (StreamGroup.set_direction dir
                                      (StreamGroup.set_valid true g)))))))).
  set (i := find_index (fun g => negb (StreamGroup.valid g)) (stream_groups s)).
  destruct (Z.leb_spec 0 i) as [Hi|Hi].
  { destruct (find_index_found _ (stream_groups s) StreamGroup.default ltac:(exact Hi))
      as [Hilt _]. fold i in Hilt.
    cbv zeta. simpl. split; [|split; [sizes; lia|split]].
    - split; [exact Hp|].
      change (groups_ok (stream_table s)
                (array_set (stream_groups s) i (fresh (group s i)))).
      eapply groups_ok_fresh_group; try reflexivity; [exact Hg|sizes; lia].
    - rewrite group_update_group_eq by (unfold stream_groups_size; lia). reflexivity.
    - intros k. split; [reflexivity|left; reflexivity]. }
  match goal with
  | |- context [fold_left ?f (indices (stream_groups s)) ?a] =>
      pose proof (oldest_group_scan_range s (indices (stream_groups s)) a) as Hscan;
      destruct (fold_left f (indices (stream_groups s)) a) as [oldest_idx oldest_time] eqn:Escan
  end.
  simpl in Hscan.
  assert (Hold : 0 <= oldest_idx < MAX_STREAM_GROUPS).
  { apply Hscan; [|sizes; lia].
    intros j Hj. apply indices_range in Hj. sizes. lia. }
  clear Hscan Escan.
  set (GS := array_set (stream_groups s) oldest_idx (fresh (group s oldest_idx))).
  assert (HGS : groups_ok (stream_table s) GS).
  { eapply groups_ok_fresh_group; try reflexivity; [exact Hg|exact Hold]. }
  destruct (clear_group_members_ok (StreamGroup.members (group s oldest_idx)) s GS HGS)
    as (Q1 & Q2 & Q3 & Q4).
  { intros m Hin Hm j Hj. subst GS.
    destruct (Z.eq_dec oldest_idx j) as [<-|Hne].
    - rewrite array_get_set_eq by (sizes; lia). simpl.
      pose proof (occurrences_le_count m
                    (replicate (length (StreamGroup.members (group s oldest_idx))) (-1)) Hm).
      pose proof (occurrences_range m
                    (replicate (length (StreamGroup.members (group s oldest_idx))) (-1))).
      rewrite count_nonneg_replicate in *. lia.
    - rewrite array_get_set_ne by exact Hne.
      apply (groups_ok_not_listed _ _ m j Hg Hj Hm).
      pose proof Hg as (_ & _ & _ & HG).
      destruct (HG oldest_idx Hold) as (_ & _ & _ & _ & G6).
      apply occurrences_in in Hin. destruct (G6 m Hm Hin) as [_ E]. lia. }
  match goal with
  | |- context [fold_left ?f (StreamGroup.members (group s oldest_idx)) s] =>
      set (s' := fold_left f (StreamGroup.members (group s oldest_idx)) s) in *
  end.
  cbv zeta. simpl. split; [|split; [exact Hold|split]].
  - split; [change (phase_ok (phase_state s')); rewrite Q1; exact Hp|].
    change (groups_ok (stream_table s')
              (array_set (stream_groups s') oldest_idx (fresh (group s' oldest_idx)))).
    unfold group. rewrite Q2. exact Q3.
  - rewrite group_update_group_eq; [reflexivity|].
    unfold stream_groups_size. rewrite Q2. sizes. lia.
  - exact Q4.
Qed.

(** ** Termination and allocation of streams *)

Lemma terminate_stream_ok s i :
  invariant s ->
  invariant (terminate_stream s i) /\
  (0 <= i < STREAM_TABLE_SIZE ->
   TransformerStreamEntry.group_id (stream (terminate_stream s i) i) = -1).
Proof.
  intros Hinv. destruct (invariant_sizes s Hinv) as [Hss Hgs].
  unfold terminate_stream. rewrite Hss.
  destruct ((i <? 0) || (i >=? STREAM_TABLE_SIZE)) eqn:Hri.
  { split; [exact Hinv|]. intros Hi. apply orb_true_iff in Hri. lia. }
  apply range_check_false in Hri.
  destruct (TransformerStreamEntry.valid (stream s i)) eqn:Hv; simpl.
  2:{ split; [exact Hinv|]. intros _.
      destruct Hinv as [_ (_ & _ & H4 & _)]. apply H4; assumption. }
  set (s1 := record_pattern s (stream s i)).
  assert (Hinv1 : invariant s1) by exact Hinv.
  destruct (remove_stream_from_group_ok s1 i Hinv1) as (Hinv2 & Hgid2 & _).
  set (s2 := remove_stream_from_group s1 i) in *.
  pose proof (invariant_update_phase_state s2 true Hinv2) as Hinv3.
  destruct (tables_update_phase_state s2 true) as [Et _].
  set (s3 := update_phase_state s2 true) in *.
  assert (Hst : stream s3 i = stream s2 i) by (unfold stream; rewrite Et; reflexivity).
  split.
  - apply invariant_update_stream_keep; [exact Hinv3|intros; reflexivity|].
    intros _. rewrite Hst. apply Hgid2. exact Hri.
  - intros _. rewrite stream_update_stream_eq.
    + simpl. rewrite Hst. apply Hgid2. exact Hri.
    + destruct (invariant_sizes s3 Hinv3) as [E _]. rewrite E. exact Hri.
Qed.

Lemma invariant_remove_dead_streams_from idxs s :
  invariant s ->
  invariant
    (fold_left
       (fun s i =>
          let entry := stream s i in
          if negb (TransformerStreamEntry.valid entry) then s
          else
            let age :=
              u64 (current_timestamp s - TransformerStreamEntry.last_trigger_timestamp entry) in
            let is_dead :=
              (age >? DEAD_STREAM_THRESHOLD) &&
              (TransformerStreamEntry.stream_length entry <? SHORT_STREAM_THRESHOLD) in
            let is_dead :=
              if is_dead && is_group_protected s i then
                if TransformerStreamEntry.confidence_score entry >=? FAST_TRACK_CONFIDENCE
                then false else is_dead
              else is_dead in
            if is_dead then terminate_stream s i else s)
       idxs s).
Proof.
  revert s. induction idxs as [|i idxs IH]; intros s Hinv; simpl; [exact Hinv|].
  apply IH. repeat case_match; try exact Hinv; apply terminate_stream_ok, Hinv.
Qed.

Lemma invariant_remove_dead_streams s :
  invariant s -> invariant (remove_dead_streams s).
Proof. apply invariant_remove_dead_streams_from. Qed.

Lemma select_victim_loop_range s idxs victim lowest :
  (forall i, In i idxs -> 0 <= i < STREAM_TABLE_SIZE) ->
  -1 <= victim < STREAM_TABLE_SIZE ->
  -1 <= select_victim_loop s idxs victim lowest < STREAM_TABLE_SIZE.
Proof.
  revert victim lowest. induction idxs as [|i idxs IH]; intros victim lowest Hin Hv; simpl.
  - exact Hv.
  - pose proof (Hin i (or_introl eq_refl)) as Hi.
    assert (Hin' : forall i', In i' idxs -> 0 <= i' < STREAM_TABLE_SIZE)
      by (intros i' Hi'; apply Hin; right; exact Hi').
    repeat case_match; [lia|apply IH; [exact Hin'|lia]|apply IH; [exact Hin'|exact Hv]].
Qed.

Lemma allocate_stream_entry_ok s :
  invariant s ->
  let r := allocate_stream_entry s in
  invariant r.1 /\
  (r.2 < 0 \/
   (0 <= r.2 < STREAM_TABLE_SIZE /\
    TransformerStreamEntry.group_id (stream r.1 r.2) = -1)).
Proof.
  intros Hinv.
  assert (Hfree : forall s0, invariant s0 ->
            let i := find_index (fun e => negb (TransformerStreamEntry.valid e))
                       (stream_table s0) in
            0 <= i ->
            0 <= i < STREAM_TABLE_SIZE /\
            TransformerStreamEntry.group_id (stream s0 i) = -1).
  { intros s0 Hinv0 i Hi.
    destruct (find_index_found _ (stream_table s0) TransformerStreamEntry.default Hi)
      as [Hlt Hp]. fold i in Hlt, Hp. fold (stream s0 i) in Hp.
    destruct (invariant_sizes s0 Hinv0) as [E _]. unfold stream_table_size in E.
    split; [lia|]. destruct Hinv0 as [_ (_ & _ & H4 & _)].
    apply H4; [lia|]. apply negb_true_iff. exact Hp. }
  unfold allocate_stream_entry.
  destruct (Z.leb_spec 0 (find_index (fun e => negb (TransformerStreamEntry.valid e))
                            (stream_table s))) as [H0|H0].
  { simpl. split; [exact Hinv|]. right. apply Hfree; assumption. }
  pose proof (invariant_remove_dead_streams s Hinv) as Hinv1.
  set (s1 := remove_dead_streams s) in *.
  destruct (Z.leb_spec 0 (find_index (fun e => negb (TransformerStreamEntry.valid e))
                            (stream_table s1))) as [H1|H1].
  { simpl. split; [exact Hinv1|]. right. apply Hfree; assumption. }
  simpl.
  assert (Hvr : -1 <= select_victim_stream s1 < STREAM_TABLE_SIZE).
  { apply select_victim_loop_range; [|sizes; lia].
    intros i Hi. apply indices_range in Hi.
    destruct (invariant_sizes s1 Hinv1) as [E _]. unfold stream_table_size in E. lia. }
  destruct (Z.geb_spec (select_victim_stream s1) 0) as [Hv|Hv].
  - destruct (terminate_stream_ok s1 (select_victim_stream s1) Hinv1) as [Hinv2 Hgid].
    split; [exact Hinv2|]. right. split; [lia|]. apply Hgid. lia.
  - split; [exact Hinv1|]. left. lia.
Qed.

End Invariant.

Section InvariantHost.
Import transformer_stream.

Context (World : Type)
        (get_mshr_occupancy_ratio : World -> float)
        (prefetch_line : World -> Z -> bool -> Z -> World * bool)
        (LOG2_BLOCK_SIZE : Z)
        (access_type : Type).

#[local] Abbreviation generate_prefetches_loop :=
  (generate_prefetches_loop World get_mshr_occupancy_ratio prefetch_line LOG2_BLOCK_SIZE).
#[local] Abbreviation generate_prefetches :=
  (generate_prefetches World get_mshr_occupancy_ratio prefetch_line LOG2_BLOCK_SIZE).
#[local] Abbreviation create_stream :=
  (create_stream World get_mshr_occupancy_ratio prefetch_line LOG2_BLOCK_SIZE).
#[local] Abbreviation reactivate_stream :=
  (reactivate_stream World get_mshr_occupancy_ratio prefetch_line LOG2_BLOCK_SIZE).
#[local] Abbreviation try_relaunch_stream :=
  (try_relaunch_stream World get_mshr_occupancy_ratio prefetch_line LOG2_BLOCK_SIZE).
#[local] Abbreviation cache_operate :=
  (prefetcher_cache_operate World get_mshr_occupancy_ratio prefetch_line
     LOG2_BLOCK_SIZE access_type).
#[local] Abbreviation cache_fill := (prefetcher_cache_fill World).
#[local] Abbreviation cycle_operate :=
  (prefetcher_cycle_operate World get_mshr_occupancy_ratio prefetch_line LOG2_BLOCK_SIZE).
#[local] Abbreviation final_stats := (prefetcher_final_stats World).
#[local] Abbreviation reachable :=
  (reachable World get_mshr_occupancy_ratio prefetch_line LOG2_BLOCK_SIZE access_type).

Ltac sizes :=
  unfold STREAM_TABLE_SIZE, MAX_STREAM_GROUPS, MAX_STREAMS_PER_GROUP in *.

Ltac keep :=
  repeat first
    [ assumption
    | apply invariant_update_group_same; [|intros; reflexivity ..]
    | apply invariant_update_stream_same; [|intros; reflexivity ..] ].

Implicit Types (s : t) (w : World).

Lemma invariant_generate_prefetches_loop n :
  forall i dir_val stream_idx s w,
    invariant s -> invariant (generate_prefetches_loop n i dir_val stream_idx s w).1.1.
Proof.
  induction n as [|n IH]; intros i dir_val stream_idx s w Hinv; simpl; [exact Hinv|].
  repeat case_match; simpl; try (keep; fail).
  all: apply IH; try apply invariant_update_stream_classification; keep.
Qed.

Lemma invariant_generate_prefetches s w stream_idx :
  invariant s -> invariant (generate_prefetches s w stream_idx).1.
Proof.
  intros Hinv. unfold transformer_stream.generate_prefetches.
  destruct (negb _ || negb _); [exact Hinv|].
  match goal with
  | |- context [generate_prefetches_loop ?n ?i ?d ?x ?s0 ?w0] =>
      pose proof (invariant_generate_prefetches_loop n i d x s0 w0 Hinv) as H;
      destruct (generate_prefetches_loop n i d x s0 w0) as [[s1 w1] b]
  end.
  simpl in H. destruct b; simpl; keep.
Qed.

Lemma phase_generate_prefetches_loop n :
  forall i dir_val stream_idx s w,
    phase_state (generate_prefetches_loop n i dir_val stream_idx s w).1.1 = phase_state s.
Proof.
  induction n as [|n IH]; intros i dir_val stream_idx s w; simpl; [reflexivity|].
  repeat case_match; simpl; try reflexivity;
    rewrite IH, ?phase_update_stream_classification; reflexivity.
Qed.

Lemma phase_generate_prefetches s w stream_idx :
  phase_state (generate_prefetches s w stream_idx).1 = phase_state s.
Proof.
  unfold transformer_stream.generate_prefetches.
  destruct (negb _ || negb _); [reflexivity|].
  match goal with
  | |- context [generate_prefetches_loop ?n ?i ?d ?x ?s0 ?w0] =>
      pose proof (phase_generate_prefetches_loop n i d x s0 w0) as H;
      destruct (generate_prefetches_loop n i d x s0 w0) as [[s1 w1] b]
  end.
  simpl in H. destruct b; simpl; exact H.
Qed.

Lemma invariant_create_stream s w trained_entry :
  invariant s -> invariant (create_stream s w trained_entry).1.
Proof.
  intros Hinv. unfold transformer_stream.create_stream.
  pose proof (allocate_stream_entry_ok s Hinv) as Ha.
  destruct (allocate_stream_entry s) as [s1 idx]. simpl in Ha. destruct Ha as [Hinv1 Hidx].
  destruct (Z.ltb_spec idx 0) as [Hneg|Hpos]; [exact Hinv1|].
  destruct Hidx as [Hidx|[Hidx Hgid]]; [lia|].
  destruct (invariant_sizes s1 Hinv1) as [Hss1 _].
  match goal with
  | |- context [update_stream idx ?f (update_stream idx ?g s1)] =>
      set (F := f); set (G := g)
  end.
  set (s2 := update_stream idx G s1).
  assert (Hinv2 : invariant s2).
  { apply invariant_update_stream_keep; [exact Hinv1|intros; reflexivity|].
    simpl. discriminate. }
  assert (Hs2 : stream s2 idx = G (stream s1 idx))
    by (apply stream_update_stream_eq; lia).
  destruct (invariant_sizes s2 Hinv2) as [Hss2 _].
  set (s3 := update_stream idx F s2).
  assert (Hinv3 : invariant s3) by (subst s3 F; keep).
  assert (Hs3 : stream s3 idx = F (stream s2 idx))
    by (apply stream_update_stream_eq; lia).
  pose proof (find_or_create_stream_group_ok s3
                (TransformerStreamEntry.direction (stream s3 idx))
                (TransformerStreamEntry.stride (stream s3 idx)) Hinv3) as Hf.
  destruct (find_or_create_stream_group s3 _ _) as [s4 group_idx].
  simpl in Hf. destruct Hf as (Hinv4 & Hg & Hgv & Hst).
  apply invariant_generate_prefetches.
  destruct (Hst idx) as [Hv4 Hg4].
  apply add_stream_to_group_ok; [exact Hinv4| | |intros _; exact Hgv].
  - rewrite Hv4, Hs3, Hs2. reflexivity.
  - assert (E : TransformerStreamEntry.group_id (stream s3 idx) = -1).
    { rewrite Hs3, Hs2. simpl. exact Hgid. }
    destruct Hg4 as [Hg4|Hg4]; lia.
Qed.

Lemma invariant_reactivate_stream s w idx trigger_block :
  invariant s ->
  0 <= idx < STREAM_TABLE_SIZE ->
  TransformerStreamEntry.valid (stream s idx) = true ->
  invariant (reactivate_stream s w idx trigger_block).1.
Proof.
  intros Hinv Hidx Hv. unfold transformer_stream.reactivate_stream.
  destruct (invariant_sizes s Hinv) as [Hss _].
  match goal with
  | |- context [update_stream idx ?g s] => set (G := g)
  end.
  set (s1 := update_stream idx G s).
  assert (Hinv1 : invariant s1) by (subst s1 G; keep).
  assert (Hs1 : stream s1 idx = G (stream s idx)) by (apply stream_update_stream_eq; lia).
  destruct (invariant_sizes s1 Hinv1) as [Hss1 _].
  assert (Hv1 : TransformerStreamEntry.valid (stream s1 idx) = true)
    by (rewrite Hs1; exact Hv).
  assert (Hrest : forall s2,
            invariant s2 ->
            TransformerStreamEntry.valid (stream s2 idx) = true ->
            invariant
              (generate_prefetches
                 (if TransformerStreamEntry.group_id (stream s2 idx) <? 0
                  then
                    let '(s, group_idx) :=
                      find_or_create_stream_group s2
                        (TransformerStreamEntry.direction (stream s2 idx))
                        (TransformerStreamEntry.stride (stream s2 idx)) in
                    add_stream_to_group s idx group_idx
                  else s2) w idx).1).
  { intros s2 Hinv2 Hv2. apply invariant_generate_prefetches.
    destruct (Z.ltb_spec (TransformerStreamEntry.group_id (stream s2 idx)) 0) as [Hlt|Hge];
      [|exact Hinv2].
    pose proof (find_or_create_stream_group_ok s2
                  (TransformerStreamEntry.direction (stream s2 idx))
                  (TransformerStreamEntry.stride (stream s2 idx)) Hinv2) as Hf.
    destruct (find_or_create_stream_group s2 _ _) as [s3 group_idx].
    simpl in Hf. destruct Hf as (Hinv3 & Hg & Hgv & Hst).
    destruct (Hst idx) as [Hv3 Hg3].
    apply add_stream_to_group_ok; [exact Hinv3|congruence| |intros _; exact Hgv].
    destruct Hg3 as [Hg3|Hg3]; lia. }
  cbv zeta.
  repeat match goal with
         | |- context [match TransformerStreamEntry.direction ?e with _ => _ end] =>
             destruct (TransformerStreamEntry.direction e)
         | |- context [if ?a >? ?b then _ else _] => destruct (a >? b)
         | |- context [if ?a <? ?b then update_stream _ _ _ else _] => destruct (a <? b)
         end;
    apply Hrest; try exact Hinv1; try exact Hv1;
    try (apply invariant_update_stream_same; [exact Hinv1|intros; reflexivity ..]);
    rewrite stream_update_stream_eq by lia; exact Hv1.
Qed.

Lemma invariant_try_relaunch_stream s w miss_block dir stride :
  invariant s -> invariant (try_relaunch_stream s w miss_block dir stride).1.1.
Proof.
  intros Hinv.
  unfold transformer_stream.try_relaunch_stream, find_matching_inactive_stream.
  match goal with
  | |- context [find_index ?p ?l] =>
      pose proof (find_index_found p l TransformerStreamEntry.default) as Hf;
      set (match_idx := find_index p l) in *
  end.
  clearbody match_idx. fold (stream s match_idx) in Hf.
  destruct (Z.geb_spec match_idx 0) as [Hm|Hm]; [|exact Hinv].
  destruct (Hf Hm) as [Hlt Hp].
  destruct (invariant_sizes s Hinv) as [Hss _]. unfold stream_table_size in Hss.
  pose proof (invariant_reactivate_stream s w match_idx miss_block Hinv ltac:(lia)) as H.
  destruct (reactivate_stream s w match_idx miss_block) as [s1 w1]. simpl in *.
  apply H. repeat (apply andb_true_iff in Hp; destruct Hp as [Hp _]). exact Hp.
Qed.

Lemma phase_reactivate_stream s w idx trigger_block :
  phase_state (reactivate_stream s w idx trigger_block).1 = phase_state s.
Proof.
  unfold transformer_stream.reactivate_stream. cbv zeta.
  rewrite phase_generate_prefetches.
  repeat match goal with
         | |- context [match TransformerStreamEntry.direction ?e with _ => _ end] =>
             destruct (TransformerStreamEntry.direction e)
         | |- context [if ?a >? ?b then _ else _] => destruct (a >? b)
         | |- context [if ?a <? ?b then _ else _] => destruct (a <? b)
         end;
    try reflexivity;
    match goal with
    | |- context [find_or_create_stream_group ?s0 ?d ?st] =>
        pose proof (phase_find_or_create_stream_group s0 d st) as H;
        destruct (find_or_create_stream_group s0 d st) as [s1 g]
    end;
    simpl in H; rewrite phase_add_stream_to_group; exact H.
Qed.

Lemma phase_try_relaunch_stream s w miss_block dir stride :
  phase_state (try_relaunch_stream s w miss_block dir stride).1.1 = phase_state s /\
  ((try_relaunch_stream s w miss_block dir stride).2 = false ->
   (try_relaunch_stream s w miss_block dir stride).1 = (s, w)).
Proof.
  unfold transformer_stream.try_relaunch_stream.
  destruct (_ >=? 0).
  - match goal with
    | |- context [reactivate_stream s w ?i ?b] =>
        pose proof (phase_reactivate_stream s w i b) as H;
        destruct (reactivate_stream s w i b) as [s1 w1]
    end.
    simpl in *. split; [exact H|discriminate].
  - simpl. split; reflexivity.
Qed.

(** Creating a stream while the table has a free entry terminates nothing
    and leaves the phase detector alone. *)
Lemma phase_create_stream_free_entry s w trained_entry :
  0 <= find_index (fun e => negb (TransformerStreamEntry.valid e)) (stream_table s) ->
  phase_state (create_stream s w trained_entry).1 = phase_state s.
Proof.
  intros Hfree. unfold transformer_stream.create_stream, allocate_stream_entry.
  destruct (Z.leb_spec 0 (find_index (fun e => negb (TransformerStreamEntry.valid e))
                            (stream_table s))) as [_|?]; [|lia].
  destruct (_ <? 0); [reflexivity|].
  match goal with
  | |- context [find_or_create_stream_group ?s0 ?d ?st] =>
      pose proof (phase_find_or_create_stream_group s0 d st) as H;
      destruct (find_or_create_stream_group s0 d st) as [s1 g]
  end.
  simpl in H. rewrite phase_generate_prefetches, phase_add_stream_to_group. exact H.
Qed.

Lemma frame_allocate_training_entry s region_base :
  phase_state (allocate_training_entry s region_base).1 = phase_state s /\
  stream_table (allocate_training_entry s region_base).1 = stream_table s.
Proof. unfold allocate_training_entry. repeat case_match; simpl; auto. Qed.

Lemma frame_update_training_entry s idx miss_block :
  phase_state (update_training_entry s idx miss_block) = phase_state s /\
  stream_table (update_training_entry s idx miss_block) = stream_table s.
Proof. unfold update_training_entry. repeat case_match; simpl; auto. Qed.

(** A miss with no cleanup due and a free stream entry terminates no
    stream: its only effect on the phase detector is the
    [update_phase_state(false)] at its start. *)
Lemma quiet_miss_phase s w addr ip useful_prefetch type metadata_in :
  u64 (cleanup_counter s + 1) < CLEANUP_INTERVAL ->
  0 <= find_index (fun e => negb (TransformerStreamEntry.valid e)) (stream_table s) ->
  phase_state (cache_operate s w addr ip 0 useful_prefetch type metadata_in).1.1 =
  phase_state
    (update_phase_state (set_current_timestamp (u64 (current_timestamp s + 1)) s) false).
Proof.
  intros Hclean Hfree. unfold prefetcher_cache_operate. simpl negb. cbv iota.
  set (s2 := update_phase_state (set_current_timestamp (u64 (current_timestamp s + 1)) s) false).
  assert (Hst2 : stream_table s2 = stream_table s)
    by (subst s2; rewrite (proj1 (tables_update_phase_state _ false)); reflexivity).
  assert (Hcc : cleanup_counter s2 = cleanup_counter s).
  { subst s2. unfold update_phase_state, try_phase_recovery, update_phase.
    repeat case_match; reflexivity. }
  set (s3 := set_cleanup_counter (u64 (cleanup_counter s2 + 1)) s2).
  assert (Hno : (cleanup_counter s3 >=? CLEANUP_INTERVAL) = false).
  { subst s3. simpl. rewrite Hcc. lia. }
  rewrite Hno. cbv zeta.
  destruct (find_stream_for_block s3 (Z.shiftr addr LOG2_BLOCK_SIZE) >=? 0).
  - match goal with
    | |- context [generate_prefetches ?s0 w ?i] =>
        pose proof (phase_generate_prefetches s0 w i) as H;
        destruct (generate_prefetches s0 w i) as [s5 w5]
    end.
    simpl in *. rewrite H, phase_reinforce_stream_confidence.
    repeat case_match; reflexivity.
  - match goal with
    | |- context [if ?c then allocate_training_entry s3 ?r else (s3, ?i)] =>
        assert (Ha : phase_state (if c then allocate_training_entry s3 r else (s3, i)).1
                     = phase_state s3 /\
                     stream_table (if c then allocate_training_entry s3 r else (s3, i)).1
                     = stream_table s3)
          by (destruct c; [apply frame_allocate_training_entry|split; reflexivity]);
        destruct (if c then allocate_training_entry s3 r else (s3, i)) as [s5 train_idx]
    end.
    simpl in Ha. destruct Ha as [Hp5 Ht5].
    destruct (frame_update_training_entry s5 train_idx (Z.shiftr addr LOG2_BLOCK_SIZE))
      as [Hp6 Ht6].
    set (s6 := update_training_entry s5 train_idx (Z.shiftr addr LOG2_BLOCK_SIZE)) in *.
    assert (Hp : phase_state s6 = phase_state s2) by (rewrite Hp6, Hp5; reflexivity).
    assert (Ht : stream_table s6 = stream_table s)
      by (rewrite Ht6, Ht5; exact Hst2).
    clearbody s6.
    destruct (_ && _ && _); [|exact Hp].
    match goal with
    | |- context [try_relaunch_stream s6 w ?b ?d ?st] =>
        destruct (phase_try_relaunch_stream s6 w b d st) as [Hr Hfail];
        destruct (try_relaunch_stream s6 w b d st) as [[s7 w7] relaunched]
    end.
    simpl in Hr, Hfail. destruct relaunched; simpl; [rewrite Hr; exact Hp|].
    specialize (Hfail eq_refl). injection Hfail as -> ->.
    pose proof (phase_create_stream_free_entry s6 w (training s6 train_idx)) as Hc.
    rewrite Ht in Hc. specialize (Hc Hfree).
    destruct (create_stream s6 w (training s6 train_idx)) as [s8 w8].
    simpl in *. rewrite Hc. exact Hp.
Qed.

Lemma invariant_allocate_training_entry s region_base :
  invariant s -> invariant (allocate_training_entry s region_base).1.
Proof.
  intros Hinv. unfold allocate_training_entry.
  repeat case_match; simpl; exact Hinv.
Qed.

Lemma invariant_update_training_entry s idx miss_block :
  invariant s -> invariant (update_training_entry s idx miss_block).
Proof.
  intros Hinv. unfold update_training_entry.
  repeat case_match; simpl; exact Hinv.
Qed.

Lemma invariant_cache_operate s w addr ip cache_hit useful_prefetch type metadata_in :
  invariant s ->
  invariant (cache_operate s w addr ip cache_hit useful_prefetch type metadata_in).1.1.
Proof.
  intros Hinv. unfold prefetcher_cache_operate.
  destruct (negb (cache_hit =? 0)); [exact Hinv|].
  set (s1 := set_current_timestamp (u64 (current_timestamp s + 1)) s).
  assert (Hinv1 : invariant s1) by exact Hinv.
  pose proof (invariant_update_phase_state s1 false Hinv1) as Hinv2.
  set (s2 := update_phase_state s1 false) in *.
  set (s3 := set_cleanup_counter (u64 (cleanup_counter s2 + 1)) s2).
  assert (Hinv3 : invariant s3) by exact Hinv2.
  set (s4 := if cleanup_counter s3 >=? CLEANUP_INTERVAL
             then set_cleanup_counter 0 (remove_dead_streams s3) else s3).
  assert (Hinv4 : invariant s4).
  { subst s4. destruct (cleanup_counter s3 >=? CLEANUP_INTERVAL); [|exact Hinv3].
    exact (invariant_remove_dead_streams s3 Hinv3). }
  clearbody s4. clear Hinv Hinv1 Hinv2 Hinv3 s1 s2 s3.
  cbv zeta.
  destruct (find_stream_for_block s4 (Z.shiftr addr LOG2_BLOCK_SIZE) >=? 0).
  - match goal with
    | |- context [generate_prefetches ?s0 w ?i] =>
        pose proof (invariant_generate_prefetches s0 w i) as H;
        destruct (generate_prefetches s0 w i) as [s5 w5]
    end.
    simpl in *. apply H. apply invariant_reinforce_stream_confidence.
    repeat case_match; keep.
  - match goal with
    | |- context [if ?c then allocate_training_entry s4 ?r else (s4, ?i)] =>
        assert (Ha : invariant (if c then allocate_training_entry s4 r else (s4, i)).1)
          by (destruct c; [apply invariant_allocate_training_entry, Hinv4|exact Hinv4]);
        destruct (if c then allocate_training_entry s4 r else (s4, i)) as [s5 train_idx]
    end.
    simpl in Ha.
    pose proof (invariant_update_training_entry s5 train_idx
                  (Z.shiftr addr LOG2_BLOCK_SIZE) Ha) as Hu.
    set (s6 := update_training_entry s5 train_idx (Z.shiftr addr LOG2_BLOCK_SIZE)) in *.
    clearbody s6.
    destruct (_ && _ && _); [|exact Hu].
    match goal with
    | |- context [try_relaunch_stream s6 w ?b ?d ?st] =>
        pose proof (invariant_try_relaunch_stream s6 w b d st Hu) as Hr;
        destruct (try_relaunch_stream s6 w b d st) as [[s7 w7] relaunched]
    end.
    simpl in Hr. destruct relaunched; simpl; [exact Hr|].
    pose proof (invariant_create_stream s7 w7 (training s6 train_idx) Hr) as Hc.
    destruct (create_stream s7 w7 (training s6 train_idx)) as [s8 w8]. exact Hc.
Qed.

Lemma invariant_cycle_operate s w :
  invariant s -> invariant (cycle_operate s w).1.
Proof.
  unfold prefetcher_cycle_operate.
  generalize (indices (stream_table s)). intros idxs. revert s w.
  induction idxs as [|i idxs IH]; intros s w Hinv; simpl; [exact Hinv|].
  match goal with
  | |- context [fold_left ?f idxs ?a] =>
      assert (Ha : invariant a.1);
      [|destruct a as [s1 w1]; apply IH; exact Ha]
  end.
  destruct (_ && _); [apply invariant_generate_prefetches, Hinv|exact Hinv].
Qed.

Lemma invariant_initialize : invariant (prefetcher_initialize construct).
Proof.
  split; [unfold phase_ok, prefetcher_initialize; simpl; unfold PHASE_WINDOW_SIZE; lia|].
  split; [reflexivity|]. split; [reflexivity|]. split.
  - intros i Hi. sizes.
    assert (Hc : In i (map Z.of_nat (seq 0 32))).
    { apply in_map_iff. exists (Z.to_nat i). split; [lia|]. apply in_seq. lia. }
    vm_compute in Hc. intros _.
    repeat (destruct Hc as [<-|Hc]; [reflexivity|]). contradiction.
  - intros j Hj. sizes.
    assert (Hc : In j (map Z.of_nat (seq 0 8))).
    { apply in_map_iff. exists (Z.to_nat j). split; [lia|]. apply in_seq. lia. }
    vm_compute in Hc.
    assert (Hocc : forall m, 0 <= m -> occurrences m (replicate 8 (-1)) = 0).
    { intros m Hm.
      pose proof (occurrences_le_count m (replicate 8 (-1)) Hm).
      pose proof (occurrences_range m (replicate 8 (-1))).
      rewrite (count_nonneg_replicate 8) in *. lia. }
    repeat (destruct Hc as [<-|Hc];
            [cbv zeta; split; [reflexivity|]; split; [reflexivity|];
             split; [reflexivity|];
             change (StreamGroup.members _) with (replicate 8 (-1));
             split; intros m Hm; rewrite Hocc by exact Hm; lia|]).
    contradiction.
Qed.

(** Every reachable state satisfies the invariant. *)
Lemma reachable_invariant s : reachable s -> invariant s.
Proof.
  induction 1 as [|s w addr ip hit up ty m _ IH|s w addr set way pf ev m _ IH
                  |s w _ IH|s w _ IH].
  - exact invariant_initialize.
  - apply invariant_cache_operate, IH.
  - exact IH.
  - apply invariant_cycle_operate, IH.
  - exact IH.
Qed.

End InvariantHost.

(** ** The selector *)

Section Selector.
Import transformer_pythia_selector_bw.

Context (World : Type)
        (get_mshr_occupancy_ratio : World -> float)
        (prefetch_line : World -> Z -> bool -> Z -> World * bool)
        (LOG2_BLOCK_SIZE : Z)
        (access_type : Type)
        (get_dram_bw : World -> Z)
        (intern_NUM_SET intern_NUM_WAY : World -> Z)
        (std_log : float -> float)
        (Pythia : Type)
        (pythia_initialize : World -> Pythia * World)
        (pythia_cache_operate :
           Pythia -> World -> Z -> Z -> Z -> bool -> access_type -> Z -> Pythia * World * Z)
        (pythia_cache_fill :
           Pythia -> World -> Z -> Z -> Z -> Z -> Z -> Z -> Pythia * World * Z)
        (pythia_cycle_operate pythia_final_stats : Pythia -> World -> Pythia * World).

#[local] Abbreviation state := (t Pythia).
#[local] Abbreviation initialize :=
  (@prefetcher_initialize World intern_NUM_SET intern_NUM_WAY Pythia pythia_initialize).
#[local] Abbreviation cache_operate :=
  (@prefetcher_cache_operate World get_mshr_occupancy_ratio prefetch_line LOG2_BLOCK_SIZE
     access_type get_dram_bw Pythia pythia_cache_operate).
#[local] Abbreviation cache_fill := (@prefetcher_cache_fill World Pythia pythia_cache_fill).
#[local] Abbreviation cycle_operate :=
  (@prefetcher_cycle_operate World get_mshr_occupancy_ratio prefetch_line LOG2_BLOCK_SIZE
     std_log Pythia pythia_cycle_operate).
#[local] Abbreviation final_stats := (@prefetcher_final_stats World Pythia pythia_final_stats).
#[local] Abbreviation allow_prefetch := (@should_allow_prefetch World get_dram_bw Pythia).
#[local] Abbreviation credit_useful := (@credit_useful_prefetch Pythia).
#[local] Abbreviation count_issued := (@count_issued_prefetch Pythia).
#[local] Abbreviation set_of := (@set_of_address LOG2_BLOCK_SIZE Pythia).
#[local] Abbreviation accuracy := (@get_prefetch_accuracy Pythia).
#[local] Abbreviation bandwidth := (@get_bandwidth_utilization World get_dram_bw).
#[local] Abbreviation useful_total := (@total_useful Pythia).
#[local] Abbreviation issued_total := (@total_issued Pythia).
#[local] Abbreviation update_policy := (@update_policy_selector std_log Pythia).
#[local] Abbreviation reachable :=
  (@reachable World get_mshr_occupancy_ratio prefetch_line LOG2_BLOCK_SIZE access_type
     get_dram_bw intern_NUM_SET intern_NUM_WAY std_log Pythia pythia_initialize
     pythia_cache_operate pythia_cache_fill pythia_cycle_operate pythia_final_stats).

Implicit Types (s : state) (w : World).

Ltac crush_cases :=
  repeat match goal with
         | |- context [if ?b then _ else _] => destruct b
         | |- context [let '(_, _) := ?p in _] => destruct p
         end.

(** ** The policy counter *)

Lemma policy_selector_initialize w : policy_selector (initialize w).1 = 0.
Proof. unfold prefetcher_initialize. destruct (pythia_initialize w). reflexivity. Qed.

Lemma policy_selector_should_allow s w :
  policy_selector (allow_prefetch s w).1 = policy_selector s.
Proof. unfold should_allow_prefetch. crush_cases; reflexivity. Qed.

Lemma policy_selector_credit_useful_prefetch s set :
  policy_selector (credit_useful s set) = policy_selector s.
Proof. unfold credit_useful_prefetch. crush_cases; reflexivity. Qed.

Lemma policy_selector_count_issued_prefetch s set :
  policy_selector (count_issued s set) = policy_selector s.
Proof. unfold count_issued_prefetch. crush_cases; reflexivity. Qed.

Lemma policy_selector_cache_operate s w addr ip cache_hit useful_prefetch type metadata_in :
  policy_selector (cache_operate s w addr ip cache_hit useful_prefetch type metadata_in).1.1
  = policy_selector s.
Proof.
  unfold prefetcher_cache_operate.
  match goal with
  | |- context [allow_prefetch ?s0 w] =>
      pose proof (policy_selector_should_allow s0 w) as Ha;
      assert (Hs0 : policy_selector s0 = policy_selector s)
        by (destruct (_ && _); [apply policy_selector_credit_useful_prefetch|reflexivity]);
      destruct (allow_prefetch s0 w) as [s1 allow]
  end.
  simpl in Ha. rewrite <- Hs0, <- Ha. clear Ha Hs0.
  crush_cases; reflexivity.
Qed.

Lemma policy_selector_cache_fill s w addr set way prefetch evicted_addr metadata_in :
  policy_selector (cache_fill s w addr set way prefetch evicted_addr metadata_in).1.1
  = policy_selector s.
Proof.
  unfold prefetcher_cache_fill.
  destruct (negb _); crush_cases; simpl;
    try apply policy_selector_count_issued_prefetch; reflexivity.
Qed.

Lemma policy_selector_final_stats s w :
  policy_selector (final_stats s w).1 = policy_selector s.
Proof. unfold prefetcher_final_stats. crush_cases; reflexivity. Qed.

(** One policy update: the counter stays, or moves one step towards the
    winner and saturates. *)
Lemma update_policy_selector_step s :
  policy_selector (update_policy s) = policy_selector s \/
  policy_selector (update_policy s) = Z.min (policy_selector s + 1) POLICY_MAX \/
  policy_selector (update_policy s) = Z.max (policy_selector s - 1) POLICY_MIN.
Proof. unfold update_policy_selector. crush_cases; simpl; auto. Qed.

Lemma policy_selector_cycle_operate s w :
  policy_selector (cycle_operate s w).1 = policy_selector s \/
  policy_selector (cycle_operate s w).1 = policy_selector (update_policy s).
Proof.
  unfold prefetcher_cycle_operate.
  destruct (_ =? 0).
  - right. crush_cases.
    change (policy_selector (update_policy (set_cycles (u64 (cycles s + 1)) s))
            = policy_selector (update_policy s)).
    unfold update_policy_selector. simpl. crush_cases; reflexivity.
  - left. crush_cases; reflexivity.
Qed.

Lemma reachable_policy_in_range s :
  reachable s -> POLICY_MIN <= policy_selector s <= POLICY_MAX.
Proof.
  unfold POLICY_MIN, POLICY_MAX.
  induction 1 as [w|s w addr ip hit up ty m _ IH|s w addr set way pf ev m _ IH
                  |s w _ IH|s w _ IH].
  - rewrite policy_selector_initialize. lia.
  - rewrite policy_selector_cache_operate. exact IH.
  - rewrite policy_selector_cache_fill. exact IH.
  - destruct (policy_selector_cycle_operate s w) as [E|E]; rewrite E; [exact IH|].
    destruct (update_policy_selector_step s) as [E'|[E'|E']]; rewrite E';
      unfold POLICY_MIN, POLICY_MAX; lia.
  - rewrite policy_selector_final_stats. exact IH.
Qed.

(** ** The throttle *)

Lemma u64_add_l a b : u64 (u64 a + b) = u64 (a + b).
Proof. unfold u64. apply Zplus_mod_idemp_l. Qed.

Lemma u64_add_r a b : u64 (a + u64 b) = u64 (a + b).
Proof. unfold u64. apply Zplus_mod_idemp_r. Qed.

Lemma accuracy_sums (l : list sampler_entry.t) a b :
  fold_left
    (fun '(useful, issued) e =>
       (u64 (useful + u64 (sampler_entry.transformer_useful e + sampler_entry.pythia_useful e)),
        u64 (issued + u64 (sampler_entry.transformer_issued e + sampler_entry.pythia_issued e))))
    l (u64 a, u64 b)
  = (u64 (a + foldr (fun e acc => sampler_entry.transformer_useful e +
                                  sampler_entry.pythia_useful e + acc) 0 l),
     u64 (b + foldr (fun e acc => sampler_entry.transformer_issued e +
                                  sampler_entry.pythia_issued e + acc) 0 l)).
Proof.
  revert a b. induction l as [|e l IH]; intros a b; simpl.
  - rewrite !Z.add_0_r. reflexivity.
  - rewrite !u64_add_r, !u64_add_l, IH. f_equal; f_equal; lia.
Qed.

(** The accuracy is total useful over total issued, 1.0 when nothing was
    issued. *)
Lemma get_prefetch_accuracy_totals s :
  accuracy s =
  if issued_total s =? 0 then 1%float
  else (double_of_Z (useful_total s) / double_of_Z (issued_total s))%float.
Proof.
  unfold get_prefetch_accuracy, total_useful, total_issued.
  rewrite accuracy_sums. rewrite <- !Z.add_assoc. reflexivity.
Qed.

Lemma should_allow_prefetch_spec s w :
  let bw_util := bandwidth w in
  let acc := accuracy s in
  let allowed :=
    PrimFloat.ltb bw_util BW_UTIL_THRESHOLD &&
    (PrimFloat.ltb bw_util acc || PrimFloat.ltb MIN_ACCURACY_THRESHOLD acc) in
  (allow_prefetch s w).2 = allowed /\
  pref_transformer (allow_prefetch s w).1 = pref_transformer s /\
  pref_pythia (allow_prefetch s w).1 = pref_pythia s /\
  prefetch_throttled_count (allow_prefetch s w).1 =
    (if allowed then prefetch_throttled_count s else u64 (prefetch_throttled_count s + 1)) /\
  prefetch_allowed_count (allow_prefetch s w).1 =
    (if allowed then u64 (prefetch_allowed_count s + 1) else prefetch_allowed_count s).
Proof.
  unfold should_allow_prefetch. cbv zeta.
  destruct (PrimFloat.ltb (bandwidth w) BW_UTIL_THRESHOLD);
    destruct (PrimFloat.ltb (bandwidth w) (accuracy s) ||
              PrimFloat.ltb MIN_ACCURACY_THRESHOLD (accuracy s));
    simpl; auto.
Qed.

Lemma credit_useful_prefetch_frame s set :
  pref_transformer (credit_useful s set) = pref_transformer s /\
  pref_pythia (credit_useful s set) = pref_pythia s /\
  prefetch_throttled_count (credit_useful s set) = prefetch_throttled_count s.
Proof. unfold credit_useful_prefetch. crush_cases; simpl; auto. Qed.

(** What the credit and the throttle leave alone. *)
Lemma credit_useful_prefetch_fields s set :
  NUM_SET (credit_useful s set) = NUM_SET s /\
  policy_selector (credit_useful s set) = policy_selector s /\
  pref_transformer (credit_useful s set) = pref_transformer s /\
  pref_pythia (credit_useful s set) = pref_pythia s /\
  transformer_selected_count (credit_useful s set) = transformer_selected_count s /\
  pythia_selected_count (credit_useful s set) = pythia_selected_count s /\
  prefetch_allowed_count (credit_useful s set) = prefetch_allowed_count s /\
  prefetch_throttled_count (credit_useful s set) = prefetch_throttled_count s.
Proof. unfold credit_useful_prefetch. crush_cases; simpl; repeat split. Qed.

Lemma should_allow_prefetch_fields s w :
  samplers (allow_prefetch s w).1 = samplers s /\
  NUM_SET (allow_prefetch s w).1 = NUM_SET s /\
  dedicated_stats (allow_prefetch s w).1 = dedicated_stats s /\
  policy_selector (allow_prefetch s w).1 = policy_selector s /\
  pref_transformer (allow_prefetch s w).1 = pref_transformer s /\
  pref_pythia (allow_prefetch s w).1 = pref_pythia s /\
  transformer_selected_count (allow_prefetch s w).1 = transformer_selected_count s /\
  pythia_selected_count (allow_prefetch s w).1 = pythia_selected_count s /\
  prefetch_allowed_count (allow_prefetch s w).1 =
    (if (allow_prefetch s w).2 then u64 (prefetch_allowed_count s + 1)
     else prefetch_allowed_count s) /\
  prefetch_throttled_count (allow_prefetch s w).1 =
    (if (allow_prefetch s w).2 then prefetch_throttled_count s
     else u64 (prefetch_throttled_count s + 1)).
Proof.
  unfold should_allow_prefetch. cbv zeta.
  destruct (PrimFloat.ltb (bandwidth w) BW_UTIL_THRESHOLD);
    destruct (PrimFloat.ltb (bandwidth w) (accuracy s) ||
              PrimFloat.ltb MIN_ACCURACY_THRESHOLD (accuracy s));
    simpl; repeat split.
Qed.

(** ** The counters and the metadata word *)

Lemma counters_should_allow_prefetch s w :
  samplers (allow_prefetch s w).1 = samplers s /\
  dedicated_stats (allow_prefetch s w).1 = dedicated_stats s.
Proof. unfold should_allow_prefetch. crush_cases; simpl; auto. Qed.

(** The useful and issued counters after a call are those of the credit
    (or count) block, whatever the metadata word: the source bits are not
    consulted. *)
Lemma selector_counters_ignore_metadata s w addr ip cache_hit useful_prefetch
    (type : access_type) set way prefetch evicted_addr metadata_in :
  let operated :=
    (cache_operate s w addr ip cache_hit useful_prefetch type metadata_in).1.1 in
  let credited :=
    if useful_prefetch && negb (cache_hit =? 0) then credit_useful s (set_of s addr) else s in
  let filled := (cache_fill s w addr set way prefetch evicted_addr metadata_in).1.1 in
  let counted := if negb (prefetch =? 0) then count_issued s set else s in
  (samplers operated = samplers credited /\
   dedicated_stats operated = dedicated_stats credited) /\
  (samplers filled = samplers counted /\
   dedicated_stats filled = dedicated_stats counted).
Proof.
  cbv zeta. split.
  - unfold prefetcher_cache_operate.
    match goal with
    | |- context [allow_prefetch ?s0 w] =>
        destruct (counters_should_allow_prefetch s0 w) as [E1 E2];
        destruct (allow_prefetch s0 w) as [s1 allow]
    end.
    simpl in E1, E2. rewrite <- E1, <- E2.
    crush_cases; simpl; auto.
  - unfold prefetcher_cache_fill. crush_cases; simpl; auto.
Qed.

End Selector.

(** ** Metadata tags *)

Section TagFacts.
Import transformer_pythia_selector_bw.

Lemma preserve_mask_ones : METADATA_PRESERVE_MASK = Z.ones 30.
Proof. reflexivity. Qed.

Lemma tagged_testbit (m bit n : Z) :
  0 <= bit -> 0 <= n ->
  Z.testbit (Z.lor (Z.land m METADATA_PRESERVE_MASK) (2 ^ bit)) n =
  (Z.testbit m n && (n <? 30)) || (bit =? n).
Proof.
  intros Hb Hn. rewrite preserve_mask_ones, Z.lor_spec, Z.land_spec.
  rewrite Z.testbit_ones_nonneg by lia.
  now rewrite Z.pow2_bits_eqb by lia.
Qed.

Lemma tagged_low_bits (m bit : Z) :
  30 <= bit ->
  Z.land (Z.lor (Z.land m METADATA_PRESERVE_MASK) (2 ^ bit)) 1073741823 =
  Z.land m 1073741823.
Proof.
  intros Hb. change 1073741823 with (Z.ones 30).
  apply Z.bits_inj'. intros n Hn.
  rewrite !Z.land_spec, tagged_testbit by lia.
  rewrite Z.testbit_ones_nonneg by lia.
  destruct (Z.ltb_spec n 30); destruct (Z.eqb_spec bit n); try lia;
    destruct (Z.testbit m n); reflexivity.
Qed.

Lemma tagged_range (m bit : Z) :
  0 <= bit < 32 ->
  0 <= Z.lor (Z.land m METADATA_PRESERVE_MASK) (2 ^ bit) < 2 ^ 32.
Proof.
  intros Hb.
  assert (H0 : 0 <= Z.land m METADATA_PRESERVE_MASK).
  { apply Z.land_nonneg. right. rewrite preserve_mask_ones. vm_compute. discriminate. }
  assert (H1 : 0 <= 2 ^ bit) by (apply Z.pow_nonneg; lia).
  split.
  - apply Z.lor_nonneg. split; assumption.
  - assert (Hlog : forall x, 0 <= x -> (forall n, 32 <= n -> Z.testbit x n = false) -> x < 2 ^ 32).
    { intros x Hx Hbits. destruct (Z.eq_dec x 0) as [->|Hne]; [reflexivity|].
      apply Z.log2_lt_pow2; [lia|].
      destruct (Z.lt_ge_cases (Z.log2 x) 32) as [Hlt|Hge]; [exact Hlt|].
      specialize (Hbits (Z.log2 x) Hge). rewrite Z.bit_log2 in Hbits by lia. discriminate. }
    apply Hlog.
    + apply Z.lor_nonneg. split; assumption.
    + intros n Hn. rewrite tagged_testbit by lia.
      destruct (Z.ltb_spec n 30); destruct (Z.eqb_spec bit n); lia.
Qed.

(** C7.  For every 32-bit metadata word [m] (indeed every integer),
    [tag_metadata_transformer m] keeps the low 30 bits of [m], sets bit 30
    and clears bit 31; [tag_metadata_pythia m] keeps the low 30 bits, clears
    bit 30 and sets bit 31; both results are 32-bit words. *)
Theorem tag_metadata_round_trip (m : Z) :
  (Z.land (tag_metadata_transformer m) 1073741823 = Z.land m 1073741823 /\
   Z.testbit (tag_metadata_transformer m) 30 = true /\
   Z.testbit (tag_metadata_transformer m) 31 = false /\
   0 <= tag_metadata_transformer m < 2 ^ 32) /\
  (Z.land (tag_metadata_pythia m) 1073741823 = Z.land m 1073741823 /\
   Z.testbit (tag_metadata_pythia m) 30 = false /\
   Z.testbit (tag_metadata_pythia m) 31 = true /\
   0 <= tag_metadata_pythia m < 2 ^ 32).
Proof.
  unfold tag_metadata_transformer, tag_metadata_pythia.
  change METADATA_TRANSFORMER_BIT with (2 ^ 30).
  change METADATA_PYTHIA_BIT with (2 ^ 31).
  repeat split;
    solve [ apply tagged_low_bits; lia
          | rewrite tagged_testbit by lia; simpl; try rewrite andb_false_r; reflexivity
          | apply tagged_range; lia ].
Qed.
End TagFacts.

(** * The transformer prefetcher: the claims *)

Section TransformerClaims.
Import transformer_stream.

Context (World : Type)
        (get_mshr_occupancy_ratio : World -> float)
        (prefetch_line : World -> Z -> bool -> Z -> World * bool)
        (LOG2_BLOCK_SIZE : Z)
        (access_type : Type).

#[local] Abbreviation cache_operate :=
  (prefetcher_cache_operate World get_mshr_occupancy_ratio prefetch_line
     LOG2_BLOCK_SIZE access_type).
#[local] Abbreviation reachable :=
  (reachable World get_mshr_occupancy_ratio prefetch_line LOG2_BLOCK_SIZE access_type).

Implicit Types (s : t) (w : World).

(** C4, as amended.  In every reachable state each group's [member_count]
    equals the number of non-negative slots of its member list, and every
    stream index found in a member list occurs there exactly once, in a
    valid group, and is the index of a valid stream whose [group_id] is
    that group.  (The converse is not promised: a stream added to a full
    group keeps its [group_id] without being listed.) *)
Theorem group_relation_integrity s :
  reachable s -> member_counts_exact s /\ listed_streams_consistent s.
Proof.
  intros Hr. pose proof (reachable_invariant _ _ _ _ _ s Hr) as Hinv.
  destruct (invariant_sizes s Hinv) as [Hss Hgs].
  destruct Hinv as [_ (_ & _ & H4 & HG)].
  split.
  - intros j Hj. rewrite Hgs in Hj. destruct (HG j Hj) as (_ & G2 & _). exact G2.
  - intros j i Hj Hi Hocc. rewrite Hgs in Hj. rewrite Hss.
    destruct (HG j Hj) as (_ & G2 & G3 & G5 & G6).
    fold (group s j) in G2, G3, G5, G6.
    destruct (G6 i Hi Hocc) as [Hlt Hgid]. fold (stream s i) in Hgid.
    split; [specialize (G5 i Hi); lia|].
    split.
    { destruct (StreamGroup.valid (group s j)); [reflexivity|].
      specialize (G3 eq_refl).
      pose proof (occurrences_le_count i (StreamGroup.members (group s j)) Hi). lia. }
    split; [exact Hlt|]. split; [|exact Hgid].
    destruct (TransformerStreamEntry.valid (stream s i)) eqn:Hv; [reflexivity|].
    specialize (H4 i ltac:(lia) Hv). fold (stream s i) in H4. lia.
Qed.

(** C8.  On a cache hit [prefetcher_cache_operate] returns [metadata_in]
    and leaves the whole prefetcher state, and the host, as they were: no
    training, no timestamp, no stream, group, pattern or phase update, no
    prefetch. *)
Theorem cache_hit_is_a_no_op s w addr ip cache_hit useful_prefetch
    (type : access_type) metadata_in :
  cache_hit <> 0 ->
  cache_operate s w addr ip cache_hit useful_prefetch type metadata_in = (s, w, metadata_in).
Proof.
  intros Hhit. unfold prefetcher_cache_operate.
  destruct (Z.eqb_spec cache_hit 0) as [E|_]; [contradiction|reflexivity].
Qed.

(** C10.  On every path, hit or miss, [prefetcher_cache_operate] of the
    transformer returns exactly [metadata_in]; in particular bits 30 and 31
    of the result are those of [metadata_in]. *)
Theorem transformer_returns_metadata_in s w addr ip cache_hit useful_prefetch
    (type : access_type) metadata_in :
  let metadata_out :=
    (cache_operate s w addr ip cache_hit useful_prefetch type metadata_in).2 in
  metadata_out = metadata_in /\
  Z.testbit metadata_out 30 = Z.testbit metadata_in 30 /\
  Z.testbit metadata_out 31 = Z.testbit metadata_in 31.
Proof.
  assert (H : (cache_operate s w addr ip cache_hit useful_prefetch type metadata_in).2
              = metadata_in).
  { unfold prefetcher_cache_operate.
    repeat match goal with
           | |- context [if ?b then _ else _] => destruct b
           | |- context [let '(_, _) := ?p in _] => destruct p
           end; reflexivity. }
  cbv zeta. rewrite H. auto.
Qed.

End TransformerClaims.

(** * The selector: the claims *)

Section SelectorClaims.
Import transformer_pythia_selector_bw.

Context (World : Type)
        (get_mshr_occupancy_ratio : World -> float)
        (prefetch_line : World -> Z -> bool -> Z -> World * bool)
        (LOG2_BLOCK_SIZE : Z)
        (access_type : Type)
        (get_dram_bw : World -> Z)
        (intern_NUM_SET intern_NUM_WAY : World -> Z)
        (std_log : float -> float)
        (Pythia : Type)
        (pythia_initialize : World -> Pythia * World)
        (pythia_cache_operate :
           Pythia -> World -> Z -> Z -> Z -> bool -> access_type -> Z -> Pythia * World * Z)
        (pythia_cache_fill :
           Pythia -> World -> Z -> Z -> Z -> Z -> Z -> Z -> Pythia * World * Z)
        (pythia_cycle_operate pythia_final_stats : Pythia -> World -> Pythia * World).

#[local] Abbreviation state := (t Pythia).
#[local] Abbreviation initialize :=
  (@prefetcher_initialize World intern_NUM_SET intern_NUM_WAY Pythia pythia_initialize).
#[local] Abbreviation selector_operate :=
  (@prefetcher_cache_operate World get_mshr_occupancy_ratio prefetch_line LOG2_BLOCK_SIZE
     access_type get_dram_bw Pythia pythia_cache_operate).
#[local] Abbreviation allow_prefetch := (@should_allow_prefetch World get_dram_bw Pythia).
#[local] Abbreviation credit_useful := (@credit_useful_prefetch Pythia).
#[local] Abbreviation set_of := (@set_of_address LOG2_BLOCK_SIZE Pythia).
#[local] Abbreviation use_transformer := (@use_transformer_for_set Pythia).
#[local] Abbreviation accuracy := (@get_prefetch_accuracy Pythia).
#[local] Abbreviation bandwidth := (@get_bandwidth_utilization World get_dram_bw).
#[local] Abbreviation useful_total := (@total_useful Pythia).
#[local] Abbreviation issued_total := (@total_issued Pythia).
#[local] Abbreviation update_policy := (@update_policy_selector std_log Pythia).
#[local] Abbreviation selector_reachable :=
  (@transformer_pythia_selector_bw.reachable
     World get_mshr_occupancy_ratio prefetch_line LOG2_BLOCK_SIZE access_type
     get_dram_bw intern_NUM_SET intern_NUM_WAY std_log Pythia pythia_initialize
     pythia_cache_operate pythia_cache_fill pythia_cycle_operate pythia_final_stats).

Implicit Types (s : state) (w : World).

(** C6.  With [s0] the selector after the useful-prefetch credit of the
    call, [bw_util = get_dram_bw() / 16.0] and [acc] the accuracy of [s0]
    (total useful over total issued, over the dedicated counters and all
    samplers; 1.0 when nothing was issued): the call allows prefetching
    exactly when [bw_util < BW_UTIL_THRESHOLD] (0.9) and ([acc > bw_util]
    or [acc > MIN_ACCURACY_THRESHOLD] (0.1)), the comparisons being those
    of IEEE doubles.  When it does not, it returns [metadata_in], counts
    one more throttled call, and leaves both underlying prefetchers and
    the host untouched.  When it does, it counts one more allowed call and
    hands the access, with the arguments it was given, to the prefetcher
    of the set: state, host and metadata are those that prefetcher
    returns, the metadata tagged with its bit, and the other prefetcher is
    left alone. *)
Theorem bandwidth_throttle_gate s w addr ip cache_hit useful_prefetch
    (type : access_type) metadata_in :
  let s0 :=
    if useful_prefetch && negb (cache_hit =? 0) then credit_useful s (set_of s addr) else s in
  let bw_util := bandwidth w in
  let acc := accuracy s0 in
  let allowed :=
    PrimFloat.ltb bw_util BW_UTIL_THRESHOLD &&
    (PrimFloat.ltb bw_util acc || PrimFloat.ltb MIN_ACCURACY_THRESHOLD acc) in
  let r := selector_operate s w addr ip cache_hit useful_prefetch type metadata_in in
  acc = (if issued_total s0 =? 0 then 1%float
         else (double_of_Z (useful_total s0) / double_of_Z (issued_total s0))%float) /\
  (allow_prefetch s0 w).2 = allowed /\
  (allowed = false ->
     r.2 = metadata_in /\
     r.1.2 = w /\
     prefetch_throttled_count r.1.1 = u64 (prefetch_throttled_count s + 1) /\
     pref_transformer r.1.1 = pref_transformer s /\
     pref_pythia r.1.1 = pref_pythia s) /\
  (allowed = true ->
     prefetch_allowed_count r.1.1 = u64 (prefetch_allowed_count s + 1) /\
     prefetch_throttled_count r.1.1 = prefetch_throttled_count s /\
     if is_sampler_set (NUM_SET s) (set_of s addr) || use_transformer s (set_of s addr)
     then
       let t :=
         transformer_stream.prefetcher_cache_operate World get_mshr_occupancy_ratio
           prefetch_line LOG2_BLOCK_SIZE access_type (pref_transformer s) w
           addr ip cache_hit useful_prefetch type metadata_in in
       r.2 = tag_metadata_transformer t.2 /\ r.1.2 = t.1.2 /\
       pref_transformer r.1.1 = t.1.1 /\ pref_pythia r.1.1 = pref_pythia s
     else
       let p :=
         pythia_cache_operate (pref_pythia s) w
           addr ip cache_hit useful_prefetch type metadata_in in
       r.2 = tag_metadata_pythia p.2 /\ r.1.2 = p.1.2 /\
       pref_pythia r.1.1 = p.1.1 /\ pref_transformer r.1.1 = pref_transformer s).
Proof.
  cbv zeta.
  set (s0 := if useful_prefetch && negb (cache_hit =? 0)
             then credit_useful s (set_of s addr) else s).
  assert (Hframe : NUM_SET s0 = NUM_SET s /\
                   policy_selector s0 = policy_selector s /\
                   pref_transformer s0 = pref_transformer s /\
                   pref_pythia s0 = pref_pythia s /\
                   transformer_selected_count s0 = transformer_selected_count s /\
                   pythia_selected_count s0 = pythia_selected_count s /\
                   prefetch_allowed_count s0 = prefetch_allowed_count s /\
                   prefetch_throttled_count s0 = prefetch_throttled_count s).
  { subst s0. destruct (_ && _); [apply credit_useful_prefetch_fields|repeat split]. }
  destruct Hframe as (G1 & G2 & G3 & G4 & _ & _ & G7 & G8).
  pose proof (should_allow_prefetch_spec World get_dram_bw Pythia s0 w) as Hspec.
  cbv zeta in Hspec. destruct Hspec as (A1 & _).
  destruct (should_allow_prefetch_fields World get_dram_bw Pythia s0 w)
    as (_ & F2 & _ & F4 & F5 & F6 & _ & _ & F9 & F10).
  split; [apply get_prefetch_accuracy_totals|].
  split; [exact A1|].
  rewrite <- A1.
  unfold prefetcher_cache_operate. fold s0.
  destruct (allow_prefetch s0 w) as [s1 allow]. simpl in F2, F4, F5, F6, F9, F10. simpl fst.
  simpl snd. split.
  - intros ->. simpl. repeat split; congruence.
  - intros ->. simpl negb. cbv iota.
    assert (Ht : is_sampler_set (NUM_SET s1) (set_of s addr) ||
                 use_transformer s1 (set_of s addr) =
                 is_sampler_set (NUM_SET s) (set_of s addr) ||
                 use_transformer s (set_of s addr)).
    { unfold use_transformer_for_set. rewrite F2, F4, G1, G2. reflexivity. }
    rewrite Ht.
    destruct (is_sampler_set (NUM_SET s) (set_of s addr) ||
              use_transformer s (set_of s addr)).
    + cbn [pref_transformer set_transformer_selected_count]. rewrite F5, G3.
      destruct (transformer_stream.prefetcher_cache_operate _ _ _ _ _ _ _ _ _ _ _ _ _)
        as [[t1 w1] m1].
      simpl. repeat split; congruence.
    + cbn [pref_pythia set_pythia_selected_count]. rewrite F6, G4.
      destruct (pythia_cache_operate _ _ _ _ _ _ _ _) as [[p1 w1] m1].
      simpl. repeat split; congruence.
Qed.

(** C9.  The policy counter starts at 0; in every reachable state it lies
    in [[POLICY_MIN, POLICY_MAX]] = [[-1024, 1024]]; and one policy update
    leaves it alone or moves it by one step, saturating at the bounds. *)
Theorem policy_selector_saturates :
  POLICY_MIN = -1024 /\ POLICY_MAX = 1024 /\
  (forall w, policy_selector (initialize w).1 = 0) /\
  (forall s, selector_reachable s -> POLICY_MIN <= policy_selector s <= POLICY_MAX) /\
  (forall s, POLICY_MIN <= policy_selector s <= POLICY_MAX ->
     let p := policy_selector s in
     let p' := policy_selector (update_policy s) in
     (p' = p \/ p' = Z.min (p + 1) POLICY_MAX \/ p' = Z.max (p - 1) POLICY_MIN) /\
     Z.abs (p' - p) <= 1 /\
     POLICY_MIN <= p' <= POLICY_MAX).
Proof.
  split; [reflexivity|]. split; [reflexivity|].
  split; [intros w; apply policy_selector_initialize|].
  split; [intros s Hr; eapply reachable_policy_in_range; exact Hr|].
  intros s Hs. cbv zeta.
  pose proof (update_policy_selector_step std_log Pythia s) as Hstep.
  split; [exact Hstep|].
  unfold POLICY_MIN, POLICY_MAX in *. lia.
Qed.

End SelectorClaims.

(** * Pure helpers of the selector *)

Section SetDueling.
Import transformer_pythia_selector_bw.

(** What [get_set_sample_rate] computes, for every [NUM_SET]. *)
Lemma get_set_sample_rate_cases (NUM_SET : Z) :
  get_set_sample_rate NUM_SET =
  if decide (256 <= NUM_SET < 1024) then 16
  else if decide (64 <= NUM_SET) then 8
  else if decide (8 <= NUM_SET) then 4
  else 32.
Proof.
  unfold get_set_sample_rate.
  repeat case_decide;
    destruct (Z.ltb_spec NUM_SET 1024); destruct (Z.geb_spec NUM_SET 256);
    destruct (Z.geb_spec NUM_SET 64); destruct (Z.geb_spec NUM_SET 8);
    simpl; lia.
Qed.

(** C1, the code at the failing inputs.  For a cache of 1024 sets or more
    [get_set_sample_rate] returns 8, not 32: the first test excludes
    [NUM_SET >= 1024] and the second one, [NUM_SET >= 64], catches it. *)
Theorem get_set_sample_rate_large_cache (NUM_SET : Z) :
  1024 <= NUM_SET -> get_set_sample_rate NUM_SET = 8.
Proof.
  intros H. rewrite get_set_sample_rate_cases. repeat case_decide; lia.
Qed.

Lemma get_set_sample_rate_large_cache_witness :
  1024 <= 2048 /\ get_set_sample_rate 2048 = 8.
Proof. split; [lia|apply (get_set_sample_rate_large_cache 2048); lia]. Defined.

End SetDueling.

(** * The noise filter *)

Section NoiseFilter.
Import transformer_stream.

(** What [is_noise] computes: one gap is +1 or -1 and the other has the
    opposite sign; the inner test on the magnitudes never fails. *)
Lemma is_noise_cases (gap1 gap2 : Z) :
  is_noise gap1 gap2 = true <->
  (Z.abs gap1 <= 1 \/ Z.abs gap2 <= 1) /\ (gap1 < 0 < gap2 \/ gap2 < 0 < gap1).
Proof.
  unfold is_noise.
  destruct (((gap1 =? 1) && (gap2 <? 0)) || ((gap1 =? -1) && (gap2 >? 0)) ||
            ((gap2 =? 1) && (gap1 <? 0)) || ((gap2 =? -1) && (gap1 >? 0))) eqn:Houter.
  - assert (Hunit : gap1 = 1 \/ gap1 = -1 \/ gap2 = 1 \/ gap2 = -1) by lia.
    assert (Hinner : (abs64 gap1 <=? 1) || (abs64 gap2 <=? 1) = true).
    { destruct Hunit as [ -> | [ -> | [ -> | -> ] ] ];
        rewrite ?orb_true_r; try reflexivity; apply orb_true_iff; left; reflexivity. }
    rewrite Hinner. split; [intros _; lia|reflexivity].
  - split; [discriminate|]. intros [Habs Hsign]. lia.
Qed.

(** C3, the code at the failing input.  For the gap pair (+1, -1), where
    both magnitudes are at most 1, [is_noise] answers [true]; so after the
    misses 100, 101, 100 of one region the training entry is kept with
    [miss_count] 2 instead of being reset to 1. *)
Theorem unit_gap_reversal_is_noise :
  is_noise 1 (-1) = true /\
  is_noise (-1) 1 = true /\
  detect_direction 1 (-1) = StreamDirection.UNKNOWN /\
  let s := (TestHost.misses [100; 101; 100] TestHost.initial []).1 in
  TrainingEntry.valid (training s 0) = true /\
  TrainingEntry.region_base (training s 0) = 100 /\
  TrainingEntry.miss_count (training s 0) = 2.
Proof. vm_compute. repeat split; reflexivity. Qed.

End NoiseFilter.

(** * Runs on the test host *)

Section TestRuns.

#[local] Abbreviation test_reachable :=
  (transformer_stream.reachable TestHost.World TestHost.get_mshr_occupancy_ratio
     TestHost.prefetch_line TestHost.LOG2_BLOCK_SIZE unit).

Lemma test_misses_reachable blocks :
  forall s w, test_reachable s -> test_reachable (TestHost.misses blocks s w).1.
Proof.
  unfold TestHost.misses.
  induction blocks as [|b blocks IH]; intros s w Hr; simpl; [exact Hr|].
  pose proof (transformer_stream.reachable_cache_operate _ _ _ _ _ s w
                (Z.shiftl b TestHost.LOG2_BLOCK_SIZE) 0 0 false tt 0 Hr) as Hr'.
  fold (TestHost.cache_operate s w (Z.shiftl b TestHost.LOG2_BLOCK_SIZE) 0) in *.
  destruct (TestHost.cache_operate s w (Z.shiftl b TestHost.LOG2_BLOCK_SIZE) 0)
    as [[s1 w1] m].
  apply IH. exact Hr'.
Qed.

Lemma nine_streams_reachable : test_reachable TestHost.nine_streams.
Proof. apply test_misses_reachable. constructor. Qed.

Lemma cleanup_burst_reachable : test_reachable TestHost.cleanup_burst.
Proof. apply test_misses_reachable. constructor. Qed.

(** C4, the counterexample.  Nine stride-1 streams in nine regions: the
    ninth finds its group full, keeps [group_id] 0 and is not in the member
    list of group 0. *)
Lemma full_group_leaves_stream_unlisted :
  ~ (forall s, test_reachable s ->
       transformer_stream.grouped_streams_listed_once s /\
       transformer_stream.member_counts_exact s).
Proof.
  intros H. destruct (H _ nine_streams_reachable) as [Hl _].
  assert (E : transformer_stream.stream_table_size TestHost.nine_streams = 32)
    by (vm_compute; reflexivity).
  destruct (Hl 8) as (_ & _ & Hocc).
  - rewrite E. lia.
  - vm_compute. reflexivity.
  - vm_compute. discriminate.
  - vm_compute in Hocc. discriminate.
Qed.

Lemma group_relation_integrity_witness :
  transformer_stream.member_counts_exact TestHost.nine_streams /\
  transformer_stream.listed_streams_consistent TestHost.nine_streams.
Proof.
  exact (group_relation_integrity _ _ _ _ _ TestHost.nine_streams nine_streams_reachable).
Defined.

Lemma cache_hit_is_a_no_op_witness :
  1 <> 0 /\
  TestHost.cache_operate TestHost.nine_streams [] 6400 1 = (TestHost.nine_streams, [], 0).
Proof.
  split; [lia|].
  apply (cache_hit_is_a_no_op TestHost.World TestHost.get_mshr_occupancy_ratio
           TestHost.prefetch_line TestHost.LOG2_BLOCK_SIZE unit). lia.
Defined.

(** C2, the code at the failing input.  Set 0 is a sampler set of the
    2048-set cache.  A useful-prefetch hit there whose metadata carries the
    Pythia tag (bit 31) and not the Transformer tag (bit 30) is credited to
    [transformer_useful], and a prefetch fill with the same metadata is
    counted in [transformer_issued]; the Pythia counters stay 0. *)
Theorem sampler_counts_ignore_source_tag :
  let metadata_in := transformer_pythia_selector_bw.METADATA_PYTHIA_BIT in
  let after_hit :=
    (TestHost.selector_cache_operate 0 TestHost.selector_initial [] 0 1 true metadata_in).1.1 in
  let after_fill :=
    (TestHost.selector_cache_fill TestHost.selector_initial [] 0 1 metadata_in).1.1 in
  transformer_pythia_selector_bw.is_sampler_set 2048 0 = true /\
  Z.testbit metadata_in 31 = true /\ Z.testbit metadata_in 30 = false /\
  array_get transformer_pythia_selector_bw.sampler_entry.default
    (transformer_pythia_selector_bw.samplers after_hit) 0 =
  {| transformer_pythia_selector_bw.sampler_entry.transformer_useful := 1;
     transformer_pythia_selector_bw.sampler_entry.transformer_issued := 0;
     transformer_pythia_selector_bw.sampler_entry.pythia_useful := 0;
     transformer_pythia_selector_bw.sampler_entry.pythia_issued := 0 |} /\
  array_get transformer_pythia_selector_bw.sampler_entry.default
    (transformer_pythia_selector_bw.samplers after_fill) 0 =
  {| transformer_pythia_selector_bw.sampler_entry.transformer_useful := 0;
     transformer_pythia_selector_bw.sampler_entry.transformer_issued := 1;
     transformer_pythia_selector_bw.sampler_entry.pythia_useful := 0;
     transformer_pythia_selector_bw.sampler_entry.pythia_issued := 0 |}.
Proof. vm_compute. repeat split; reflexivity. Qed.

End TestRuns.

(** * Further properties of the code *)

(** ** Regions and stride detection *)

Section Regions.
Import transformer_stream.

(** The region mask clears the two low bits of the 64-bit block number. *)
Lemma compute_region_base_div block :
  compute_region_base block = REGION_SIZE_BLOCKS * ((block mod 2 ^ 64) / REGION_SIZE_BLOCKS).
Proof.
  unfold compute_region_base, REGION_SIZE_BLOCKS.
  change (u64 (Z.lnot (u64 4 - 1))) with (Z.ldiff (Z.ones 64) (Z.ones 2)).
  rewrite Z.ldiff_land, Z.land_assoc, Z.land_ones by lia.
  rewrite <- Z.ldiff_land, Z.ldiff_ones_r by lia.
  rewrite Z.shiftl_mul_pow2, Z.shiftr_div_pow2 by lia.
  change (2 ^ 2) with 4. lia.
Qed.

(** [compute_region_base] rounds a block number down to a multiple of
    [REGION_SIZE_BLOCKS] = 4: the result is the first block of the aligned
    4-block region that holds the block, it is its own region base, and the
    blocks with the same region base are exactly the four blocks of that
    region. *)
Theorem compute_region_base_aligned (block : Z) :
  0 <= block < 2 ^ 64 ->
  let r := compute_region_base block in
  r = REGION_SIZE_BLOCKS * (block / REGION_SIZE_BLOCKS) /\
  r <= block < r + REGION_SIZE_BLOCKS /\
  compute_region_base r = r /\
  (forall b, 0 <= b < 2 ^ 64 ->
     compute_region_base b = r <-> r <= b < r + REGION_SIZE_BLOCKS).
Proof.
  intros Hb. cbv zeta. rewrite !compute_region_base_div. unfold REGION_SIZE_BLOCKS.
  rewrite (Z.mod_small block) by lia.
  split; [reflexivity|]. split; [Z.div_mod_to_equations; lia|].
  split.
  - Z.div_mod_to_equations; lia.
  - intros b Hb'. rewrite compute_region_base_div. unfold REGION_SIZE_BLOCKS.
    rewrite (Z.mod_small b) by lia. split; intros; Z.div_mod_to_equations; lia.
Qed.

Lemma compute_region_base_aligned_witness :
  compute_region_base 203 = 200 /\ compute_region_base 200 = 200.
Proof.
  destruct (compute_region_base_aligned 203 ltac:(lia)) as (H1 & _ & H3 & _).
  split; [exact H1|]. exact H3.
Defined.

(** Three misses of one region confirm a stream only with stride 1. *)
Lemma same_region_stride b3 b2 b1 :
  compute_region_base b3 = compute_region_base b2 ->
  compute_region_base b2 = compute_region_base b1 ->
  detect_direction (offset b3 b2) (offset b2 b1) <> StreamDirection.UNKNOWN ->
  0 < detect_stride (offset b3 b2) (offset b2 b1) ->
  detect_stride (offset b3 b2) (offset b2 b1) = 1.
Proof.
  rewrite !compute_region_base_div. unfold REGION_SIZE_BLOCKS, offset.
  unfold detect_direction, detect_stride, abs64, i64, i32.
  intros H1 H2 Hd Hs. revert Hd Hs.
  repeat case_match; try congruence; intros; try lia.
  all: Z.div_mod_to_equations; lia.
Qed.

(** For gaps that fit 32 bits, [detect_direction] and [detect_stride]
    together accept a gap pair exactly when the two gaps are equal and not
    zero; the direction is then the sign of the gap and the stride its
    magnitude, and such a pair is never noise. *)
Theorem equal_gaps_confirm_a_stride (gap1 gap2 : Z) :
  - 2 ^ 31 < gap1 < 2 ^ 31 -> - 2 ^ 31 < gap2 < 2 ^ 31 ->
  let dir := detect_direction gap1 gap2 in
  let stride := detect_stride gap1 gap2 in
  ((dir <> StreamDirection.UNKNOWN /\ 0 < stride) <-> (gap1 = gap2 /\ gap1 <> 0)) /\
  (gap1 = gap2 -> 0 < gap1 -> dir = StreamDirection.POSITIVE /\ stride = gap1) /\
  (gap1 = gap2 -> gap1 < 0 -> dir = StreamDirection.NEGATIVE /\ stride = - gap1) /\
  (gap1 = gap2 -> is_noise gap1 gap2 = false).
Proof.
  intros H1 H2. cbv zeta.
  assert (Ha : forall g, - 2 ^ 31 < g < 2 ^ 31 -> abs64 g = Z.abs g).
  { intros g Hg. unfold abs64, i64. Z.div_mod_to_equations; lia. }
  assert (Hi : forall g, - 2 ^ 31 < g < 2 ^ 31 -> i32 (Z.abs g) = Z.abs g).
  { intros g Hg. unfold i32. Z.div_mod_to_equations; lia. }
  unfold detect_direction, detect_stride, is_noise. rewrite !Ha by assumption.
  split; [split|split; [|split]].
  - intros [Hd Hs]. revert Hd Hs.
    repeat case_match; try congruence; rewrite ?Hi by assumption; lia.
  - intros [-> Hne].
    split; repeat case_match; try congruence; rewrite ?Hi by assumption; lia.
  - intros -> Hpos.
    split; repeat case_match; try congruence; rewrite ?Hi by assumption; lia.
  - intros -> Hneg.
    split; repeat case_match; try congruence; rewrite ?Hi by assumption; lia.
  - intros ->. repeat case_match; try reflexivity; lia.
Qed.

Lemma equal_gaps_confirm_a_stride_witness :
  detect_direction (-3) (-3) = StreamDirection.NEGATIVE /\ detect_stride (-3) (-3) = 3.
Proof.
  destruct (equal_gaps_confirm_a_stride (-3) (-3) ltac:(lia) ltac:(lia)) as (_ & _ & H & _).
  destruct (H eq_refl ltac:(lia)) as [Hd Hs]. split; [exact Hd|exact Hs].
Defined.

End Regions.

(** ** Set dueling: categories and sampler entries *)

Section SetCategories.
Import transformer_pythia_selector_bw.

(** The sample rate is 4, 8, 16 or 32, with its logarithm and mask. *)
Lemma get_set_sample_rate_shape (NUM_SET : Z) :
  exists k, 2 <= k <= 5 /\
    get_set_sample_rate NUM_SET = 2 ^ k /\ lg2 (get_set_sample_rate NUM_SET) = k.
Proof.
  rewrite get_set_sample_rate_cases.
  repeat case_decide;
    [exists 4 | exists 3 | exists 2 | exists 5]; (split; [lia|split; reflexivity]).
Qed.

Lemma land_low_bits (x k : Z) : 0 <= k -> Z.land x (2 ^ k - 1) = x mod 2 ^ k.
Proof. intros Hk. rewrite <- Z.land_ones by exact Hk. rewrite Z.ones_equiv. reflexivity. Qed.

(** The category as arithmetic on the set number. *)
Lemma get_set_sample_category_arith (NUM_SET set : Z) :
  let r := get_set_sample_rate NUM_SET in
  get_set_sample_category NUM_SET set = (set mod r - (set / r) mod r) mod r /\
  0 <= get_set_sample_category NUM_SET set < r /\
  (is_sampler_set NUM_SET set = true <-> set mod r = (set / r) mod r).
Proof.
  cbv zeta. unfold is_sampler_set, get_set_sample_category.
  destruct (get_set_sample_rate_shape NUM_SET) as (k & Hk & -> & ->).
  rewrite !land_low_bits, Z.shiftr_div_pow2 by lia.
  assert (Hp : 0 < 2 ^ k) by (apply Z.pow_pos_nonneg; lia).
  assert (E : (2 ^ k + set mod 2 ^ k - (set / 2 ^ k) mod 2 ^ k) mod 2 ^ k =
              (set mod 2 ^ k - (set / 2 ^ k) mod 2 ^ k) mod 2 ^ k).
  { replace (2 ^ k + set mod 2 ^ k - (set / 2 ^ k) mod 2 ^ k)
      with ((set mod 2 ^ k - (set / 2 ^ k) mod 2 ^ k) + 1 * 2 ^ k) by lia.
    apply Z.mod_add. lia. }
  rewrite E. split; [reflexivity|]. split; [apply Z.mod_pos_bound; lia|].
  rewrite Z.eqb_eq.
  pose proof (Z.mod_pos_bound set (2 ^ k) Hp) as Hlo.
  pose proof (Z.mod_pos_bound (set / 2 ^ k) (2 ^ k) Hp) as Hhi.
  split.
  - intros Hz. apply Z.mod_divide in Hz; [|lia]. destruct Hz as [c Hc].
    assert (c = 0) by nia. lia.
  - intros ->. rewrite Z.sub_diag. apply Z.mod_0_l. lia.
Qed.

(** The category of a set compares the low [lg2 r] bits of the set number
    with the next [lg2 r] bits: it is their difference modulo the sample
    rate [r], hence a number in [0 .. r-1]; a set is a sampler set exactly
    when the two bit fields are equal. *)
Theorem get_set_sample_category_formula (NUM_SET set : Z) :
  let r := get_set_sample_rate NUM_SET in
  get_set_sample_category NUM_SET set = (set mod r - (set / r) mod r) mod r /\
  0 <= get_set_sample_category NUM_SET set < r /\
  (is_sampler_set NUM_SET set = true <-> set mod r = (set / r) mod r).
Proof. exact (get_set_sample_category_arith NUM_SET set). Qed.

(** Sampler sets and sampler entries correspond one to one: the entry
    index [set / r] of a sampler set determines the set, every index [a]
    is that of the sampler set [r * a + a mod r], and for a cache whose
    number of sets is a multiple of [r] the index of every set of the
    cache lies inside the [samplers] vector, which has [NUM_SET / r]
    entries. *)
Theorem sampler_sets_own_their_entries (NUM_SET : Z) :
  let r := get_set_sample_rate NUM_SET in
  (forall s1 s2, 0 <= s1 -> 0 <= s2 ->
     is_sampler_set NUM_SET s1 = true -> is_sampler_set NUM_SET s2 = true ->
     s1 ÷ r = s2 ÷ r -> s1 = s2) /\
  (forall a, 0 <= a ->
     is_sampler_set NUM_SET (r * a + a mod r) = true /\ (r * a + a mod r) ÷ r = a) /\
  (forall set, 0 <= set < NUM_SET -> NUM_SET mod r = 0 ->
     0 <= set ÷ r < get_num_sampled_sets NUM_SET).
Proof.
  cbv zeta. unfold get_num_sampled_sets.
  pose proof (fun set => proj2 (proj2 (get_set_sample_category_arith NUM_SET set))) as Hs.
  cbv zeta in Hs.
  destruct (get_set_sample_rate_shape NUM_SET) as (k & Hk & E & _).
  set (r := get_set_sample_rate NUM_SET) in *.
  assert (Hr : 0 < r) by (rewrite E; apply Z.pow_pos_nonneg; lia).
  split; [|split].
  - intros s1 s2 H1 H2 S1 S2 Hq. apply Hs in S1, S2.
    rewrite !Z.quot_div_nonneg in Hq by lia.
    rewrite (Z.div_mod s1 r), (Z.div_mod s2 r) by lia. rewrite S1, S2, Hq. reflexivity.
  - intros a Ha.
    pose proof (Z.mod_pos_bound a r Hr) as Hm.
    assert (Hd : (r * a + a mod r) / r = a).
    { rewrite Z.mul_comm, Z.div_add_l by lia. rewrite Z.div_small by lia. lia. }
    split.
    + apply Hs. rewrite Hd. rewrite Z.add_comm, Z.mul_comm, Z.mod_add by lia.
      apply Z.mod_mod. lia.
    + rewrite Z.quot_div_nonneg by nia. exact Hd.
  - intros set Hset Hdiv.
    rewrite !Z.quot_div_nonneg by lia.
    split; [apply Z.div_pos; lia|].
    apply Z.mod_divide in Hdiv; [|lia]. destruct Hdiv as [c Hc].
    rewrite Hc, Z.div_mul by lia.
    apply Z.div_lt_upper_bound; nia.
Qed.

End SetCategories.

(** ** Consistency, operation by operation *)

Section EntryWise.
Context {A : Type}.
Implicit Types (l : list A) (Q : A -> Prop).

Lemma Forall_array_get Q d l i :
  Forall Q l -> 0 <= i < Z.of_nat (length l) -> Q (array_get d l i).
Proof.
  intros HQ Hi. rewrite List.Forall_forall in HQ. apply HQ, array_get_in, Hi.
Qed.

Lemma Forall_array_set Q l i x :
  Forall Q l -> (0 <= i < Z.of_nat (length l) -> Q x) -> Forall Q (array_set l i x).
Proof.
  intros HQ Hx.
  destruct (Z_lt_le_dec i 0) as [Hneg|Hpos];
    [rewrite array_set_out_of_range by lia; exact HQ|].
  destruct (Z_lt_le_dec i (Z.of_nat (length l))) as [Hlt|Hge];
    [|rewrite array_set_out_of_range by lia; exact HQ].
  unfold array_set. destruct (Z.ltb_spec i 0); [lia|].
  apply Forall_insert; [exact HQ|]. apply Hx. lia.
Qed.

Lemma Forall_array_update Q d l i (f : A -> A) :
  Forall Q l ->
  (0 <= i < Z.of_nat (length l) -> Q (array_get d l i) -> Q (f (array_get d l i))) ->
  Forall Q (array_set l i (f (array_get d l i))).
Proof.
  intros HQ Hf. apply Forall_array_set; [exact HQ|].
  intros Hi. apply Hf; [exact Hi|]. apply Forall_array_get; assumption.
Qed.

Lemma array_set_twice l i x y : array_set (array_set l i x) i y = array_set l i y.
Proof.
  unfold array_set. destruct (i <? 0); [reflexivity|]. apply list_insert_insert_eq.
Qed.

End EntryWise.

Section Keeping.
Import transformer_stream Consistency.

Implicit Types (s : t).

Lemma direction_eqb_eq (a b : StreamDirection.t) : StreamDirection.eqb a b = true <-> a = b.
Proof. destruct a, b; simpl; split; congruence. Qed.

(** *** The frame *)

Lemma same_training_and_clock_refl s : same_training_and_clock s s.
Proof. repeat split. Qed.

Lemma same_training_and_clock_trans s1 s2 s3 :
  same_training_and_clock s1 s2 -> same_training_and_clock s2 s3 ->
  same_training_and_clock s1 s3.
Proof. intros (A1 & A2 & A3) (B1 & B2 & B3). repeat split; congruence. Qed.

Lemma same_training_and_clock_update_stream s i f :
  same_training_and_clock s (update_stream i f s).
Proof. repeat split. Qed.

Lemma same_training_and_clock_update_group s j f :
  same_training_and_clock s (update_group j f s).
Proof. repeat split. Qed.

Lemma same_training_and_clock_update_phase s f :
  same_training_and_clock s (update_phase f s).
Proof. repeat split. Qed.

(** *** Writes to one table *)

Lemma streams_ok_update_stream s i f :
  streams_ok s ->
  (0 <= i < stream_table_size s -> stream_entry_ok (stream s i) ->
   stream_entry_ok (f (stream s i))) ->
  streams_ok (update_stream i f s).
Proof.
  intros (HS & Hrest) Hf. split; [|exact Hrest].
  simpl. apply Forall_array_update; assumption.
Qed.

(** A write to a group that keeps its direction and stride and does not
    make it valid. *)
Lemma streams_ok_update_group s j f :
  streams_ok s ->
  (forall g, StreamGroup.direction (f g) = StreamGroup.direction g) ->
  (forall g, StreamGroup.stride (f g) = StreamGroup.stride g) ->
  (forall g, StreamGroup.valid (f g) = true -> StreamGroup.valid g = true) ->
  (0 <= j < stream_groups_size s -> group_entry_ok (group s j) ->
   StreamGroup.valid (f (group s j)) = true ->
   StreamGroup.typical_class (f (group s j)) = StreamClass.DENSE \/
   StreamGroup.typical_class (f (group s j)) = StreamClass.MEDIUM) ->
  streams_ok (update_group j f s).
Proof.
  intros (HS & HG & HD & Hrest) Hdir Hstr Hval Hcls.
  split; [exact HS|]. split; [|split; [|exact Hrest]]; simpl.
  - apply Forall_array_update; [exact HG|].
    intros Hj Hok Hv. destruct (Hok (Hval _ Hv)) as (G1 & G2 & G3).
    rewrite Hdir, Hstr. split; [exact G1|]. split; [exact G2|].
    apply Hcls; assumption.
  - intros j1 j2. rewrite !length_array_set. intros Hj1 Hj2.
    destruct (Z.eq_dec j j1) as [<-|N1]; destruct (Z.eq_dec j j2) as [<-|N2];
      rewrite ?array_get_set_eq, ?array_get_set_ne by (assumption || lia);
      try (intros; reflexivity);
      rewrite ?Hdir, ?Hstr; intros V1 V2; try apply Hval in V1; try apply Hval in V2;
      try (apply HD; assumption).
Qed.

(** Writing a fresh valid group whose direction and stride no valid
    group has. *)
Lemma streams_ok_fresh_group s j g' :
  streams_ok s ->
  group_entry_ok g' ->
  (forall k, 0 <= k < stream_groups_size s -> k <> j ->
     StreamGroup.valid (group s k) = true ->
     StreamGroup.direction (group s k) = StreamGroup.direction g' ->
     StreamGroup.stride (group s k) <> StreamGroup.stride g') ->
  streams_ok (set_stream_groups (array_set (stream_groups s) j g') s).
Proof.
  intros (HS & HG & HD & Hrest) Hok Hnew.
  split; [exact HS|]. split; [|split; [|exact Hrest]]; simpl.
  - apply Forall_array_set; [exact HG|]. intros _. exact Hok.
  - intros j1 j2. rewrite !length_array_set. intros Hj1 Hj2.
    destruct (Z.eq_dec j j1) as [<-|N1]; destruct (Z.eq_dec j j2) as [<-|N2];
      rewrite ?array_get_set_eq, ?array_get_set_ne by (assumption || lia);
      try (intros; reflexivity).
    + intros _ V2 D S. exfalso.
      apply (Hnew j2 Hj2 ltac:(lia) V2); unfold group; congruence.
    + intros V1 _ D S. exfalso.
      apply (Hnew j1 Hj1 ltac:(lia) V1); unfold group; congruence.
    + apply HD; assumption.
Qed.

Lemma phase_degree_ok_update_phase_state s b :
  phase_ok (phase_state s) -> phase_degree_ok (phase_state s) ->
  phase_degree_ok (phase_state (update_phase_state s b)).
Proof.
  unfold update_phase_state, try_phase_recovery, update_phase, phase_ok, phase_degree_ok.
  destruct s as [tt st sg ph hd [ws term mw sp deg tr rc] ts cc]. simpl.
  unfold PHASE_RECOVERY_WINDOW, PHASE_WINDOW_SIZE, PHASE_TRANSITION_THRESHOLD,
    MIN_PREFETCH_DEGREE, BASE_PREFETCH_DEGREE.
  intros H [Hd Ht].
  assert (Hmw : 0 <= mw < 64) by (destruct tr; lia).
  rewrite (u32_small (mw + 1)) by lia.
  destruct tr, b; simpl;
    repeat (case_match; simpl in *; try rewrite (u32_small (rc + 1)) in * by lia;
            try rewrite (u32_small (term + 1)) in * by lia;
            try rewrite (u32_small (0 + 1)) in * by lia; try lia).
Qed.

Lemma streams_ok_update_phase_state s b :
  streams_ok s ->
  streams_ok (update_phase_state s b) /\ same_training_and_clock s (update_phase_state s b).
Proof.
  intros (HS & HG & HD & HP & HL & HH & Hp & Hd).
  pose proof (phase_ok_update_phase_state s b Hp) as Hp'.
  pose proof (phase_degree_ok_update_phase_state s b Hp Hd) as Hd'.
  assert (E : stream_table (update_phase_state s b) = stream_table s /\
              stream_groups (update_phase_state s b) = stream_groups s /\
              pattern_history (update_phase_state s b) = pattern_history s /\
              pattern_history_head (update_phase_state s b) = pattern_history_head s /\
              same_training_and_clock s (update_phase_state s b)).
  { unfold update_phase_state, try_phase_recovery, update_phase, same_training_and_clock.
    repeat case_match; simpl; auto 10. }
  destruct E as (E1 & E2 & E3 & E4 & E5).
  split; [|exact E5].
  unfold streams_ok. rewrite E1, E2, E3, E4. auto 10.
Qed.

(** *** Classification and confidence *)

Ltac frame :=
  unfold same_training_and_clock; repeat case_match; simpl; auto.

(** Case analysis on the first [if] of the goal. *)
Ltac goal_if :=
  match goal with
  | |- context [if ?c then _ else _] => destruct c eqn:?
  end.

Lemma classify_unit_stride (e : TransformerStreamEntry.t) :
  TransformerStreamEntry.stride e = 1 ->
  classify_stream e = StreamClass.DENSE \/ classify_stream e = StreamClass.MEDIUM.
Proof.
  intros E. unfold classify_stream. rewrite E. unfold DENSE_STRIDE_MAX. simpl.
  case_match; auto.
Qed.

Lemma stream_entry_ok_at s i :
  streams_ok s -> 0 <= i < stream_table_size s -> stream_entry_ok (stream s i).
Proof. intros (HS & _) Hi. unfold stream. apply Forall_array_get; assumption. Qed.

Lemma group_entry_ok_at s j :
  streams_ok s -> 0 <= j < stream_groups_size s -> group_entry_ok (group s j).
Proof. intros (_ & HG & _) Hj. unfold group. apply Forall_array_get; assumption. Qed.

Lemma streams_ok_update_stream_classification s i :
  streams_ok s ->
  streams_ok (update_stream_classification s i) /\
  same_training_and_clock s (update_stream_classification s i).
Proof.
  intros Hok. split; [|unfold update_stream_classification; frame].
  unfold update_stream_classification.
  destruct ((i <? 0) || (i >=? stream_table_size s)) eqn:Hr; [exact Hok|].
  destruct (TransformerStreamEntry.valid (stream s i)) eqn:Hv; simpl; [|exact Hok].
  assert (Hi : 0 <= i < stream_table_size s) by lia.
  pose proof (stream_entry_ok_at s i Hok Hi) as (_ & _ & He). destruct (He Hv) as (Hs & _).
  pose proof (classify_unit_stride _ Hs) as Hc.
  assert (Hok1 : streams_ok (update_stream i
            (TransformerStreamEntry.set_stream_class (classify_stream (stream s i))) s)).
  { apply streams_ok_update_stream; [exact Hok|].
    intros _ (C1 & C2 & C3). split; [exact C1|]. split; [exact C2|].
    intros V. destruct (C3 V) as (D1 & _ & D3). simpl. auto. }
  goal_if; [|exact Hok1].
  apply streams_ok_update_group;
    [exact Hok1|intros g; reflexivity|intros g; reflexivity|intros g; simpl; auto|].
  intros; simpl; exact Hc.
Qed.

Lemma streams_ok_reinforce_stream_confidence s i :
  streams_ok s ->
  streams_ok (reinforce_stream_confidence s i) /\
  same_training_and_clock s (reinforce_stream_confidence s i).
Proof.
  intros Hok. split; [|unfold reinforce_stream_confidence; frame].
  unfold reinforce_stream_confidence.
  destruct ((i <? 0) || (i >=? stream_table_size s)) eqn:Hr; [exact Hok|].
  destruct (TransformerStreamEntry.valid (stream s i)) eqn:Hv; simpl; [|exact Hok].
  match goal with |- context [update_stream i ?f s] =>
    assert (Hok1 : streams_ok (update_stream i f s)) end.
  { apply streams_ok_update_stream; [exact Hok|].
    intros _ (C1 & C2 & C3). split; [|split; [exact C2|exact C3]].
    simpl. unfold MAX_CONFIDENCE in *.
    rewrite u32_small by lia. lia. }
  goal_if; [|exact Hok1].
  apply streams_ok_update_group;
    [exact Hok1|intros g; reflexivity|intros g; reflexivity|intros g; simpl; auto|].
  intros Hj Hg Hv'. simpl in *. destruct (Hg Hv') as (_ & _ & G3). exact G3.
Qed.

(** *** Pattern history *)

Lemma streams_ok_record_pattern s (entry : TransformerStreamEntry.t) :
  streams_ok s ->
  stream_entry_ok entry -> TransformerStreamEntry.valid entry = true ->
  streams_ok (record_pattern s entry) /\ same_training_and_clock s (record_pattern s entry).
Proof.
  intros (HS & HG & HD & HP & HL & HH & Hp & Hd) (_ & _ & He) Hv.
  split; [|repeat split].
  destruct (He Hv) as (Hs & _ & Hdir).
  unfold record_pattern, streams_ok. simpl.
  split; [exact HS|]. split; [exact HG|]. split; [exact HD|].
  split; [|split; [|split; [|split; [exact Hp|exact Hd]]]].
  - apply Forall_array_set; [exact HP|]. intros _ _. simpl. split; [exact Hs|].
    intros E. rewrite E in Hdir. exact Hdir.
  - rewrite length_array_set. exact HL.
  - unfold PATTERN_HISTORY_SIZE. apply Z.mod_pos_bound. lia.
Qed.

(** *** Stream groups *)

Lemma class_of_unit_stride :
  class_of_stride 1 = StreamClass.DENSE.
Proof. reflexivity. Qed.

Lemma clear_members_keeps (l : list Z) s :
  streams_ok s ->
  let s' :=
    fold_left
      (fun s member_idx =>
         if (member_idx >=? 0) && (member_idx <? stream_table_size s)
         then update_stream member_idx (TransformerStreamEntry.set_group_id (-1)) s
         else s) l s in
  streams_ok s' /\ same_training_and_clock s s' /\ stream_groups s' = stream_groups s.
Proof.
  revert s. induction l as [|m l IH]; intros s Hok; simpl.
  - split; [exact Hok|]. split; [apply same_training_and_clock_refl|reflexivity].
  - match goal with |- context [fold_left _ l ?s1] =>
      assert (H1 : streams_ok s1 /\ same_training_and_clock s s1 /\
                   stream_groups s1 = stream_groups s) end.
    { goal_if.
      - split; [|split; [repeat split|reflexivity]].
        apply streams_ok_update_stream; [exact Hok|].
        intros _ (C1 & C2 & C3). split; [exact C1|]. split; [exact C2|exact C3].
      - split; [exact Hok|]. split; [apply same_training_and_clock_refl|reflexivity]. }
    destruct H1 as (A1 & A2 & A3).
    destruct (IH _ A1) as (B1 & B2 & B3). cbv zeta in B1, B2, B3.
    split; [exact B1|]. split; [eapply same_training_and_clock_trans; eassumption|congruence].
Qed.

Lemma fresh_group_entry_ok dir stride n now (g : StreamGroup.t) :
  dir <> StreamDirection.UNKNOWN -> stride = 1 ->
  group_entry_ok
    (g |> StreamGroup.set_valid true
       |> StreamGroup.set_direction dir
       |> StreamGroup.set_stride stride
       |> StreamGroup.set_member_count 0
       |> StreamGroup.set_group_confidence 0
       |> StreamGroup.set_last_seen_timestamp now
       |> StreamGroup.set_members n
       |> StreamGroup.set_typical_class (class_of_stride stride)).
Proof. intros Hd -> _. simpl. auto. Qed.

Lemma find_stream_group_none s dir stride k :
  find_stream_group s dir stride < 0 ->
  0 <= k < stream_groups_size s ->
  StreamGroup.valid (group s k) = true ->
  StreamGroup.direction (group s k) = dir ->
  StreamGroup.stride (group s k) <> stride.
Proof.
  intros Hn Hk Hv Hd Hs. unfold find_stream_group in Hn.
  assert (Hn' : ~ (0 <= find_index
            (fun g => StreamGroup.valid g &&
                      StreamDirection.eqb (StreamGroup.direction g) dir &&
                      (StreamGroup.stride g =? stride)) (stream_groups s))) by lia.
  clear Hn. apply find_index_not_found in Hn'. rename Hn' into Hn.
  rewrite List.Forall_forall in Hn.
  specialize (Hn (group s k) (array_get_in _ _ _ Hk)). simpl in Hn.
  rewrite Hv, Hs, Z.eqb_refl in Hn.
  assert (E : StreamDirection.eqb (StreamGroup.direction (group s k)) dir = true)
    by (apply direction_eqb_eq; exact Hd).
  rewrite E in Hn. discriminate.
Qed.

Lemma streams_ok_find_or_create_stream_group s dir stride :
  streams_ok s -> dir <> StreamDirection.UNKNOWN -> stride = 1 ->
  let r := find_or_create_stream_group s dir stride in
  streams_ok r.1 /\ same_training_and_clock s r.1 /\
  (0 <= r.2 < stream_groups_size r.1 -> StreamGroup.valid (group r.1 r.2) = true).
Proof.
  intros Hok Hdir Hstr. cbv zeta. unfold find_or_create_stream_group.
  destruct (Z.geb_spec (find_stream_group s dir stride) 0) as [Hex|Hex].
  { simpl. split; [|split; [repeat split|]].
    - apply streams_ok_update_group;
        [exact Hok|intros g; reflexivity|intros g; reflexivity|intros g; simpl; auto|].
      intros Hj Hg Hv. simpl in *. destruct (Hg Hv) as (_ & _ & G3). exact G3.
    - intros Hj. unfold stream_groups_size in Hj. simpl in Hj. rewrite length_array_set in Hj.
      rewrite group_update_group_eq by exact Hj. simpl.
      destruct (find_index_found _ (stream_groups s) StreamGroup.default Hex) as [_ Hp].
      apply andb_true_iff in Hp. destruct Hp as [Hp _].
      apply andb_true_iff in Hp. destruct Hp as [Hp _]. exact Hp. }
  match goal with |- context [find_index ?p (stream_groups s)] =>
    destruct (Z.leb_spec 0 (find_index p (stream_groups s))) as [Hfree|Hfree] end.
  { simpl. split; [|split; [repeat split|]].
    - apply streams_ok_fresh_group; [exact Hok|apply fresh_group_entry_ok; assumption|].
      intros k Hk _ Hv Hd. simpl in *.
      apply (find_stream_group_none s dir stride k); assumption || lia.
    - intros Hj. unfold stream_groups_size in Hj. simpl in Hj. rewrite length_array_set in Hj.
      rewrite group_update_group_eq by exact Hj. reflexivity. }
  match goal with |- context [fold_left ?f (indices (stream_groups s)) ?a] =>
    destruct (fold_left f (indices (stream_groups s)) a) as [oldest_idx oldest_time] end.
  destruct (clear_members_keeps (StreamGroup.members (group s oldest_idx)) s Hok)
    as (A1 & A2 & A3).
  cbv zeta in A1, A2, A3.
  match type of A1 with streams_ok ?x => set (s1 := x) in * end.
  simpl. split; [|split].
  - unfold update_group.
    apply streams_ok_fresh_group; [exact A1|apply fresh_group_entry_ok; assumption|].
    intros k Hk _ Hv Hd. simpl in *.
    unfold group, stream_groups_size in *. rewrite A3 in *.
    apply (find_stream_group_none s dir stride k); assumption || lia.
  - eapply same_training_and_clock_trans; [exact A2|repeat split].
  - intros Hj. unfold stream_groups_size in Hj. simpl in Hj. rewrite length_array_set in Hj.
    rewrite group_update_group_eq by exact Hj. reflexivity.
Qed.

Lemma streams_ok_add_stream_to_group s i j :
  streams_ok s ->
  (0 <= j < stream_groups_size s -> StreamGroup.valid (group s j) = true) ->
  streams_ok (add_stream_to_group s i j) /\
  same_training_and_clock s (add_stream_to_group s i j).
Proof.
  intros Hok Hv. split; [|unfold add_stream_to_group; frame].
  unfold add_stream_to_group.
  destruct ((j <? 0) || (j >=? stream_groups_size s)) eqn:Hj; [exact Hok|].
  destruct ((i <? 0) || (i >=? stream_table_size s)) eqn:Hi; [exact Hok|].
  assert (Hj' : 0 <= j < stream_groups_size s) by lia.
  destruct (group_entry_ok_at s j Hok Hj' (Hv Hj')) as (_ & _ & Hc).
  goal_if.
  - apply streams_ok_update_stream.
    + apply streams_ok_update_group;
        [exact Hok|intros g; reflexivity|intros g; reflexivity|intros g; simpl; auto|].
      intros _ Hg Hv'. simpl in *. exact Hc.
    + intros _. unfold stream, update_group. simpl. fold (stream s i).
      intros (C1 & C2 & C3). split; [exact C1|]. split; [exact C2|].
      intros V. destruct (C3 V) as (D1 & _ & D3). simpl. auto.
  - apply streams_ok_update_stream; [exact Hok|].
    intros _ (C1 & C2 & C3). split; [exact C1|]. split; [exact C2|exact C3].
Qed.

Lemma streams_ok_remove_stream_from_group s i :
  streams_ok s ->
  streams_ok (remove_stream_from_group s i) /\
  same_training_and_clock s (remove_stream_from_group s i).
Proof.
  intros Hok. split; [|unfold remove_stream_from_group; frame].
  unfold remove_stream_from_group.
  assert (Hgid : forall s0, streams_ok s0 ->
            streams_ok (update_stream i (TransformerStreamEntry.set_group_id (-1)) s0)).
  { intros s0 H0. apply streams_ok_update_stream; [exact H0|].
    intros _ (C1 & C2 & C3). split; [exact C1|]. split; [exact C2|exact C3]. }
  goal_if; [exact Hok|].
  goal_if; [apply Hgid, Hok|].
  match goal with |- context [update_stream i _ ?s1] =>
    assert (H1 : streams_ok s1) end.
  { goal_if; [|exact Hok].
    apply streams_ok_update_group; [exact Hok| | | |].
    - intros g. simpl. goal_if; reflexivity.
    - intros g. simpl. goal_if; reflexivity.
    - intros g. simpl. goal_if; simpl; auto.
    - intros _ Hg. simpl. goal_if; simpl; intros Hv'; destruct (Hg Hv') as (_ & _ & G3);
        exact G3. }
  cbv zeta. goal_if; [|apply Hgid, H1].
  apply streams_ok_update_group;
    [apply Hgid, H1|intros g; reflexivity|intros g; reflexivity|intros g; simpl; discriminate|].
  intros _ _. simpl. discriminate.
Qed.

(** *** Termination and allocation *)

Lemma streams_ok_terminate_stream s i :
  streams_ok s ->
  streams_ok (terminate_stream s i) /\ same_training_and_clock s (terminate_stream s i).
Proof.
  intros Hok. unfold terminate_stream.
  destruct ((i <? 0) || (i >=? stream_table_size s)) eqn:Hr;
    [split; [exact Hok|apply same_training_and_clock_refl]|].
  destruct (TransformerStreamEntry.valid (stream s i)) eqn:Hv; simpl;
    [|split; [exact Hok|apply same_training_and_clock_refl]].
  assert (Hi : 0 <= i < stream_table_size s) by lia.
  destruct (streams_ok_record_pattern s (stream s i) Hok (stream_entry_ok_at s i Hok Hi) Hv)
    as [A1 A2].
  destruct (streams_ok_remove_stream_from_group _ i A1) as [B1 B2].
  destruct (streams_ok_update_phase_state _ true B1) as [C1 C2].
  split.
  - apply streams_ok_update_stream; [exact C1|].
    intros _ (D1 & _ & _). split; [exact D1|]. split; simpl; discriminate.
  - eapply same_training_and_clock_trans; [exact A2|].
    eapply same_training_and_clock_trans; [exact B2|].
    eapply same_training_and_clock_trans; [exact C2|repeat split].
Qed.

Lemma streams_ok_remove_dead_streams_from idxs s :
  streams_ok s ->
  let s' :=
    fold_left
      (fun s i =>
         let entry := stream s i in
         if negb (TransformerStreamEntry.valid entry) then s
         else
           let age :=
             u64 (current_timestamp s - TransformerStreamEntry.last_trigger_timestamp entry) in
           let is_dead :=
             (age >? DEAD_STREAM_THRESHOLD) &&
             (TransformerStreamEntry.stream_length entry <? SHORT_STREAM_THRESHOLD) in
           let is_dead :=
             if is_dead && is_group_protected s i then
               if TransformerStreamEntry.confidence_score entry >=? FAST_TRACK_CONFIDENCE
               then false else is_dead
             else is_dead in
           if is_dead then terminate_stream s i else s)
      idxs s in
  streams_ok s' /\ same_training_and_clock s s'.
Proof.
  revert s. induction idxs as [|i idxs IH]; intros s Hok; simpl.
  - split; [exact Hok|apply same_training_and_clock_refl].
  - match goal with |- context [fold_left _ idxs ?s1] =>
      assert (H1 : streams_ok s1 /\ same_training_and_clock s s1) end.
    { repeat goal_if; try (split; [exact Hok|apply same_training_and_clock_refl]);
        apply streams_ok_terminate_stream, Hok. }
    destruct H1 as [A1 A2]. destruct (IH _ A1) as [B1 B2]. cbv zeta in B1, B2.
    split; [exact B1|eapply same_training_and_clock_trans; eassumption].
Qed.

Lemma streams_ok_remove_dead_streams s :
  streams_ok s ->
  streams_ok (remove_dead_streams s) /\ same_training_and_clock s (remove_dead_streams s).
Proof. intros Hok. apply (streams_ok_remove_dead_streams_from _ s Hok). Qed.

Lemma streams_ok_allocate_stream_entry s :
  streams_ok s ->
  streams_ok (allocate_stream_entry s).1 /\
  same_training_and_clock s (allocate_stream_entry s).1.
Proof.
  intros Hok. unfold allocate_stream_entry.
  goal_if; [split; [exact Hok|apply same_training_and_clock_refl]|].
  destruct (streams_ok_remove_dead_streams s Hok) as [A1 A2].
  cbv zeta. goal_if; [split; assumption|].
  goal_if; simpl; [|split; assumption].
  destruct (streams_ok_terminate_stream _ (select_victim_stream (remove_dead_streams s)) A1)
    as [B1 B2].
  split; [exact B1|eapply same_training_and_clock_trans; eassumption].
Qed.

End Keeping.

Section KeepingHost.
Import transformer_stream Consistency.

Context (World : Type)
        (get_mshr_occupancy_ratio : World -> float)
        (prefetch_line : World -> Z -> bool -> Z -> World * bool)
        (LOG2_BLOCK_SIZE : Z)
        (access_type : Type).

#[local] Abbreviation generate_prefetches_loop :=
  (generate_prefetches_loop World get_mshr_occupancy_ratio prefetch_line LOG2_BLOCK_SIZE).
#[local] Abbreviation generate_prefetches :=
  (generate_prefetches World get_mshr_occupancy_ratio prefetch_line LOG2_BLOCK_SIZE).
#[local] Abbreviation create_stream :=
  (create_stream World get_mshr_occupancy_ratio prefetch_line LOG2_BLOCK_SIZE).
#[local] Abbreviation reactivate_stream :=
  (reactivate_stream World get_mshr_occupancy_ratio prefetch_line LOG2_BLOCK_SIZE).
#[local] Abbreviation try_relaunch_stream :=
  (try_relaunch_stream World get_mshr_occupancy_ratio prefetch_line LOG2_BLOCK_SIZE).
#[local] Abbreviation cache_operate :=
  (prefetcher_cache_operate World get_mshr_occupancy_ratio prefetch_line
     LOG2_BLOCK_SIZE access_type).
#[local] Abbreviation cache_fill := (prefetcher_cache_fill World).
#[local] Abbreviation cycle_operate :=
  (prefetcher_cycle_operate World get_mshr_occupancy_ratio prefetch_line LOG2_BLOCK_SIZE).
#[local] Abbreviation final_stats := (prefetcher_final_stats World).
#[local] Abbreviation reachable :=
  (reachable World get_mshr_occupancy_ratio prefetch_line LOG2_BLOCK_SIZE access_type).

Implicit Types (s : t) (w : World).

(** A relation between the host before and after a call that holds of a
    call that leaves the host alone and of one call of
    [generate_prefetches]: it then holds of every operation that calls
    [generate_prefetches] at most once. *)
Variable Q : World -> World -> Prop.
Hypothesis Q_refl : forall w, Q w w.
Hypothesis Q_generate :
  forall s w idx, streams_ok s -> Q w (generate_prefetches s w idx).2.

Ltac goal_if :=
  match goal with
  | |- context [if ?c then _ else _] => destruct c eqn:?
  end.

Ltac same := first [ apply same_training_and_clock_refl | repeat split ].

(** *** Prefetch generation *)

Lemma streams_ok_generate_prefetches_loop n :
  forall i dir_val stream_idx s w,
    streams_ok s ->
    streams_ok (generate_prefetches_loop n i dir_val stream_idx s w).1.1 /\
    same_training_and_clock s (generate_prefetches_loop n i dir_val stream_idx s w).1.1.
Proof.
  induction n as [|n IH]; intros i dir_val stream_idx s w Hok; simpl;
    [split; [exact Hok|same]|].
  set (next := block_add _ _).
  destruct (match TransformerStreamEntry.direction (stream s stream_idx) with
            | StreamDirection.POSITIVE =>
                next >? TransformerStreamEntry.stream_end_block (stream s stream_idx)
            | _ => next <? TransformerStreamEntry.stream_end_block (stream s stream_idx)
            end) eqn:Hbound.
  { simpl. split; [|same]. apply streams_ok_update_stream; [exact Hok|].
    intros _ (C1 & C2 & C3). split; [exact C1|]. split; [simpl; discriminate|exact C3]. }
  goal_if; [simpl; split; [exact Hok|same]|].
  goal_if; [simpl; split; [exact Hok|same]|].
  destruct (prefetch_line w _ _ 0) as [w1 success].
  destruct success; [|simpl; split; [exact Hok|same]].
  match goal with |- context [generate_prefetches_loop n _ _ _ ?x w1] => set (s2 := x) end.
  assert (H2 : streams_ok s2 /\ same_training_and_clock s s2).
  { subst s2.
    match goal with |- context [update_stream stream_idx ?f s] =>
      assert (H1 : streams_ok (update_stream stream_idx f s)) end.
    { apply streams_ok_update_stream; [exact Hok|].
      intros _ (C1 & C2 & C3). split; [exact C1|]. split; [exact C2|].
      intros V. destruct (C3 V) as (D1 & D2 & D3). simpl.
      split; [exact D1|]. split; [exact D2|].
      destruct (TransformerStreamEntry.direction (stream s stream_idx)); [exact D3|lia|lia]. }
    goal_if; [|split; [exact H1|same]].
    destruct (streams_ok_update_stream_classification _ stream_idx H1) as [A1 A2].
    split; [exact A1|]. eapply same_training_and_clock_trans; [|exact A2]. same. }
  destruct H2 as [A1 A2]. destruct (IH (i + 1) dir_val stream_idx s2 w1 A1) as [B1 B2].
  split; [exact B1|eapply same_training_and_clock_trans; eassumption].
Qed.

Lemma streams_ok_generate_prefetches s w stream_idx :
  streams_ok s ->
  streams_ok (generate_prefetches s w stream_idx).1 /\
  same_training_and_clock s (generate_prefetches s w stream_idx).1.
Proof.
  intros Hok. unfold transformer_stream.generate_prefetches.
  goal_if; [split; [exact Hok|same]|].
  match goal with
  | |- context [generate_prefetches_loop ?n ?i ?d stream_idx s w] =>
      destruct (streams_ok_generate_prefetches_loop n i d stream_idx s w Hok) as [A1 A2];
      destruct (generate_prefetches_loop n i d stream_idx s w) as [[s1 w1] after_loop]
  end.
  simpl in A1, A2. destruct after_loop; simpl; [|split; assumption].
  split.
  - apply streams_ok_update_stream; [exact A1|].
    intros _ (C1 & C2 & C3). split; [exact C1|]. split; [exact C2|exact C3].
  - eapply same_training_and_clock_trans; [exact A2|same].
Qed.

(** *** Launching streams *)

Lemma update_stream_twice s i f g :
  update_stream i g (update_stream i f s) = update_stream i (fun e => g (f e)) s.
Proof.
  unfold update_stream, stream, set_stream_table. simpl. f_equal.
  destruct (Z_lt_le_dec i 0) as [Hneg|Hpos];
    [rewrite !array_set_out_of_range by (rewrite ?length_array_set; lia); reflexivity|].
  destruct (Z_lt_le_dec i (Z.of_nat (length (stream_table s)))) as [Hlt|Hge].
  - rewrite array_get_set_eq by lia. apply array_set_twice.
  - rewrite !array_set_out_of_range by (rewrite ?length_array_set; lia). reflexivity.
Qed.

Lemma stream_out_of_range s i :
  ~ (0 <= i < stream_table_size s) -> stream s i = TransformerStreamEntry.default.
Proof.
  intros Hi. unfold stream, array_get. destruct (Z.ltb_spec i 0); [reflexivity|].
  rewrite (proj2 (lookup_ge_None _ _)); [reflexivity|]. unfold stream_table_size in Hi. lia.
Qed.

(** The direction and stride of a valid stream, as the group functions
    receive them. *)
Lemma stream_dir_stride_ok s i :
  streams_ok s ->
  (0 <= i < stream_table_size s -> TransformerStreamEntry.valid (stream s i) = true) ->
  TransformerStreamEntry.direction (stream s i) <> StreamDirection.UNKNOWN /\
  TransformerStreamEntry.stride (stream s i) = 1.
Proof.
  intros Hok Hv.
  destruct (Z_lt_le_dec i 0) as [Hneg|Hpos];
    [rewrite stream_out_of_range by lia; split; [discriminate|reflexivity]|].
  destruct (Z_lt_le_dec i (stream_table_size s)) as [Hlt|Hge];
    [|rewrite stream_out_of_range by lia; split; [discriminate|reflexivity]].
  destruct (stream_entry_ok_at s i Hok ltac:(lia)) as (_ & _ & C3).
  destruct (C3 (Hv ltac:(lia))) as (D1 & _ & D3). split; [|exact D1].
  intros E. rewrite E in D3. exact D3.
Qed.

(** Joining the group of its direction and stride, as [create_stream] and
    [reactivate_stream] do. *)
Lemma streams_ok_join_group s idx :
  streams_ok s ->
  (0 <= idx < stream_table_size s -> TransformerStreamEntry.valid (stream s idx) = true) ->
  let r := find_or_create_stream_group s
             (TransformerStreamEntry.direction (stream s idx))
             (TransformerStreamEntry.stride (stream s idx)) in
  streams_ok (add_stream_to_group r.1 idx r.2) /\
  same_training_and_clock s (add_stream_to_group r.1 idx r.2).
Proof.
  intros Hok Hv. cbv zeta.
  destruct (stream_dir_stride_ok s idx Hok Hv) as [Hd Hs].
  destruct (streams_ok_find_or_create_stream_group s _ _ Hok Hd Hs) as (A1 & A2 & A3).
  cbv zeta in A1, A2, A3.
  destruct (find_or_create_stream_group s _ _) as [s1 j]. simpl in *.
  destruct (streams_ok_add_stream_to_group s1 idx j A1 A3) as [B1 B2].
  split; [exact B1|eapply same_training_and_clock_trans; eassumption].
Qed.

Lemma streams_ok_create_stream s w (trained_entry : TrainingEntry.t) :
  streams_ok s ->
  TrainingEntry.direction trained_entry <> StreamDirection.UNKNOWN ->
  TrainingEntry.stride trained_entry = 1 ->
  0 <= TrainingEntry.pattern_confidence trained_entry <= MAX_CONFIDENCE ->
  streams_ok (create_stream s w trained_entry).1 /\
  same_training_and_clock s (create_stream s w trained_entry).1 /\
  Q w (create_stream s w trained_entry).2.
Proof.
  intros Hok Hdir Hstr Hpc. unfold transformer_stream.create_stream.
  destruct (streams_ok_allocate_stream_entry s Hok) as [A1 A2].
  destruct (allocate_stream_entry s) as [s1 idx]. simpl in A1, A2.
  goal_if; [simpl; split; [assumption|split; [assumption|apply Q_refl]]|].
  rewrite update_stream_twice.
  match goal with |- context [update_stream idx ?f s1] => set (F := f) end.
  assert (HF : forall e, stream_entry_ok e -> stream_entry_ok (F e) /\
                         TransformerStreamEntry.valid (F e) = true).
  { intros e (C1 & C2 & C3). subst F. split; [|reflexivity].
    split; [simpl; unfold MAX_CONFIDENCE in *; lia|]. split; [reflexivity|].
    intros _. split; [exact Hstr|]. split.
    - apply classify_unit_stride. exact Hstr.
    - simpl. rewrite Hstr. unfold block_add.
      destruct (TrainingEntry.direction trained_entry); simpl; [congruence|lia|lia]. }
  assert (B1 : streams_ok (update_stream idx F s1))
    by (apply streams_ok_update_stream; [exact A1|]; intros _ He; apply HF, He).
  set (s2 := update_stream idx F s1) in *.
  assert (Hv : 0 <= idx < stream_table_size s2 ->
               TransformerStreamEntry.valid (stream s2 idx) = true).
  { intros Hi. subst s2. unfold stream_table_size in Hi. simpl in Hi.
    rewrite length_array_set in Hi. rewrite stream_update_stream_eq by exact Hi.
    apply HF. apply stream_entry_ok_at; assumption. }
  destruct (streams_ok_join_group s2 idx B1 Hv) as [C1 C2]. cbv zeta in C1, C2.
  destruct (find_or_create_stream_group s2 _ _) as [s3 j]. simpl in C1, C2.
  destruct (streams_ok_generate_prefetches (add_stream_to_group s3 idx j) w idx C1)
    as [D1 D2].
  split; [exact D1|]. split; [|apply Q_generate, C1].
  eapply same_training_and_clock_trans; [exact A2|].
  eapply same_training_and_clock_trans; [|exact D2].
  eapply same_training_and_clock_trans; [|exact C2]. subst s2. same.
Qed.

Lemma streams_ok_reactivate_stream s w idx trigger_block :
  streams_ok s ->
  0 <= idx < stream_table_size s ->
  TransformerStreamEntry.valid (stream s idx) = true ->
  streams_ok (reactivate_stream s w idx trigger_block).1 /\
  same_training_and_clock s (reactivate_stream s w idx trigger_block).1 /\
  Q w (reactivate_stream s w idx trigger_block).2.
Proof.
  intros Hok Hi Hv. unfold transformer_stream.reactivate_stream.
  match goal with |- context [update_stream idx ?f s] => set (F := f) end.
  set (s1 := update_stream idx F s).
  assert (E1 : stream s1 idx = F (stream s idx))
    by (subst s1; apply stream_update_stream_eq; exact Hi).
  destruct (stream_entry_ok_at s idx Hok Hi) as (C1 & C2 & C3).
  destruct (C3 Hv) as (D1 & D2 & D3).
  cbv zeta. rewrite !E1.
  set (new_end := block_add trigger_block _).
  match goal with |- context [generate_prefetches (if _ then _ else ?x) w idx] =>
    set (s2 := x) end.
  assert (H2 : streams_ok s2 /\ same_training_and_clock s s2 /\
               TransformerStreamEntry.valid (stream s2 idx) = true).
  { subst s2.
    assert (Hconf : 1 <= Z.min (u32 (TransformerStreamEntry.confidence_score (stream s idx)
                                     + CONFIDENCE_BOOST_ON_REUSE)) MAX_CONFIDENCE
                    <= MAX_CONFIDENCE).
    { unfold CONFIDENCE_BOOST_ON_REUSE, MAX_CONFIDENCE in *. rewrite u32_small by lia. lia. }
    assert (Hne : new_end = trigger_block +
                  StreamDirection.to_int (TransformerStreamEntry.direction (stream s idx)) * 64).
    { subst new_end F. simpl. rewrite D1. unfold block_add. lia. }
    assert (Hfd : TransformerStreamEntry.direction (F (stream s idx)) =
                  TransformerStreamEntry.direction (stream s idx)) by reflexivity.
    assert (Hfe : TransformerStreamEntry.stream_end_block (F (stream s idx)) =
                  TransformerStreamEntry.stream_end_block (stream s idx)) by reflexivity.
    rewrite Hfd, Hfe. clearbody new_end.
    destruct (TransformerStreamEntry.direction (stream s idx)) eqn:Hd; [contradiction| |];
      simpl in Hne; goal_if; subst s1; rewrite ?update_stream_twice;
      (split; [|split; [same|]]);
      try (rewrite stream_update_stream_eq by exact Hi; subst F; simpl; exact Hv);
      (apply streams_ok_update_stream; [exact Hok|]; intros _ _; subst F;
       split; [exact Hconf|]; split; [intros _; simpl; exact Hv|];
       intros _; simpl; split; [exact D1|]; split; [exact D2|]; rewrite Hd; lia). }
  destruct H2 as (A1 & A2 & A3).
  match goal with |- context [generate_prefetches ?x w idx] => set (s3 := x) end.
  assert (H3 : streams_ok s3 /\ same_training_and_clock s s3).
  { subst s3. goal_if; [|split; assumption].
    destruct (streams_ok_join_group s2 idx A1 (fun _ => A3)) as [B1 B2].
    cbv zeta in B1, B2.
    destruct (find_or_create_stream_group s2 _ _) as [s' j]. simpl in B1, B2.
    split; [exact B1|eapply same_training_and_clock_trans; eassumption]. }
  destruct H3 as [B1 B2].
  destruct (streams_ok_generate_prefetches s3 w idx B1) as [E1' E2'].
  split; [exact E1'|]. split; [eapply same_training_and_clock_trans; eassumption|].
  apply Q_generate, B1.
Qed.

Lemma streams_ok_try_relaunch_stream s w miss_block dir stride :
  streams_ok s ->
  streams_ok (try_relaunch_stream s w miss_block dir stride).1.1 /\
  same_training_and_clock s (try_relaunch_stream s w miss_block dir stride).1.1 /\
  Q w (try_relaunch_stream s w miss_block dir stride).1.2 /\
  ((try_relaunch_stream s w miss_block dir stride).2 = false ->
   (try_relaunch_stream s w miss_block dir stride).1 = (s, w)).
Proof.
  intros Hok. unfold transformer_stream.try_relaunch_stream.
  set (idx := find_matching_inactive_stream s dir stride (compute_region_base miss_block)).
  destruct (Z.geb_spec idx 0) as [Hfound|Hnone];
    [|simpl; split; [exact Hok|split; [same|split; [apply Q_refl|reflexivity]]]].
  assert (Hf : idx < stream_table_size s /\
               TransformerStreamEntry.valid (stream s idx) = true).
  { subst idx. unfold find_matching_inactive_stream in *.
    destruct (find_index_found _ (stream_table s) TransformerStreamEntry.default Hfound)
      as [Hlt Hp].
    split; [exact Hlt|].
    apply andb_true_iff in Hp. destruct Hp as [Hp _].
    apply andb_true_iff in Hp. destruct Hp as [Hp _].
    apply andb_true_iff in Hp. destruct Hp as [Hp _]. exact Hp. }
  destruct Hf as [Hlt Hv].
  destruct (streams_ok_reactivate_stream s w idx miss_block Hok
              ltac:(lia) Hv) as (A1 & A2 & A3).
  destruct (reactivate_stream s w idx miss_block) as [s1 w1]. simpl in *.
  split; [assumption|]. split; [assumption|]. split; [assumption|discriminate].
Qed.

(** *** Training *)

Lemma find_index_from_all_false {A : Type} (p : A -> bool) (l : list A) k :
  Forall (fun x => p x = false) l -> find_index_from p l k = -1.
Proof.
  intros H. revert k. induction H as [|x l Hx _ IH]; intros k; simpl; [reflexivity|].
  rewrite Hx. apply IH.
Qed.

Lemma get_pattern_confidence_unknown s stride region :
  Forall pattern_entry_ok (pattern_history s) ->
  get_pattern_confidence s StreamDirection.UNKNOWN stride region = 0.
Proof.
  intros HP. unfold get_pattern_confidence, find_matching_pattern, find_index.
  rewrite find_index_from_all_false; [reflexivity|].
  eapply Forall_impl; [exact HP|]. intros p Hp. simpl.
  destruct (PatternHistoryEntry.valid p) eqn:Hv; [|reflexivity].
  destruct (Hp Hv) as [_ Hd].
  destruct (PatternHistoryEntry.direction p); [congruence| |]; simpl;
    rewrite ?andb_false_r; reflexivity.
Qed.

Lemma get_pattern_confidence_range s dir stride region :
  0 <= get_pattern_confidence s dir stride region <= MAX_CONFIDENCE.
Proof.
  unfold get_pattern_confidence, MAX_CONFIDENCE. change (8 ÷ 2) with 4.
  repeat goal_if; lia.
Qed.

Lemma update_training_twice s i f g :
  update_training i g (update_training i f s) = update_training i (fun e => g (f e)) s.
Proof.
  unfold update_training, training, set_training_table. simpl. f_equal.
  destruct (Z_lt_le_dec i 0) as [Hneg|Hpos];
    [rewrite !array_set_out_of_range by (rewrite ?length_array_set; lia); reflexivity|].
  destruct (Z_lt_le_dec i (Z.of_nat (length (training_table s)))) as [Hlt|Hge].
  - rewrite array_get_set_eq by lia. apply array_set_twice.
  - rewrite !array_set_out_of_range by (rewrite ?length_array_set; lia). reflexivity.
Qed.

Lemma lru_scan_range s idxs a t :
  let r :=
    fold_left
      (fun '(lru_idx, oldest_time) i =>
         let ts := TrainingEntry.last_access_timestamp (training s i) in
         if ts <? oldest_time then (i, ts) else (lru_idx, oldest_time))
      idxs (a, t) in
  r.1 = a \/ In r.1 idxs.
Proof.
  revert a t. induction idxs as [|i idxs IH]; intros a t; simpl; [left; reflexivity|].
  goal_if.
  - destruct (IH i (TrainingEntry.last_access_timestamp (training s i))) as [E|E];
      cbv zeta in E; right; [left; symmetry; exact E|right; exact E].
  - destruct (IH a t) as [E|E]; cbv zeta in E; [left|right; right]; exact E.
Qed.

(** What [allocate_training_entry] hands out: an entry of the table,
    freshly initialised for the region; nothing else changes. *)
Lemma allocate_training_entry_result s region_base :
  0 < Z.of_nat (length (training_table s)) ->
  exists e,
    (allocate_training_entry s region_base).1 =
      set_training_table
        (array_set (training_table s) (allocate_training_entry s region_base).2 e) s /\
    0 <= (allocate_training_entry s region_base).2 < Z.of_nat (length (training_table s)) /\
    TrainingEntry.valid e = true /\
    TrainingEntry.region_base e = region_base /\
    TrainingEntry.miss_count e = 0 /\
    TrainingEntry.direction e = StreamDirection.UNKNOWN /\
    TrainingEntry.stride e = 1 /\
    TrainingEntry.pattern_confidence e = 0.
Proof.
  intros Hlen. unfold allocate_training_entry.
  match goal with |- context [find_index ?p (training_table s)] =>
    destruct (Z.leb_spec 0 (find_index p (training_table s))) as [Hfree|Hfull] end.
  - destruct (find_index_found _ (training_table s) TrainingEntry.default Hfree) as [Hlt _].
    eexists. split; [reflexivity|]. simpl. repeat split; try lia.
  - match goal with |- context [fold_left ?f (indices (training_table s)) (0, ?t)] =>
      pose proof (lru_scan_range s (indices (training_table s)) 0 t) as Hr;
      cbv zeta in Hr;
      destruct (fold_left f (indices (training_table s)) (0, t)) as [lru_idx oldest]
    end.
    simpl in Hr.
    assert (Hi : 0 <= lru_idx < Z.of_nat (length (training_table s))).
    { destruct Hr as [->|Hin]; [lia|]. apply indices_range in Hin. exact Hin. }
    eexists. split; [reflexivity|]. simpl. repeat split; try lia.
Qed.

(** What [update_training_entry] makes of the entry it is given, when the
    miss lies in the entry's region: an entry that is still training, or
    one that has just confirmed a unit-stride stream. *)
Lemma update_training_entry_result s idx miss_block :
  Forall pattern_entry_ok (pattern_history s) ->
  0 <= idx < Z.of_nat (length (training_table s)) ->
  TrainingEntry.valid (training s idx) = true ->
  TrainingEntry.region_base (training s idx) = compute_region_base miss_block ->
  (training_entry_ok (training s idx) \/
   (TrainingEntry.miss_count (training s idx) = 0 /\
    TrainingEntry.direction (training s idx) = StreamDirection.UNKNOWN /\
    TrainingEntry.stride (training s idx) = 1 /\
    TrainingEntry.pattern_confidence (training s idx) = 0)) ->
  exists e1,
    update_training_entry s idx miss_block =
      set_training_table (array_set (training_table s) idx e1) s /\
    TrainingEntry.valid e1 = true /\
    (training_entry_ok e1 \/
     (TrainingEntry.miss_count e1 = 3 /\
      TrainingEntry.direction e1 <> StreamDirection.UNKNOWN /\
      TrainingEntry.stride e1 = 1 /\
      0 <= TrainingEntry.pattern_confidence e1 <= MAX_CONFIDENCE)).
Proof.
  intros HP Hi Hv Hrb Hpre. unfold update_training_entry.
  set (e := training s idx) in *.
  match goal with |- context [update_training idx ?f s] => set (f0 := f) end.
  set (s1 := update_training idx f0 s).
  assert (E1 : training s1 idx = f0 e)
    by (subst s1 e; unfold training, update_training; simpl; apply array_get_set_eq; exact Hi).
  assert (HP1 : Forall pattern_entry_ok (pattern_history s1)) by exact HP.
  assert (Hfacts : TrainingEntry.direction e = StreamDirection.UNKNOWN /\
                   TrainingEntry.stride e = 1 /\
                   TrainingEntry.pattern_confidence e = 0 /\
                   (TrainingEntry.miss_count e = 0 \/
                    (TrainingEntry.miss_count e = 1 /\
                     compute_region_base (TrainingEntry.last_miss_block e) =
                     TrainingEntry.region_base e) \/
                    (TrainingEntry.miss_count e = 2 /\
                     compute_region_base (TrainingEntry.last_miss_block e) =
                     TrainingEntry.region_base e /\
                     compute_region_base (TrainingEntry.second_last_miss_block e) =
                     TrainingEntry.region_base e))).
  { destruct Hpre as [Hok|(A & B & C & D)]; [|auto 10].
    destruct (Hok Hv) as (M & B & C & D & L & S2).
    split; [exact B|]. split; [exact C|]. split; [exact D|].
    destruct M as [M|M]; [right; left; auto|right; right; auto]. }
  destruct Hfacts as (Hd & Hs & Hc & Hm).
  cbv zeta. rewrite !E1.
  change (TrainingEntry.miss_count (f0 e)) with (TrainingEntry.miss_count e).
  change (TrainingEntry.region_base (f0 e)) with (TrainingEntry.region_base e).
  destruct (Z.eqb_spec (TrainingEntry.miss_count e) 0) as [M0|M0].
  { subst s1. rewrite update_training_twice. eexists. split; [reflexivity|].
    fold e. simpl. split; [exact Hv|]. left. intros _. simpl.
    rewrite get_pattern_confidence_unknown by exact HP.
    split; [auto|]. split; [exact Hd|]. split; [exact Hs|]. split; [reflexivity|].
    split; [congruence|]. intros; lia. }
  destruct (Z.eqb_spec (TrainingEntry.miss_count e) 1) as [M1|M1].
  { subst s1. rewrite update_training_twice. eexists. split; [reflexivity|].
    fold e. simpl. split; [exact Hv|]. left. intros _. simpl.
    destruct Hm as [?|[[_ L]|[? _]]]; try lia.
    split; [auto|]. split; [exact Hd|]. split; [exact Hs|]. split; [exact Hc|].
    split; [congruence|]. intros _. exact L. }
  destruct Hm as [?|[[? _]|(M2 & L & S2)]]; try lia.
  match goal with |- context [update_training idx ?f s1] => set (f1 := f) end.
  set (s2 := update_training idx f1 s1).
  assert (E2 : training s2 idx = f1 (f0 e)).
  { subst s2. unfold training at 1, update_training. simpl. fold (training s1 idx).
    rewrite E1. apply array_get_set_eq. subst s1. simpl. rewrite length_array_set. exact Hi. }
  rewrite !E2.
  assert (S12 : s2 = update_training idx (fun x => f1 (f0 x)) s)
    by (subst s2 s1; apply update_training_twice).
  change (TrainingEntry.third_last_miss_block (f1 (f0 e)))
    with (TrainingEntry.second_last_miss_block e).
  change (TrainingEntry.second_last_miss_block (f1 (f0 e)))
    with (TrainingEntry.last_miss_block e).
  change (TrainingEntry.last_miss_block (f1 (f0 e))) with miss_block.
  change (TrainingEntry.region_base (f1 (f0 e))) with (TrainingEntry.region_base e).
  set (gap1 := offset (TrainingEntry.second_last_miss_block e) (TrainingEntry.last_miss_block e)).
  set (gap2 := offset (TrainingEntry.last_miss_block e) miss_block).
  assert (Hshift : training_entry_ok (f1 (f0 e))).
  { intros _. subst f1 f0. simpl.
    split; [auto|]. split; [exact Hd|]. split; [exact Hs|]. split; [exact Hc|].
    split; [congruence|]. intros _. exact L. }
  assert (Hreset : forall x, training_entry_ok x ->
            training_entry_ok
              (x |> TrainingEntry.set_miss_count 1
                 |> TrainingEntry.set_direction StreamDirection.UNKNOWN
                 |> TrainingEntry.set_stride 1)).
  { intros x Hx V. destruct (Hx V) as (_ & _ & _ & X4 & X5 & _). simpl.
    split; [auto|]. split; [reflexivity|]. split; [reflexivity|]. split; [exact X4|].
    split; [exact X5|]. intros; lia. }
  destruct (is_noise gap1 gap2).
  { rewrite S12. eexists. split; [reflexivity|]. fold e. split; [exact Hv|]. left. exact Hshift. }
  destruct (StreamDirection.eqb (detect_direction gap1 gap2) StreamDirection.UNKNOWN) eqn:Hdd.
  { rewrite S12, update_training_twice. eexists. split; [reflexivity|]. fold e.
    split; [exact Hv|]. left. apply Hreset, Hshift. }
  destruct (Z.leb_spec (detect_stride gap1 gap2) 0) as [Hds|Hds].
  { rewrite S12, update_training_twice. eexists. split; [reflexivity|]. fold e.
    split; [exact Hv|]. left. apply Hreset, Hshift. }
  rewrite S12, update_training_twice. eexists. split; [reflexivity|]. fold e.
  split; [exact Hv|]. right. simpl.
  assert (Hne : detect_direction gap1 gap2 <> StreamDirection.UNKNOWN).
  { intros E. rewrite E in Hdd. discriminate. }
  split; [reflexivity|]. split; [exact Hne|]. split.
  - apply same_region_stride; [congruence|congruence|exact Hne|exact Hds].
  - apply get_pattern_confidence_range.
Qed.

(** *** The prefetcher interface *)

Lemma consistent_stream_side s s' :
  consistent s -> streams_ok s' -> same_training_and_clock s s' -> consistent s'.
Proof.
  intros (_ & HT & HL & Hc) Hok (E1 & E2 & E3).
  split; [exact Hok|]. unfold clock_ok. rewrite E1, E2, E3. auto.
Qed.

Lemma array_set_same {A : Type} (d : A) (l : list A) i :
  array_set l i (array_get d l i) = l.
Proof.
  unfold array_set, array_get. destruct (i <? 0) eqn:Hi; [reflexivity|].
  destruct (l !! Z.to_nat i) eqn:E; simpl.
  - apply list_insert_id. exact E.
  - apply list_insert_ge. apply lookup_ge_None. exact E.
Qed.

Lemma set_training_table_same s : set_training_table (training_table s) s = s.
Proof. destruct s; reflexivity. Qed.

Lemma clock_ok_next_miss ts cc :
  0 <= ts < 2 ^ 64 -> cc = ts mod CLEANUP_INTERVAL ->
  0 <= u64 (ts + 1) < 2 ^ 64 /\
  (if u64 (cc + 1) >=? CLEANUP_INTERVAL then 0 else u64 (cc + 1)) =
  u64 (ts + 1) mod CLEANUP_INTERVAL.
Proof.
  unfold u64, CLEANUP_INTERVAL. intros Hts ->.
  split; [apply Z.mod_pos_bound; lia|].
  destruct (Z.geb_spec (((ts mod 256) + 1) mod 2 ^ 64) 256);
    Z.div_mod_to_equations; lia.
Qed.

Lemma cache_operate_keeps s w addr ip cache_hit useful_prefetch
    (type : access_type) metadata_in :
  consistent s ->
  consistent (cache_operate s w addr ip cache_hit useful_prefetch type metadata_in).1.1 /\
  Q w (cache_operate s w addr ip cache_hit useful_prefetch type metadata_in).1.2.
Proof.
  intros Hcon. unfold prefetcher_cache_operate.
  destruct (negb (cache_hit =? 0)); [split; [exact Hcon|apply Q_refl]|].
  destruct Hcon as (Hok & HT & HL & Hts & Hcc).
  set (s1 := set_current_timestamp (u64 (current_timestamp s + 1)) s).
  assert (Hok1 : streams_ok s1) by exact Hok.
  destruct (streams_ok_update_phase_state s1 false Hok1) as [Hok2 (F1 & F2 & F3)].
  set (s2 := update_phase_state s1 false) in *.
  set (s3 := set_cleanup_counter (u64 (cleanup_counter s2 + 1)) s2).
  assert (Hok3 : streams_ok s3) by exact Hok2.
  set (s4 := if cleanup_counter s3 >=? CLEANUP_INTERVAL
             then set_cleanup_counter 0 (remove_dead_streams s3) else s3).
  assert (Ecc3 : cleanup_counter s3 = u64 (cleanup_counter s + 1))
    by (subst s3; cbn [cleanup_counter set_cleanup_counter]; rewrite F3; reflexivity).
  assert (Ets3 : current_timestamp s3 = u64 (current_timestamp s + 1))
    by (subst s3; cbn [current_timestamp set_cleanup_counter]; rewrite F2; reflexivity).
  assert (Ett3 : training_table s3 = training_table s)
    by (subst s3; cbn [training_table set_cleanup_counter]; rewrite F1; reflexivity).
  assert (H4 : consistent s4).
  { destruct (clock_ok_next_miss _ _ Hts Hcc) as [C1 C2].
    destruct (streams_ok_remove_dead_streams s3 Hok3) as [Hok4 (G1 & G2 & G3)].
    subst s4. rewrite Ecc3.
    destruct (u64 (cleanup_counter s + 1) >=? CLEANUP_INTERVAL) eqn:Hc.
    - split; [exact Hok4|].
      cbn [training_table current_timestamp cleanup_counter set_cleanup_counter].
      rewrite G1, Ett3. split; [exact HT|]. split; [exact HL|].
      unfold clock_ok.
      cbn [training_table current_timestamp cleanup_counter set_cleanup_counter].
      rewrite G2, Ets3. split; [exact C1|exact C2].
    - split; [exact Hok3|]. rewrite Ett3. split; [exact HT|]. split; [exact HL|].
      unfold clock_ok. rewrite Ets3, Ecc3. split; [exact C1|exact C2]. }
  clearbody s4. clear Hok HT HL Hts Hcc Hok1 Hok2 Hok3 F1 F2 F3 Ecc3 Ets3 Ett3 s1 s2 s3.
  cbv zeta.
  set (miss_block := Z.shiftr addr LOG2_BLOCK_SIZE).
  destruct (Z.geb_spec (find_stream_for_block s4 miss_block) 0) as [Hhit|Hmiss].
  - set (idx := find_stream_for_block s4 miss_block) in *.
    assert (Hf : idx < stream_table_size s4 /\
                 TransformerStreamEntry.valid (stream s4 idx) = true).
    { subst idx. unfold find_stream_for_block in *.
      destruct (find_index_found _ (stream_table s4) TransformerStreamEntry.default Hhit)
        as [Hlt Hp].
      split; [exact Hlt|]. apply andb_true_iff in Hp. destruct Hp as [Hp _]. exact Hp. }
    destruct Hf as [Hlt Hv]. destruct H4 as (Hok & Hrest).
    match goal with |- context [update_stream idx ?f s4] => set (f1 := f) end.
    assert (Hok5 : streams_ok (update_stream idx f1 s4)).
    { apply streams_ok_update_stream; [exact Hok|].
      intros _ (C1 & C2 & C3). split; [exact C1|]. split; [exact C2|exact C3]. }
    assert (E5 : TransformerStreamEntry.valid (stream (update_stream idx f1 s4) idx) = true).
    { rewrite stream_update_stream_eq by lia. exact Hv. }
    set (s5 := update_stream idx f1 s4) in *.
    match goal with |- context [reinforce_stream_confidence ?x idx] => set (s6 := x) end.
    assert (H6 : streams_ok s6 /\ same_training_and_clock s5 s6).
    { subst s6. goal_if; [|split; [exact Hok5|same]]. split; [|same].
      apply streams_ok_update_stream; [exact Hok5|].
      intros _ (C1 & C2 & C3). split; [exact C1|]. split; [intros _; exact E5|exact C3]. }
    destruct H6 as [Hok6 F6].
    destruct (streams_ok_reinforce_stream_confidence s6 idx Hok6) as [Hok7 F7].
    destruct (streams_ok_generate_prefetches _ w idx Hok7) as [Hok8 F8].
    pose proof (Q_generate _ w idx Hok7) as Q8.
    destruct (generate_prefetches _ w idx) as [s8 w8]. simpl in *.
    split; [|exact Q8].
    apply (consistent_stream_side s4); [exact (conj Hok Hrest)|exact Hok8|].
    eapply same_training_and_clock_trans; [|exact F8].
    eapply same_training_and_clock_trans; [|exact F7].
    eapply same_training_and_clock_trans; [|exact F6]. subst s5. same.
  - set (rb := compute_region_base miss_block).
    destruct H4 as (Hok & HT & HL & Hclk).
    assert (Hlen : 0 < Z.of_nat (length (training_table s4)))
      by (rewrite HL; unfold TRAINING_TABLE_SIZE; lia).
    match goal with
    | |- context [if ?c then allocate_training_entry s4 rb else (s4, ?i)] =>
        assert (Ha : exists e0,
                  (if c then allocate_training_entry s4 rb else (s4, i)).1 =
                    set_training_table
                      (array_set (training_table s4)
                         (if c then allocate_training_entry s4 rb else (s4, i)).2 e0) s4 /\
                  0 <= (if c then allocate_training_entry s4 rb else (s4, i)).2
                    < Z.of_nat (length (training_table s4)) /\
                  TrainingEntry.valid e0 = true /\
                  TrainingEntry.region_base e0 = rb /\
                  (training_entry_ok e0 \/
                   (TrainingEntry.miss_count e0 = 0 /\
                    TrainingEntry.direction e0 = StreamDirection.UNKNOWN /\
                    TrainingEntry.stride e0 = 1 /\
                    TrainingEntry.pattern_confidence e0 = 0)));
        [|destruct (if c then allocate_training_entry s4 rb else (s4, i)) as [s5 train_idx]]
    end.
    { destruct (Z.ltb_spec (find_training_entry s4 rb) 0) as [Hnew|Hold].
      - destruct (allocate_training_entry_result s4 rb Hlen)
          as (e0 & A1 & A2 & A3 & A4 & A5). exists e0. auto 10.
      - unfold find_training_entry in *.
        destruct (find_index_found _ (training_table s4) TrainingEntry.default Hold)
          as [Hlt Hp].
        set (i := find_index _ (training_table s4)) in *.
        apply andb_true_iff in Hp. destruct Hp as [Hp1 Hp2].
        exists (training s4 i). simpl. unfold training at 1.
        rewrite array_set_same, set_training_table_same.
        split; [reflexivity|]. split; [lia|]. split; [exact Hp1|].
        split; [apply Z.eqb_eq; exact Hp2|].
        left. unfold training. apply Forall_array_get; [exact HT|lia]. }
    destruct Ha as (e0 & E5 & Hi & Hv0 & Hrb0 & Hpre). simpl in E5, Hi.
    assert (T5 : training s5 train_idx = e0).
    { rewrite E5. unfold training. simpl. apply array_get_set_eq. exact Hi. }
    destruct (update_training_entry_result s5 train_idx miss_block) as (e1 & E6 & Hv1 & Hpost).
    { rewrite E5. exact (proj1 (proj2 (proj2 (proj2 Hok)))). }
    { rewrite E5. simpl. rewrite length_array_set. exact Hi. }
    { rewrite T5. exact Hv0. }
    { rewrite T5. exact Hrb0. }
    { rewrite T5. exact Hpre. }
    set (s6 := update_training_entry s5 train_idx miss_block) in *.
    assert (E6' : s6 = set_training_table (array_set (training_table s4) train_idx e1) s4).
    { rewrite E6, E5. unfold set_training_table. simpl. rewrite array_set_twice. reflexivity. }
    clearbody s6. clear E6 E5 T5 s5 Hpre Hv0 Hrb0 e0.
    assert (T6 : training s6 train_idx = e1).
    { rewrite E6'. unfold training. simpl. apply array_get_set_eq. exact Hi. }
    assert (Hok6 : streams_ok s6) by (rewrite E6'; exact Hok).
    assert (TT6 : training_table s6 = array_set (training_table s4) train_idx e1)
      by (rewrite E6'; reflexivity).
    assert (Hclk6 : clock_ok s6) by (rewrite E6'; exact Hclk).
    rewrite !T6.
    match goal with |- context [if ?c then _ else (s6, w, metadata_in)] =>
      destruct c eqn:Hready end.
    + assert (Hconf : TrainingEntry.direction e1 <> StreamDirection.UNKNOWN /\
                      TrainingEntry.stride e1 = 1 /\
                      0 <= TrainingEntry.pattern_confidence e1 <= MAX_CONFIDENCE).
      { destruct Hpost as [Hok1|(_ & P2 & P3 & P4)]; [|auto].
        destruct (Hok1 Hv1) as (_ & D & _). rewrite D in Hready. simpl in Hready.
        rewrite andb_false_r in Hready. discriminate. }
      destruct Hconf as (Hd1 & Hs1 & Hp1).
      destruct (streams_ok_try_relaunch_stream s6 w miss_block
                  (TrainingEntry.direction e1) (TrainingEntry.stride e1) Hok6)
        as (Hok7 & F7 & Q7 & Hfail).
      destruct (try_relaunch_stream s6 w miss_block _ _) as [[s7 w7] relaunched].
      simpl in Hok7, F7, Q7, Hfail.
      assert (H8 : streams_ok
                     (if negb relaunched then create_stream s7 w7 e1 else (s7, w7)).1 /\
                   same_training_and_clock s7
                     (if negb relaunched then create_stream s7 w7 e1 else (s7, w7)).1 /\
                   Q w (if negb relaunched then create_stream s7 w7 e1 else (s7, w7)).2).
      { destruct relaunched; simpl; [split; [exact Hok7|split; [same|exact Q7]]|].
        specialize (Hfail eq_refl). injection Hfail as -> ->.
        apply streams_ok_create_stream; assumption. }
      destruct (if negb relaunched then create_stream s7 w7 e1 else (s7, w7)) as [s8 w8].
      simpl in H8. destruct H8 as (Hok8 & F8 & Q8). simpl.
      pose proof (same_training_and_clock_trans _ _ _ F7 F8) as (G1 & G2 & G3).
      split; [|exact Q8].
      split; [exact Hok8|]. simpl. rewrite G1, TT6, array_set_twice.
      split; [|split].
      * apply Forall_array_set; [exact HT|]. intros _ V. simpl in V. discriminate.
      * rewrite length_array_set. exact HL.
      * unfold clock_ok in *. simpl. rewrite G2, G3. exact Hclk6.
    + simpl. split; [|apply Q_refl].
      split; [exact Hok6|]. rewrite TT6. split; [|split; [|exact Hclk6]].
      * apply Forall_array_set; [exact HT|]. intros _.
        destruct Hpost as [Hok1|(P1 & P2 & P3 & _)]; [exact Hok1|].
        exfalso. rewrite P1, P3 in Hready. unfold CONFIRMATION_THRESHOLD in Hready.
        simpl in Hready.
        destruct (TrainingEntry.direction e1); [congruence|discriminate|discriminate].
      * rewrite length_array_set. exact HL.
Qed.

End KeepingHost.

Section ReachableConsistent.
Import transformer_stream Consistency.

Context (World : Type)
        (get_mshr_occupancy_ratio : World -> float)
        (prefetch_line : World -> Z -> bool -> Z -> World * bool)
        (LOG2_BLOCK_SIZE : Z)
        (access_type : Type).

#[local] Abbreviation generate_prefetches :=
  (generate_prefetches World get_mshr_occupancy_ratio prefetch_line LOG2_BLOCK_SIZE).
#[local] Abbreviation cache_operate :=
  (prefetcher_cache_operate World get_mshr_occupancy_ratio prefetch_line
     LOG2_BLOCK_SIZE access_type).
#[local] Abbreviation cycle_operate :=
  (prefetcher_cycle_operate World get_mshr_occupancy_ratio prefetch_line LOG2_BLOCK_SIZE).
#[local] Abbreviation reachable :=
  (reachable World get_mshr_occupancy_ratio prefetch_line LOG2_BLOCK_SIZE access_type).

Implicit Types (s : t) (w : World).

Ltac goal_if :=
  match goal with
  | |- context [if ?c then _ else _] => destruct c eqn:?
  end.

Ltac same := first [ apply same_training_and_clock_refl | repeat split ].

Lemma consistent_cache_operate s w addr ip cache_hit useful_prefetch
    (type : access_type) metadata_in :
  consistent s ->
  consistent (cache_operate s w addr ip cache_hit useful_prefetch type metadata_in).1.1.
Proof.
  intros Hcon.
  apply (cache_operate_keeps World get_mshr_occupancy_ratio prefetch_line LOG2_BLOCK_SIZE
           access_type (fun _ _ => True) (fun _ => I) (fun _ _ _ _ => I)).
  exact Hcon.
Qed.

Lemma consistent_cycle_operate s w :
  consistent s -> consistent (cycle_operate s w).1.
Proof.
  intros Hcon.
  assert (H : streams_ok (cycle_operate s w).1 /\
              same_training_and_clock s (cycle_operate s w).1).
  { destruct Hcon as [Hok _]. unfold prefetcher_cycle_operate.
    generalize (indices (stream_table s)). intros idxs. revert s w Hok.
    induction idxs as [|i idxs IH]; intros s w Hok; simpl; [split; [exact Hok|same]|].
    match goal with
    | |- context [fold_left ?f idxs ?a] =>
        assert (Ha : streams_ok a.1 /\ same_training_and_clock s a.1)
    end.
    { goal_if; [apply streams_ok_generate_prefetches, Hok|split; [exact Hok|same]]. }
    match goal with
    | |- context [fold_left ?f idxs ?a] => destruct a as [s1 w1]
    end.
    simpl in Ha. destruct Ha as [A1 A2]. destruct (IH s1 w1 A1) as [B1 B2].
    split; [exact B1|eapply same_training_and_clock_trans; eassumption]. }
  destruct H as [H1 H2]. eapply consistent_stream_side; eassumption.
Qed.

Lemma groups_distinct_all_invalid (gs : list StreamGroup.t) :
  Forall (fun g => StreamGroup.valid g = false) gs -> groups_distinct gs.
Proof.
  intros H j1 j2 Hj1 _ V1. exfalso.
  pose proof (Forall_array_get _ StreamGroup.default gs j1 H Hj1) as E. simpl in E.
  congruence.
Qed.

Lemma consistent_initialize : consistent (prefetcher_initialize construct).
Proof.
  split; [|split; [|split; [reflexivity|split; [simpl; lia|reflexivity]]]].
  - split; [|split; [|split; [|split; [|split; [reflexivity|split; [simpl; unfold PATTERN_HISTORY_SIZE; lia|]]]]]].
    + simpl. repeat (apply Forall_cons; split;
        [split; [simpl; unfold MAX_CONFIDENCE; lia|split; simpl; discriminate]|]).
      apply Forall_nil. exact I.
    + simpl. repeat (apply Forall_cons; split; [intros V; simpl in V; discriminate|]).
      apply Forall_nil. exact I.
    + apply groups_distinct_all_invalid. simpl.
      repeat (apply Forall_cons; split; [reflexivity|]). apply Forall_nil. exact I.
    + simpl. repeat (apply Forall_cons; split; [intros V; simpl in V; discriminate|]).
      apply Forall_nil. exact I.
    + split; [exact (proj1 invariant_initialize)|].
      split; [reflexivity|simpl; lia].
  - simpl. repeat (apply Forall_cons; split; [intros V; simpl in V; discriminate|]).
    apply Forall_nil. exact I.
Qed.

(** Every reachable state is consistent. *)
Lemma reachable_consistent s : reachable s -> consistent s.
Proof.
  induction 1 as [|s w addr ip cache_hit useful_prefetch type metadata_in _ IH
                  |s w addr set way prefetch evicted_addr metadata_in _ IH
                  |s w _ IH|s w _ IH].
  - apply consistent_initialize.
  - apply consistent_cache_operate, IH.
  - exact IH.
  - apply consistent_cycle_operate, IH.
  - exact IH.
Qed.

End ReachableConsistent.

(** ** What holds in every reachable state of the transformer prefetcher *)

Section ReachableStates.
Import transformer_stream Consistency.

Context (World : Type)
        (get_mshr_occupancy_ratio : World -> float)
        (prefetch_line : World -> Z -> bool -> Z -> World * bool)
        (LOG2_BLOCK_SIZE : Z)
        (access_type : Type).

#[local] Abbreviation reachable :=
  (reachable World get_mshr_occupancy_ratio prefetch_line LOG2_BLOCK_SIZE access_type).

Implicit Types (s : t) (w : World).

Lemma reachable_facts s :
  reachable s ->
  invariant s /\ consistent s /\
  stream_table_size s = STREAM_TABLE_SIZE /\ stream_groups_size s = MAX_STREAM_GROUPS.
Proof.
  intros Hr.
  pose proof (reachable_invariant _ _ _ _ _ s Hr) as Hinv.
  pose proof (reachable_consistent _ _ _ _ _ s Hr) as Hcon.
  destruct (invariant_sizes s Hinv) as [E1 E2]. auto.
Qed.

(** Training entries are looked up by the 4-block region of the miss, so
    three misses that train one entry lie within four consecutive blocks
    and can only confirm stride 1.  Hence in every reachable state every
    valid stream has stride 1, a direction (POSITIVE or NEGATIVE) and class
    DENSE or MEDIUM: no stream of a larger stride, and no SPARSE stream,
    ever exists. *)
Theorem every_stream_has_unit_stride s :
  reachable s ->
  forall i, 0 <= i < STREAM_TABLE_SIZE ->
    TransformerStreamEntry.valid (stream s i) = true ->
    TransformerStreamEntry.stride (stream s i) = 1 /\
    TransformerStreamEntry.direction (stream s i) <> StreamDirection.UNKNOWN /\
    (TransformerStreamEntry.stream_class (stream s i) = StreamClass.DENSE \/
     TransformerStreamEntry.stream_class (stream s i) = StreamClass.MEDIUM).
Proof.
  intros Hr i Hi Hv. destruct (reachable_facts s Hr) as (_ & (Hok & _) & Hss & _).
  destruct (stream_entry_ok_at s i Hok ltac:(lia)) as (_ & _ & C3).
  destruct (C3 Hv) as (D1 & D2 & D3). split; [exact D1|]. split; [|exact D2].
  intros E. rewrite E in D3. exact D3.
Qed.


(** Between two calls a valid training entry has recorded one or two
    misses, all in its own region, and has no direction, the default
    stride 1 and pattern confidence 0: the entry that confirms a stream
    (miss count 3) is invalidated in the same call.  So the fast-track
    test never holds for a valid entry, and the pattern lookup of a first
    miss (direction UNKNOWN) finds nothing. *)
Theorem training_entries_between_calls s :
  reachable s ->
  (forall i, 0 <= i < TRAINING_TABLE_SIZE ->
     let e := training s i in
     TrainingEntry.valid e = true ->
     (TrainingEntry.miss_count e = 1 \/ TrainingEntry.miss_count e = 2) /\
     TrainingEntry.direction e = StreamDirection.UNKNOWN /\
     TrainingEntry.stride e = 1 /\
     TrainingEntry.pattern_confidence e = 0 /\
     can_fast_track_training e = false /\
     compute_region_base (TrainingEntry.last_miss_block e) = TrainingEntry.region_base e /\
     (TrainingEntry.miss_count e = 2 ->
      compute_region_base (TrainingEntry.second_last_miss_block e) =
      TrainingEntry.region_base e)) /\
  (forall stride region,
     get_pattern_confidence s StreamDirection.UNKNOWN stride region = 0).
Proof.
  intros Hr. destruct (reachable_facts s Hr) as (_ & (Hok & HT & HL & _) & _).
  split.
  - intros i Hi. cbv zeta. intros Hv.
    assert (He : training_entry_ok (training s i)).
    { unfold training. apply Forall_array_get; [exact HT|].
      rewrite HL. unfold TRAINING_TABLE_SIZE in *. lia. }
    destruct (He Hv) as (A1 & A2 & A3 & A4 & A5 & A6).
    repeat (split; [assumption|]). split; [|split; assumption].
    unfold can_fast_track_training. rewrite A4. reflexivity.
  - intros stride region. apply get_pattern_confidence_unknown.
    exact (proj1 (proj2 (proj2 (proj2 Hok)))).
Qed.


(** In every reachable state the phase detector is consistent: the
    prefetch degree is [MIN_PREFETCH_DEGREE] = 1 during a transition and
    [BASE_PREFETCH_DEGREE] = 2 otherwise, so it never exceeds 2; the
    window holds fewer than [PHASE_WINDOW_SIZE] = 64 updates and no more
    terminations than updates; and the recovery counter is 0 outside a
    transition and between 1 and [PHASE_RECOVERY_WINDOW] - 1 = 31 inside. *)
Theorem phase_detector_consistent s :
  reachable s ->
  let p := phase_state s in
  get_current_prefetch_degree s =
    (if is_in_phase_transition s then MIN_PREFETCH_DEGREE else BASE_PREFETCH_DEGREE) /\
  1 <= get_current_prefetch_degree s <= BASE_PREFETCH_DEGREE /\
  0 <= PhaseState.streams_terminated_in_window p <= PhaseState.misses_in_window p /\
  PhaseState.misses_in_window p < PHASE_WINDOW_SIZE /\
  (is_in_phase_transition s = true ->
   1 <= PhaseState.recovery_counter p < PHASE_RECOVERY_WINDOW) /\
  (is_in_phase_transition s = false -> PhaseState.recovery_counter p = 0).
Proof.
  intros Hr. cbv zeta. destruct (reachable_facts s Hr) as (_ & (Hok & _) & _).
  destruct Hok as (_ & _ & _ & _ & _ & _ & Hp & Hd & Ht).
  unfold get_current_prefetch_degree, is_in_phase_transition, phase_ok in *.
  unfold MIN_PREFETCH_DEGREE, BASE_PREFETCH_DEGREE, PHASE_WINDOW_SIZE,
    PHASE_RECOVERY_WINDOW in *.
  destruct (PhaseState.in_phase_transition (phase_state s));
    repeat split; try lia; intros; try lia; discriminate.
Qed.

(** The cleanup counter follows the miss counter: in every reachable state
    [cleanup_counter] is [current_timestamp] modulo [CLEANUP_INTERVAL] =
    256, so the periodic cleanup runs on every 256th miss and on no other. *)
Theorem cleanup_counter_follows_the_clock s :
  reachable s ->
  0 <= current_timestamp s < 2 ^ 64 /\
  cleanup_counter s = current_timestamp s mod CLEANUP_INTERVAL /\
  0 <= cleanup_counter s < CLEANUP_INTERVAL.
Proof.
  intros Hr. destruct (reachable_facts s Hr) as (_ & (_ & _ & _ & Hts & Hcc) & _).
  split; [exact Hts|]. split; [exact Hcc|]. rewrite Hcc.
  apply Z.mod_pos_bound. reflexivity.
Qed.

(** In every reachable state the tables have their declared sizes, every
    group has [MAX_STREAMS_PER_GROUP] = 8 member slots and a member count
    between 0 and 8, and the head of the pattern history is an index of
    the history. *)
Theorem tables_keep_their_bounds s :
  reachable s ->
  Z.of_nat (length (training_table s)) = TRAINING_TABLE_SIZE /\
  Z.of_nat (length (stream_table s)) = STREAM_TABLE_SIZE /\
  Z.of_nat (length (stream_groups s)) = MAX_STREAM_GROUPS /\
  Z.of_nat (length (pattern_history s)) = PATTERN_HISTORY_SIZE /\
  0 <= pattern_history_head s < PATTERN_HISTORY_SIZE /\
  (forall j, 0 <= j < MAX_STREAM_GROUPS ->
     Z.of_nat (length (StreamGroup.members (group s j))) = MAX_STREAMS_PER_GROUP /\
     0 <= StreamGroup.member_count (group s j) <= MAX_STREAMS_PER_GROUP).
Proof.
  intros Hr. destruct (reachable_facts s Hr) as (Hinv & (Hok & _ & HL & _) & Hss & Hgs).
  destruct Hok as (_ & _ & _ & _ & HPL & HH & _).
  split; [rewrite HL; reflexivity|]. split; [exact Hss|]. split; [exact Hgs|].
  split; [rewrite HPL; reflexivity|]. split; [exact HH|].
  intros j Hj. destruct Hinv as [_ (_ & _ & _ & HG)].
  destruct (HG j Hj) as (G1 & G2 & _). fold (group s j) in G1, G2.
  split; [rewrite G1; reflexivity|].
  pose proof (count_nonneg_range (StreamGroup.members (group s j))) as Hc.
  rewrite G1 in Hc. rewrite G2. unfold MAX_STREAMS_PER_GROUP in *. lia.
Qed.

End ReachableStates.

(** ** Victim selection, termination and the pattern history *)

Section Allocation.
Import transformer_stream Consistency.

Context (World : Type)
        (get_mshr_occupancy_ratio : World -> float)
        (prefetch_line : World -> Z -> bool -> Z -> World * bool)
        (LOG2_BLOCK_SIZE : Z)
        (access_type : Type).

#[local] Abbreviation reachable :=
  (reachable World get_mshr_occupancy_ratio prefetch_line LOG2_BLOCK_SIZE access_type).

Implicit Types (s : t) (w : World).

Ltac goal_if :=
  match goal with
  | |- context [if ?c then _ else _] => destruct c eqn:?
  end.

(** The eviction priority of a valid stream is a small number. *)
Lemma compute_eviction_priority_range s i :
  invariant s -> consistent s ->
  0 <= i < STREAM_TABLE_SIZE ->
  TransformerStreamEntry.valid (stream s i) = true ->
  -3 <= compute_eviction_priority s i <= 80.
Proof.
  intros Hinv (Hok & _) Hi Hv. destruct (invariant_sizes s Hinv) as [Hss Hgs].
  destruct (stream_entry_ok_at s i Hok ltac:(lia)) as (C1 & _).
  unfold compute_eviction_priority. rewrite Hss, Hgs, Hv.
  unfold STREAM_TABLE_SIZE, MAX_STREAM_GROUPS, MAX_CONFIDENCE in *.
  destruct ((i <? 0) || (i >=? 32)) eqn:Hr; [lia|]. simpl negb. cbv iota.
  set (conf := TransformerStreamEntry.confidence_score (stream s i)) in *.
  assert (E1 : i32 (u32 (conf * 2)) = conf * 2).
  { unfold i32, u32. Z.div_mod_to_equations; lia. }
  rewrite E1.
  assert (E2 : forall j, 0 <= j < 8 ->
            i32 (u32 (StreamGroup.member_count (group s j) * 3)) =
            StreamGroup.member_count (group s j) * 3 /\
            0 <= StreamGroup.member_count (group s j) <= 8).
  { intros j Hj. destruct Hinv as [_ (_ & _ & _ & HG)].
    destruct (HG j Hj) as (G1 & G2 & _). fold (group s j) in G1, G2.
    pose proof (count_nonneg_range (StreamGroup.members (group s j))) as Hc.
    rewrite G1 in Hc. unfold MAX_STREAMS_PER_GROUP in Hc.
    split; [|lia]. unfold i32, u32. Z.div_mod_to_equations; lia. }
  unfold DEAD_STREAM_THRESHOLD. change (1000 ÷ 2) with 500.
  destruct (Z.geb_spec (TransformerStreamEntry.group_id (stream s i)) 0);
    destruct (Z.ltb_spec (TransformerStreamEntry.group_id (stream s i)) 8); simpl;
    try (destruct (E2 (TransformerStreamEntry.group_id (stream s i)) ltac:(lia)) as [E3 E4];
         rewrite E3);
    destruct (TransformerStreamEntry.stream_class (stream s i));
    destruct (TransformerStreamEntry.active (stream s i));
    repeat goal_if; lia.
Qed.

(** The scan of [select_victim_stream] over the entries [k .. k+m-1], all
    valid: it keeps the victim it came with, or returns the first entry of
    lowest priority. *)
Lemma select_victim_loop_min s m :
  forall (k : nat) victim lowest,
    (forall i, Z.of_nat k <= i < Z.of_nat (k + m) ->
       TransformerStreamEntry.valid (stream s i) = true) ->
    let v := select_victim_loop s (map Z.of_nat (seq k m)) victim lowest in
    (v = victim /\
     forall i, Z.of_nat k <= i < Z.of_nat (k + m) -> lowest <= compute_eviction_priority s i) \/
    (Z.of_nat k <= v < Z.of_nat (k + m) /\
     compute_eviction_priority s v < lowest /\
     (forall i, Z.of_nat k <= i < v ->
        compute_eviction_priority s v < compute_eviction_priority s i) /\
     (forall i, v <= i < Z.of_nat (k + m) ->
        compute_eviction_priority s v <= compute_eviction_priority s i)).
Proof.
  induction m as [|m IH]; intros k victim lowest Hvalid; simpl.
  - left. split; [reflexivity|]. intros i Hi. lia.
  - rewrite (Hvalid (Z.of_nat k)) by lia. simpl.
    assert (Hvalid' : forall i, Z.of_nat (S k) <= i < Z.of_nat (S k + m) ->
              TransformerStreamEntry.valid (stream s i) = true)
      by (intros i Hi; apply Hvalid; lia).
    destruct (Z.ltb_spec (compute_eviction_priority s (Z.of_nat k)) lowest) as [Hlt|Hge].
    + destruct (IH (S k) (Z.of_nat k) (compute_eviction_priority s (Z.of_nat k)) Hvalid')
        as [[E Hall]|(R1 & R2 & R3 & R4)]; cbv zeta in *; right.
      * rewrite E. split; [lia|]. split; [exact Hlt|]. split; [intros i Hi; lia|].
        intros i Hi. destruct (Z.eq_dec i (Z.of_nat k)) as [->|Hne]; [lia|].
        apply Hall. lia.
      * split; [lia|]. split; [lia|]. split.
        -- intros i Hi. destruct (Z.eq_dec i (Z.of_nat k)) as [->|Hne]; [lia|].
           apply R3. lia.
        -- intros i Hi. apply R4. lia.
    + destruct (IH (S k) victim lowest Hvalid')
        as [[E Hall]|(R1 & R2 & R3 & R4)]; cbv zeta in *.
      * left. split; [exact E|].
        intros i Hi. destruct (Z.eq_dec i (Z.of_nat k)) as [->|Hne]; [lia|].
        apply Hall. lia.
      * right. split; [lia|]. split; [lia|]. split.
        -- intros i Hi. destruct (Z.eq_dec i (Z.of_nat k)) as [->|Hne]; [lia|].
           apply R3. lia.
        -- intros i Hi. apply R4. lia.
Qed.


(** Terminating a stream frees its entry. *)
Lemma terminate_stream_frees s i :
  invariant s -> 0 <= i < STREAM_TABLE_SIZE ->
  TransformerStreamEntry.valid (stream (terminate_stream s i) i) = false.
Proof.
  intros Hinv Hi. destruct (invariant_sizes s Hinv) as [Hss Hgs].
  unfold terminate_stream. rewrite Hss.
  destruct ((i <? 0) || (i >=? STREAM_TABLE_SIZE)) eqn:Hri; [lia|].
  destruct (TransformerStreamEntry.valid (stream s i)) eqn:Hv; simpl; [|exact Hv].
  set (s1 := record_pattern s (stream s i)).
  assert (Hinv1 : invariant s1) by exact Hinv.
  destruct (remove_stream_from_group_ok s1 i Hinv1) as (Hinv2 & _).
  pose proof (invariant_update_phase_state _ true Hinv2) as Hinv3.
  rewrite stream_update_stream_eq; [reflexivity|].
  destruct (invariant_sizes _ Hinv3) as [E _]. rewrite E. exact Hi.
Qed.


(** *** Termination and the pattern history *)

Lemma find_index_exists {A : Type} (p : A -> bool) (l : list A) d k :
  0 <= k < Z.of_nat (length l) -> p (array_get d l k) = true -> 0 <= find_index p l.
Proof.
  intros Hk Hp. destruct (Z_lt_le_dec (find_index p l) 0) as [Hn|Hn]; [exfalso|exact Hn].
  assert (HF : Forall (fun x => p x = false) l) by (apply find_index_not_found; lia).
  pose proof (Forall_array_get _ d l k HF Hk) as E. simpl in E. congruence.
Qed.

Lemma stream_remove_stream_from_group_other s i k :
  k <> i -> stream (remove_stream_from_group s i) k = stream s k.
Proof.
  intros Hne. unfold remove_stream_from_group.
  repeat goal_if; unfold stream, update_stream, update_group; simpl;
    rewrite ?array_get_set_ne by congruence; reflexivity.
Qed.

Lemma patterns_remove_stream_from_group s i :
  pattern_history (remove_stream_from_group s i) = pattern_history s /\
  pattern_history_head (remove_stream_from_group s i) = pattern_history_head s.
Proof. unfold remove_stream_from_group. repeat goal_if; simpl; auto. Qed.

Lemma patterns_update_phase_state s b :
  pattern_history (update_phase_state s b) = pattern_history s /\
  pattern_history_head (update_phase_state s b) = pattern_history_head s.
Proof.
  unfold update_phase_state, try_phase_recovery, update_phase.
  repeat goal_if; simpl; auto.
Qed.

(** The effect of [terminate_stream] on a valid stream. *)
Lemma terminate_stream_effect s i :
  reachable s ->
  0 <= i < STREAM_TABLE_SIZE ->
  TransformerStreamEntry.valid (stream s i) = true ->
  let e := stream s i in
  let s' := terminate_stream s i in
  pattern s' (pattern_history_head s) =
    {| PatternHistoryEntry.valid := true;
       PatternHistoryEntry.direction := TransformerStreamEntry.direction e;
       PatternHistoryEntry.stride := TransformerStreamEntry.stride e;
       PatternHistoryEntry.region_base := TransformerStreamEntry.stream_start_block e;
       PatternHistoryEntry.termination_timestamp := current_timestamp s;
       PatternHistoryEntry.stream_length := TransformerStreamEntry.stream_length e;
       PatternHistoryEntry.stream_class := TransformerStreamEntry.stream_class e |} /\
  pattern_history_head s' = (pattern_history_head s + 1) mod PATTERN_HISTORY_SIZE /\
  TransformerStreamEntry.valid (stream s' i) = false /\
  TransformerStreamEntry.active (stream s' i) = false /\
  TransformerStreamEntry.group_id (stream s' i) = -1 /\
  (forall k, k <> i -> stream s' k = stream s k) /\
  current_timestamp s' = current_timestamp s.
Proof.
  intros Hr Hi Hv. cbv zeta.
  destruct (reachable_facts _ _ _ _ _ s Hr) as (Hinv & Hcon & Hss & _).
  destruct Hcon as ((_ & _ & _ & _ & HPL & HH & _) & _).
  pose proof (terminate_stream_frees s i Hinv Hi) as Hfree.
  pose proof (proj2 (terminate_stream_ok s i Hinv) Hi) as Hgid.
  unfold terminate_stream in *. rewrite Hss in *.
  destruct ((i <? 0) || (i >=? STREAM_TABLE_SIZE)) eqn:Hri; [lia|].
  rewrite Hv in *. simpl negb in *. cbv iota in *.
  set (s1 := record_pattern s (stream s i)) in *.
  set (s2 := remove_stream_from_group s1 i) in *.
  set (s3 := update_phase_state s2 true) in *.
  assert (Hinv1 : invariant s1) by exact Hinv.
  destruct (remove_stream_from_group_ok s1 i Hinv1) as (Hinv2 & _).
  pose proof (invariant_update_phase_state s2 true Hinv2) as Hinv3. fold s3 in Hinv3.
  destruct (invariant_sizes s3 Hinv3) as [Hss3 _].
  destruct (patterns_remove_stream_from_group s1 i) as [P1 P2].
  destruct (patterns_update_phase_state s2 true) as [P3 P4].
  fold s2 in P1, P2. fold s3 in P3, P4.
  split; [|split; [|split; [exact Hfree|split; [|split; [exact Hgid|split]]]]].
  - unfold pattern, update_stream. simpl. rewrite P3, P1. subst s1. simpl.
    apply array_get_set_eq. rewrite HPL. exact HH.
  - unfold update_stream. simpl. rewrite P4, P2. subst s1. simpl.
    unfold PATTERN_HISTORY_SIZE in *. rewrite u32_small by lia. reflexivity.
  - rewrite stream_update_stream_eq by (rewrite Hss3; exact Hi). reflexivity.
  - intros k Hk. rewrite stream_update_stream_ne by congruence.
    unfold stream at 1. subst s3. rewrite (proj1 (tables_update_phase_state s2 true)).
    fold (stream s2 k). subst s2. rewrite stream_remove_stream_from_group_other by exact Hk.
    reflexivity.
  - assert (F : same_training_and_clock s s3).
    { eapply same_training_and_clock_trans;
        [|apply streams_ok_update_phase_state].
      - eapply same_training_and_clock_trans;
          [|apply (streams_ok_remove_stream_from_group s1 i)].
        + subst s1. repeat split.
        + apply streams_ok_record_pattern;
            [exact (proj1 (reachable_consistent _ _ _ _ _ s Hr))| |exact Hv].
          apply stream_entry_ok_at;
            [exact (proj1 (reachable_consistent _ _ _ _ _ s Hr))|lia].
      - apply streams_ok_remove_stream_from_group.
        apply streams_ok_record_pattern;
          [exact (proj1 (reachable_consistent _ _ _ _ _ s Hr))| |exact Hv].
        apply stream_entry_ok_at;
          [exact (proj1 (reachable_consistent _ _ _ _ _ s Hr))|lia]. }
    destruct F as (_ & F2 & _). exact F2.
Qed.



End Allocation.

(** ** The prefetcher and its host *)

Section FullMshr.
Import transformer_stream Consistency.

Context (World : Type)
        (get_mshr_occupancy_ratio : World -> float)
        (prefetch_line : World -> Z -> bool -> Z -> World * bool)
        (LOG2_BLOCK_SIZE : Z)
        (access_type : Type).

#[local] Abbreviation generate_prefetches_loop :=
  (generate_prefetches_loop World get_mshr_occupancy_ratio prefetch_line LOG2_BLOCK_SIZE).
#[local] Abbreviation generate_prefetches :=
  (generate_prefetches World get_mshr_occupancy_ratio prefetch_line LOG2_BLOCK_SIZE).
#[local] Abbreviation create_stream :=
  (create_stream World get_mshr_occupancy_ratio prefetch_line LOG2_BLOCK_SIZE).
#[local] Abbreviation reactivate_stream :=
  (reactivate_stream World get_mshr_occupancy_ratio prefetch_line LOG2_BLOCK_SIZE).
#[local] Abbreviation try_relaunch_stream :=
  (try_relaunch_stream World get_mshr_occupancy_ratio prefetch_line LOG2_BLOCK_SIZE).
#[local] Abbreviation cache_operate :=
  (prefetcher_cache_operate World get_mshr_occupancy_ratio prefetch_line
     LOG2_BLOCK_SIZE access_type).
#[local] Abbreviation cycle_operate :=
  (prefetcher_cycle_operate World get_mshr_occupancy_ratio prefetch_line LOG2_BLOCK_SIZE).

Implicit Types (s : t) (w : World).

Ltac goal_if :=
  match goal with
  | |- context [if ?c then _ else _] => destruct c eqn:?
  end.

Variable w : World.
Hypothesis Hfull : PrimFloat.ltb 0.75 (get_mshr_occupancy_ratio w) = true.

Lemma generate_prefetches_loop_full_mshr n i dir_val idx s :
  (generate_prefetches_loop n i dir_val idx s w).1.2 = w.
Proof. destruct n; simpl; [reflexivity|]. rewrite Hfull. repeat goal_if; reflexivity. Qed.

Lemma generate_prefetches_full_mshr s idx : (generate_prefetches s w idx).2 = w.
Proof.
  unfold transformer_stream.generate_prefetches. goal_if; [reflexivity|].
  match goal with
  | |- context [generate_prefetches_loop ?n ?i ?d idx s w] =>
      pose proof (generate_prefetches_loop_full_mshr n i d idx s) as H;
      destruct (generate_prefetches_loop n i d idx s w) as [[s1 w1] after_loop]
  end.
  simpl in H. subst w1. destruct after_loop; reflexivity.
Qed.

Lemma create_stream_full_mshr s trained_entry : (create_stream s w trained_entry).2 = w.
Proof.
  unfold transformer_stream.create_stream.
  destruct (allocate_stream_entry s) as [s1 idx]. goal_if; [reflexivity|].
  destruct (find_or_create_stream_group _ _ _) as [s3 j].
  apply generate_prefetches_full_mshr.
Qed.

Lemma try_relaunch_stream_full_mshr s miss_block dir stride :
  (try_relaunch_stream s w miss_block dir stride).1.2 = w.
Proof.
  unfold transformer_stream.try_relaunch_stream. goal_if; [|reflexivity].
  match goal with
  | |- context [reactivate_stream s w ?i ?b] =>
      assert (H : (reactivate_stream s w i b).2 = w)
        by (unfold transformer_stream.reactivate_stream; apply generate_prefetches_full_mshr);
      destruct (reactivate_stream s w i b) as [s1 w1]
  end.
  exact H.
Qed.

Lemma cache_operate_full_mshr s addr ip cache_hit useful_prefetch (type : access_type)
    metadata_in :
  (cache_operate s w addr ip cache_hit useful_prefetch type metadata_in).1.2 = w.
Proof.
  unfold prefetcher_cache_operate. goal_if; [reflexivity|]. cbv zeta.
  goal_if.
  - match goal with
    | |- context [generate_prefetches ?s0 w ?i] =>
        pose proof (generate_prefetches_full_mshr s0 i) as H;
        destruct (generate_prefetches s0 w i) as [s5 w5]
    end.
    exact H.
  - match goal with
    | |- context [if ?c then allocate_training_entry ?s4 ?r else (?s4, ?i)] =>
        destruct (if c then allocate_training_entry s4 r else (s4, i)) as [s5 train_idx]
    end.
    goal_if; [|reflexivity].
    match goal with
    | |- context [try_relaunch_stream ?s6 w ?b ?d ?st] =>
        pose proof (try_relaunch_stream_full_mshr s6 b d st) as H;
        destruct (try_relaunch_stream s6 w b d st) as [[s7 w7] relaunched]
    end.
    simpl in H. subst w7. destruct relaunched; simpl; [reflexivity|].
    match goal with
    | |- context [create_stream s7 w ?e] =>
        pose proof (create_stream_full_mshr s7 e) as H;
        destruct (create_stream s7 w e) as [s8 w8]
    end.
    exact H.
Qed.

Lemma cycle_operate_full_mshr s : (cycle_operate s w).2 = w.
Proof.
  unfold prefetcher_cycle_operate.
  generalize (indices (stream_table s)). intros idxs. revert s.
  induction idxs as [|i idxs IH]; intros s; simpl; [reflexivity|].
  goal_if; [|apply IH].
  pose proof (generate_prefetches_full_mshr s i) as H.
  destruct (generate_prefetches s w i) as [s1 w1]. simpl in H. subst w1. apply IH.
Qed.

End FullMshr.

Section FullMshrTheorem.
Import transformer_stream.

Context (World : Type)
        (get_mshr_occupancy_ratio : World -> float)
        (prefetch_line : World -> Z -> bool -> Z -> World * bool)
        (LOG2_BLOCK_SIZE : Z)
        (access_type : Type).

(** While the MSHR of the host is more than 75% full the prefetcher
    issues no prefetch: [generate_prefetches], a whole demand access
    ([prefetcher_cache_operate]) and the background pass
    ([prefetcher_cycle_operate]) all hand the host back as they found it,
    in whatever state the prefetcher is. *)
Theorem full_mshr_blocks_prefetching (w : World) :
  PrimFloat.ltb 0.75 (get_mshr_occupancy_ratio w) = true ->
  (forall s idx,
     (generate_prefetches World get_mshr_occupancy_ratio prefetch_line LOG2_BLOCK_SIZE
        s w idx).2 = w) /\
  (forall s addr ip cache_hit useful_prefetch (type : access_type) metadata_in,
     (prefetcher_cache_operate World get_mshr_occupancy_ratio prefetch_line LOG2_BLOCK_SIZE
        access_type s w addr ip cache_hit useful_prefetch type metadata_in).1.2 = w) /\
  (forall s,
     (prefetcher_cycle_operate World get_mshr_occupancy_ratio prefetch_line LOG2_BLOCK_SIZE
        s w).2 = w).
Proof.
  intros Hfull. split; [|split].
  - intros s idx. apply generate_prefetches_full_mshr. exact Hfull.
  - intros. apply cache_operate_full_mshr. exact Hfull.
  - intros s. apply cycle_operate_full_mshr. exact Hfull.
Qed.

End FullMshrTheorem.

(** *** Requests, on a recording host *)

Section Recording.
Import transformer_stream Consistency RecordingHost.

Context (World : Type)
        (get_mshr_occupancy_ratio : World -> float)
        (prefetch_line : World -> Z -> bool -> Z -> World * bool)
        (LOG2_BLOCK_SIZE : Z)
        (access_type : Type).

#[local] Abbreviation RW := (RWorld World).
#[local] Abbreviation rmshr := (recording_mshr_occupancy_ratio World get_mshr_occupancy_ratio).
#[local] Abbreviation rpl := (recording_prefetch_line World prefetch_line).
#[local] Abbreviation generate_prefetches_loop :=
  (generate_prefetches_loop RW rmshr rpl LOG2_BLOCK_SIZE).
#[local] Abbreviation generate_prefetches :=
  (generate_prefetches RW rmshr rpl LOG2_BLOCK_SIZE).
#[local] Abbreviation cache_operate :=
  (prefetcher_cache_operate RW rmshr rpl LOG2_BLOCK_SIZE access_type).
#[local] Abbreviation cycle_operate :=
  (prefetcher_cycle_operate RW rmshr rpl LOG2_BLOCK_SIZE).
#[local] Abbreviation reachable :=
  (reachable RW rmshr rpl LOG2_BLOCK_SIZE access_type).

Implicit Types (s : t) (w : RW) (log : list request).

Ltac goal_if :=
  match goal with
  | |- context [if ?c then _ else _] => destruct c eqn:?
  end.

Lemma appended_nothing k P log : 0 <= k -> appended k P log log.
Proof. intros Hk. exists []. split; [reflexivity|]. split; [simpl; lia|constructor]. Qed.

Lemma appended_weaken k k' (P P' : request -> Prop) log log' :
  appended k P log log' -> k <= k' -> (forall q, P q -> P' q) -> appended k' P' log log'.
Proof.
  intros (new & E & Hl & HF) Hk HP. exists new. split; [exact E|]. split; [lia|].
  eapply Forall_impl; [exact HF|exact HP].
Qed.

Lemma appended_then k1 k2 P log1 log2 log3 :
  appended k1 P log1 log2 -> appended k2 P log2 log3 -> appended (k1 + k2) P log1 log3.
Proof.
  intros (n1 & E1 & L1 & F1) (n2 & E2 & L2 & F2). exists (n2 ++ n1).
  split; [rewrite E2, E1, app_assoc; reflexivity|].
  split; [rewrite length_app; lia|]. apply Forall_app. split; assumption.
Qed.

(** [update_stream_classification] changes the class of a stream and
    nothing else of it. *)
Lemma stream_after_update_stream_classification s i k :
  let e := stream s k in
  let e' := stream (update_stream_classification s i) k in
  TransformerStreamEntry.direction e' = TransformerStreamEntry.direction e /\
  TransformerStreamEntry.stride e' = TransformerStreamEntry.stride e /\
  TransformerStreamEntry.current_prefetch_block e' =
    TransformerStreamEntry.current_prefetch_block e /\
  TransformerStreamEntry.stream_end_block e' = TransformerStreamEntry.stream_end_block e.
Proof.
  cbv zeta. unfold update_stream_classification.
  destruct ((i <? 0) || (i >=? stream_table_size s)) eqn:Hr; [auto|].
  goal_if; [auto|].
  assert (E : forall s0, stream_table s0 =
                array_set (stream_table s) i
                  (TransformerStreamEntry.set_stream_class (classify_stream (stream s i))
                     (stream s i)) ->
              TransformerStreamEntry.direction (stream s0 k) =
                TransformerStreamEntry.direction (stream s k) /\
              TransformerStreamEntry.stride (stream s0 k) =
                TransformerStreamEntry.stride (stream s k) /\
              TransformerStreamEntry.current_prefetch_block (stream s0 k) =
                TransformerStreamEntry.current_prefetch_block (stream s k) /\
              TransformerStreamEntry.stream_end_block (stream s0 k) =
                TransformerStreamEntry.stream_end_block (stream s k)).
  { intros s0 E0. unfold stream at 1 3 5 7. rewrite E0.
    destruct (Z.eq_dec i k) as [->|Hne].
    - rewrite array_get_set_eq by (unfold stream_table_size in Hr; lia).
      fold (stream s k). auto.
    - rewrite array_get_set_ne by exact Hne. fold (stream s k). auto. }
  cbv zeta. goal_if; apply E; reflexivity.
Qed.

(** The requests of the loop of [generate_prefetches]: at most one per
    iteration, each for a block ahead of the frontier and inside the
    stream. *)
Lemma generate_prefetches_loop_requests n :
  forall i dir_val idx s w,
    0 <= idx < stream_table_size s ->
    match TransformerStreamEntry.direction (stream s idx) with
    | StreamDirection.POSITIVE => 0 < dir_val * TransformerStreamEntry.stride (stream s idx)
    | _ => dir_val * TransformerStreamEntry.stride (stream s idx) < 0
    end ->
    appended (Z.of_nat n)
      (block_request LOG2_BLOCK_SIZE (ahead_of_frontier (stream s idx)))
      w.2 (generate_prefetches_loop n i dir_val idx s w).1.2.2.
Proof.
  induction n as [|n IH]; intros i dir_val idx s w Hidx Hdir; simpl;
    [apply appended_nothing; lia|].
  set (e := stream s idx) in *.
  set (next := block_add (TransformerStreamEntry.current_prefetch_block e)
                 (dir_val * TransformerStreamEntry.stride e)).
  destruct (match TransformerStreamEntry.direction e with
            | StreamDirection.POSITIVE => next >? TransformerStreamEntry.stream_end_block e
            | _ => next <? TransformerStreamEntry.stream_end_block e
            end) eqn:Hbound; [apply appended_nothing; lia|].
  goal_if; [apply appended_nothing; lia|].
  goal_if; [apply appended_nothing; lia|].
  assert (Hnext : ahead_of_frontier e next).
  { unfold ahead_of_frontier. subst next. unfold block_add in *.
    destruct (TransformerStreamEntry.direction e); lia. }
  unfold recording_prefetch_line at 1.
  destruct (prefetch_line w.1 (Z.shiftl next LOG2_BLOCK_SIZE) _ 0) as [w' ok].
  set (q := mk_request (Z.shiftl next LOG2_BLOCK_SIZE) _ 0 ok).
  assert (Hq : block_request LOG2_BLOCK_SIZE (ahead_of_frontier e) q).
  { split; [reflexivity|]. exists next. split; [reflexivity|exact Hnext]. }
  destruct ok.
  2:{ simpl. exists [q]. split; [reflexivity|]. split; [simpl; lia|].
      constructor; [exact Hq|constructor]. }
  match goal with |- context [generate_prefetches_loop n _ _ _ ?x _] => set (s2 := x) end.
  assert (H2 : stream_table_size s2 = stream_table_size s /\
               TransformerStreamEntry.direction (stream s2 idx) =
                 TransformerStreamEntry.direction e /\
               TransformerStreamEntry.stride (stream s2 idx) =
                 TransformerStreamEntry.stride e /\
               TransformerStreamEntry.current_prefetch_block (stream s2 idx) = next /\
               TransformerStreamEntry.stream_end_block (stream s2 idx) =
                 TransformerStreamEntry.stream_end_block e).
  { subst s2.
    match goal with |- context [update_stream idx ?f s] => set (f1 := f) end.
    assert (E1 : stream (update_stream idx f1 s) idx = f1 e)
      by (apply stream_update_stream_eq; exact Hidx).
    assert (S1 : stream_table_size (update_stream idx f1 s) = stream_table_size s)
      by (unfold stream_table_size, update_stream; simpl; rewrite length_array_set; reflexivity).
    goal_if.
    - destruct (stream_after_update_stream_classification (update_stream idx f1 s) idx idx)
        as (A1 & A2 & A3 & A4). cbv zeta in A1, A2, A3, A4.
      rewrite A1, A2, A3, A4, E1. split; [|subst f1; simpl; auto].
      unfold stream_table_size in *. unfold update_stream_classification.
      repeat goal_if; simpl; rewrite ?length_array_set; try reflexivity; exact S1.
    - rewrite E1. split; [exact S1|]. subst f1. simpl. auto. }
  destruct H2 as (S2 & D2 & St2 & C2 & E2).
  destruct (IH (i + 1) dir_val idx s2 (w', q :: w.2)) as (new & En & Ln & Fn).
  { rewrite S2. exact Hidx. }
  { rewrite D2, St2. exact Hdir. }
  simpl in En. exists (new ++ [q]).
  split; [rewrite En, <- app_assoc; reflexivity|].
  split; [rewrite length_app; simpl; lia|].
  apply Forall_app. split; [|constructor; [exact Hq|constructor]].
  eapply Forall_impl; [exact Fn|].
  intros q0 (M & b & Eb & Hb). split; [exact M|]. exists b. split; [exact Eb|].
  unfold ahead_of_frontier in *. rewrite D2, C2, E2 in Hb.
  unfold ahead_of_frontier in Hnext.
  destruct (TransformerStreamEntry.direction e); lia.
Qed.

Lemma valid_stream_in_range s idx :
  TransformerStreamEntry.valid (stream s idx) = true -> 0 <= idx < stream_table_size s.
Proof.
  intros Hv.
  destruct (Z_lt_le_dec idx 0) as [Hn|Hp];
    [rewrite stream_out_of_range in Hv by lia; discriminate|].
  destruct (Z_lt_le_dec idx (stream_table_size s)) as [Hl|Hg]; [lia|].
  rewrite stream_out_of_range in Hv by lia. discriminate.
Qed.

(** The requests of one call of [generate_prefetches] in a consistent
    state. *)
Lemma generate_prefetches_requests s w idx :
  streams_ok s ->
  appended (get_current_prefetch_degree s)
    (block_request LOG2_BLOCK_SIZE (ahead_of_frontier (stream s idx)))
    w.2 (generate_prefetches s w idx).2.2 /\
  1 <= get_current_prefetch_degree s <= BASE_PREFETCH_DEGREE.
Proof.
  intros Hok.
  assert (Hdeg : 1 <= get_current_prefetch_degree s <= BASE_PREFETCH_DEGREE).
  { destruct Hok as (_ & _ & _ & _ & _ & _ & _ & Hd & _).
    unfold get_current_prefetch_degree. rewrite Hd.
    unfold MIN_PREFETCH_DEGREE, BASE_PREFETCH_DEGREE. goal_if; lia. }
  split; [|exact Hdeg].
  unfold transformer_stream.generate_prefetches.
  destruct (TransformerStreamEntry.valid (stream s idx)) eqn:Hv;
    [|simpl; apply appended_nothing; lia].
  destruct (TransformerStreamEntry.active (stream s idx)) eqn:Ha;
    [|simpl; apply appended_nothing; lia].
  simpl negb. cbv iota. simpl orb. cbv iota.
  pose proof (valid_stream_in_range s idx Hv) as Hidx.
  destruct (stream_entry_ok_at s idx Hok Hidx) as (_ & _ & C3).
  destruct (C3 Hv) as (D1 & _ & D3).
  match goal with
  | |- context [generate_prefetches_loop ?n ?i ?d idx s w] =>
      pose proof (generate_prefetches_loop_requests n i d idx s w Hidx) as Hloop;
      assert (Hn : Z.of_nat n <= get_current_prefetch_degree s);
      [|destruct (generate_prefetches_loop n i d idx s w) as [[s1 w1] after_loop]]
  end.
  { goal_if; lia. }
  simpl in Hloop.
  assert (Happ : appended (get_current_prefetch_degree s)
                   (block_request LOG2_BLOCK_SIZE (ahead_of_frontier (stream s idx)))
                   w.2 w1.2).
  { eapply appended_weaken; [apply Hloop| exact Hn |auto].
    rewrite D1. destruct (TransformerStreamEntry.direction (stream s idx));
      simpl; [contradiction|lia|lia]. }
  destruct after_loop; exact Happ.
Qed.


(** In every reachable state a demand access makes at most
    [BASE_PREFETCH_DEGREE] = 2 prefetch requests, each for a whole block
    with metadata 0, and a cache hit makes none. *)
Theorem demand_access_requests_at_most_two s w addr ip cache_hit useful_prefetch
    (type : access_type) metadata_in :
  reachable s ->
  let r := cache_operate s w addr ip cache_hit useful_prefetch type metadata_in in
  appended BASE_PREFETCH_DEGREE (block_request LOG2_BLOCK_SIZE (fun _ => True))
    w.2 r.1.2.2 /\
  (cache_hit <> 0 -> r.1.2 = w).
Proof.
  intros Hr. cbv zeta. pose proof (reachable_consistent _ _ _ _ _ s Hr) as Hcon.
  split.
  - apply (cache_operate_keeps RW rmshr rpl LOG2_BLOCK_SIZE access_type
             (fun w0 w1 : RW =>
                appended BASE_PREFETCH_DEGREE
                  (block_request LOG2_BLOCK_SIZE (fun _ => True)) w0.2 w1.2)).
    + intros w0. apply appended_nothing. unfold BASE_PREFETCH_DEGREE. lia.
    + intros s0 w0 idx0 Hok0.
      destruct (generate_prefetches_requests s0 w0 idx0 Hok0) as [H1 H2].
      eapply appended_weaken; [exact H1|lia|].
      intros q (M & b & Eb & _). split; [exact M|]. exists b. auto.
    + exact Hcon.
  - intros Hhit. unfold prefetcher_cache_operate.
    destruct (Z.eqb_spec cache_hit 0); [contradiction|reflexivity].
Qed.

Lemma cycle_operate_fold_requests idxs :
  forall s w,
    streams_ok s ->
    appended (BASE_PREFETCH_DEGREE * Z.of_nat (length idxs))
      (block_request LOG2_BLOCK_SIZE (fun _ => True)) w.2
      (fold_left
         (fun '(s, w) i =>
            if TransformerStreamEntry.valid (stream s i) &&
               TransformerStreamEntry.active (stream s i)
            then generate_prefetches s w i
            else (s, w))
         idxs (s, w)).2.2.
Proof.
  induction idxs as [|i idxs IH]; intros s w Hok; simpl fold_left.
  - apply appended_nothing. simpl. lia.
  - match goal with
    | |- context [fold_left ?f idxs ?a] =>
        assert (Ha : streams_ok a.1 /\
                     appended BASE_PREFETCH_DEGREE
                       (block_request LOG2_BLOCK_SIZE (fun _ => True)) w.2 a.2.2)
    end.
    { goal_if.
      - split; [apply streams_ok_generate_prefetches, Hok|].
        destruct (generate_prefetches_requests s w i Hok) as [H1 H2].
        eapply appended_weaken; [exact H1|lia|].
        intros q (M & b & Eb & _). split; [exact M|]. exists b. auto.
      - split; [exact Hok|]. apply appended_nothing. unfold BASE_PREFETCH_DEGREE. lia. }
    match goal with
    | |- context [fold_left ?f idxs ?a] => destruct a as [s1 w1]
    end.
    simpl in Ha. destruct Ha as [A1 A2].
    pose proof (appended_then _ _ _ _ _ _ A2 (IH s1 w1 A1)) as H.
    replace (BASE_PREFETCH_DEGREE * Z.of_nat (length (i :: idxs)))
      with (BASE_PREFETCH_DEGREE + BASE_PREFETCH_DEGREE * Z.of_nat (length idxs))
      by (simpl length; lia).
    exact H.
Qed.

(** In every reachable state the background pass of
    [prefetcher_cycle_operate] makes at most [BASE_PREFETCH_DEGREE]
    requests per stream entry, 64 in all, each for a whole block with
    metadata 0. *)
Theorem background_pass_requests_are_bounded s w :
  reachable s ->
  appended (BASE_PREFETCH_DEGREE * STREAM_TABLE_SIZE)
    (block_request LOG2_BLOCK_SIZE (fun _ => True)) w.2 (cycle_operate s w).2.2.
Proof.
  intros Hr.
  destruct (reachable_facts _ _ _ _ _ s Hr) as (_ & (Hok & _) & Hss & _).
  unfold prefetcher_cycle_operate.
  pose proof (cycle_operate_fold_requests (indices (stream_table s)) s w Hok) as H.
  unfold indices in H at 1. rewrite length_map, length_seq in H.
  unfold stream_table_size in Hss. rewrite Hss in H. exact H.
Qed.

End Recording.

(** ** Training needs three misses *)

Section EarlyMisses.
Import transformer_stream Consistency.

Context (World : Type)
        (get_mshr_occupancy_ratio : World -> float)
        (prefetch_line : World -> Z -> bool -> Z -> World * bool)
        (LOG2_BLOCK_SIZE : Z)
        (access_type : Type).

#[local] Abbreviation cache_operate :=
  (prefetcher_cache_operate World get_mshr_occupancy_ratio prefetch_line
     LOG2_BLOCK_SIZE access_type).
#[local] Abbreviation reachable :=
  (reachable World get_mshr_occupancy_ratio prefetch_line LOG2_BLOCK_SIZE access_type).

Implicit Types (s : t) (w : World).

Ltac goal_if :=
  match goal with
  | |- context [if ?c then _ else _] => destruct c eqn:?
  end.

Lemma Forall_of_array_get {A : Type} (Q : A -> Prop) d (l : list A) :
  (forall k, 0 <= k < Z.of_nat (length l) -> Q (array_get d l k)) -> Forall Q l.
Proof.
  intros H. apply Forall_lookup. intros i x Hx.
  pose proof (lookup_lt_Some _ _ _ Hx) as Hi.
  specialize (H (Z.of_nat i) ltac:(lia)). unfold array_get in H.
  destruct (Z.ltb_spec (Z.of_nat i) 0); [lia|].
  rewrite Nat2Z.id, Hx in H. exact H.
Qed.

Lemma stream_terminate_stream_other s i k :
  k <> i -> stream (terminate_stream s i) k = stream s k.
Proof.
  intros Hne. unfold terminate_stream.
  goal_if; [reflexivity|]. goal_if; [reflexivity|].
  rewrite stream_update_stream_ne by congruence.
  unfold stream at 1. rewrite (proj1 (tables_update_phase_state _ true)).
  match goal with |- context [remove_stream_from_group ?x i] =>
    fold (stream (remove_stream_from_group x i) k) end.
  rewrite stream_remove_stream_from_group_other by exact Hne. reflexivity.
Qed.

(** The cleanup only frees entries: every stream entry is afterwards as
    before, or invalid. *)
Lemma remove_dead_streams_from_only_frees idxs :
  forall s,
    invariant s ->
    let s' :=
      fold_left
        (fun s i =>
           let entry := stream s i in
           if negb (TransformerStreamEntry.valid entry) then s
           else
             let age :=
               u64 (current_timestamp s - TransformerStreamEntry.last_trigger_timestamp entry) in
             let is_dead :=
               (age >? DEAD_STREAM_THRESHOLD) &&
               (TransformerStreamEntry.stream_length entry <? SHORT_STREAM_THRESHOLD) in
             let is_dead :=
               if is_dead && is_group_protected s i then
                 if TransformerStreamEntry.confidence_score entry >=? FAST_TRACK_CONFIDENCE
                 then false else is_dead
               else is_dead in
             if is_dead then terminate_stream s i else s)
        idxs s in
    forall k, stream s' k = stream s k \/ TransformerStreamEntry.valid (stream s' k) = false.
Proof.
  induction idxs as [|i idxs IH]; intros s Hinv; simpl; [left; reflexivity|].
  match goal with |- context [fold_left _ idxs ?x] => set (s1 := x) end.
  assert (H1 : invariant s1 /\
               forall k, stream s1 k = stream s k \/
                         TransformerStreamEntry.valid (stream s1 k) = false).
  { assert (Ht : invariant (terminate_stream s i) /\
                 forall k, stream (terminate_stream s i) k = stream s k \/
                           TransformerStreamEntry.valid (stream (terminate_stream s i) k)
                           = false).
    { split; [apply terminate_stream_ok, Hinv|]. intros k.
      destruct (Z.eq_dec k i) as [->|Hne];
        [|left; apply stream_terminate_stream_other; exact Hne].
      destruct (Z_lt_le_dec i 0) as [Hn|Hp];
        [left; unfold terminate_stream;
         destruct ((i <? 0) || (i >=? stream_table_size s)) eqn:E; [reflexivity|lia]|].
      destruct (Z_lt_le_dec i STREAM_TABLE_SIZE) as [Hl|Hg];
        [right; apply terminate_stream_frees; [exact Hinv|lia]|].
      left. unfold terminate_stream. destruct (invariant_sizes s Hinv) as [E _].
      rewrite E. destruct ((i <? 0) || (i >=? STREAM_TABLE_SIZE)) eqn:E'; [reflexivity|lia]. }
    subst s1. repeat goal_if; try exact Ht; (split; [exact Hinv|left; reflexivity]). }
  destruct H1 as [Hinv1 Hk1]. intros k.
  destruct (IH s1 Hinv1 k) as [E|E]; [|right; exact E].
  cbv zeta in E. rewrite E. apply Hk1.
Qed.

Lemma find_stream_for_block_after_cleanup s block :
  invariant s ->
  find_stream_for_block s block < 0 ->
  find_stream_for_block (remove_dead_streams s) block < 0.
Proof.
  intros Hinv Hnone. unfold find_stream_for_block in *.
  match goal with |- find_index ?p _ < 0 => set (p0 := p) in * end.
  assert (HF : Forall (fun e => p0 e = false) (stream_table s))
    by (apply find_index_not_found; lia).
  unfold find_index. rewrite find_index_from_all_false; [lia|].
  pose proof (invariant_sizes _ (invariant_remove_dead_streams s Hinv)) as [E' _].
  pose proof (invariant_sizes s Hinv) as [E _].
  unfold stream_table_size in E, E'.
  apply (Forall_of_array_get _ TransformerStreamEntry.default). intros k Hk.
  fold (stream (remove_dead_streams s) k).
  destruct (remove_dead_streams_from_only_frees (indices (stream_table s)) s Hinv k)
    as [Ek|Ek]; cbv zeta in Ek; fold (remove_dead_streams s) in Ek.
  - rewrite Ek. unfold stream. apply (Forall_array_get _ _ _ _ HF). lia.
  - subst p0. simpl. rewrite Ek. reflexivity.
Qed.

(** The first two misses of a training entry only record the miss. *)
Lemma update_training_entry_early s idx miss_block :
  0 <= idx < Z.of_nat (length (training_table s)) ->
  TrainingEntry.miss_count (training s idx) = 0 \/
  TrainingEntry.miss_count (training s idx) = 1 ->
  exists e1,
    update_training_entry s idx miss_block =
      set_training_table (array_set (training_table s) idx e1) s /\
    TrainingEntry.valid e1 = TrainingEntry.valid (training s idx) /\
    TrainingEntry.region_base e1 = TrainingEntry.region_base (training s idx) /\
    TrainingEntry.direction e1 = TrainingEntry.direction (training s idx) /\
    TrainingEntry.stride e1 = TrainingEntry.stride (training s idx) /\
    TrainingEntry.last_miss_block e1 = miss_block /\
    TrainingEntry.miss_count e1 = TrainingEntry.miss_count (training s idx) + 1.
Proof.
  intros Hi Hm. unfold update_training_entry.
  set (e := training s idx) in *.
  match goal with |- context [update_training idx ?f s] => set (f0 := f) end.
  set (s1 := update_training idx f0 s).
  assert (E1 : training s1 idx = f0 e)
    by (subst s1 e; unfold training, update_training; simpl; apply array_get_set_eq; exact Hi).
  cbv zeta. rewrite !E1.
  change (TrainingEntry.miss_count (f0 e)) with (TrainingEntry.miss_count e).
  destruct (Z.eqb_spec (TrainingEntry.miss_count e) 0) as [M0|M0].
  { subst s1. rewrite update_training_twice. eexists. split; [reflexivity|].
    fold e. simpl. rewrite M0. auto 10. }
  destruct (Z.eqb_spec (TrainingEntry.miss_count e) 1) as [M1|M1]; [|lia].
  subst s1. rewrite update_training_twice. eexists. split; [reflexivity|].
  fold e. simpl. rewrite M1. auto 10.
Qed.

(** In every reachable state, a miss on a block that no stream covers and
    whose region has no training entry yet, or one with a single recorded
    miss, only trains: no prefetch is issued (the host is handed back
    unchanged), [metadata_in] is returned, and afterwards the training
    table has a valid entry for the region whose last miss is this block
    and whose miss count is 1, respectively 2.  A stream is launched by
    the third miss at the earliest. *)
Theorem first_two_misses_only_train s w addr ip useful_prefetch (type : access_type)
    metadata_in :
  reachable s ->
  let block := Z.shiftr addr LOG2_BLOCK_SIZE in
  let region := compute_region_base block in
  find_stream_for_block s block < 0 ->
  find_training_entry s region < 0 \/
  TrainingEntry.miss_count (training s (find_training_entry s region)) = 1 ->
  let r := cache_operate s w addr ip 0 useful_prefetch type metadata_in in
  r.1.2 = w /\ r.2 = metadata_in /\
  exists i,
    0 <= i < TRAINING_TABLE_SIZE /\
    TrainingEntry.valid (training r.1.1 i) = true /\
    TrainingEntry.region_base (training r.1.1 i) = region /\
    TrainingEntry.last_miss_block (training r.1.1 i) = block /\
    TrainingEntry.miss_count (training r.1.1 i) =
      (if find_training_entry s region <? 0 then 1 else 2).
Proof.
  intros Hr. cbv zeta. intros Hnone Htrain.
  destruct (reachable_facts _ _ _ _ _ s Hr) as (Hinv & Hcon & _).
  destruct Hcon as (Hok & HT & HL & _).
  unfold prefetcher_cache_operate.
  destruct (negb (0 =? 0)) eqn:E0; [discriminate|]. clear E0.
  set (s1 := set_current_timestamp (u64 (current_timestamp s + 1)) s).
  assert (Hok1 : streams_ok s1) by exact Hok.
  assert (Hinv1 : invariant s1) by exact Hinv.
  destruct (streams_ok_update_phase_state s1 false Hok1) as [Hok2 (F1 & _)].
  pose proof (invariant_update_phase_state s1 false Hinv1) as Hinv2.
  destruct (tables_update_phase_state s1 false) as [T2 _].
  set (s2 := update_phase_state s1 false) in *.
  set (s3 := set_cleanup_counter (u64 (cleanup_counter s2 + 1)) s2).
  assert (Hok3 : streams_ok s3) by exact Hok2.
  assert (Hinv3 : invariant s3) by exact Hinv2.
  assert (Hnone3 : find_stream_for_block s3 (Z.shiftr addr LOG2_BLOCK_SIZE) < 0).
  { unfold find_stream_for_block in *. subst s3. simpl. rewrite T2. exact Hnone. }
  set (s4 := if cleanup_counter s3 >=? CLEANUP_INTERVAL
             then set_cleanup_counter 0 (remove_dead_streams s3) else s3).
  assert (H4 : find_stream_for_block s4 (Z.shiftr addr LOG2_BLOCK_SIZE) < 0 /\
               training_table s4 = training_table s).
  { subst s4. goal_if.
    - split.
      + pose proof (find_stream_for_block_after_cleanup s3 _ Hinv3 Hnone3) as H.
        unfold find_stream_for_block in *. exact H.
      + destruct (streams_ok_remove_dead_streams s3 Hok3) as [_ (G1 & _)].
        simpl. rewrite G1. subst s3. simpl. rewrite F1. reflexivity.
    - split; [exact Hnone3|]. subst s3. simpl. rewrite F1. reflexivity. }
  destruct H4 as [Hnone4 TT4]. clearbody s4.
  clear Hok1 Hinv1 Hok2 Hinv2 Hok3 Hinv3 Hnone3 T2 F1 s1 s2 s3.
  cbv zeta.
  destruct (Z.geb_spec (find_stream_for_block s4 (Z.shiftr addr LOG2_BLOCK_SIZE)) 0)
    as [Hhit|_]; [lia|].
  set (block := Z.shiftr addr LOG2_BLOCK_SIZE) in *.
  set (rb := compute_region_base block) in *.
  assert (Efind : find_training_entry s4 rb = find_training_entry s rb)
    by (unfold find_training_entry; rewrite TT4; reflexivity).
  assert (Hlen : Z.of_nat (length (training_table s4)) = TRAINING_TABLE_SIZE)
    by (rewrite TT4, HL; reflexivity).
  rewrite Efind.
  match goal with
  | |- context [if ?c then allocate_training_entry s4 rb else (s4, ?i)] =>
      assert (Ha : exists e0,
                (if c then allocate_training_entry s4 rb else (s4, i)).1 =
                  set_training_table
                    (array_set (training_table s4)
                       (if c then allocate_training_entry s4 rb else (s4, i)).2 e0) s4 /\
                0 <= (if c then allocate_training_entry s4 rb else (s4, i)).2
                  < TRAINING_TABLE_SIZE /\
                TrainingEntry.valid e0 = true /\
                TrainingEntry.region_base e0 = rb /\
                TrainingEntry.direction e0 = StreamDirection.UNKNOWN /\
                TrainingEntry.miss_count e0 = (if c then 0 else 1));
      [|destruct (if c then allocate_training_entry s4 rb else (s4, i)) as [s5 train_idx];
        destruct c eqn:Hc]
  end.
  { destruct (Z.ltb_spec (find_training_entry s rb) 0) as [Hnew|Hold].
    - destruct (allocate_training_entry_result s4 rb ltac:(rewrite Hlen; reflexivity))
        as (e0 & A1 & A2 & A3 & A4 & A5 & A6 & _). exists e0.
      rewrite Hlen in A2. auto 10.
    - destruct Htrain as [?|Hm]; [lia|].
      unfold find_training_entry in *.
      destruct (find_index_found _ (training_table s) TrainingEntry.default Hold)
        as [Hlt Hp].
      set (i := find_index _ (training_table s)) in *.
      apply andb_true_iff in Hp. destruct Hp as [Hp1 Hp2].
      exists (training s i). simpl. rewrite TT4. unfold training at 1.
      rewrite array_set_same. rewrite <- TT4, set_training_table_same.
      rewrite HL in Hlt.
      split; [reflexivity|]. split; [exact (conj Hold Hlt)|]. split; [exact Hp1|].
      split; [apply Z.eqb_eq; exact Hp2|]. split; [|exact Hm].
      assert (He : training_entry_ok (training s i))
        by (unfold training; apply Forall_array_get; [exact HT|rewrite HL; lia]).
      apply (He Hp1). }
  all: destruct Ha as (e0 & E5 & Hi & Hv0 & Hrb0 & Hd0 & Hm0); simpl in E5, Hi.
  all: assert (T5 : training s5 train_idx = e0)
         by (rewrite E5; unfold training; simpl; apply array_get_set_eq; lia).
  all: destruct (update_training_entry_early s5 train_idx block)
         as (e1 & E6 & B1 & B2 & B3 & B4 & B5 & B6);
         [rewrite E5; simpl; rewrite length_array_set; lia
         |rewrite T5, Hm0; auto|].
  all: rewrite T5 in B1, B2, B3, B6.
  all: set (s6 := update_training_entry s5 train_idx block) in *.
  all: assert (T6 : training s6 train_idx = e1)
         by (rewrite E6; unfold training; simpl; apply array_get_set_eq;
             rewrite E5; simpl; rewrite length_array_set; lia).
  all: rewrite !T6, B3, Hd0; simpl andb; rewrite andb_false_r; cbv iota; simpl.
  all: split; [reflexivity|]; split; [reflexivity|].
  all: exists train_idx; rewrite T6.
  all: split; [exact Hi|]; split; [congruence|]; split; [congruence|];
         split; [exact B5|]; rewrite B6, Hm0; reflexivity.
Qed.

End EarlyMisses.

(** * Recovery from a phase transition *)

Section PhaseRecovery.
Import transformer_stream.

Context (World : Type)
        (get_mshr_occupancy_ratio : World -> float)
        (prefetch_line : World -> Z -> bool -> Z -> World * bool)
        (LOG2_BLOCK_SIZE : Z)
        (access_type : Type).

#[local] Abbreviation cache_operate :=
  (prefetcher_cache_operate World get_mshr_occupancy_ratio prefetch_line
     LOG2_BLOCK_SIZE access_type).
#[local] Abbreviation try_relaunch_stream :=
  (try_relaunch_stream World get_mshr_occupancy_ratio prefetch_line LOG2_BLOCK_SIZE).
#[local] Abbreviation create_stream :=
  (create_stream World get_mshr_occupancy_ratio prefetch_line LOG2_BLOCK_SIZE).
#[local] Abbreviation generate_prefetches :=
  (generate_prefetches World get_mshr_occupancy_ratio prefetch_line LOG2_BLOCK_SIZE).
#[local] Abbreviation reachable :=
  (reachable World get_mshr_occupancy_ratio prefetch_line LOG2_BLOCK_SIZE access_type).

Implicit Types (s : t) (w : World).

Lemma try_relaunch_stream_found s w miss_block dir stride :
  (try_relaunch_stream s w miss_block dir stride).2 =
  (find_matching_inactive_stream s dir stride (compute_region_base miss_block) >=? 0).
Proof.
  unfold transformer_stream.try_relaunch_stream.
  destruct (_ >=? 0); [|reflexivity].
  match goal with |- context [let '(_, _) := ?p in _] => destruct p end. reflexivity.
Qed.

(** A cleanup after which every stream is still valid has terminated
    nothing, and has changed nothing. *)
Lemma cleanup_that_removes_nothing idxs :
  forall s,
    invariant s ->
    let s' :=
      fold_left
        (fun s i =>
           let entry := stream s i in
           if negb (TransformerStreamEntry.valid entry) then s
           else
             let age :=
               u64 (current_timestamp s - TransformerStreamEntry.last_trigger_timestamp entry) in
             let is_dead :=
               (age >? DEAD_STREAM_THRESHOLD) &&
               (TransformerStreamEntry.stream_length entry <? SHORT_STREAM_THRESHOLD) in
             let is_dead :=
               if is_dead && is_group_protected s i then
                 if TransformerStreamEntry.confidence_score entry >=? FAST_TRACK_CONFIDENCE
                 then false else is_dead
               else is_dead in
             if is_dead then terminate_stream s i else s)
        idxs s in
    (forall k, 0 <= k < STREAM_TABLE_SIZE ->
       TransformerStreamEntry.valid (stream s k) = true ->
       TransformerStreamEntry.valid (stream s' k) = true) ->
    s' = s.
Proof.
  induction idxs as [|i idxs IH]; intros s Hinv; simpl; [reflexivity|].
  destruct (TransformerStreamEntry.valid (stream s i)) eqn:Hv; simpl negb; cbv iota;
    [|apply IH; assumption].
  match goal with
  | |- context [if ?d then terminate_stream s i else s] => destruct d eqn:Hdead
  end; [|apply IH; assumption].
  intros Hkeep. exfalso.
  destruct (invariant_sizes s Hinv) as [Hss _].
  destruct (Z_lt_le_dec i 0) as [Hneg|Hpos].
  { assert (E : terminate_stream s i = s).
    { unfold terminate_stream. destruct (Z.ltb_spec i 0); [reflexivity|lia]. }
    unfold stream in Hv. unfold array_get in Hv.
    destruct (Z.ltb_spec i 0); [discriminate|lia]. }
  destruct (Z_lt_le_dec i STREAM_TABLE_SIZE) as [Hlt|Hge].
  - pose proof (terminate_stream_frees s i Hinv ltac:(lia)) as Hfreed.
    pose proof (proj1 (terminate_stream_ok s i Hinv)) as Hinv1.
    pose proof (remove_dead_streams_from_only_frees idxs (terminate_stream s i) Hinv1 i)
      as Honly.
    cbv zeta in Honly, Hkeep.
    specialize (Hkeep i ltac:(lia) Hv).
    destruct Honly as [E|E]; [rewrite E in Hkeep|]; congruence.
  - unfold stream, array_get in Hv. destruct (Z.ltb_spec i 0); [lia|].
    unfold stream_table_size in Hss.
    rewrite (proj2 (lookup_ge_None _ _)) in Hv by lia. discriminate.
Qed.

(** A miss that terminates no stream changes the phase detector by its
    [update_phase_state(false)] alone. *)
Lemma non_terminating_miss_phase s w addr ip useful_prefetch (type : access_type)
    metadata_in :
  invariant s ->
  miss_terminates_no_stream s (Z.shiftr addr LOG2_BLOCK_SIZE) = true ->
  phase_state (cache_operate s w addr ip 0 useful_prefetch type metadata_in).1.1 =
  phase_state
    (update_phase_state (set_current_timestamp (u64 (current_timestamp s + 1)) s) false).
Proof.
  intros Hinv Hquiet. unfold miss_terminates_no_stream in Hquiet.
  apply andb_true_iff in Hquiet as [Hkeep Hroom].
  unfold after_periodic_cleanup in Hkeep, Hroom.
  unfold prefetcher_cache_operate.
  destruct (negb (0 =? 0)) eqn:E0; [discriminate|]. clear E0.
  set (s1 := set_current_timestamp (u64 (current_timestamp s + 1)) s) in *.
  assert (Hinv1 : invariant s1) by exact Hinv.
  pose proof (invariant_update_phase_state s1 false Hinv1) as Hinv2.
  destruct (tables_update_phase_state s1 false) as [T2 _].
  set (s2 := update_phase_state s1 false) in *.
  set (s3 := set_cleanup_counter (u64 (cleanup_counter s2 + 1)) s2) in *.
  assert (Hinv3 : invariant s3) by exact Hinv2.
  assert (T3 : stream_table s3 = stream_table s) by exact T2.
  set (s4 := if cleanup_counter s3 >=? CLEANUP_INTERVAL
             then set_cleanup_counter 0 (remove_dead_streams s3) else s3) in *.
  assert (H4 : phase_state s4 = phase_state s2 /\ stream_table s4 = stream_table s).
  { subst s4. destruct (cleanup_counter s3 >=? CLEANUP_INTERVAL); [|split; [reflexivity|exact T3]].
    assert (E : remove_dead_streams s3 = s3).
    { unfold remove_dead_streams. apply cleanup_that_removes_nothing; [exact Hinv3|].
      cbv zeta. intros k Hk Hv.
      assert (Hin : In k (indices (stream_table s))).
      { unfold indices. apply in_map_iff. exists (Z.to_nat k). split; [lia|].
        apply in_seq. destruct (invariant_sizes s Hinv) as [Hss _].
        unfold stream_table_size in Hss. lia. }
      pose proof (proj1 (forallb_forall _ _) Hkeep k Hin) as Hk'. simpl in Hk'.
      assert (Hvs : TransformerStreamEntry.valid (stream s k) = true)
        by (unfold stream in *; rewrite <- T3; exact Hv).
      rewrite Hvs in Hk'. simpl in Hk'. exact Hk'. }
    rewrite E. split; [reflexivity|exact T3]. }
  destruct H4 as [P4 T4].
  clearbody s4. clear Hkeep.
  unfold miss_creates_stream in Hroom. revert Hroom.
  destruct (find_stream_for_block s4 (Z.shiftr addr LOG2_BLOCK_SIZE) >=? 0); intros Hroom.
  - match goal with
    | |- context [generate_prefetches ?s0 w ?i] =>
        pose proof (phase_generate_prefetches World get_mshr_occupancy_ratio prefetch_line LOG2_BLOCK_SIZE s0 w i) as H;
        destruct (generate_prefetches s0 w i) as [s5 w5]
    end.
    simpl in *. rewrite H, phase_reinforce_stream_confidence.
    repeat case_match; exact P4.
  - revert Hroom.
    match goal with
    | |- context [if ?c then allocate_training_entry s4 ?r else (s4, ?i)] =>
        assert (Ha : phase_state (if c then allocate_training_entry s4 r else (s4, i)).1
                     = phase_state s4 /\
                     stream_table (if c then allocate_training_entry s4 r else (s4, i)).1
                     = stream_table s4)
          by (destruct c; [apply frame_allocate_training_entry|split; reflexivity]);
        destruct (if c then allocate_training_entry s4 r else (s4, i)) as [s5 train_idx]
    end.
    simpl in Ha. destruct Ha as [Hp5 Ht5].
    destruct (frame_update_training_entry s5 train_idx (Z.shiftr addr LOG2_BLOCK_SIZE))
      as [Hp6 Ht6].
    set (s6 := update_training_entry s5 train_idx (Z.shiftr addr LOG2_BLOCK_SIZE)) in *.
    assert (Hp : phase_state s6 = phase_state s2) by (rewrite Hp6, Hp5; exact P4).
    assert (Ht : stream_table s6 = stream_table s4) by (rewrite Ht6, Ht5; reflexivity).
    clearbody s6.
    match goal with
    | |- _ -> phase_state (if ?c then _ else _).1.1 = _ => destruct c
    end; [|intros _; exact Hp].
    rewrite andb_true_l.
    match goal with
    | |- context [try_relaunch_stream s6 w ?b ?d ?st] =>
        destruct (phase_try_relaunch_stream World get_mshr_occupancy_ratio prefetch_line LOG2_BLOCK_SIZE s6 w b d st) as [Hr Hfail];
        pose proof (try_relaunch_stream_found s6 w b d st) as Hfound;
        destruct (try_relaunch_stream s6 w b d st) as [[s7 w7] relaunched]
    end.
    simpl in Hr, Hfail, Hfound. rewrite <- Hfound.
    destruct relaunched; simpl; [intros _; rewrite Hr; exact Hp|].
    intros Hroom. apply Z.leb_le in Hroom.
    specialize (Hfail eq_refl). injection Hfail as -> ->.
    pose proof (phase_create_stream_free_entry World get_mshr_occupancy_ratio prefetch_line LOG2_BLOCK_SIZE s6 w (training s6 train_idx)) as Hc.
    rewrite Ht in Hc. specialize (Hc Hroom).
    destruct (create_stream s6 w (training s6 train_idx)) as [s8 w8].
    simpl in *. rewrite Hc. exact Hp.
Qed.

(** C5.  In every reachable state that is in a phase transition, a miss
    that terminates no stream increments [recovery_counter]; when the
    counter thereby reaches [PHASE_RECOVERY_WINDOW] = 32 the prefetcher
    leaves the transition and [current_prefetch_degree] is
    [BASE_PREFETCH_DEGREE] = 2 again.  A miss can terminate a stream in two
    places, the periodic cleanup and the allocation of an entry for a new
    stream; [miss_terminates_no_stream] says that it does so in neither:
    the cleanup, if it runs, leaves every stream valid, and a new stream,
    if there is one, finds a free entry.  Such a miss changes the phase
    detector by its [update_phase_state(false)] alone. *)
Theorem phase_recovery_counts_misses s :
  reachable s ->
  is_in_phase_transition s = true ->
  let counter := PhaseState.recovery_counter (phase_state s) in
  let s' := update_phase_state (set_current_timestamp (u64 (current_timestamp s + 1)) s) false in
  PHASE_RECOVERY_WINDOW = 32 /\ BASE_PREFETCH_DEGREE = 2 /\
  (counter + 1 < PHASE_RECOVERY_WINDOW ->
     PhaseState.recovery_counter (phase_state s') = counter + 1 /\
     is_in_phase_transition s' = true) /\
  (counter + 1 >= PHASE_RECOVERY_WINDOW ->
     counter + 1 = PHASE_RECOVERY_WINDOW /\
     is_in_phase_transition s' = false /\
     get_current_prefetch_degree s' = BASE_PREFETCH_DEGREE) /\
  (forall w addr ip useful_prefetch (type : access_type) metadata_in,
     miss_terminates_no_stream s (Z.shiftr addr LOG2_BLOCK_SIZE) = true ->
     let r := (cache_operate s w addr ip 0 useful_prefetch type metadata_in).1.1 in
     phase_state r = phase_state s' /\
     (counter + 1 < PHASE_RECOVERY_WINDOW ->
        PhaseState.recovery_counter (phase_state r) = counter + 1 /\
        is_in_phase_transition r = true) /\
     (counter + 1 >= PHASE_RECOVERY_WINDOW ->
        counter + 1 = PHASE_RECOVERY_WINDOW /\
        is_in_phase_transition r = false /\
        get_current_prefetch_degree r = BASE_PREFETCH_DEGREE)) /\
  (forall w addr ip useful_prefetch (type : access_type) metadata_in,
     u64 (cleanup_counter s + 1) < CLEANUP_INTERVAL ->
     0 <= find_index (fun e => negb (TransformerStreamEntry.valid e)) (stream_table s) ->
     phase_state (cache_operate s w addr ip 0 useful_prefetch type metadata_in).1.1 =
     phase_state s').
Proof.
  intros Hr Htr. pose proof (reachable_invariant _ _ _ _ _ s Hr) as Hinv.
  destruct Hinv as [Hp Hg].
  assert (Hstep :
    let counter := PhaseState.recovery_counter (phase_state s) in
    let s' := update_phase_state (set_current_timestamp (u64 (current_timestamp s + 1)) s)
                false in
    (counter + 1 < PHASE_RECOVERY_WINDOW ->
       PhaseState.recovery_counter (phase_state s') = counter + 1 /\
       is_in_phase_transition s' = true) /\
    (counter + 1 >= PHASE_RECOVERY_WINDOW ->
       counter + 1 = PHASE_RECOVERY_WINDOW /\
       is_in_phase_transition s' = false /\
       get_current_prefetch_degree s' = BASE_PREFETCH_DEGREE)).
  { cbv zeta. revert Hp Htr.
    unfold update_phase_state, try_phase_recovery, update_phase, phase_ok,
      is_in_phase_transition, get_current_prefetch_degree.
    destruct s as [tt st sg ph hd [ws term mw sp deg tr rc] ts cc]; simpl.
    unfold PHASE_RECOVERY_WINDOW, PHASE_WINDOW_SIZE, PHASE_TRANSITION_THRESHOLD,
      BASE_PREFETCH_DEGREE.
    intros Hp ->. destruct Hp as [-> Hmw].
    rewrite (u32_small (mw + 1)) by lia.
    destruct (Z.geb_spec (mw + 1) 64); [lia|]. simpl.
    rewrite (u32_small (mw + 1 + 1)) by lia.
    destruct (Z.geb_spec (mw + 1 + 1) 32); simpl; split; intros; try lia; auto. }
  cbv zeta in Hstep |- *. destruct Hstep as [Hinc Hexit].
  split; [reflexivity|]. split; [reflexivity|].
  split; [exact Hinc|]. split; [exact Hexit|]. split.
  - intros w addr ip useful_prefetch type metadata_in Hquiet.
    pose proof (non_terminating_miss_phase s w addr ip useful_prefetch type metadata_in
                  (conj Hp Hg) Hquiet) as E.
    split; [exact E|].
    unfold is_in_phase_transition, get_current_prefetch_degree in *.
    rewrite E. split; assumption.
  - intros. apply quiet_miss_phase; assumption.
Qed.

End PhaseRecovery.

(** ** The selector's counters *)

Section SelectorCounters.
Import transformer_pythia_selector_bw SelectorConsistency.

Context (World : Type)
        (get_mshr_occupancy_ratio : World -> float)
        (prefetch_line : World -> Z -> bool -> Z -> World * bool)
        (LOG2_BLOCK_SIZE : Z)
        (access_type : Type)
        (get_dram_bw : World -> Z)
        (intern_NUM_SET intern_NUM_WAY : World -> Z)
        (std_log : float -> float)
        (Pythia : Type)
        (pythia_initialize : World -> Pythia * World)
        (pythia_cache_operate :
           Pythia -> World -> Z -> Z -> Z -> bool -> access_type -> Z -> Pythia * World * Z)
        (pythia_cache_fill :
           Pythia -> World -> Z -> Z -> Z -> Z -> Z -> Z -> Pythia * World * Z)
        (pythia_cycle_operate pythia_final_stats : Pythia -> World -> Pythia * World).

#[local] Abbreviation state := (t Pythia).
#[local] Abbreviation initialize :=
  (@prefetcher_initialize World intern_NUM_SET intern_NUM_WAY Pythia pythia_initialize).
#[local] Abbreviation cache_operate :=
  (@prefetcher_cache_operate World get_mshr_occupancy_ratio prefetch_line LOG2_BLOCK_SIZE
     access_type get_dram_bw Pythia pythia_cache_operate).
#[local] Abbreviation cache_fill := (@prefetcher_cache_fill World Pythia pythia_cache_fill).
#[local] Abbreviation cycle_operate :=
  (@prefetcher_cycle_operate World get_mshr_occupancy_ratio prefetch_line LOG2_BLOCK_SIZE
     std_log Pythia pythia_cycle_operate).
#[local] Abbreviation final_stats := (@prefetcher_final_stats World Pythia pythia_final_stats).
#[local] Abbreviation allow_prefetch := (@should_allow_prefetch World get_dram_bw Pythia).
#[local] Abbreviation credit_useful := (@credit_useful_prefetch Pythia).
#[local] Abbreviation count_issued := (@count_issued_prefetch Pythia).
#[local] Abbreviation set_of := (@set_of_address LOG2_BLOCK_SIZE Pythia).
#[local] Abbreviation bandwidth := (@get_bandwidth_utilization World get_dram_bw).
#[local] Abbreviation useful_total := (@total_useful Pythia).
#[local] Abbreviation issued_total := (@total_issued Pythia).
#[local] Abbreviation update_policy := (@update_policy_selector std_log Pythia).
#[local] Abbreviation reachable :=
  (@reachable World get_mshr_occupancy_ratio prefetch_line LOG2_BLOCK_SIZE access_type
     get_dram_bw intern_NUM_SET intern_NUM_WAY std_log Pythia pythia_initialize
     pythia_cache_operate pythia_cache_fill pythia_cycle_operate pythia_final_stats).

Implicit Types (s : state) (w : World).

Ltac crush_cases :=
  repeat match goal with
         | |- context [if ?b then _ else _] => destruct b
         | |- context [let '(_, _) := ?p in _] => destruct p
         end.

Lemma u64_range z : 0 <= u64 z < 2 ^ 64.
Proof. unfold u64. apply Z.mod_pos_bound. lia. Qed.

Lemma selector_ok_credit_useful_prefetch s set :
  selector_ok s -> selector_ok (credit_useful s set).
Proof.
  intros (H1 & H2 & H3 & H4). unfold credit_useful_prefetch.
  crush_cases; (split; [|split; [|split]]); simpl;
    rewrite ?length_array_set; try assumption.
  apply Forall_array_update; [exact H1|]. intros _ [E1 E2]. simpl. auto.
Qed.

Lemma selector_ok_count_issued_prefetch s set :
  selector_ok s -> selector_ok (count_issued s set).
Proof.
  intros (H1 & H2 & H3 & H4). unfold count_issued_prefetch.
  crush_cases; (split; [|split; [|split]]); simpl;
    rewrite ?length_array_set; try assumption; try apply u64_range.
  apply Forall_array_update; [exact H1|]. intros _ [E1 E2]. simpl. auto.
Qed.

Lemma selected_counts_step a b c :
  u64 (a + b) = c -> u64 (u64 (a + 1) + b) = u64 (c + 1) /\ u64 (a + u64 (b + 1)) = u64 (c + 1).
Proof.
  intros <-. rewrite u64_add_l, u64_add_r, !u64_add_l. split; f_equal; lia.
Qed.

Lemma selector_ok_cache_operate s w addr ip cache_hit useful_prefetch (type : access_type)
    metadata_in :
  selector_ok s ->
  selector_ok (cache_operate s w addr ip cache_hit useful_prefetch type metadata_in).1.1.
Proof.
  intros Hok. unfold prefetcher_cache_operate.
  match goal with
  | |- context [allow_prefetch ?s0 w] =>
      assert (H0 : selector_ok s0)
        by (destruct (_ && _); [apply selector_ok_credit_useful_prefetch|]; exact Hok);
      generalize dependent s0
  end.
  intros s0 (H1 & H2 & H3 & H4).
  destruct (should_allow_prefetch_fields World get_dram_bw Pythia s0 w)
    as (F1 & F2 & F3 & _ & _ & _ & F7 & F8 & F9 & _).
  destruct (allow_prefetch s0 w) as [s1 allow]. simpl in F1, F2, F3, F7, F8, F9.
  destruct (selected_counts_step _ _ _ H4) as [S1 S2].
  destruct allow; simpl negb; cbv iota.
  - crush_cases; (split; [|split; [|split]]); simpl;
      rewrite ?F1, ?F2, ?F3, ?F7, ?F8, ?F9; assumption.
  - simpl. split; [|split; [|split]]; rewrite ?F1, ?F2, ?F3, ?F7, ?F8, ?F9; assumption.
Qed.

Lemma selector_ok_cache_fill s w addr set way prefetch evicted_addr metadata_in :
  selector_ok s ->
  selector_ok (cache_fill s w addr set way prefetch evicted_addr metadata_in).1.1.
Proof.
  intros Hok. unfold prefetcher_cache_fill.
  match goal with
  | |- context [pythia_cache_fill (pref_pythia ?s0)] =>
      assert (H0 : selector_ok s0)
        by (destruct (negb _); [apply selector_ok_count_issued_prefetch|]; exact Hok);
      generalize dependent s0
  end.
  intros s0 H0. crush_cases. simpl. exact H0.
Qed.

Lemma selector_ok_update_policy_selector s :
  selector_ok s -> selector_ok (update_policy s).
Proof.
  intros Hok. unfold update_policy_selector. crush_cases; exact Hok.
Qed.

Lemma selector_ok_cycle_operate s w :
  selector_ok s -> selector_ok (cycle_operate s w).1.
Proof.
  intros Hok. unfold prefetcher_cycle_operate.
  match goal with
  | |- context [pythia_cycle_operate (pref_pythia ?s0)] =>
      assert (H0 : selector_ok s0)
        by (destruct (_ =? 0); [apply selector_ok_update_policy_selector|]; exact Hok);
      generalize dependent s0
  end.
  intros s0 H0. crush_cases. simpl. exact H0.
Qed.

Lemma selector_ok_final_stats s w : selector_ok s -> selector_ok (final_stats s w).1.
Proof. intros Hok. unfold prefetcher_final_stats. crush_cases. simpl. exact Hok. Qed.

Lemma selector_ok_initialize w : selector_ok (initialize w).1.
Proof.
  unfold prefetcher_initialize. destruct (pythia_initialize w) as [p w'].
  split; [|split; [|split]]; simpl.
  - apply Forall_forall. intros e He. apply elem_of_replicate in He as [-> _]. auto.
  - apply length_replicate.
  - lia.
  - reflexivity.
Qed.

Lemma reachable_selector_ok s : reachable s -> selector_ok s.
Proof.
  induction 1 as [w|s w addr ip hit up ty m _ IH|s w addr set way pf ev m _ IH
                  |s w _ IH|s w _ IH].
  - apply selector_ok_initialize.
  - apply selector_ok_cache_operate, IH.
  - apply selector_ok_cache_fill, IH.
  - apply selector_ok_cycle_operate, IH.
  - apply selector_ok_final_stats, IH.
Qed.

(** In every reachable state of the selector the allowed accesses are
    accounted for: [transformer_selected_count] and [pythia_selected_count]
    add up (as 64-bit counters) to [prefetch_allowed_count]; every allowed
    access went to exactly one of the two prefetchers. *)
Theorem selected_counts_add_up_to_allowed s :
  reachable s ->
  u64 (transformer_selected_count s + pythia_selected_count s) = prefetch_allowed_count s.
Proof. intros Hr. apply (reachable_selector_ok s Hr). Qed.

(** In every reachable state of the selector the Pythia counters of every
    sampler entry are 0: nothing ever writes [pythia_useful] or
    [pythia_issued] of a sampler, so the samplers measure the transformer
    prefetcher alone; and the sampler vector keeps its size
    [NUM_SET / get_set_sample_rate()]. *)
Theorem sampler_pythia_counters_stay_zero s :
  reachable s ->
  Z.of_nat (length (samplers s)) = Z.max 0 (get_num_sampled_sets (NUM_SET s)) /\
  forall i,
    sampler_entry.pythia_useful (array_get sampler_entry.default (samplers s) i) = 0 /\
    sampler_entry.pythia_issued (array_get sampler_entry.default (samplers s) i) = 0.
Proof.
  intros Hr. destruct (reachable_selector_ok s Hr) as (H1 & H2 & _).
  split; [rewrite H2; lia|]. intros i.
  destruct (Z_lt_le_dec i 0) as [Hn|Hp].
  { unfold array_get. destruct (Z.ltb_spec i 0); [auto|lia]. }
  destruct (Z_lt_le_dec i (Z.of_nat (length (samplers s)))) as [Hl|Hg].
  - apply (Forall_array_get _ sampler_entry.default _ i H1). lia.
  - unfold array_get. destruct (Z.ltb_spec i 0); [lia|].
    rewrite (proj2 (lookup_ge_None _ _)) by lia. auto.
Qed.

#[local] Abbreviation transformer_reachable :=
  (transformer_stream.reachable World get_mshr_occupancy_ratio prefetch_line LOG2_BLOCK_SIZE
     access_type).

(** The transformer prefetcher inside the selector is always in a state
    that the transformer prefetcher can reach on its own: the selector only
    ever initialises it and calls its four operations, so everything that
    holds in the reachable states of [transformer_stream] holds of
    [pref_transformer] in every reachable state of the selector. *)
Theorem selector_runs_a_reachable_transformer s :
  reachable s -> transformer_reachable (pref_transformer s).
Proof.
  induction 1 as [w|s w addr ip hit up ty m _ IH|s w addr set way pf ev m _ IH
                  |s w _ IH|s w _ IH].
  - unfold prefetcher_initialize. destruct (pythia_initialize w). simpl. constructor.
  - unfold prefetcher_cache_operate.
    match goal with
    | |- context [allow_prefetch ?s0 w] =>
        assert (E0 : pref_transformer s0 = pref_transformer s)
          by (destruct (_ && _); [apply credit_useful_prefetch_frame|reflexivity]);
        destruct (should_allow_prefetch_fields World get_dram_bw Pythia s0 w) as (_ & _ & _ & _ & F5 & _);
        destruct (allow_prefetch s0 w) as [s1 allow]
    end.
    simpl in F5. rewrite E0 in F5.
    destruct allow; simpl negb; cbv iota; [|simpl; rewrite F5; exact IH].
    destruct (_ || _).
    + cbn [pref_transformer set_transformer_selected_count]. rewrite F5.
      pose proof (transformer_stream.reachable_cache_operate _ _ _ _ _
                    (pref_transformer s) w addr ip hit up ty m IH) as Hr.
      destruct (transformer_stream.prefetcher_cache_operate _ _ _ _ _ _ _ _ _ _ _ _ _)
        as [[t1 w1] m1].
      simpl in *. exact Hr.
    + destruct (pythia_cache_operate _ _ _ _ _ _ _ _) as [[p1 w1] m1].
      simpl. rewrite F5. exact IH.
  - unfold prefetcher_cache_fill.
    match goal with
    | |- context [pythia_cache_fill (pref_pythia ?s0)] =>
        assert (E0 : pref_transformer s0 = pref_transformer s)
          by (destruct (negb _); [unfold count_issued_prefetch; crush_cases|]; reflexivity);
        generalize dependent s0
    end.
    intros s0 E0. rewrite E0.
    pose proof (transformer_stream.reachable_cache_fill
                  World get_mshr_occupancy_ratio prefetch_line LOG2_BLOCK_SIZE access_type
                  (pref_transformer s) w addr set way pf ev m IH) as Hr.
    destruct (transformer_stream.prefetcher_cache_fill _ _ _ _ _ _ _ _ _) as [[t1 w1] m1].
    destruct (pythia_cache_fill _ _ _ _ _ _ _ _) as [[p1 w2] m2]. simpl in *. exact Hr.
  - unfold prefetcher_cycle_operate.
    match goal with
    | |- context [pythia_cycle_operate (pref_pythia ?s0)] =>
        assert (E0 : pref_transformer s0 = pref_transformer s)
          by (destruct (_ =? 0); [unfold update_policy_selector; crush_cases|]; reflexivity);
        generalize dependent s0
    end.
    intros s0 E0. rewrite E0.
    pose proof (transformer_stream.reachable_cycle_operate
                  World get_mshr_occupancy_ratio prefetch_line LOG2_BLOCK_SIZE access_type
                  (pref_transformer s) w IH) as Hr.
    destruct (transformer_stream.prefetcher_cycle_operate _ _ _ _ _ _) as [t1 w1].
    destruct (pythia_cycle_operate _ _) as [p1 w2]. simpl in *. exact Hr.
  - unfold prefetcher_final_stats.
    pose proof (transformer_stream.reachable_final_stats
                  World get_mshr_occupancy_ratio prefetch_line LOG2_BLOCK_SIZE access_type
                  (pref_transformer s) w IH) as Hr.
    destruct (transformer_stream.prefetcher_final_stats _ _ _) as [t1 w1].
    destruct (pythia_final_stats _ _) as [p1 w2]. simpl in *. exact Hr.
Qed.

(** *** Counting fills *)

Lemma foldr_sum_array_set {A : Type} (f : A -> Z) (d : A) (l : list A) i x :
  0 <= i < Z.of_nat (length l) ->
  foldr (fun e acc => f e + acc) 0 (array_set l i x) =
  foldr (fun e acc => f e + acc) 0 l - f (array_get d l i) + f x.
Proof.
  intros Hi. unfold array_set, array_get.
  destruct (Z.ltb_spec i 0); [lia|].
  assert (Hn : (Z.to_nat i < length l)%nat) by lia.
  generalize dependent (Z.to_nat i). clear.
  induction l as [|a l IH]; intros n Hn; simpl in *; [lia|].
  destruct n as [|n]; simpl; [lia|].
  rewrite (IH n) by lia. lia.
Qed.

Lemma sampler_index_in_range N set :
  0 <= set < N -> N mod get_set_sample_rate N = 0 ->
  0 <= set ÷ get_set_sample_rate N < Z.of_nat (Z.to_nat (get_num_sampled_sets N)).
Proof.
  intros Hs Hm. unfold get_num_sampled_sets.
  destruct (get_set_sample_rate_shape N) as (k & Hk & Er & _).
  assert (Hr : 0 < get_set_sample_rate N) by (rewrite Er; apply Z.pow_pos_nonneg; lia).
  rewrite !Z.quot_div_nonneg by lia.
  assert (set / get_set_sample_rate N < N / get_set_sample_rate N).
  { apply Z.div_lt_upper_bound; [lia|].
    assert (N = get_set_sample_rate N * (N / get_set_sample_rate N))
      by (apply Z.div_exact; [lia|exact Hm]).
    lia. }
  assert (0 <= set / get_set_sample_rate N) by (apply Z.div_pos; lia).
  lia.
Qed.

Lemma count_issued_prefetch_totals s set :
  length (samplers s) = Z.to_nat (get_num_sampled_sets (NUM_SET s)) ->
  0 <= set < NUM_SET s -> NUM_SET s mod get_set_sample_rate (NUM_SET s) = 0 ->
  issued_total (count_issued s set) = u64 (issued_total s + 1) /\
  useful_total (count_issued s set) = useful_total s.
Proof.
  intros Hl Hs Hm.
  pose proof (sampler_index_in_range _ _ Hs Hm) as Hi. rewrite <- Hl in Hi.
  unfold count_issued_prefetch.
  destruct (is_sampler_set _ _).
  - destruct (Z.ltb_spec (set ÷ get_set_sample_rate (NUM_SET s)) (Z.of_nat (length (samplers s))));
      [|lia].
    unfold total_issued, total_useful, update_sampler. simpl. split.
    + rewrite (foldr_sum_array_set
                 (fun e => sampler_entry.transformer_issued e + sampler_entry.pythia_issued e)
                 sampler_entry.default) by exact Hi.
      simpl. unfold u64. Z.div_mod_to_equations. lia.
    + rewrite (foldr_sum_array_set
                 (fun e => sampler_entry.transformer_useful e + sampler_entry.pythia_useful e)
                 sampler_entry.default) by exact Hi.
      simpl. f_equal. lia.
  - unfold total_issued, total_useful, update_dedicated.
    crush_cases; simpl; (split; [|reflexivity]);
      unfold u64; Z.div_mod_to_equations; lia.
Qed.

(** A prefetch fill is counted exactly once.  In a cache whose number of
    sets is a multiple of the sample rate, [prefetcher_cache_fill] of a
    set of the cache adds 1 to the total of issued prefetches (the
    denominator of the accuracy) when [prefetch] is set and leaves it alone
    otherwise; the total of useful prefetches does not change, and the
    metadata word is returned as it came. *)
Theorem prefetch_fill_is_counted_once s w addr set way prefetch evicted_addr metadata_in :
  reachable s ->
  0 <= set < NUM_SET s ->
  NUM_SET s mod get_set_sample_rate (NUM_SET s) = 0 ->
  let r := cache_fill s w addr set way prefetch evicted_addr metadata_in in
  issued_total r.1.1 = (if prefetch =? 0 then issued_total s else u64 (issued_total s + 1)) /\
  useful_total r.1.1 = useful_total s /\
  r.2 = metadata_in.
Proof.
  intros Hr Hs Hm. cbv zeta.
  destruct (reachable_selector_ok s Hr) as (_ & Hl & _).
  destruct (count_issued_prefetch_totals s set Hl Hs Hm) as [E1 E2].
  unfold prefetcher_cache_fill.
  destruct (prefetch =? 0); simpl negb; cbv iota;
    crush_cases; simpl; unfold total_issued, total_useful in *; simpl; auto.
Qed.

(** *** The policy update *)

Lemma policy_sums_without_pythia (l : list sampler_entry.t) a b c d :
  Forall (fun e => sampler_entry.pythia_useful e = 0 /\ sampler_entry.pythia_issued e = 0) l ->
  0 <= d < 2 ^ 64 ->
  exists a' b' c',
    fold_left
      (fun '(t_u, t_i, p_u, p_i) e =>
         (u64 (t_u + sampler_entry.transformer_useful e),
          u64 (t_i + sampler_entry.transformer_issued e),
          u64 (p_u + sampler_entry.pythia_useful e),
          u64 (p_i + sampler_entry.pythia_issued e)))
      l (a, b, c, d) = (a', b', c', d).
Proof.
  intros Hl Hd. revert a b c.
  induction Hl as [|e l [_ He] _ IH]; intros a b c; simpl; [eauto|].
  rewrite He, Z.add_0_r. replace (u64 d) with d by (unfold u64; rewrite Z.mod_small; lia).
  apply IH.
Qed.

(** The policy cannot move before Pythia has fills of its own.  The
    samplers contribute nothing to Pythia's counters, so as long as fewer
    than 100 prefetch fills have been counted for Pythia in the dedicated
    statistics, [update_policy_selector] changes nothing, and a cycle
    leaves [policy_selector] and both win counters as they are. *)
Theorem policy_waits_for_pythia_fills s w :
  reachable s ->
  dedicated_set_stats.pythia_issued (dedicated_stats s) < 100 ->
  update_policy s = s /\
  policy_selector (cycle_operate s w).1 = policy_selector s /\
  sampler_transformer_wins (cycle_operate s w).1 = sampler_transformer_wins s /\
  sampler_pythia_wins (cycle_operate s w).1 = sampler_pythia_wins s.
Proof.
  intros Hr Hp.
  destruct (reachable_selector_ok s Hr) as (H1 & _ & H3 & _).
  assert (Hu : forall s', samplers s' = samplers s -> dedicated_stats s' = dedicated_stats s ->
                          update_policy s' = s').
  { intros s' E1 E2. unfold update_policy_selector. rewrite E1, E2.
    destruct (policy_sums_without_pythia (samplers s)
                (dedicated_set_stats.transformer_useful (dedicated_stats s))
                (dedicated_set_stats.transformer_issued (dedicated_stats s))
                (dedicated_set_stats.pythia_useful (dedicated_stats s))
                (dedicated_set_stats.pythia_issued (dedicated_stats s)) H1 H3)
      as (a' & b' & c' & ->).
    destruct (Z.ltb_spec (dedicated_set_stats.pythia_issued (dedicated_stats s)) 100); [|lia].
    rewrite orb_true_r. reflexivity. }
  split; [apply Hu; reflexivity|].
  unfold prefetcher_cycle_operate.
  rewrite (Hu (set_cycles (u64 (cycles s + 1)) s)) by reflexivity.
  crush_cases; simpl; auto.
Qed.

(** *** Which prefetcher a demand access is given to *)

Lemma transformer_cache_operate_metadata (t : transformer_stream.t) w addr ip cache_hit
    useful_prefetch (type : access_type) metadata_in :
  (transformer_stream.prefetcher_cache_operate World get_mshr_occupancy_ratio prefetch_line
     LOG2_BLOCK_SIZE access_type t w addr ip cache_hit useful_prefetch type metadata_in).2
  = metadata_in.
Proof. unfold transformer_stream.prefetcher_cache_operate. crush_cases; reflexivity. Qed.

(** The set decides which prefetcher sees a demand access.  With [c] the
    category of the set of the address: the transformer prefetcher is the
    one consulted when [c] is 0 (sampler) or 1, or when [c] is above 2 and
    [policy_selector >= 0]; Pythia when [c] is 2, or when [c] is above 2
    and [policy_selector < 0].  The other prefetcher and its selection
    count are left as they are, and the call either is throttled (metadata
    and host unchanged, neither prefetcher consulted) or hands exactly the
    given arguments to the chosen prefetcher, counts the selection and
    tags the metadata word with that prefetcher's bit. *)
Theorem demand_access_goes_to_one_prefetcher s w addr ip cache_hit useful_prefetch
    (type : access_type) metadata_in :
  let c := get_set_sample_category (NUM_SET s) (set_of s addr) in
  let r := cache_operate s w addr ip cache_hit useful_prefetch type metadata_in in
  let throttled :=
    r.2 = metadata_in /\ r.1.2 = w /\
    pref_transformer r.1.1 = pref_transformer s /\ pref_pythia r.1.1 = pref_pythia s /\
    transformer_selected_count r.1.1 = transformer_selected_count s /\
    pythia_selected_count r.1.1 = pythia_selected_count s in
  if (c =? 0) || (c =? 1) || (negb (c =? 2) && (policy_selector s >=? 0)) then
    throttled \/
    let t :=
      transformer_stream.prefetcher_cache_operate World get_mshr_occupancy_ratio prefetch_line
        LOG2_BLOCK_SIZE access_type (pref_transformer s) w
        addr ip cache_hit useful_prefetch type metadata_in in
    r.2 = tag_metadata_transformer metadata_in /\ r.1.2 = t.1.2 /\
    pref_transformer r.1.1 = t.1.1 /\ pref_pythia r.1.1 = pref_pythia s /\
    transformer_selected_count r.1.1 = u64 (transformer_selected_count s + 1) /\
    pythia_selected_count r.1.1 = pythia_selected_count s
  else
    throttled \/
    let p :=
      pythia_cache_operate (pref_pythia s) w addr ip cache_hit useful_prefetch type metadata_in in
    r.2 = tag_metadata_pythia p.2 /\ r.1.2 = p.1.2 /\
    pref_pythia r.1.1 = p.1.1 /\ pref_transformer r.1.1 = pref_transformer s /\
    pythia_selected_count r.1.1 = u64 (pythia_selected_count s + 1) /\
    transformer_selected_count r.1.1 = transformer_selected_count s.
Proof.
  cbv zeta. unfold prefetcher_cache_operate.
  set (set := set_of s addr).
  match goal with
  | |- context [allow_prefetch ?s0 w] =>
      assert (E0 : NUM_SET s0 = NUM_SET s /\ policy_selector s0 = policy_selector s /\
                   pref_transformer s0 = pref_transformer s /\
                   pref_pythia s0 = pref_pythia s /\
                   transformer_selected_count s0 = transformer_selected_count s /\
                   pythia_selected_count s0 = pythia_selected_count s)
        by (destruct (_ && _);
            [destruct (credit_useful_prefetch_fields Pythia s set)
               as (C1 & C2 & C3 & C4 & C5 & C6 & _); auto 10
            |repeat split]);
      destruct (should_allow_prefetch_fields World get_dram_bw Pythia s0 w)
        as (_ & F2 & _ & F4 & F5 & F6 & F7 & F8 & _);
      destruct (allow_prefetch s0 w) as [s1 allow]
  end.
  destruct E0 as (G2 & G4 & G5 & G6 & G7 & G8).
  simpl in F2, F4, F5, F6, F7, F8.
  rewrite G2 in F2. rewrite G4 in F4. rewrite G5 in F5. rewrite G6 in F6.
  rewrite G7 in F7. rewrite G8 in F8.
  assert (Ht : is_sampler_set (NUM_SET s1) set || @use_transformer_for_set Pythia s1 set =
               (get_set_sample_category (NUM_SET s) set =? 0) ||
               (get_set_sample_category (NUM_SET s) set =? 1) ||
               (negb (get_set_sample_category (NUM_SET s) set =? 2) &&
                (policy_selector s >=? 0))).
  { unfold use_transformer_for_set, is_sampler_set, is_transformer_dedicated_set,
      is_pythia_dedicated_set. rewrite F2, F4.
    destruct (Z.eqb_spec (get_set_sample_category (NUM_SET s) set) 0) as [->|];
      [reflexivity|].
    destruct (Z.eqb_spec (get_set_sample_category (NUM_SET s) set) 1) as [->|];
      [reflexivity|].
    destruct (Z.eqb_spec (get_set_sample_category (NUM_SET s) set) 2); reflexivity. }
  rewrite Ht.
  destruct allow; simpl negb; cbv iota.
  - destruct (_ || _ || _).
    + right. cbn [pref_transformer set_transformer_selected_count]. rewrite F5.
      pose proof (transformer_cache_operate_metadata (pref_transformer s) w
                    addr ip cache_hit useful_prefetch type metadata_in) as Em.
      destruct (transformer_stream.prefetcher_cache_operate _ _ _ _ _ _ _ _ _ _ _ _ _)
        as [[t1 w1] m1].
      simpl in *. subst m1. rewrite F6, F7, F8. repeat split.
    + right. cbn [pref_pythia set_pythia_selected_count]. rewrite F6.
      destruct (pythia_cache_operate _ _ _ _ _ _ _ _) as [[p1 w1] m1].
      simpl. rewrite F5, F7, F8. repeat split.
  - destruct (_ || _ || _); left; simpl; rewrite F5, F6, F7, F8; repeat split.
Qed.

(** *** The bandwidth reading *)

(** With the DRAM bandwidth reported in sixteenths ([get_dram_bw] between
    0 and 16), a reading of 15 or 16 throttles every access whatever the
    accuracy, and as long as no prefetch fill has been counted (accuracy
    1.0) a reading of 14 or less lets every access through. *)
Theorem bandwidth_reading_decides_the_throttle s w :
  0 <= get_dram_bw w <= 16 ->
  (15 <= get_dram_bw w -> (allow_prefetch s w).2 = false) /\
  (get_dram_bw w <= 14 -> issued_total s = 0 -> (allow_prefetch s w).2 = true).
Proof.
  intros Hb.
  destruct (should_allow_prefetch_spec World get_dram_bw Pythia s w) as [-> _].
  rewrite get_prefetch_accuracy_totals. unfold get_bandwidth_utilization.
  assert (Hc : exists n, (n <= 16)%nat /\ get_dram_bw w = Z.of_nat n)
    by (exists (Z.to_nat (get_dram_bw w)); lia).
  destruct Hc as (n & Hn & ->).
  split.
  - intros H15.
    assert (E : n = 15%nat \/ n = 16%nat) by lia.
    destruct E as [-> | ->]; reflexivity.
  - intros H14 ->. simpl Z.eqb. cbv iota.
    do 15 (destruct n as [|n]; [vm_compute; reflexivity|]). lia.
Qed.

End SelectorCounters.

(** * Recovery, the throttle and the policy on the test host *)

Section RecoveryRuns.
Import transformer_stream.

#[local] Abbreviation test_reachable :=
  (reachable TestHost.World TestHost.get_mshr_occupancy_ratio
     TestHost.prefetch_line TestHost.LOG2_BLOCK_SIZE unit).

Lemma transition_at_cleanup_reachable : test_reachable TestScenarios.transition_at_cleanup.
Proof. apply test_misses_reachable. constructor. Qed.

Lemma transition_ending_reachable : test_reachable TestScenarios.transition_ending.
Proof. apply test_misses_reachable. constructor. Qed.

(** After 255 misses the stream table is full and the prefetcher is in a
    transition with the recovery counter at 28.  The next miss runs the
    periodic cleanup, which finds no dead stream: it terminates nothing,
    and the counter goes to 29.  Three misses later the counter is at 31,
    and the miss after that ends the transition with degree 2. *)
Lemma phase_recovery_counts_misses_witness :
  let s := TestScenarios.transition_at_cleanup in
  let r := (TestHost.cache_operate s [] (Z.shiftl 2000000 TestHost.LOG2_BLOCK_SIZE) 0).1.1 in
  let s2 := TestScenarios.transition_ending in
  let r2 := (TestHost.cache_operate s2 [] (Z.shiftl 2000000 TestHost.LOG2_BLOCK_SIZE) 0).1.1 in
  (cleanup_counter s = CLEANUP_INTERVAL - 1 /\
   find_index (fun e => negb (TransformerStreamEntry.valid e)) (stream_table s) = -1 /\
   PhaseState.recovery_counter (phase_state s) = 28 /\
   PhaseState.recovery_counter (phase_state r) = 29 /\
   is_in_phase_transition r = true) /\
  (PhaseState.recovery_counter (phase_state s2) = 31 /\
   is_in_phase_transition r2 = false /\
   get_current_prefetch_degree r2 = BASE_PREFETCH_DEGREE).
Proof.
  cbv zeta. split.
  - pose proof (phase_recovery_counts_misses TestHost.World TestHost.get_mshr_occupancy_ratio
                  TestHost.prefetch_line TestHost.LOG2_BLOCK_SIZE unit
                  TestScenarios.transition_at_cleanup transition_at_cleanup_reachable
                  ltac:(vm_compute; reflexivity)) as H.
    cbv zeta in H. destruct H as (_ & _ & _ & _ & Hmiss & _).
    specialize (Hmiss [] (Z.shiftl 2000000 TestHost.LOG2_BLOCK_SIZE) 0 false tt 0
                  ltac:(vm_compute; reflexivity)).
    destruct Hmiss as (_ & Hinc & _).
    assert (Hc : PhaseState.recovery_counter
                   (phase_state TestScenarios.transition_at_cleanup) = 28)
      by (vm_compute; reflexivity).
    rewrite Hc in Hinc. destruct (Hinc ltac:(vm_compute; reflexivity)) as [E1 E2].
    split; [vm_compute; reflexivity|]. split; [vm_compute; reflexivity|].
    split; [exact Hc|]. split; [exact E1|exact E2].
  - pose proof (phase_recovery_counts_misses TestHost.World TestHost.get_mshr_occupancy_ratio
                  TestHost.prefetch_line TestHost.LOG2_BLOCK_SIZE unit
                  TestScenarios.transition_ending transition_ending_reachable
                  ltac:(vm_compute; reflexivity)) as H.
    cbv zeta in H. destruct H as (_ & _ & _ & _ & Hmiss & _).
    specialize (Hmiss [] (Z.shiftl 2000000 TestHost.LOG2_BLOCK_SIZE) 0 false tt 0
                  ltac:(vm_compute; reflexivity)).
    destruct Hmiss as (_ & _ & Hexit).
    assert (Hc : PhaseState.recovery_counter
                   (phase_state TestScenarios.transition_ending) = 31)
      by (vm_compute; reflexivity).
    rewrite Hc in Hexit. destruct (Hexit ltac:(vm_compute; discriminate)) as (_ & E1 & E2).
    split; [exact Hc|]. split; [exact E1|exact E2].
Defined.

End RecoveryRuns.

Section SelectorRuns.
Import transformer_pythia_selector_bw.

#[local] Abbreviation selector_test_reachable :=
  (reachable TestHost.World TestHost.get_mshr_occupancy_ratio TestHost.prefetch_line
     TestHost.LOG2_BLOCK_SIZE unit (TestHost.get_dram_bw 0) TestHost.NUM_SET
     TestHost.NUM_WAY TestHost.std_log TestHost.Pythia TestHost.pythia_initialize
     TestHost.pythia_cache_operate TestHost.pythia_cache_fill TestHost.pythia_cycle_operate
     TestHost.pythia_final_stats).

Lemma selector_initial_reachable : selector_test_reachable TestHost.selector_initial.
Proof. apply (reachable_initialize _ _ _ _ _ _ _ _ _ _ _ _ _ _ _ []). Qed.

Lemma selector_run_reachable calls :
  forall s w, selector_test_reachable s ->
              selector_test_reachable (TestScenarios.selector_run calls s w).1.
Proof.
  unfold TestScenarios.selector_run.
  induction calls as [|c calls IH]; intros s w Hr; [exact Hr|].
  cbn [fold_left]. destruct c as [set|set|].
  - pose proof (reachable_cache_fill _ _ _ _ _ _ _ _ _ _ _ _ _ _ _ s w
                  (Z.shiftl set TestHost.LOG2_BLOCK_SIZE) set 0 1 0 0 Hr) as Hr'.
    fold (TestHost.selector_cache_fill s w set 1 0) in Hr'.
    destruct (TestHost.selector_cache_fill s w set 1 0) as [[s1 w1] m].
    apply IH. exact Hr'.
  - pose proof (reachable_cache_operate _ _ _ _ _ _ _ _ _ _ _ _ _ _ _ s w
                  (Z.shiftl set TestHost.LOG2_BLOCK_SIZE) 0 1 true tt 0 Hr) as Hr'.
    fold (TestHost.selector_cache_operate 0 s w (Z.shiftl set TestHost.LOG2_BLOCK_SIZE)
            1 true 0) in Hr'.
    destruct (TestHost.selector_cache_operate 0 s w (Z.shiftl set TestHost.LOG2_BLOCK_SIZE)
                1 true 0) as [[s1 w1] m].
    apply IH. exact Hr'.
  - pose proof (reachable_cycle_operate _ _ _ _ _ _ _ _ _ _ _ _ _ _ _ s w Hr) as Hr'.
    fold (TestScenarios.selector_cycle_operate s w) in Hr'.
    destruct (TestScenarios.selector_cycle_operate s w) as [s1 w1].
    apply IH. exact Hr'.
Qed.

Lemma transformer_ahead_reachable : selector_test_reachable TestScenarios.transformer_ahead.
Proof. apply selector_run_reachable, selector_initial_reachable. Qed.

Lemma pythia_ahead_reachable : selector_test_reachable TestScenarios.pythia_ahead.
Proof. apply selector_run_reachable, selector_initial_reachable. Qed.

(** A throttled call (bandwidth reading 15 of 16) and two allowed ones
    (reading 0): address 6400 lies in set 100, a sampler set, and goes to
    the transformer prefetcher; address 128 lies in set 2, which is
    dedicated to Pythia. *)
Lemma bandwidth_throttle_gate_witness :
  let r := TestHost.selector_cache_operate 15 TestHost.selector_initial [] 6400 0 false 5 in
  let a := TestHost.selector_cache_operate 0 TestHost.selector_initial [] 6400 0 false 5 in
  let p := TestHost.selector_cache_operate 0 TestHost.selector_initial [] 128 0 false 5 in
  (r.2 = 5 /\ r.1.2 = [] /\
   prefetch_throttled_count r.1.1 = 1 /\
   pref_transformer r.1.1 = TestHost.initial) /\
  (a.2 = tag_metadata_transformer 5 /\
   prefetch_allowed_count a.1.1 = 1 /\
   pref_transformer a.1.1 = (TestHost.cache_operate TestHost.initial [] 6400 0).1.1) /\
  (p.2 = tag_metadata_pythia 5 /\
   prefetch_allowed_count p.1.1 = 1 /\
   pref_transformer p.1.1 = TestHost.initial).
Proof.
  cbv zeta. unfold TestHost.selector_cache_operate. split; [|split].
  - pose proof (bandwidth_throttle_gate TestHost.World TestHost.get_mshr_occupancy_ratio
                  TestHost.prefetch_line TestHost.LOG2_BLOCK_SIZE unit (TestHost.get_dram_bw 15)
                  TestHost.Pythia TestHost.pythia_cache_operate
                  TestHost.selector_initial [] 6400 0 0 false tt 5) as H.
    cbv zeta in H. destruct H as (_ & _ & H & _).
    destruct (H ltac:(vm_compute; reflexivity)) as (H1 & H2 & H3 & H4 & _).
    split; [exact H1|]. split; [exact H2|].
    split; [rewrite H3; reflexivity|rewrite H4; reflexivity].
  - pose proof (bandwidth_throttle_gate TestHost.World TestHost.get_mshr_occupancy_ratio
                  TestHost.prefetch_line TestHost.LOG2_BLOCK_SIZE unit (TestHost.get_dram_bw 0)
                  TestHost.Pythia TestHost.pythia_cache_operate
                  TestHost.selector_initial [] 6400 0 0 false tt 5) as H.
    cbv zeta in H. destruct H as (_ & _ & _ & H).
    destruct (H ltac:(vm_compute; reflexivity)) as (H1 & _ & H3).
    replace (is_sampler_set (NUM_SET TestHost.selector_initial)
               (set_of_address TestHost.LOG2_BLOCK_SIZE TestHost.Pythia
                  TestHost.selector_initial 6400) ||
             use_transformer_for_set TestHost.Pythia TestHost.selector_initial
               (set_of_address TestHost.LOG2_BLOCK_SIZE TestHost.Pythia
                  TestHost.selector_initial 6400))
      with true in H3 by (vm_compute; reflexivity).
    destruct H3 as (H4 & _ & H6 & _).
    split; [rewrite H4; vm_compute; reflexivity|].
    split; [rewrite H1; vm_compute; reflexivity|].
    rewrite H6. vm_compute. reflexivity.
  - pose proof (bandwidth_throttle_gate TestHost.World TestHost.get_mshr_occupancy_ratio
                  TestHost.prefetch_line TestHost.LOG2_BLOCK_SIZE unit (TestHost.get_dram_bw 0)
                  TestHost.Pythia TestHost.pythia_cache_operate
                  TestHost.selector_initial [] 128 0 0 false tt 5) as H.
    cbv zeta in H. destruct H as (_ & _ & _ & H).
    destruct (H ltac:(vm_compute; reflexivity)) as (H1 & _ & H3).
    replace (is_sampler_set (NUM_SET TestHost.selector_initial)
               (set_of_address TestHost.LOG2_BLOCK_SIZE TestHost.Pythia
                  TestHost.selector_initial 128) ||
             use_transformer_for_set TestHost.Pythia TestHost.selector_initial
               (set_of_address TestHost.LOG2_BLOCK_SIZE TestHost.Pythia
                  TestHost.selector_initial 128))
      with false in H3 by (vm_compute; reflexivity).
    destruct H3 as (H4 & _ & _ & H7).
    split; [rewrite H4; vm_compute; reflexivity|].
    split; [rewrite H1; vm_compute; reflexivity|].
    rewrite H7. vm_compute. reflexivity.
Defined.

(** The policy counter on the move.  In [transformer_ahead], a reachable
    state, the counter is 0 and the next cycle, the 5000th, runs the first
    policy update: the transformer prefetcher wins and the counter goes to
    1.  With the counter at [POLICY_MAX] the same update leaves it there.
    In [pythia_ahead] the update takes the counter to -1, and at
    [POLICY_MIN] it leaves it there. *)
Lemma policy_selector_saturates_witness :
  let update := update_policy_selector TestHost.std_log TestHost.Pythia in
  let s := TestScenarios.transformer_ahead in
  let s' := (TestScenarios.selector_cycle_operate s []).1 in
  let top := set_policy_selector POLICY_MAX s in
  let q := TestScenarios.pythia_ahead in
  let bottom := set_policy_selector POLICY_MIN q in
  (policy_selector s = 0 /\ policy_selector (update s) = 1 /\
   Z.abs (policy_selector (update s) - policy_selector s) <= 1 /\
   policy_selector s' = 1 /\ POLICY_MIN <= policy_selector s' <= POLICY_MAX) /\
  (policy_selector (update top) = POLICY_MAX /\
   POLICY_MIN <= policy_selector (update top) <= POLICY_MAX) /\
  (policy_selector q = 0 /\ policy_selector (update q) = -1 /\
   Z.abs (policy_selector (update q) - policy_selector q) <= 1) /\
  (policy_selector (update bottom) = POLICY_MIN /\
   POLICY_MIN <= policy_selector (update bottom) <= POLICY_MAX).
Proof.
  pose proof (policy_selector_saturates TestHost.World TestHost.get_mshr_occupancy_ratio
                TestHost.prefetch_line TestHost.LOG2_BLOCK_SIZE unit (TestHost.get_dram_bw 0)
                TestHost.NUM_SET TestHost.NUM_WAY TestHost.std_log
                TestHost.Pythia TestHost.pythia_initialize TestHost.pythia_cache_operate
                TestHost.pythia_cache_fill TestHost.pythia_cycle_operate
                TestHost.pythia_final_stats) as (_ & _ & _ & Hrange & Hstep).
  cbv zeta in Hstep |- *.
  pose proof (Hrange _ transformer_ahead_reachable) as Rs.
  pose proof (Hrange _ pythia_ahead_reachable) as Rq.
  pose proof (Hrange _ (reachable_cycle_operate _ _ _ _ _ _ _ _ _ _ _ _ _ _ _
                          TestScenarios.transformer_ahead [] transformer_ahead_reachable))
    as Rs'.
  destruct (Hstep TestScenarios.transformer_ahead Rs) as (_ & As & _).
  destruct (Hstep TestScenarios.pythia_ahead Rq) as (_ & Aq & _).
  destruct (Hstep (set_policy_selector POLICY_MAX TestScenarios.transformer_ahead)
              ltac:(vm_compute; split; discriminate)) as (_ & _ & Rtop).
  destruct (Hstep (set_policy_selector POLICY_MIN TestScenarios.pythia_ahead)
              ltac:(vm_compute; split; discriminate)) as (_ & _ & Rbottom).
  split; [|split; [|split]].
  - split; [vm_compute; reflexivity|]. split; [vm_compute; reflexivity|].
    split; [exact As|]. split; [vm_compute; reflexivity|exact Rs'].
  - split; [vm_compute; reflexivity|exact Rtop].
  - split; [vm_compute; reflexivity|]. split; [vm_compute; reflexivity|exact Aq].
  - split; [vm_compute; reflexivity|exact Rbottom].
Defined.

End SelectorRuns.

(** ** The further properties on the test host *)

Section FurtherRuns.
Import transformer_stream.

#[local] Abbreviation test_reachable :=
  (reachable TestHost.World TestHost.get_mshr_occupancy_ratio
     TestHost.prefetch_line TestHost.LOG2_BLOCK_SIZE unit).

#[local] Abbreviation recording_reachable :=
  (reachable TestScenarios.RWorld
     (RecordingHost.recording_mshr_occupancy_ratio TestHost.World
        TestHost.get_mshr_occupancy_ratio)
     (RecordingHost.recording_prefetch_line TestHost.World TestHost.prefetch_line)
     TestHost.LOG2_BLOCK_SIZE unit).

Lemma recorded_misses_reachable blocks :
  forall s w, recording_reachable s ->
              recording_reachable (TestScenarios.recorded_misses blocks s w).1.
Proof.
  unfold TestScenarios.recorded_misses.
  induction blocks as [|b blocks IH]; intros s w Hr; simpl; [exact Hr|].
  pose proof (reachable_cache_operate _ _ _ _ _ s w
                (Z.shiftl b TestHost.LOG2_BLOCK_SIZE) 0 0 false tt 0 Hr) as Hr'.
  fold (TestScenarios.recording_cache_operate s w (Z.shiftl b TestHost.LOG2_BLOCK_SIZE) 0) in *.
  destruct (TestScenarios.recording_cache_operate s w (Z.shiftl b TestHost.LOG2_BLOCK_SIZE) 0)
    as [[s1 w1] m].
  apply IH. exact Hr'.
Qed.

Lemma two_misses_reachable : recording_reachable TestScenarios.two_misses.1.
Proof. apply recorded_misses_reachable. constructor. Qed.

Lemma full_table_reachable : test_reachable TestScenarios.full_table.
Proof. apply test_misses_reachable. constructor. Qed.

Lemma two_test_misses_reachable :
  test_reachable (TestHost.misses [1000; 1001] TestHost.initial []).1.
Proof. apply test_misses_reachable. constructor. Qed.

Lemma full_table_all_valid i :
  0 <= i < STREAM_TABLE_SIZE ->
  TransformerStreamEntry.valid (stream TestScenarios.full_table i) = true.
Proof.
  intros Hi.
  assert (H : Forall (fun e => TransformerStreamEntry.valid e = true)
                (stream_table TestScenarios.full_table)).
  { apply List.Forall_forall. apply (proj1 (forallb_forall _ _)). vm_compute. reflexivity. }
  unfold stream. apply Forall_array_get; [exact H|].
  replace (length (stream_table TestScenarios.full_table)) with 32%nat
    by (vm_compute; reflexivity).
  unfold STREAM_TABLE_SIZE in Hi. lia.
Qed.

Lemma every_stream_has_unit_stride_witness :
  TransformerStreamEntry.stride (stream TestHost.nine_streams 0) = 1.
Proof.
  pose proof (every_stream_has_unit_stride _ _ _ _ _ TestHost.nine_streams
                nine_streams_reachable 0 ltac:(vm_compute; split; [discriminate|reflexivity])
                ltac:(vm_compute; reflexivity)) as (H & _).
  exact H.
Defined.


Lemma training_entries_between_calls_witness :
  TrainingEntry.miss_count
    (training (TestHost.misses [1000; 1001] TestHost.initial []).1 0) = 1 \/
  TrainingEntry.miss_count
    (training (TestHost.misses [1000; 1001] TestHost.initial []).1 0) = 2.
Proof.
  pose proof (training_entries_between_calls _ _ _ _ _ _ two_test_misses_reachable)
    as (H & _).
  specialize (H 0 ltac:(vm_compute; split; [discriminate|reflexivity])). cbv zeta in H.
  destruct (H ltac:(vm_compute; reflexivity)) as (H1 & _). exact H1.
Defined.


Lemma phase_detector_consistent_witness :
  1 <= get_current_prefetch_degree TestHost.cleanup_burst <= BASE_PREFETCH_DEGREE.
Proof.
  pose proof (phase_detector_consistent _ _ _ _ _ TestHost.cleanup_burst
                cleanup_burst_reachable) as H.
  cbv zeta in H. destruct H as (_ & H & _). exact H.
Defined.

Lemma cleanup_counter_follows_the_clock_witness :
  cleanup_counter TestHost.nine_streams =
  current_timestamp TestHost.nine_streams mod CLEANUP_INTERVAL.
Proof.
  pose proof (cleanup_counter_follows_the_clock _ _ _ _ _ TestHost.nine_streams
                nine_streams_reachable) as (_ & H & _).
  exact H.
Defined.

Lemma tables_keep_their_bounds_witness :
  Z.of_nat (length (training_table TestHost.nine_streams)) = TRAINING_TABLE_SIZE.
Proof.
  pose proof (tables_keep_their_bounds _ _ _ _ _ TestHost.nine_streams
                nine_streams_reachable) as (H & _).
  exact H.
Defined.





Lemma full_mshr_blocks_prefetching_witness :
  (prefetcher_cache_operate TestHost.World TestScenarios.full_mshr_occupancy_ratio
     TestHost.prefetch_line TestHost.LOG2_BLOCK_SIZE unit
     TestHost.nine_streams [] (Z.shiftl 1003 6) 0 0 false tt 0).1.2 = [].
Proof.
  pose proof (full_mshr_blocks_prefetching TestHost.World
                TestScenarios.full_mshr_occupancy_ratio
                TestHost.prefetch_line TestHost.LOG2_BLOCK_SIZE unit []
                ltac:(vm_compute; reflexivity)) as (_ & H & _).
  exact (H TestHost.nine_streams (Z.shiftl 1003 6) 0 0 false tt 0).
Defined.

Lemma three_misses_reachable : recording_reachable TestScenarios.three_misses.1.
Proof. apply recorded_misses_reachable. constructor. Qed.


Lemma demand_access_requests_at_most_two_witness :
  RecordingHost.appended BASE_PREFETCH_DEGREE
    (RecordingHost.block_request TestHost.LOG2_BLOCK_SIZE (fun _ => True))
    TestScenarios.two_misses.2.2
    (TestScenarios.recording_cache_operate TestScenarios.two_misses.1
       TestScenarios.two_misses.2 (Z.shiftl 1002 6) 0).1.2.2.
Proof.
  pose proof (demand_access_requests_at_most_two TestHost.World
                TestHost.get_mshr_occupancy_ratio TestHost.prefetch_line
                TestHost.LOG2_BLOCK_SIZE unit TestScenarios.two_misses.1
                TestScenarios.two_misses.2 (Z.shiftl 1002 6)
                0 0 false tt 0 two_misses_reachable) as H.
  cbv zeta in H. destruct H as (H & _). exact H.
Defined.

Lemma background_pass_requests_are_bounded_witness :
  RecordingHost.appended (BASE_PREFETCH_DEGREE * STREAM_TABLE_SIZE)
    (RecordingHost.block_request TestHost.LOG2_BLOCK_SIZE (fun _ => True))
    TestScenarios.three_misses.2.2
    (prefetcher_cycle_operate TestScenarios.RWorld
       (RecordingHost.recording_mshr_occupancy_ratio TestHost.World
          TestHost.get_mshr_occupancy_ratio)
       (RecordingHost.recording_prefetch_line TestHost.World TestHost.prefetch_line)
       TestHost.LOG2_BLOCK_SIZE TestScenarios.three_misses.1 TestScenarios.three_misses.2).2.2.
Proof.
  exact (background_pass_requests_are_bounded TestHost.World
           TestHost.get_mshr_occupancy_ratio TestHost.prefetch_line TestHost.LOG2_BLOCK_SIZE
           unit TestScenarios.three_misses.1 TestScenarios.three_misses.2 three_misses_reachable).
Defined.

Lemma first_two_misses_only_train_witness :
  (TestHost.cache_operate TestHost.initial [] (Z.shiftl 1000 6) 0).1.2 = [].
Proof.
  pose proof (first_two_misses_only_train TestHost.World TestHost.get_mshr_occupancy_ratio
                TestHost.prefetch_line TestHost.LOG2_BLOCK_SIZE unit
                TestHost.initial [] (Z.shiftl 1000 6) 0 false tt 0
                (reachable_initialize _ _ _ _ _)) as H.
  cbv zeta in H.
  destruct (H ltac:(vm_compute; reflexivity) ltac:(left; vm_compute; reflexivity))
    as (H1 & _).
  exact H1.
Defined.

End FurtherRuns.

Section FurtherSelectorRuns.
Import transformer_pythia_selector_bw.

#[local] Abbreviation selector_test_reachable :=
  (reachable TestHost.World TestHost.get_mshr_occupancy_ratio TestHost.prefetch_line
     TestHost.LOG2_BLOCK_SIZE unit (TestHost.get_dram_bw 0) TestHost.NUM_SET
     TestHost.NUM_WAY TestHost.std_log TestHost.Pythia TestHost.pythia_initialize
     TestHost.pythia_cache_operate TestHost.pythia_cache_fill TestHost.pythia_cycle_operate
     TestHost.pythia_final_stats).

Lemma selected_counts_add_up_to_allowed_witness :
  u64 (transformer_selected_count TestScenarios.transformer_ahead +
       pythia_selected_count TestScenarios.transformer_ahead) =
  prefetch_allowed_count TestScenarios.transformer_ahead.
Proof.
  exact (selected_counts_add_up_to_allowed _ _ _ _ _ _ _ _ _ _ _ _ _ _ _ _
           transformer_ahead_reachable).
Defined.

Lemma sampler_pythia_counters_stay_zero_witness :
  Z.of_nat (length (samplers TestScenarios.transformer_ahead)) =
  Z.max 0 (get_num_sampled_sets (NUM_SET TestScenarios.transformer_ahead)).
Proof.
  pose proof (sampler_pythia_counters_stay_zero _ _ _ _ _ _ _ _ _ _ _ _ _ _ _ _
                transformer_ahead_reachable) as (H & _).
  exact H.
Defined.

Lemma selector_runs_a_reachable_transformer_witness :
  transformer_stream.reachable TestHost.World TestHost.get_mshr_occupancy_ratio
    TestHost.prefetch_line TestHost.LOG2_BLOCK_SIZE unit
    (pref_transformer TestScenarios.transformer_ahead).
Proof.
  exact (selector_runs_a_reachable_transformer _ _ _ _ _ _ _ _ _ _ _ _ _ _ _ _
           transformer_ahead_reachable).
Defined.

Lemma prefetch_fill_is_counted_once_witness :
  total_issued TestHost.Pythia
    (TestHost.selector_cache_fill TestHost.selector_initial [] 0 1 0).1.1 =
  u64 (total_issued TestHost.Pythia TestHost.selector_initial + 1).
Proof.
  pose proof (prefetch_fill_is_counted_once _ _ _ _ _ _ _ _ _ _ _ _ _ _ _
                TestHost.selector_initial []
                (Z.shiftl 0 TestHost.LOG2_BLOCK_SIZE) 0 0 1 0 0
                selector_initial_reachable
                ltac:(vm_compute; split; [discriminate|reflexivity])
                ltac:(vm_compute; reflexivity)) as H.
  cbv zeta in H. destruct H as (H & _). exact H.
Defined.

Lemma policy_waits_for_pythia_fills_witness :
  update_policy_selector TestHost.std_log TestHost.Pythia TestHost.selector_initial =
  TestHost.selector_initial.
Proof.
  pose proof (policy_waits_for_pythia_fills _ _ _ _ _ _ _ _ _ _ _ _ _ _ _
                TestHost.selector_initial [] selector_initial_reachable
                ltac:(vm_compute; reflexivity)) as (H & _).
  exact H.
Defined.

Lemma bandwidth_reading_decides_the_throttle_witness :
  (should_allow_prefetch TestHost.World (TestHost.get_dram_bw 15) TestHost.Pythia
     TestScenarios.transformer_ahead []).2 = false.
Proof.
  pose proof (bandwidth_reading_decides_the_throttle TestHost.World (TestHost.get_dram_bw 15)
                TestHost.Pythia TestScenarios.transformer_ahead []
                ltac:(vm_compute; split; discriminate)) as (H & _).
  exact (H ltac:(vm_compute; discriminate)).
Defined.

End FurtherSelectorRuns.
